(** * tiktok_slides: metadata store, validator, editor, settings resolver
      and image selection, embedded from the Python sources

    The development follows the Python modules
    - [content_manager/metadata/metadata_validator.py]  (Module-free part
      "MetadataValidator"),
    - [content_manager/metadata/metadata_editor.py]      ("MetadataEditor"),
    - [content_manager/metadata/metadata.py]             ("Metadata.load"),
    - [generation/generate.py]                           ("Generator").

    Python objects are mutated in place and exceptions leave the mutations
    made so far in place; both are kept: every method is a computation in a
    state-and-exception monad whose state survives a raised exception. *)

From Stdlib Require Import ZArith String Ascii List Bool Lia.
From stdpp Require Import base option list strings gmap sorting pretty.

Local Open Scope string_scope.
Local Open Scope Z_scope.

(** ** Python values *)

(** Exceptions the modelled code raises or lets through. *)
Inductive exn : Type :=
  | KeyError (key : string)
  | IndexError
  | ValueError (msg : string)
  | NotImplementedError (msg : string)
  | TypeError
  | OSError (msg : string).

Inductive result (A : Type) : Type :=
  | Returned (a : A)
  | Raised (e : exn).
Arguments Returned {A} a.
Arguments Raised {A} e.

(** A settings blob is a JSON value; [JNull] is Python's [None].  Numbers are
    kept as integers (the blobs are only inspected for nullness, for
    [base_settings.default_text_type] and for the length of a colour list). *)
#[local] Unset Elimination Schemes.
Inductive json : Type :=
  | JNull
  | JBool (b : bool)
  | JNum (n : Z)
  | JStr (s : string)
  | JList (l : list json)
  | JDict (d : list (string * json)).
#[local] Set Elimination Schemes.

Definition is_None (j : json) : bool :=
  match j with JNull => true | _ => false end.

(** Truth value of an [Optional[str]]: [None] and the empty string are
    falsy. *)
Definition truthy (o : option string) : bool :=
  match o with
  | Some s => negb (String.eqb s "")
  | None => false
  end.

Definition str_truthy (s : string) : bool := negb (String.eqb s "").

(** ** The library functions the code calls

    [str.strip], [repr] and the [pathlib] operations are Python's, not the
    repository's; they are an interface here.  Of [strip] the proofs use only
    that stripping a stripped string changes nothing. *)
Class Python : Type := {
  strip : string -> string;                 (* str.strip() *)
  strip_idempotent : forall s, strip (strip s) = strip s;
  repr : string -> string;                  (* repr(s) for a str s *)
  repr_set : gset string -> string;         (* repr of a set of str *)
  path_join : string -> string -> string;   (* Path(p) / name *)
  path_parent : string -> string;           (* Path(p).parent *)
  path_name : string -> string              (* Path(p).name *)
}.

(** [str(e)] for an exception [e]. *)
Definition exn_str `{Python} (e : exn) : string :=
  match e with
  | KeyError k => repr k
  | IndexError => "list index out of range"
  | ValueError m => m
  | NotImplementedError m => m
  | TypeError => "object is not subscriptable"
  | OSError m => m
  end.

(** [repr] of a list of strings, e.g. ['a', 'b']. *)
Definition repr_list `{Python} (l : list string) : string :=
  "[" +:+ String.concat ", " (map repr l) +:+ "]".

(** [sorted(l)] for a list of strings (code-point order). *)
Definition sorted (l : list string) : list string := merge_sort String.le l.

(** [sep.join(l)] *)
Definition join (sep : string) (l : list string) : string := String.concat sep l.

(** ** Data model (section 3 of the specification)

    The records are the well-typed payloads: checks of the Python code that
    only reject ill-typed JSON ([isinstance], a missing required key of a
    record) have no counterpart.  [current_count] is optional because the code
    reads it with a default and tests for its presence. *)
Record Product : Type := {
  name : string;
  prevent_duplicates : bool;
  min_occurrences : Z;
  current_count : option Z
}.

Record Dimensions : Type := { width : Z; height : Z }.

Record Image : Type := {
  content_type : string;
  dimensions : Dimensions;
  product : option string;
  settings_source : string;
  settings : json
}.

Record Structure : Type := {
  path : string;
  images : list string
}.

(** Python dicts keep insertion order; the ones whose order the code looks at
    are association lists. *)
Definition dict (V : Type) : Type := list (string * V).

Record Metadata : Type := {
  md_keys : list string;                       (* list(data.keys()) *)
  md_content_types : list string;              (* data["content_types"] *)
  md_products : dict (list Product);           (* data["products"] *)
  md_structure : dict Structure;               (* data["structure"] *)
  md_images : dict Image;                      (* data["images"] *)
  md_untagged : list string;                   (* data["untagged"] *)
  md_settings : dict (dict json)               (* data["settings"] *)
}.

Definition keys {V} (d : dict V) : list string := map fst d.
Definition values {V} (d : dict V) : list V := map snd d.

(** [d.get(k)] *)
Fixpoint dict_get {V} (k : string) (d : dict V) : option V :=
  match d with
  | [] => None
  | (k', v) :: d' => if String.eqb k k' then Some v else dict_get k d'
  end.

(** [k in d] *)
Definition dict_mem {V} (k : string) (d : dict V) : bool :=
  match dict_get k d with Some _ => true | None => false end.

(** [d[k] = v]: replaces the value in place, or appends a new key. *)
Fixpoint dict_set {V} (k : string) (v : V) (d : dict V) : dict V :=
  match d with
  | [] => [(k, v)]
  | (k', v') :: d' =>
      if String.eqb k k' then (k', v) :: d' else (k', v') :: dict_set k v d'
  end.

(** ** State and exceptions *)

Definition M (S A : Type) : Type := S -> result A * S.

Definition ret {S A} (a : A) : M S A := fun s => (Returned a, s).

Definition bind {S A B} (m : M S A) (k : A -> M S B) : M S B :=
  fun s =>
    match m s with
    | (Returned a, s') => k a s'
    | (Raised e, s') => (Raised e, s')
    end.

Definition raise {S A} (e : exn) : M S A := fun s => (Raised e, s).
Definition get {S} : M S S := fun s => (Returned s, s).
Definition put {S} (s : S) : M S unit := fun _ => (Returned tt, s).
Definition modify {S} (f : S -> S) : M S unit := fun s => (Returned tt, f s).

(** [try: m except Exception as e: h e] *)
Definition try_except {S A} (m : M S A) (h : exn -> M S A) : M S A :=
  fun s =>
    match m s with
    | (Returned a, s') => (Returned a, s')
    | (Raised e, s') => h e s'
    end.

Declare Scope py_scope.
Delimit Scope py_scope with py.
Notation "'let*' x := c1 'in' c2" := (bind c1 (fun x => c2))
  (at level 10, x name, c1 at level 100, c2 at level 200) : py_scope.
Notation "'let*' ' pat := c1 'in' c2" :=
  (bind c1 (fun x => match x with pat => c2 end))
  (at level 10, pat pattern, c1 at level 100, c2 at level 200) : py_scope.
Notation "c1 ;; c2" := (bind c1 (fun _ => c2))
  (at level 100, c2 at level 200, right associativity) : py_scope.
Local Open Scope py_scope.

(** [d[k]], raising [KeyError] *)
Definition dict_item {S V} (k : string) (d : dict V) : M S V :=
  match dict_get k d with
  | Some v => ret v
  | None => raise (KeyError k)
  end.

(** How a statement inside a loop body ends: it falls through to the next
    statement, it [continue]s with the next element, or it [return]s from the
    enclosing function. *)
Inductive flow (R : Type) : Type :=
  | Proceed
  | NextIter
  | Return_ (r : R).
Arguments Proceed {R}.
Arguments NextIter {R}.
Arguments Return_ {R} r.

(** Sequencing of statements: the second runs only when the first falls
    through. *)
Definition and_then {S R} (c1 c2 : M S (flow R)) : M S (flow R) :=
  let* f := c1 in
  match f with
  | Proceed => c2
  | _ => ret f
  end.
Notation "c1 >>> c2" := (and_then c1 c2)
  (at level 100, c2 at level 200, right associativity) : py_scope.

(** [for x in l: body]; the loop falls through when no body returned. *)
Fixpoint for_each {S A R} (l : list A) (body : A -> M S (flow R))
  : M S (flow R) :=
  match l with
  | [] => ret Proceed
  | x :: l' =>
      let* f := body x in
      match f with
      | Return_ v => ret (Return_ v)
      | _ => for_each l' body
      end
  end.

(** A [for] loop that updates local variables of type [B]. *)
Fixpoint for_fold {S A B} (l : list A) (b : B) (body : B -> A -> M S B)
  : M S B :=
  match l with
  | [] => ret b
  | x :: l' => let* b' := body b x in for_fold l' b' body
  end.

(** A [for] loop whose body is a plain statement. *)
Fixpoint for_do {S A} (l : list A) (body : A -> M S unit) : M S unit :=
  match l with
  | [] => ret tt
  | x :: l' => body x ;; for_do l' body
  end.

(** A [for] loop with local variables whose body may [return]: the body
    answers [inl b'] (next element, locals [b']) or [inr r] ([return r]). *)
Fixpoint for_fold_ret {S A B R} (l : list A) (b : B)
    (body : B -> A -> M S (B + R)) : M S (B + R) :=
  match l with
  | [] => ret (inl b)
  | x :: l' =>
      let* r := body b x in
      match r with
      | inl b' => for_fold_ret l' b' body
      | inr v => ret (inr v)
      end
  end.

(** The value of a function whose body is the statement [c]; [dflt] is what
    falling off the end gives. *)
Definition fun_body {S R} (c : M S (flow R)) (dflt : R) : M S R :=
  let* f := c in
  match f with
  | Return_ r => ret r
  | _ => ret dflt
  end.

(** ** Strings: the pieces of [str] the code uses *)

(** [s[1:-1]] *)
Fixpoint drop_last (s : string) : string :=
  match s with
  | EmptyString => EmptyString
  | String c EmptyString => EmptyString
  | String c t => String c (drop_last t)
  end.

Definition slice_1_m1 (s : string) : string :=
  match s with
  | EmptyString => EmptyString
  | String _ t => drop_last t
  end.

(** [s.split(",")] *)
Fixpoint split_comma (s : string) : list string :=
  match s with
  | EmptyString => [EmptyString]
  | String c t =>
      if Ascii.eqb c ","%char then EmptyString :: split_comma t
      else match split_comma t with
           | h :: r => String c h :: r
           | [] => [String c EmptyString]
           end
  end.

(** [s.split("_")] *)
Fixpoint split_underscore (s : string) : list string :=
  match s with
  | EmptyString => [EmptyString]
  | String c t =>
      if Ascii.eqb c "_"%char then EmptyString :: split_underscore t
      else match split_underscore t with
           | h :: r => String c h :: r
           | [] => [String c EmptyString]
           end
  end.

(** [s.startswith("[")] and [s.endswith("]")] *)
Definition startswith_bracket (s : string) : bool :=
  match s with
  | String c _ => Ascii.eqb c "["%char
  | EmptyString => false
  end.

Fixpoint endswith_bracket (s : string) : bool :=
  match s with
  | EmptyString => false
  | String c EmptyString => Ascii.eqb c "]"%char
  | String _ t => endswith_bracket t
  end.

(** [{p.strip() for p in group[1:-1].split(",")}], the members a group key
    names. *)
Definition group_products `{Python} (group : string) : list string :=
  map strip (split_comma (slice_1_m1 group)).

(** ** The world outside: files and collaborators *)

(** What the code asks of the file system.  [fs_image_size] is
    [Image.open(p).size]; [fs_min_occurrences] is
    [CaptionsHelper.get_product_min_occurrences], which reads captions.csv. *)
Class FileSystem (FS : Type) : Type := {
  fs_exists : FS -> string -> bool;
  fs_image_size : FS -> string -> result (Z * Z);
  fs_min_occurrences : FS -> string -> result (dict (list (string * Z)));
  fs_rename : FS -> string -> string -> result FS;
  fs_read_json : FS -> string -> result Metadata;
  fs_write_json : FS -> string -> Metadata -> result FS;
  (* Metadata.generate: MetadataGenerator's folder scan followed by save() *)
  fs_generate : FS -> string -> list string -> dict (list string)
                -> result Metadata * FS
}.

(** Collaborators that are not part of the modelled core:
    [SettingsValidator.validate_settings] (its verdict and the [errors] it
    leaves behind), the default template and the renderer. *)
Class Collaborators : Type := {
  validate_settings : json -> bool * list string;
  load_default_template : result json;
  (* generate_image(settings, text_type, colour_index, image_path, text):
     whether the renderer returns or raises *)
  generate_image : json -> json -> Z -> string -> string -> result unit
}.

(** * MetadataValidator *)

(** The objects a call of [validate] works on: the validator's own lists
    ([self.errors], [self.warnings], [self.seen_warnings]) and the [data]
    dict it was handed, which the count reconciliation writes to. *)
Record Heap : Type := {
  errors : list string;
  warnings : list string;
  seen_warnings : gset string;
  data : Metadata
}.

Definition REQUIRED_KEYS_ORDER : list string :=
  ["content_types"; "products"; "structure"; "images"; "untagged"; "settings"].

Definition set_products (ps : dict (list Product)) (d : Metadata) : Metadata :=
  {| md_keys := md_keys d;
     md_content_types := md_content_types d;
     md_products := ps;
     md_structure := md_structure d;
     md_images := md_images d;
     md_untagged := md_untagged d;
     md_settings := md_settings d |}.

Definition set_current_count (c : Z) (p : Product) : Product :=
  {| name := name p;
     prevent_duplicates := prevent_duplicates p;
     min_occurrences := min_occurrences p;
     current_count := Some c |}.

(** [self.errors.append(msg)] *)
Definition add_error (msg : string) : M Heap unit :=
  modify (fun h =>
    {| errors := errors h ++ [msg];
       warnings := warnings h;
       seen_warnings := seen_warnings h;
       data := data h |}).

(** [self.errors.extend(msgs)] *)
Definition extend_errors (msgs : list string) : M Heap unit :=
  modify (fun h =>
    {| errors := errors h ++ msgs;
       warnings := warnings h;
       seen_warnings := seen_warnings h;
       data := data h |}).

(** [add_warning(msg, key)]: recorded only when the key (the message itself
    when no key is given) has not been seen in this call. *)
Definition add_warning (msg : string) (key : option string) : M Heap unit :=
  let warning_key := match key with Some k => k | None => msg end in
  modify (fun h =>
    if bool_decide (warning_key ∈ seen_warnings h) then h
    else
      {| errors := errors h;
         warnings := warnings h ++ [msg];
         seen_warnings := seen_warnings h ∪ {[ warning_key ]};
         data := data h |}).

Definition get_data : M Heap Metadata := fun h => (Returned (data h), h).

Definition put_data (d : Metadata) : M Heap unit :=
  modify (fun h =>
    {| errors := errors h;
       warnings := warnings h;
       seen_warnings := seen_warnings h;
       data := d |}).

(** [self.errors.append(msg); return False] *)
Definition reject (msg : string) : M Heap (flow bool) :=
  add_error msg ;; ret (Return_ false).

(** [l.remove(x)]: drops the first occurrence ([ValueError] when there is
    none is the caller's business). *)
Fixpoint remove_first (x : string) (l : list string) : list string :=
  match l with
  | [] => []
  | y :: l' => if String.eqb x y then l' else y :: remove_first x l'
  end.

(** [set(l)] *)
Definition to_set (l : list string) : gset string := list_to_set l.

(** [sum(xs)] *)
Definition sum (xs : list Z) : Z := foldr Z.add 0 xs.

Section Validator.
Context `{Python} `{Collaborators} {FS : Type} `{FileSystem FS}.
(** [self.strict], [self.base_path] and the files on disk do not change
    during a call. *)
Variable strict : bool.
Variable base_path : string.
Variable fs : FS.

Definition _validate_content_types (expected_types : list string)
  : M Heap bool :=
  let* d := get_data in
  let types := md_content_types d in
  if negb (bool_decide (to_set types = to_set expected_types)) then
    add_error ("Content types mismatch. Found: " +:+ repr_list types
               +:+ ", Expected: " +:+ repr_list expected_types) ;;
    ret false
  else ret true.

(** The names offered to an image without product, as [_validate_products]
    lists them: sorted, 'all' first when it is declared. *)
Definition valid_products_listing (prods : list Product) : list string :=
  let valid_products := map name prods in
  if bool_decide ("all" ∈ valid_products) then
    "all" :: sorted (remove_first "all" valid_products)
  else sorted valid_products.

(** [product_counts[ct][prod] = product_counts[ct].get(prod, 0) + 1] *)
Definition count_one (product_counts : gmap string (gmap string Z))
    (ct prod : string) : M Heap (gmap string (gmap string Z)) :=
  match product_counts !! ct with
  | None => raise (KeyError ct)
  | Some counts =>
      ret (<[ct := <[prod := default 0 (counts !! prod) + 1]> counts]>
             product_counts)
  end.

Definition _validate_products (expected_products : dict (list string))
  : M Heap bool :=
  let* d := get_data in
  match fs_min_occurrences fs (path_join base_path "captions.csv") with
  | Raised e => raise e
  | Returned _ =>
  let products := md_products d in
  (* First check content types match *)
  if negb (bool_decide (to_set (keys products) = to_set (keys expected_products)))
  then
    add_error ("Product content types mismatch. Found: "
               +:+ repr_list (keys products) +:+ ", Expected: "
               +:+ repr_list (keys expected_products)) ;;
    ret false
  else
  fun_body (
    (* Then validate each content type's products *)
    for_each products (fun '(ct, prods) =>
      let* expected := dict_item ct expected_products in
      let expected_names := to_set expected in
      (for_each prods (fun prod =>
         if negb (bool_decide (name prod ∈ expected_names)) then
           reject ("Invalid product '" +:+ name prod +:+ "' in " +:+ ct
                   +:+ ". Valid products are: "
                   +:+ repr_list (sorted (elements expected_names)))
         else ret Proceed))
      >>>
      let found_names := to_set (map name prods) in
      let missing := expected_names ∖ found_names in
      (if negb (bool_decide (missing = ∅)) then
         reject ("Missing products in " +:+ ct +:+ ": "
                 +:+ repr_list (sorted (elements missing)))
       else ret Proceed)
      >>>
      let extra := found_names ∖ expected_names in
      (if negb (bool_decide (extra = ∅)) then
         reject ("Unexpected products in " +:+ ct +:+ ": "
                 +:+ repr_list (sorted (elements extra)))
       else ret Proceed))
    >>>
    (* Count product usage in images AND collect missing product warnings *)
    let product_counts0 : gmap string (gmap string Z) :=
      foldl (fun pc ct => <[ct := ∅]> pc) ∅ (keys products) in
    let* product_counts :=
      for_fold (md_images d) product_counts0 (fun pc '(img_name, img_data) =>
        let ct := content_type img_data in
        if truthy (product img_data) then
          (* Only count if product is assigned *)
          count_one pc ct (default "" (product img_data))
        else
          let* prods := dict_item ct (md_products d) in
          let msg := "Image " +:+ img_name
                     +:+ " has no product assigned. Valid products: "
                     +:+ repr_list (valid_products_listing prods) in
          (if strict then add_error msg
           else add_warning msg (Some ("missing_product_" +:+ img_name))) ;;
          ret pc) in
    (* Check counts against min_occurrences *)
    (for_each products (fun '(ct, prods) =>
       for_each prods (fun prod =>
         if prevent_duplicates prod && (0 <? min_occurrences prod) then
           let* counts :=
             match product_counts !! ct with
             | Some c => ret c
             | None => raise (KeyError ct)
             end in
           let count := default 0 (counts !! name prod) in
           if count <? min_occurrences prod then
             let msg := "Product '" +:+ name prod +:+ "' in " +:+ ct
                        +:+ " requires at least "
                        +:+ pretty (min_occurrences prod)
                        +:+ " images (has " +:+ pretty count +:+ ")" in
             if strict then reject msg
             else add_warning msg None ;; ret Proceed
           else ret Proceed
         else ret Proceed)))
    >>> ret (Return_ true)) true
  end.

Definition _validate_structure : M Heap bool :=
  let* d := get_data in
  fun_body (
    for_each (md_structure d) (fun '(ct, info) =>
      (if negb (fs_exists fs (path info)) then
         reject ("Path " +:+ path info +:+ " for " +:+ ct +:+ " does not exist")
       else ret Proceed)
      >>>
      for_each (images info) (fun img =>
        if negb (fs_exists fs (path_join (path info) img)) then
          reject ("Image " +:+ img +:+ " not found in " +:+ path info)
        else ret Proceed))
    >>> ret (Return_ true)) true.

(** The settings of the first group (other than "content") that names
    [product]; [None] when there is none.  This is the search loop of the
    "product" branch, which leaves at the first hit. *)
Fixpoint find_group_settings (product : option string) (groups : dict json)
  : json :=
  match groups with
  | [] => JNull
  | (group, group_settings) :: rest =>
      if negb (String.eqb group "content")
         && match product with
            | Some p => bool_decide (p ∈ group_products group)
            | None => false
            end
      then group_settings
      else find_group_settings product rest
  end.

(** [errors.extend(f"{prefix}{e}" for e in settings_validator.errors);
    return False] when the blob does not validate. *)
Definition check_blob (prefix : string) (blob : json) : M Heap (flow bool) :=
  let '(ok, errs) := validate_settings blob in
  if negb ok then
    extend_errors (map (fun e => prefix +:+ e) errs) ;; ret (Return_ false)
  else ret Proceed.

Definition _validate_images : M Heap bool :=
  let* d := get_data in
  let image_names := keys (md_images d) in
  if negb (bool_decide (image_names = sorted image_names)) then
    add_error "Images must be sorted alphabetically" ;; ret false
  else
  fun_body (
    (* sorted(images.items()) is images.items() once the keys are sorted *)
    for_each (md_images d) (fun '(img_name, img_data) =>
      (* 2. Content type folder validation *)
      let ct := content_type img_data in
      match dict_get ct (md_structure d) with
      | None =>
          reject ("Image " +:+ img_name +:+ " has invalid content_type: " +:+ ct)
      | Some st =>
      (if negb (bool_decide (img_name ∈ images st)) then
         reject ("Image " +:+ img_name +:+ " claims to be in " +:+ ct
                 +:+ " folder but isn't found there")
       else ret Proceed)
      >>>
      (* 3. Dimensions: compared with the file when the file is there *)
      (let img_path := path_join (path st) img_name in
       if fs_exists fs img_path then
         match fs_image_size fs img_path with
         | Returned (actual_width, actual_height) =>
             if negb (actual_width =? width (dimensions img_data))
                || negb (actual_height =? height (dimensions img_data))
             then
               reject ("Image " +:+ img_name +:+ " dimensions mismatch: stored: "
                       +:+ pretty (width (dimensions img_data)) +:+ "x"
                       +:+ pretty (height (dimensions img_data))
                       +:+ ", actual: " +:+ pretty actual_width +:+ "x"
                       +:+ pretty actual_height)
             else ret Proceed
         | Raised e =>
             reject ("Failed to verify dimensions for " +:+ img_name +:+ ": "
                     +:+ exn_str e)
         end
       else ret Proceed)
      >>>
      (* 4. Settings validation *)
      let source := settings_source img_data in
      (if negb (bool_decide (source ∈ ["default"; "custom"; "product"; "content"]))
       then
         let msg := "Image " +:+ img_name +:+ " has invalid settings_source: "
                    +:+ source in
         if strict then reject msg else add_warning msg None ;; ret Proceed
       else ret Proceed)
      >>>
      (if String.eqb source "custom" then
         (if is_None (settings img_data) then
            let msg := "Image " +:+ img_name
                       +:+ " has custom settings_source but settings are null" in
            if strict then reject msg else add_warning msg None ;; ret Proceed
          else ret Proceed)
         >>> ret NextIter
       else if String.eqb source "content" then
         match dict_get ct (md_settings d) with
         | None => reject ("No settings found for content type: " +:+ ct)
         | Some ct_settings =>
             let content_settings :=
               default JNull (dict_get "content" ct_settings) in
             if is_None content_settings then
               if strict then
                 reject ("Image " +:+ img_name
                         +:+ " uses content-level settings but none defined for "
                         +:+ ct)
               else
                 add_warning ("Image " +:+ img_name
                   +:+ " will use default settings as no content-level settings defined")
                   None ;;
                 ret Proceed
             else
               check_blob ("Image " +:+ img_name +:+ " content settings: ")
                          content_settings
         end
       else if String.eqb source "product" then
         let* ct_settings := dict_item ct (md_settings d) in
         let product_settings :=
           find_group_settings (product img_data) ct_settings in
         if is_None product_settings then
           if strict then
             reject ("Image " +:+ img_name
                     +:+ " uses product-level settings but none found for "
                     +:+ match product img_data with
                         | Some p => p
                         | None => "None"
                         end)
           else
             add_warning ("Image " +:+ img_name
               +:+ " will use default settings as no product settings found")
               None ;;
             ret Proceed
         else
           check_blob ("Image " +:+ img_name +:+ " product settings: ")
                      product_settings
       else if String.eqb source "default" then
         if negb (is_None (settings img_data)) then
           reject ("Image " +:+ img_name
                   +:+ " has default settings_source but has non-null settings")
         else ret Proceed
       else ret Proceed)
      >>>
      (* 5. Product validation *)
      match product img_data with
      | None =>
          let* prods := dict_item ct (md_products d) in
          let msg := "Image " +:+ img_name
                     +:+ " has no product assigned. Valid products: ['all', "
                     +:+ repr_list (map name prods) +:+ "]" in
          if strict then reject msg
          else add_warning msg (Some ("missing_product_" +:+ img_name)) ;;
               ret Proceed
      | Some prod =>
          match dict_get ct (md_products d) with
          | Some prods =>
              if String.eqb prod "all" then ret NextIter
              else
                let valid_products := map name prods in
                if negb (bool_decide (prod ∈ valid_products)) then
                  reject ("Image " +:+ img_name +:+ " has invalid product: "
                          +:+ prod +:+ ". Valid products: "
                          +:+ repr_list (sorted ("all" :: valid_products)))
                else ret Proceed
          | None => ret Proceed
          end
      end
      end)
    >>> ret (Return_ true)) true.

Definition _validate_untagged : M Heap bool :=
  let* d := get_data in
  let untagged := md_untagged d in
  (* Check for duplicates *)
  if negb (length untagged =? size (to_set untagged))%nat then
    add_error "Duplicate entries found in untagged list" ;; ret false
  else
  (* base folder: the parent of the first content type's folder *)
  let* first_ct :=
    match md_content_types d with
    | ct :: _ => ret ct
    | [] => raise IndexError
    end in
  let* info := dict_item first_ct (md_structure d) in
  let base := path_parent (path info) in
  fun_body (
    for_each untagged (fun img =>
      if negb (fs_exists fs (path_join base img)) then
        reject ("Untagged image " +:+ img +:+ " not found in base folder")
      else ret Proceed)
    >>>
    match untagged with
    | [] => ret (Return_ true)
    | _ :: _ =>
        if strict then
          reject ("Strict mode: Untagged images not allowed. Please tag all images: "
                  +:+ join ", " (sorted untagged))
        else
          add_warning ("Found " +:+ pretty (length untagged)
                       +:+ " untagged images: " +:+ join ", " (sorted untagged))
                      None ;;
          ret (Return_ true)
    end) true.

Definition _validate_settings : M Heap bool :=
  let* d := get_data in
  let valid_content_types := to_set (md_content_types d) in
  fun_body (
    for_each (md_settings d) (fun '(ct, ct_settings) =>
      (* 1. Validate content type exists *)
      (if negb (bool_decide (ct ∈ valid_content_types)) then
         reject ("Settings defined for invalid content type: " +:+ ct)
       else ret Proceed)
      >>>
      (* 2./3. Content-level settings *)
      match dict_get "content" ct_settings with
      | None => reject ("Settings for " +:+ ct +:+ " missing 'content' field")
      | Some content_settings =>
      (if negb (is_None content_settings) then
         check_blob (ct +:+ " content settings: ") content_settings
       else ret Proceed)
      >>>
      (* 4. Validate product group settings *)
      let* r :=
        for_fold_ret ct_settings (∅ : gset string) (fun seen_products '(key, value) =>
          if String.eqb key "content" then ret (inl seen_products)
          else if negb (startswith_bracket key && endswith_bracket key) then
            add_error ("Invalid product group format in " +:+ ct +:+ ": " +:+ key) ;;
            ret (inr false)
          else
            let products := to_set (group_products key) in
            if negb (bool_decide (seen_products ∩ products = ∅)) then
              add_error ("Duplicate products in " +:+ ct +:+ " settings: "
                         +:+ repr_set (seen_products ∩ products)) ;;
              ret (inr false)
            else
              let seen_products' := seen_products ∪ products in
              let invalid_products :=
                match dict_get ct (md_products d) with
                | Some prods => products ∖ to_set (map name prods) ∖ {[ "all" ]}
                | None => ∅
                end in
              if negb (bool_decide (invalid_products = ∅)) then
                add_error ("Invalid products in " +:+ ct +:+ " settings: "
                           +:+ repr_set invalid_products +:+ ". Valid products: "
                           +:+ repr_list (sorted (elements (to_set
                                 (map name (default [] (dict_get ct (md_products d)))))))) ;;
                ret (inr false)
              else
                let '(ok, errs) :=
                  if is_None value then (true, []) else validate_settings value in
                if negb ok then
                  extend_errors
                    (map (fun e => ct +:+ " " +:+ key +:+ " settings: " +:+ e) errs) ;;
                  ret (inr false)
                else ret (inl seen_products')) in
      match r with
      | inr b => ret (Return_ b)
      | inl _ => ret Proceed
      end
      end)
    >>> ret (Return_ true)) true.

(** First pass of the count reconciliation: images with a product other
    than 'all' are counted under their content type and product
    ([product_counts[ct][prod] += 1] on a [defaultdict(int)]). *)
Definition count_image (product_counts : gmap string (gmap string Z))
    (img_data : Image) : M Heap (gmap string (gmap string Z)) :=
  let ct := content_type img_data in
  if truthy (product img_data)
     && negb (bool_decide (product img_data = Some "all"))
  then count_one product_counts ct (default "" (product img_data))
  else ret product_counts.

(** Second pass: the number of 'all' images of a content type. *)
Definition count_all_images (imgs : dict Image) (ct : string) : Z :=
  sum (map (fun _ => 1)
         (filter (fun img => content_type img = ct ∧ product img = Some "all")
                 (values imgs))).

(** The body of the loop that compares and overwrites the stored count of
    one product of [ct]; [acc'] are the products of [ct] already done. *)
Definition write_back_one (product_counts : gmap string (gmap string Z))
    (all_images_count : gmap string Z) (ct : string)
    (acc' : list Product) (product_info : Product) : M Heap (list Product) :=
  let product_name := name product_info in
  let stored_count := default 0 (current_count product_info) in
  let* counts :=
    match product_counts !! ct with
    | Some c => ret c
    | None => raise (KeyError ct)
    end in
  let* all_count :=
    match all_images_count !! ct with
    | Some c => ret c
    | None => raise (KeyError ct)
    end in
  let actual_count := default 0 (counts !! product_name) + all_count in
  (if negb (stored_count =? actual_count) then
     add_warning ("Incorrect count for " +:+ ct +:+ "/" +:+ product_name
                  +:+ ": metadata shows " +:+ pretty stored_count
                  +:+ " but found " +:+ pretty actual_count +:+ " images")
                 None
   else ret tt) ;;
  ret (acc' ++ [set_current_count actual_count product_info])%list.

Definition _validate_product_counts : M Heap bool :=
  let* d := get_data in
  (* Initialize count structure *)
  let product_counts0 : gmap string (gmap string Z) :=
    foldl (fun pc ct => <[ct := ∅]> pc) ∅ (keys (md_products d)) in
  (* First pass: Count non-'all' images *)
  let* product_counts :=
    for_fold (md_images d) product_counts0 (fun pc '(_, img_data) =>
      count_image pc img_data) in
  (* Second pass: Add 'all' images to total count *)
  let all_images_count : gmap string Z :=
    foldl (fun m ct => <[ct := count_all_images (md_images d) ct]> m) ∅
          (keys (md_products d)) in
  (* Validate counts against metadata, writing the count back *)
  let* products' :=
    for_fold (md_products d) [] (fun acc '(ct, products) =>
      let* products' :=
        for_fold products []
                 (write_back_one product_counts all_images_count ct) in
      ret (acc ++ [(ct, products')])%list) in
  put_data (set_products products' d) ;;
  ret true.

(** One round of the loop of [validate] over its validators: [inl valid']
    to go on, [inr false] when strict mode leaves at a failure. *)
Definition validator_step (valid : bool) (validator : M Heap bool)
  : M Heap (bool + bool) :=
  let* ok := validator in
  if negb ok then
    if strict then ret (inr false) else ret (inl false)
  else ret (inl valid).

Definition run_validators (validators : list (M Heap bool))
  : M Heap (bool + bool) :=
  for_fold_ret validators true validator_step.

Definition validate (content_types : list string)
    (products : dict (list string)) : M Heap bool :=
  (* self.errors.clear(); self.warnings.clear(); self.seen_warnings = set() *)
  modify (fun h =>
    {| errors := []; warnings := []; seen_warnings := ∅; data := data h |}) ;;
  let* d := get_data in
  (* Check keys order - this is a hard requirement *)
  if negb (bool_decide (md_keys d = REQUIRED_KEYS_ORDER)) then
    add_error ("Metadata keys are not in correct order. Expected: "
               +:+ repr_list REQUIRED_KEYS_ORDER) ;;
    ret false
  else
  (* Run all validations to collect all warnings/errors *)
  let* r :=
    run_validators
      [ _validate_content_types content_types;
        _validate_products products;
        _validate_structure;
        _validate_images;
        _validate_untagged;
        _validate_settings;
        _validate_product_counts ] in
  match r with
  | inr b => ret b
  | inl valid =>
      let* h := get in
      (* If there are only warnings and we're in strict mode, fail *)
      if strict && negb (bool_decide (warnings h = [])) then
        extend_errors (warnings h) ;; ret false
      else if negb valid then ret false
      else ret true
  end.
End Validator.

(** * Metadata.load *)

(** The [Metadata] object: [self.data], [self.warnings], [self.errors],
    whether [self.metadata_editor] has been set, and the disk. *)
Record Store (FS : Type) : Type := {
  self_data : Metadata;
  self_warnings : list string;
  self_errors : list string;
  has_editor : bool;
  disk : FS
}.
Arguments self_data {FS} _.
Arguments self_warnings {FS} _.
Arguments self_errors {FS} _.
Arguments has_editor {FS} _.
Arguments disk {FS} _.

Section Load.
Context `{Python} `{Collaborators} {FS : Type} `{FileSystem FS}.
Variable self_strict : bool.
Variable base_path : string.

(** [load(content_types, products, strict)]; [strict] defaults to the
    object's own flag when it is [None]. *)
Definition load (content_types : list string) (products : dict (list string))
    (strict : option bool) : M (Store FS) bool :=
  let* st := get in
  let path := path_join base_path "metadata.json" in
  if fs_exists (disk st) path then
    try_except (
      match fs_read_json (disk st) path with
      | Raised e => raise e
      | Returned d =>
          (* Validate loaded data *)
          let '(r, h) :=
            validate (default self_strict strict) base_path (disk st)
                     content_types products
                     {| errors := []; warnings := []; seen_warnings := ∅;
                        data := d |} in
          (* self.data is the dict the validator worked on *)
          put {| self_data := data h;
                 self_warnings := self_warnings st;
                 self_errors := self_errors st;
                 has_editor := has_editor st;
                 disk := disk st |} ;;
          match r with
          | Raised e => raise e
          | Returned validation_result =>
              (* ALWAYS collect warnings and errors *)
              put {| self_data := data h;
                     self_warnings := self_warnings st ++ warnings h;
                     self_errors := self_errors st ++ errors h;
                     has_editor := has_editor st;
                     disk := disk st |} ;;
              if negb validation_result then ret false
              else
                put {| self_data := data h;
                       self_warnings := self_warnings st ++ warnings h;
                       self_errors := self_errors st ++ errors h;
                       has_editor := true;
                       disk := disk st |} ;;
                ret true
          end
      end)
      (fun _ => ret false)
  else
    try_except (
      match fs_generate (disk st) base_path content_types products with
      | (Raised e, disk') =>
          put {| self_data := self_data st;
                 self_warnings := self_warnings st;
                 self_errors := self_errors st;
                 has_editor := has_editor st;
                 disk := disk' |} ;;
          raise e
      | (Returned d, disk') =>
          put {| self_data := d;
                 self_warnings := self_warnings st;
                 self_errors := self_errors st;
                 has_editor := true;
                 disk := disk' |} ;;
          ret true
      end)
      (fun _ => ret false).
End Load.

(** * MetadataEditor *)

Definition set_untagged (u : list string) (d : Metadata) : Metadata :=
  {| md_keys := md_keys d;
     md_content_types := md_content_types d;
     md_products := md_products d;
     md_structure := md_structure d;
     md_images := md_images d;
     md_untagged := u;
     md_settings := md_settings d |}.

Definition set_images (imgs : dict Image) (d : Metadata) : Metadata :=
  {| md_keys := md_keys d;
     md_content_types := md_content_types d;
     md_products := md_products d;
     md_structure := md_structure d;
     md_images := imgs;
     md_untagged := md_untagged d;
     md_settings := md_settings d |}.

Definition set_structure (st : dict Structure) (d : Metadata) : Metadata :=
  {| md_keys := md_keys d;
     md_content_types := md_content_types d;
     md_products := md_products d;
     md_structure := st;
     md_images := md_images d;
     md_untagged := md_untagged d;
     md_settings := md_settings d |}.

Definition set_settings (s : dict (dict json)) (d : Metadata) : Metadata :=
  {| md_keys := md_keys d;
     md_content_types := md_content_types d;
     md_products := md_products d;
     md_structure := md_structure d;
     md_images := md_images d;
     md_untagged := md_untagged d;
     md_settings := s |}.

(** The partial update [edit_image] receives: a field is [Some v] when the
    dict has the key.  ["product": None] is [Some None]. *)
Record ImageUpdate : Type := {
  upd_content_type : option string;
  upd_dimensions : option Dimensions;
  upd_product : option (option string);
  upd_settings_source : option string;
  upd_settings : option json
}.

(** [image.update(data)] *)
Definition image_update (u : ImageUpdate) (img : Image) : Image :=
  {| content_type := default (content_type img) (upd_content_type u);
     dimensions := default (dimensions img) (upd_dimensions u);
     product := default (product img) (upd_product u);
     settings_source := default (settings_source img) (upd_settings_source u);
     settings := default (settings img) (upd_settings u) |}.

(** The loop of [_update_product_count]: the first product of that name gets
    its count (0 when absent) moved by one; the loop then leaves. *)
Fixpoint bump_first (product : string) (increment : bool) (prods : list Product)
  : list Product :=
  match prods with
  | [] => []
  | prod :: rest =>
      if String.eqb (name prod) product then
        set_current_count
          (default 0 (current_count prod) + (if increment then 1 else -1)) prod
        :: rest
      else prod :: bump_first product increment rest
  end.

Section Editor.
Context `{Python}.

Definition _update_product_count (content_type product : string)
    (increment : bool) : M Metadata unit :=
  let* md := get in
  let* prods := dict_item content_type (md_products md) in
  put (set_products
         (dict_set content_type (bump_first product increment prods)
                   (md_products md)) md).

Definition edit_image (image_name : string) (upd : ImageUpdate)
  : M Metadata unit :=
  let* md := get in
  match dict_get image_name (md_images md) with
  | None => raise (ValueError ("Image " +:+ image_name +:+ " not found"))
  | Some image =>
      (* Handle product changes *)
      match upd_product upd with
      | Some new_product =>
          let content_type := content_type image in
          let old_product := product image in
          (* Update product counts *)
          (if truthy old_product then
             _update_product_count content_type (default "" old_product) false
           else ret tt) ;;
          (if truthy new_product then
             _update_product_count content_type (default "" new_product) true
           else ret tt) ;;
          (* Handle untagged status *)
          let* md := get in
          match new_product with
          | None =>
              if negb (bool_decide (image_name ∈ md_untagged md)) then
                put (set_untagged (md_untagged md ++ [image_name]) md)
              else ret tt
          | Some _ =>
              put (set_untagged
                     (filter (fun img => img ≠ image_name) (md_untagged md)) md)
          end
      | None => ret tt
      end ;;
      (* Update image data *)
      let* md := get in
      put (set_images (dict_set image_name (image_update upd image)
                                (md_images md)) md)
  end.

(** [edit_untagged(untagged)] *)
Definition edit_untagged (untagged : list string) : M Metadata unit :=
  modify (set_untagged untagged).

(** [update_image_product(image_name, content_type, new_product)]; the
    second argument is the content type the caller passes. *)
Definition update_image_product (image_name passed_content_type : string)
    (new_product : option string) : M Metadata unit :=
  let* md := get in
  (* 1. Basic validation *)
  match dict_get image_name (md_images md) with
  | None => raise (ValueError ("Image " +:+ image_name +:+ " not found"))
  | Some image =>
      (* Get the ACTUAL content type from the image data *)
      let actual_content_type := content_type image in
      let* prods := dict_item actual_content_type (md_products md) in
      let valid_products := to_set (map name prods) in
      if negb (match new_product with
               | Some new_name => bool_decide (new_name ∈ valid_products)
               | None => false
               end)
      then
        raise (ValueError ("Invalid product '"
                 +:+ match new_product with Some n => n | None => "None" end
                 +:+ "' for content type '" +:+ actual_content_type
                 +:+ "'. Valid products are: " +:+ repr_set valid_products))
      else
        (* 2. Handle product counts *)
        let old_product := product image in
        (if truthy old_product then
           _update_product_count passed_content_type (default "" old_product)
                                 false
         else ret tt) ;;
        _update_product_count passed_content_type (default "" new_product)
                              true ;;
        (* 3. Update product *)
        let* md := get in
        put (set_images
               (dict_set image_name
                  {| content_type := content_type image;
                     dimensions := dimensions image;
                     product := new_product;
                     settings_source := settings_source image;
                     settings := settings image |}
                  (md_images md)) md)
  end.

(** [edit_settings(level, target, data, content_type=None)] *)
Definition edit_settings (level target : string) (blob : json)
    (for_content_type : option string) : M Metadata unit :=
  (* Validate content_type parameter *)
  if String.eqb level "product" && negb (truthy for_content_type) then
    raise (ValueError "content_type required for product level settings")
  else if negb (String.eqb level "product") && truthy for_content_type then
    raise (ValueError "content_type should only be provided for product level")
  else if String.eqb level "content_type" then
    let* md := get in
    (* Initialize if not exists; update only content settings *)
    let ct_settings := default [] (dict_get target (md_settings md)) in
    put (set_settings
           (dict_set target (dict_set "content" blob ct_settings)
                     (md_settings md)) md)
  else if String.eqb level "product" then
    raise (NotImplementedError "Product level settings not implemented yet")
  else if String.eqb level "custom" then
    let* md := get in
    match dict_get target (md_images md) with
    | None => raise (ValueError ("Image " +:+ target +:+ " not found"))
    | Some image =>
        put (set_images
               (dict_set target
                  {| content_type := content_type image;
                     dimensions := dimensions image;
                     product := product image;
                     settings_source := "custom";
                     settings := blob |}
                  (md_images md)) md)
    end
  else ret tt.
End Editor.

(** ** The read side of the editor *)

(** [sub in s] for strings *)
Fixpoint contains (sub s : string) : bool :=
  String.prefix sub s
  || match s with
     | EmptyString => false
     | String _ t => contains sub t
     end.

(** [s.strip("[]")]: brackets are dropped from both ends. *)
Fixpoint lstrip_brackets (s : string) : string :=
  match s with
  | String c t =>
      if Ascii.eqb c "["%char || Ascii.eqb c "]"%char then lstrip_brackets t
      else s
  | EmptyString => EmptyString
  end.

Definition strip_brackets (s : string) : string :=
  String.rev (lstrip_brackets (String.rev (lstrip_brackets s))).

(** [s.split(", ")] *)
Fixpoint split_comma_space (s : string) : list string :=
  match s with
  | EmptyString => [EmptyString]
  | String c t =>
      match t with
      | String c2 t2 =>
          if Ascii.eqb c ","%char && Ascii.eqb c2 " "%char
          then EmptyString :: split_comma_space t2
          else match split_comma_space t with
               | h :: r => String c h :: r
               | [] => [String c EmptyString]
               end
      | EmptyString => [String c EmptyString]
      end
  end.

(** What [get_settings] returns: the dict with the keys [settings_source]
    and [settings]. *)
Record SettingsView : Type := {
  view_source : string;
  view_settings : json
}.

Section EditorQueries.
Context `{Python} `{Collaborators}.

Definition get_content_types (filter_ : option string)
  : M Metadata (list string) :=
  let* md := get in
  let types := md_content_types md in
  if truthy filter_ then
    ret (filter (fun ct => contains (default "" filter_) ct = true) types)
  else ret types.

(** [get_products]: the list of one content type (empty when it has none),
    or the whole dict. *)
Definition get_products (for_content_type : option string)
  : M Metadata (list Product + dict (list Product)) :=
  let* md := get in
  if truthy for_content_type then
    ret (inl (default [] (dict_get (default "" for_content_type)
                                   (md_products md))))
  else ret (inr (md_products md)).

Definition get_images (for_content_type for_product : option string)
  : M Metadata (dict Image) :=
  let* md := get in
  let images := md_images md in
  let images :=
    if truthy for_content_type then
      filter (fun kv => content_type (snd kv) = default "" for_content_type)
             images
    else images in
  let images :=
    if truthy for_product then
      filter (fun kv => product (snd kv) = for_product) images
    else images in
  ret images.

Definition get_untagged : M Metadata (list string) :=
  let* md := get in
  ret (md_untagged md).

(** The loop of the "product" level of [get_settings]: the settings of the
    first bracketed group whose list holds [target]. *)
Fixpoint find_listed_group (target : string) (groups : dict json)
  : option json :=
  match groups with
  | [] => None
  | (group_key, group_settings) :: rest =>
      if startswith_bracket group_key && endswith_bracket group_key
         && bool_decide (target ∈ split_comma_space (strip_brackets group_key))
      then Some group_settings
      else find_listed_group target rest
  end.

(** [get_settings(level, target=None, content_type=None)]; [None] is what
    Python returns for a level that is none of the four. *)
Definition get_settings (level : string) (target for_content_type : option string)
  : M Metadata (option SettingsView) :=
  let* md := get in
  if String.eqb level "default" then
    match load_default_template with
    | Returned default_settings =>
        ret (Some {| view_source := "default";
                     view_settings := default_settings |})
    | Raised (OSError msg) =>
        raise (ValueError ("Failed to load default template: " +:+ msg))
    | Raised e => raise e
    end
  else if String.eqb level "content_type" then
    match target with
    | Some target_name =>
        if negb (str_truthy target_name) then
          raise (ValueError
                   "specific content_type target required for content_type level")
        else if negb (bool_decide (target_name ∈ md_content_types md)) then
          raise (ValueError ("Invalid content type: " +:+ target_name))
        else
          let content_settings :=
            default [] (dict_get target_name (md_settings md)) in
          ret (Some {| view_source := "content_type";
                       view_settings :=
                         default JNull (dict_get "content" content_settings) |})
    | None =>
        raise (ValueError
                 "specific content_type target required for content_type level")
    end
  else if String.eqb level "product" then
    if negb (truthy target) then
      raise (ValueError "Product name required for product level")
    else if negb (truthy for_content_type) then
      raise (ValueError "Content type required for product level settings")
    else
      let target_name := default "" target in
      let content_settings :=
        default [] (dict_get (default "" for_content_type) (md_settings md)) in
      (* The key will be "[magnesium]" for single product *)
      let single_product_key := "[" +:+ target_name +:+ "]" in
      match dict_get single_product_key content_settings with
      | Some product_settings =>
          ret (Some {| view_source := "product";
                       view_settings := product_settings |})
      | None =>
          (* Look through product groups *)
          ret (Some {| view_source := "product";
                       view_settings :=
                         default JNull
                           (find_listed_group target_name content_settings) |})
      end
  else if String.eqb level "custom" then
    if negb (truthy target) then
      raise (ValueError "Image name required for custom level")
    else
      let target_name := default "" target in
      match dict_get target_name (md_images md) with
      | None => raise (ValueError ("Image " +:+ target_name +:+ " not found"))
      | Some image_data =>
          ret (Some {| view_source := settings_source image_data;
                       view_settings := settings image_data |})
      end
  else ret None.
End EditorQueries.

(** [dict(sorted(d.items()))]: the items in ascending key order. *)
Definition sort_items {V} (d : dict V) : dict V :=
  merge_sort (fun a b => String.le (fst a) (fst b)) d.

(** The editor together with the disk it renames files on. *)
Record World (FS : Type) : Type := {
  metadata : Metadata;
  files : FS
}.
Arguments metadata {FS} _.
Arguments files {FS} _.

Section MoveUntagged.
Context `{Python} {FS : Type} `{FileSystem FS}.

Definition put_metadata (md : Metadata) : M (World FS) unit :=
  modify (fun w => {| metadata := md; files := files w |}).

Definition put_files (fs : FS) : M (World FS) unit :=
  modify (fun w => {| metadata := metadata w; files := fs |}).

(** The body of the [try] block of [move_untagged_image]. *)
Definition move_untagged_image_body (image_name target_content_type : string)
  : M (World FS) unit :=
  let* w := get in
  (* Validate inputs *)
  if negb (bool_decide (image_name ∈ md_untagged (metadata w))) then
    raise (ValueError ("Image " +:+ image_name +:+ " not in untagged list"))
  else if negb (bool_decide
                  (target_content_type ∈ md_content_types (metadata w))) then
    raise (ValueError ("Invalid content type: " +:+ target_content_type))
  else
  (* Get correct paths from structure *)
  let* info := dict_item target_content_type (md_structure (metadata w)) in
  let target_path := path info in
  let base := path_parent target_path in
  let src_path := path_join base image_name in
  let dest_path := path_join target_path image_name in
  if negb (fs_exists (files w) src_path) then
    raise (ValueError ("Source file not found: " +:+ src_path))
  else if fs_exists (files w) dest_path then
    raise (ValueError ("Destination file already exists: " +:+ dest_path))
  else
  (* Move the file *)
  match fs_rename (files w) src_path dest_path with
  | Raised e => raise e
  | Returned fs1 =>
  put_files fs1 ;;
  (* Update structure (maintaining sort) *)
  let md1 :=
    set_structure
      (dict_set target_content_type
         {| path := path info; images := sorted (images info ++ [image_name]) |}
         (md_structure (metadata w)))
      (metadata w) in
  put_metadata md1 ;;
  (* Generate and add image metadata (maintaining sort) *)
  match fs_image_size fs1 dest_path with
  | Raised e => raise e
  | Returned (w_, h_) =>
  let md2 :=
    set_images
      (sort_items
         (dict_set image_name
            {| content_type := target_content_type;
               dimensions := {| width := w_; height := h_ |};
               product := None;
               settings_source := "default";
               settings := JNull |}
            (md_images md1)))
      md1 in
  put_metadata md2 ;;
  (* Remove from untagged and sort *)
  let md3 := set_untagged (sorted (remove_first image_name (md_untagged md2))) md2 in
  put_metadata md3 ;;
  (* Save changes to disk *)
  match fs_write_json fs1 (path_join (path_parent (path info)) "metadata.json")
                      md3 with
  | Raised e => raise e
  | Returned fs2 => put_files fs2
  end
  end
  end.

(** [move_untagged_image]: any exception of the body is re-raised as a
    [ValueError]. *)
Definition move_untagged_image (image_name target_content_type : string)
  : M (World FS) unit :=
  try_except (move_untagged_image_body image_name target_content_type)
    (fun e => raise (ValueError ("Failed to move image: " +:+ exn_str e))).
End MoveUntagged.

(** * MetadataGenerator *)

(** What the generator asks of the folders, beyond [FileSystem]:
    [fs_glob fs dir ext] is [[f.name for f in Path(dir).glob("*" + ext)]],
    and [fs_iterdir_files fs dir] the names of the regular files of [dir], in
    the order of [iterdir()], which raises when [dir] cannot be listed. *)
Class Folders (FS : Type) : Type := {
  fs_glob : FS -> string -> string -> list string;
  fs_iterdir_files : FS -> string -> result (list string)
}.

(** [c.lower()] on an ASCII letter; other characters stay. *)
Definition ascii_lower (c : ascii) : ascii :=
  let n := nat_of_ascii c in
  if (65 <=? n)%nat && (n <=? 90)%nat then ascii_of_nat (n + 32) else c.

(** [s.lower()] *)
Fixpoint lower (s : string) : string :=
  match s with
  | EmptyString => EmptyString
  | String c t => String (ascii_lower c) (lower t)
  end.

(** The name split at its last dot: what precedes the dot, reversed, and
    the rest from the dot on. *)
Fixpoint rsplit_dot (rev_name : list ascii) (acc : list ascii)
  : option (list ascii * list ascii) :=
  match rev_name with
  | [] => None
  | c :: t =>
      if Ascii.eqb c "."%char then Some (t, c :: acc)
      else rsplit_dot t (c :: acc)
  end.

(** [Path(name).suffix]: the name from its last dot on, when that dot is
    neither the first nor the last character. *)
Definition path_suffix (name : string) : string :=
  match rsplit_dot (rev (list_ascii_of_string name)) [] with
  | Some (_ :: _ as before, (_ :: _ :: _) as suffix) =>
      string_of_list_ascii suffix
  | _ => EmptyString
  end.

(** [name.startswith(".")] *)
Definition startswith_dot (s : string) : bool :=
  match s with
  | String c _ => Ascii.eqb c "."%char
  | EmptyString => false
  end.

(** The extensions of [valid_extensions], each in lower and upper case, as
    [_generate_structure] globs for them.  The source goes through a set, in
    an order Python does not fix; the names found are sorted before they are
    stored, so the order chosen here does not show. *)
Definition glob_extensions : list string :=
  [".png"; ".PNG"; ".jpg"; ".JPG"; ".jpeg"; ".JPEG"].

Definition valid_extensions : list string := [".png"; ".jpg"; ".jpeg"].

(** [self.metadata[key] = ...] for a top-level key: a new key goes last. *)
Definition with_key (key : string) (md : Metadata) : list string :=
  if bool_decide (key ∈ md_keys md) then md_keys md
  else (md_keys md ++ [key])%list.

(** The record of a freshly found image. *)
Definition fresh_image (content_type : string) (wh : Z * Z) : Image :=
  {| content_type := content_type;
     dimensions := {| width := fst wh; height := snd wh |};
     product := None;               (* Initially untagged *)
     settings_source := "default";
     settings := JNull |}.          (* No custom settings initially *)

(** Two fresh records are the same dict when content type and dimensions
    agree; their other fields are the same constants. *)
Definition same_record (a b : Image) : bool :=
  String.eqb (content_type a) (content_type b)
  && Z.eqb (width (dimensions a)) (width (dimensions b))
  && Z.eqb (height (dimensions a)) (height (dimensions b)).

(** [sorted(all_images)] orders the pairs by name and has to order two pairs
    of the same name by their dicts, which Python cannot compare: whether the
    list holds two pairs with one name and different dicts. *)
Fixpoint has_conflict (all_images : list (string * Image)) : bool :=
  match all_images with
  | [] => false
  | (image_name, image_data) :: rest =>
      existsb (fun other => String.eqb image_name (fst other)
                            && negb (same_record image_data (snd other)))
              rest
      || has_conflict rest
  end.

Module MetadataGenerator.
Section Generate.
Context `{Python} {FS : Type} `{FileSystem FS} `{Folders FS}.
Variable base_path : string.
Variable fs : FS.
(** [self.content_types] and [self.products] *)
Variable content_types : list string.
Variable products : dict (list string).

(** The state is [self.metadata], which starts as the empty dict. *)
Definition empty_metadata : Metadata :=
  {| md_keys := [];
     md_content_types := [];
     md_products := [];
     md_structure := [];
     md_images := [];
     md_untagged := [];
     md_settings := [] |}.

Definition _generate_content_types : M Metadata unit :=
  modify (fun md =>
    {| md_keys := with_key "content_types" md;
       md_content_types := content_types;
       md_products := md_products md;
       md_structure := md_structure md;
       md_images := md_images md;
       md_untagged := md_untagged md;
       md_settings := md_settings md |}).

(** [next((p["min_occurrences"] for p in found if p["name"] == prod), 0)] *)
Definition min_occurrences_of (found : list (string * Z)) (prod : string) : Z :=
  match List.find (fun p => String.eqb (fst p) prod) found with
  | Some p => snd p
  | None => 0
  end.

Definition _generate_products : M Metadata unit :=
  (* Get max occurrences from captions *)
  match fs_min_occurrences fs (path_join base_path "captions.csv") with
  | Raised e => raise e
  | Returned min_occurrences =>
      let generated :=
        foldl (fun acc '(ct, prods) =>
                 dict_set ct
                   (map (fun prod =>
                           {| name := prod;
                              prevent_duplicates := false;
                              min_occurrences :=
                                min_occurrences_of
                                  (default [] (dict_get ct min_occurrences))
                                  prod;
                              current_count := Some 0 |})
                        (sorted (elements (to_set prods))))
                   acc)
              [] products in
      modify (fun md =>
        {| md_keys := with_key "products" md;
           md_content_types := md_content_types md;
           md_products := generated;
           md_structure := md_structure md;
           md_images := md_images md;
           md_untagged := md_untagged md;
           md_settings := md_settings md |})
  end.

Definition _generate_structure : M Metadata unit :=
  let generated :=
    foldl (fun acc content_type =>
             let path := path_join base_path content_type in
             (* Get all valid images with case-insensitive extensions *)
             let images := concat (map (fs_glob fs path) glob_extensions) in
             dict_set content_type
               {| path := path; images := sorted images |} acc)
          [] content_types in
  modify (fun md =>
    {| md_keys := with_key "structure" md;
       md_content_types := md_content_types md;
       md_products := md_products md;
       md_structure := generated;
       md_images := md_images md;
       md_untagged := md_untagged md;
       md_settings := md_settings md |}).

(** First collect all images: one pair for every listed image whose file
    exists. *)
Definition collect_images (structure : dict Structure)
  : result (list (string * Image)) :=
  foldl (fun acc '(content_type, struct) =>
           foldl (fun acc image_name =>
                    match acc with
                    | Raised e => Raised e
                    | Returned all_images =>
                        let path := path_join (path struct) image_name in
                        if fs_exists fs path then
                          match fs_image_size fs path with
                          | Raised e => Raised e
                          | Returned wh =>
                              Returned
                                (all_images
                                   ++ [(image_name,
                                        fresh_image content_type wh)])%list
                          end
                        else Returned all_images
                    end)
                 acc (images struct))
        (Returned []) structure.

Definition _generate_images : M Metadata unit :=
  let* md := get in
  put {| md_keys := with_key "images" md;
         md_content_types := md_content_types md;
         md_products := md_products md;
         md_structure := md_structure md;
         md_images := [];
         md_untagged := md_untagged md;
         md_settings := md_settings md |} ;;
  match collect_images (md_structure md) with
  | Raised e => raise e
  | Returned all_images =>
      (* Then add them in sorted order *)
      if has_conflict all_images then raise TypeError
      else
        modify (set_images
                  (foldl (fun acc '(image_name, image_data) =>
                            dict_set image_name image_data acc)
                         [] (sort_items all_images)))
  end.

Definition _generate_untagged : M Metadata unit :=
  match fs_iterdir_files fs base_path with
  | Raised e => raise e
  | Returned files =>
      (* Get all images from base folder *)
      let base_images :=
        filter (fun f =>
                  negb (startswith_dot f)
                  && bool_decide (lower (path_suffix f) ∈ valid_extensions)
                  = true)
               files in
      let* md := get in
      (* Get all images that are already in content folders *)
      let content_images : gset string :=
        foldl (fun acc struct => acc ∪ to_set (images struct)) ∅
              (values (md_structure md)) in
      let untagged :=
        filter (fun img => img ∉ content_images) base_images in
      put {| md_keys := with_key "untagged" md;
             md_content_types := md_content_types md;
             md_products := md_products md;
             md_structure := md_structure md;
             md_images := md_images md;
             md_untagged := sorted untagged;
             md_settings := md_settings md |}
  end.

Definition _generate_settings : M Metadata unit :=
  let* md := get in
  put {| md_keys := with_key "settings" md;
         md_content_types := md_content_types md;
         md_products := md_products md;
         md_structure := md_structure md;
         md_images := md_images md;
         md_untagged := md_untagged md;
         md_settings := [] |} ;;
  for_do content_types (fun content_type =>
    let* md := get in
    (* Get all products for this content type *)
    let* prods := dict_item content_type (md_products md) in
    let products := map name prods in
    put (set_settings
           (dict_set content_type
              [("content", JNull);
               ("[" +:+ join ", " (sorted products) +:+ "]", JNull)]
              (md_settings md))
           md)).

(** [generate()]: all sub-generators in order; the typed data is always
    JSON serializable. *)
Definition generate : M Metadata Metadata :=
  _generate_content_types ;;
  _generate_products ;;
  _generate_structure ;;
  _generate_images ;;
  _generate_untagged ;;
  _generate_settings ;;
  get.
End Generate.
End MetadataGenerator.

(** * Generator *)

(** [self.captions]: the header row and the caption rows. *)
Record Captions : Type := {
  headers : list string;
  captions : list (list string)
}.

(** What one call of [generate_image] was asked to render; it stands for the
    picture that [generate] saves. *)
Record Rendered : Type := {
  source_image : string;
  image_path : string;
  text : string;
  text_type : json;
  colour_index : Z
}.

(** A saved file: variation, post and slot number, and the picture. *)
Record Saved : Type := {
  variation_num : nat;
  post_num : nat;
  slot_num : nat;
  picture : Rendered
}.

(** The generator's mutable state: the [used_images] dict of the post being
    processed, how many random numbers have been drawn, and the files saved
    so far. *)
Record GenState : Type := {
  used_images : gmap string (gmap string (list string));
  drawn : nat;
  saved : list Saved
}.

(** [zip(row[::2], row[1::2])] *)
Fixpoint pair_up (row : list string) : list (string * string) :=
  match row with
  | product :: content :: rest => (product, content) :: pair_up rest
  | _ => []
  end.

(** [enumerate(l, 1)] *)
Definition enumerate1 {A} (l : list A) : list (nat * A) :=
  zip (seq 1 (length l)) l.

(** [j[k]] on a JSON value *)
Definition json_item {S} (k : string) (j : json) : M S json :=
  match j with
  | JDict d => dict_item k d
  | _ => raise TypeError
  end.

(** [len(j)] on a JSON value *)
Definition json_len {S} (j : json) : M S Z :=
  match j with
  | JList l => ret (Z.of_nat (length l))
  | JDict d => ret (Z.of_nat (length d))
  | JStr s => ret (Z.of_nat (String.length s))
  | _ => raise TypeError
  end.

Section Generator.
Context `{Python} `{Collaborators}.
Variable base_path : string.
(** [self.metadata.data]; generation only reads it. *)
Variable md : Metadata.
Variable caps : Captions.
(** The random source: the [n]-th number drawn. *)
Variable rand : nat -> nat.

Definition next_random : M GenState nat :=
  fun g =>
    (Returned (rand (drawn g)),
     {| used_images := used_images g;
        drawn := S (drawn g);
        saved := saved g |}).

(** [random.choice(seq)] on a non-empty list *)
Definition random_choice (seq : list string) : M GenState string :=
  let* r := next_random in
  match seq !! (r mod length seq)%nat with
  | Some x => ret x
  | None => raise IndexError
  end.

(** [random.randint(0, hi)] *)
Definition random_randint0 (hi : Z) : M GenState Z :=
  if hi <? 0 then raise (ValueError "empty range for randrange()")
  else
    let* r := next_random in
    ret (Z.of_nat r mod (hi + 1)).

Definition put_used (u : gmap string (gmap string (list string)))
  : M GenState unit :=
  modify (fun g =>
    {| used_images := u; drawn := drawn g; saved := saved g |}).

Definition save (s : Saved) : M GenState unit :=
  modify (fun g =>
    {| used_images := used_images g;
       drawn := drawn g;
       saved := saved g ++ [s] |}).

(** [used_images[content_type][product]], raising [KeyError] *)
Definition used_for (content_type product : string)
  : M GenState (list string) :=
  let* g := get in
  match used_images g !! content_type with
  | None => raise (KeyError content_type)
  | Some by_product =>
      match by_product !! product with
      | None => raise (KeyError product)
      | Some l => ret l
      end
  end.

(** [product.strip() if product else product] *)
Definition strip_product (product : string) : string :=
  if str_truthy product then strip product else product.

Definition _should_prevent_duplicates (content_type product : string)
  : M GenState bool :=
  let product := strip_product product in
  let* prods := dict_item content_type (md_products md) in
  ret (match List.find (fun prod_info => String.eqb (name prod_info) product)
                       prods with
       | Some prod_info => prevent_duplicates prod_info
       | None => false
       end).

(** [[img for img in all_images if images[img]["product"] == prod]] *)
Fixpoint images_with_product (all_images : list string) (prod : string)
  : M GenState (list string) :=
  match all_images with
  | [] => ret []
  | img :: rest =>
      let* image_data := dict_item img (md_images md) in
      let* more := images_with_product rest prod in
      ret (if bool_decide (product image_data = Some prod)
           then img :: more else more)
  end.

(** The body of the loop of the 'all' case: the images of one declared
    product are added to [available], unless the product prevents duplicates
    and the override is off; with the override on, its images already used in
    this post are left out. *)
Definition add_product_images (content_type : string)
    (all_images : list string) (allow_all_duplicates : bool)
    (available : list string) (prod_info : Product)
  : M GenState (list string) :=
  let prod_name := name prod_info in
  if prevent_duplicates prod_info && negb allow_all_duplicates then
    ret available
  else
    let* matching_images := images_with_product all_images prod_name in
    let* matching_images :=
      if prevent_duplicates prod_info then
        (* the comprehension looks the used list up once per element:
           never, when there is no matching image *)
        match matching_images with
        | [] => ret []
        | _ :: _ =>
            let* used := used_for content_type prod_name in
            ret (filter (fun img => img ∉ used) matching_images)
        end
      else ret matching_images in
    ret (available ++ matching_images)%list.

Definition _get_available_images (content_type product : string)
    (allow_all_duplicates : bool) : M GenState (list string) :=
  (* Strip whitespace from product name *)
  let product := strip_product product in
  let* info := dict_item content_type (md_structure md) in
  let all_images := images info in
  if String.eqb product "all" then
    let* content_products := dict_item content_type (md_products md) in
    for_fold content_products []
             (add_product_images content_type all_images allow_all_duplicates)
  else
    let* available := images_with_product all_images product in
    let* prevent := _should_prevent_duplicates content_type product in
    if prevent then
      (* looked up at once, for the debug line "Used images: ..." *)
      let* used := used_for content_type product in
      ret (filter (fun img => img ∉ used) available)
    else ret available.

(** The search of the "product" branch of [_get_image_settings]: the
    settings of the first group naming [product] whose settings are not
    null. *)
Fixpoint find_group_with_settings (product : string) (groups : dict json)
  : option json :=
  match groups with
  | [] => None
  | (group, group_settings) :: rest =>
      if negb (String.eqb group "content")
         && bool_decide (product ∈ group_products group)
         && negb (is_None group_settings)
      then Some group_settings
      else find_group_with_settings product rest
  end.

Definition _get_image_settings (content_type product image_path : string)
  : M GenState json :=
  (* Extract filename from path *)
  let image_name := path_name image_path in
  try_except (
    let* image_data := dict_item image_name (md_images md) in
    let source := settings_source image_data in
    if String.eqb source "default" then
      match load_default_template with
      | Returned j => ret j
      | Raised e => raise e
      end
    else if String.eqb source "custom" then
      if is_None (settings image_data) then
        raise (ValueError ("Image " +:+ image_name
                 +:+ " has custom settings_source but no settings defined"))
      else ret (settings image_data)
    else if String.eqb source "content" then
      let* ct_settings := dict_item content_type (md_settings md) in
      let* content_settings := dict_item "content" ct_settings in
      if is_None content_settings then
        raise (ValueError ("No content-level settings defined for "
                           +:+ content_type))
      else ret content_settings
    else if String.eqb source "product" then
      let* ct_settings := dict_item content_type (md_settings md) in
      match find_group_with_settings product ct_settings with
      | Some group_settings => ret group_settings
      | None =>
          raise (ValueError ("No product settings found for " +:+ product
                             +:+ " in " +:+ content_type))
      end
    else raise (ValueError ("Invalid settings_source: " +:+ source)))
    (fun e =>
       raise (ValueError ("Failed to get settings for " +:+ image_name
                          +:+ ": " +:+ exn_str e))).

(** [used_images[content_type][product].append(selected_image)] *)
Definition record_used (content_type product selected_image : string)
  : M GenState unit :=
  let* g := get in
  let* by_product :=
    match used_images g !! content_type with
    | Some m => ret m
    | None => raise (KeyError content_type)
    end in
  let* used :=
    match by_product !! product with
    | Some l => ret l
    | None => raise (KeyError product)
    end in
  put_used (<[content_type :=
               <[product := (used ++ [selected_image])%list]> by_product]>
              (used_images g)).

(** The second half of [_generate_single_image]: the settings of the
    selected image are resolved and the picture is rendered. *)
Definition render_selected (content_type product text selected_image : string)
  : M GenState Rendered :=
  let content_path := path_join base_path content_type in
  (* Get image settings *)
  let* image_settings :=
    _get_image_settings content_type product selected_image in
  let* base_settings := json_item "base_settings" image_settings in
  let* text_type := json_item "default_text_type" base_settings in
  (* Generate image *)
  let* text_settings := json_item "text_settings" image_settings in
  let* type_settings :=
    match text_type with
    | JStr t => json_item t text_settings
    | JNull => raise (KeyError "None")
    | JBool b => raise (KeyError (if b then "True" else "False"))
    | JNum n => raise (KeyError (pretty n))
    | JList _ | JDict _ => raise TypeError
    end in
  let* colors := json_item "colors" type_settings in
  let* n := json_len colors in
  let* colour := random_randint0 (n - 1) in
  let image_path := path_join content_path selected_image in
  match generate_image image_settings text_type colour image_path text with
  | Raised e => raise e
  | Returned _ =>
      ret {| source_image := selected_image;
             image_path := image_path;
             text := text;
             text_type := text_type;
             colour_index := colour |}
  end.

Definition _generate_single_image (content_type product text : string)
    (allow_all_duplicates : bool) : M GenState Rendered :=
  (* Get available images *)
  let* available_images :=
    _get_available_images content_type product allow_all_duplicates in
  match available_images with
  | [] =>
      raise (ValueError ("No available images for " +:+ content_type
                         +:+ " - " +:+ product))
  | _ :: _ =>
      (* Select and track image *)
      let* selected_image := random_choice available_images in
      let* prevent := _should_prevent_duplicates content_type product in
      (if prevent then record_used content_type product selected_image
       else ret tt) ;;
      render_selected content_type product text selected_image
  end.

(** The fresh [used_images] of a post: an empty list for every declared
    product of every content type. *)
Definition fresh_used_images
  : M GenState (gmap string (gmap string (list string))) :=
  for_fold (md_content_types md) ∅ (fun acc content_type =>
    let* prods := dict_item content_type (md_products md) in
    ret (<[content_type :=
             foldl (fun m product_info => <[name product_info := []]> m) ∅ prods]>
           acc)).

(** [headers_map]: position [i-1] holds the content type of slot [i], read
    off the header "product_<type>". *)
Definition headers_map : M GenState (list string) :=
  for_fold (seq 1 (length (headers caps) / 2)) [] (fun acc i =>
    match headers caps !! ((i - 1) * 2)%nat with
    | None => raise IndexError
    | Some header =>
        match split_underscore header !! 1%nat with
        | None => raise IndexError
        | Some content_type => ret (acc ++ [content_type])%list
        end
    end).

(** One content piece of a row: slot [idx] holds [product] and [content]. *)
Definition generate_slot (hmap : list string) (allow_all_duplicates : bool)
    (variation post : nat) (slot : nat * (string * string))
  : M GenState unit :=
  let '(idx, (product, content)) := slot in
  let* content_type :=
    match hmap !! (idx - 1)%nat with
    | Some ct => ret ct
    | None => raise (KeyError (pretty idx))
    end in
  if negb (str_truthy content) then ret tt   (* Skip empty content *)
  else
    let* image :=
      _generate_single_image content_type product content
                             allow_all_duplicates in
    save {| variation_num := variation;
            post_num := post;
            slot_num := idx;
            picture := image |}.

(** One post: a fresh exclusion dict, then one slot after the other. *)
Definition generate_post (hmap : list string) (allow_all_duplicates : bool)
    (variation post : nat) (row : list string) : M GenState unit :=
  (* Track used images for duplicate prevention *)
  let* fresh := fresh_used_images in
  put_used fresh ;;
  (* Process each content piece in the row *)
  for_do (enumerate1 (pair_up row))
         (generate_slot hmap allow_all_duplicates variation post).

Definition generate (variations : nat) (allow_all_duplicates : bool)
  : M GenState unit :=
  let* hmap := headers_map in
  for_do (seq 1 variations) (fun variation =>
    for_do (enumerate1 (captions caps)) (fun '(post, row) =>
      generate_post hmap allow_all_duplicates variation post row)).
End Generator.

Definition initial_gen_state : GenState :=
  {| used_images := ∅; drawn := 0%nat; saved := [] |}.

(** * A concrete world for running the model

    A small instance of the interfaces: ASCII [strip], single-quoted [repr],
    slash-separated paths, a disk given by the list of its paths, and
    collaborators that accept everything. *)
Module Fixture.

(** [strip] for ASCII blanks, on the list of characters. *)
Fixpoint lstrip (l : list ascii) : list ascii :=
  match l with
  | c :: t => if Ascii.is_space c then lstrip t else l
  | [] => []
  end.

Definition ascii_strip (s : string) : string :=
  string_of_list_ascii
    (rev (lstrip (rev (lstrip (list_ascii_of_string s))))).

(** A list that does not start with a blank. *)
Definition starts_clean (l : list ascii) : Prop :=
  match l with
  | c :: _ => Ascii.is_space c = false
  | [] => True
  end.

Lemma lstrip_starts_clean l : starts_clean (lstrip l).
Proof.
  induction l as [|c t IH]; cbn; [exact I|].
  destruct (Ascii.is_space c) eqn:Hc; [exact IH|exact Hc].
Qed.

Lemma lstrip_clean l : starts_clean l -> lstrip l = l.
Proof. destruct l as [|c t]; cbn; [reflexivity|]. intros ->. reflexivity. Qed.

Lemma lstrip_snoc l c :
  Ascii.is_space c = false -> lstrip (l ++ [c])%list = (lstrip l ++ [c])%list.
Proof.
  intros Hc. induction l as [|d t IH]; cbn.
  - rewrite Hc. reflexivity.
  - destruct (Ascii.is_space d); [exact IH|reflexivity].
Qed.

Lemma rstrip_starts_clean l :
  starts_clean l -> starts_clean (rev (lstrip (rev l))).
Proof.
  destruct l as [|c t]; [intros _; exact I|].
  cbn [starts_clean]. intros Hc. cbn [rev].
  rewrite (lstrip_snoc _ _ Hc), rev_app_distr. cbn. exact Hc.
Qed.

Lemma ascii_strip_idempotent s : ascii_strip (ascii_strip s) = ascii_strip s.
Proof.
  unfold ascii_strip. rewrite list_ascii_of_string_of_list_ascii.
  rewrite (lstrip_clean (rev (lstrip (rev (lstrip (rev _))))))
    by apply rstrip_starts_clean, lstrip_starts_clean.
  rewrite rev_involutive.
  rewrite (lstrip_clean (rev (lstrip (rev (lstrip _)))))
    by apply rstrip_starts_clean, lstrip_starts_clean.
  reflexivity.
Qed.

(** Splits the reversed path at its first slash. *)
Fixpoint rsplit_slash (rev_path : string) (name_acc : string)
  : string * string :=
  match rev_path with
  | EmptyString => (EmptyString, name_acc)
  | String c t =>
      if Ascii.eqb c "/"%char then (String.rev t, name_acc)
      else rsplit_slash t (String c name_acc)
  end.

Definition python : Python :=
  {| strip := ascii_strip;
     strip_idempotent := ascii_strip_idempotent;
     repr := fun s => "'" +:+ s +:+ "'";
     repr_set := fun s =>
       "{" +:+ String.concat ", " (map (fun x => "'" +:+ x +:+ "'") (elements s))
       +:+ "}";
     path_join := fun p n => p +:+ "/" +:+ n;
     path_parent := fun p => fst (rsplit_slash (String.rev p) EmptyString);
     path_name := fun p => snd (rsplit_slash (String.rev p) EmptyString) |}.

Definition simple_blob : json :=
  JDict [("base_settings", JDict [("default_text_type", JStr "plain")]);
         ("text_settings",
          JDict [("plain", JDict [("colors", JList [JStr "#FFFFFF"])])])].

Definition collaborators : Collaborators :=
  {| validate_settings := fun _ => (true, []);
     load_default_template := Returned simple_blob;
     generate_image := fun _ _ _ _ _ => Returned tt |}.

(** A disk: the paths that exist, the size of those that are images, and
    the JSON files written. *)
Record Disk : Type := {
  present : list string;
  sizes : dict (Z * Z);
  json_files : dict Metadata
}.

Definition file_system : FileSystem Disk :=
  {| fs_exists := fun d p => bool_decide (p ∈ present d);
     fs_image_size := fun d p =>
       match dict_get p (sizes d) with
       | Some wh => Returned wh
       | None => Raised (OSError "cannot identify image file")
       end;
     fs_min_occurrences := fun _ _ => Returned [];
     fs_rename := fun d src dst =>
       if bool_decide (src ∈ present d) then
         Returned
           {| present := dst :: filter (fun p => p ≠ src) (present d);
              sizes :=
                match dict_get src (sizes d) with
                | Some wh => dict_set dst wh (sizes d)
                | None => sizes d
                end;
              json_files := json_files d |}
       else Raised (OSError "No such file or directory");
     fs_read_json := fun d p =>
       match dict_get p (json_files d) with
       | Some md => Returned md
       | None => Raised (OSError "No such file or directory")
       end;
     fs_write_json := fun d p md =>
       Returned {| present := p :: filter (fun q => q ≠ p) (present d);
                   sizes := sizes d;
                   json_files := dict_set p md (json_files d) |};
     fs_generate := fun d _ _ _ =>
       (Raised (OSError "generation is not part of this fixture"), d) |}.

Definition product_of (n : string) (pd : bool) (mo : Z) (cc : Z) : Product :=
  {| name := n; prevent_duplicates := pd; min_occurrences := mo;
     current_count := Some cc |}.

Definition image_of (ct : string) (p : option string) : Image :=
  {| content_type := ct;
     dimensions := {| width := 1080; height := 1920 |};
     product := p;
     settings_source := "default";
     settings := JNull |}.

(** One content type "hook" with the products "all" and "magnesium"; two
    images, one tagged "all" and one tagged "magnesium". *)
Definition hook_metadata : Metadata :=
  {| md_keys := REQUIRED_KEYS_ORDER;
     md_content_types := ["hook"];
     md_products :=
       [("hook", [product_of "all" false 0 1; product_of "magnesium" false 0 2])];
     md_structure :=
       [("hook", {| path := "/base/hook"; images := ["1h.png"; "2h.png"] |})];
     md_images :=
       [("1h.png", image_of "hook" (Some "all"));
        ("2h.png", image_of "hook" (Some "magnesium"))];
     md_untagged := [];
     md_settings := [("hook", [("content", JNull); ("[all, magnesium]", JNull)])] |}.

Definition hook_disk : Disk :=
  {| present := ["/base/hook"; "/base/hook/1h.png"; "/base/hook/2h.png"];
     sizes := [("/base/hook/1h.png", (1080, 1920));
               ("/base/hook/2h.png", (1080, 1920))];
     json_files := [("/base/metadata.json", hook_metadata)] |}.

(** The example of the specification: the product "magnesium" with
    duplicate prevention and a minimum of 2, two images assigned to it and a
    third without product. *)
Definition magnesium_metadata : Metadata :=
  {| md_keys := REQUIRED_KEYS_ORDER;
     md_content_types := ["hook"];
     md_products := [("hook", [product_of "magnesium" true 2 2])];
     md_structure :=
       [("hook", {| path := "/base/hook";
                    images := ["1h.png"; "2h.png"; "3h.png"] |})];
     md_images :=
       [("1h.png", image_of "hook" (Some "magnesium"));
        ("2h.png", image_of "hook" (Some "magnesium"));
        ("3h.png", image_of "hook" None)];
     md_untagged := [];
     md_settings := [("hook", [("content", JNull); ("[magnesium]", JNull)])] |}.

Definition magnesium_disk : Disk :=
  {| present := ["/base/hook"; "/base/hook/1h.png"; "/base/hook/2h.png";
                 "/base/hook/3h.png"];
     sizes := [("/base/hook/1h.png", (1080, 1920));
               ("/base/hook/2h.png", (1080, 1920));
               ("/base/hook/3h.png", (1080, 1920))];
     json_files := [("/base/metadata.json", magnesium_metadata)] |}.

Definition fresh_heap (d : Metadata) : Heap :=
  {| errors := []; warnings := []; seen_warnings := ∅; data := d |}.

Definition validate_hook (strict : bool) : result bool * Heap :=
  @validate python collaborators Disk file_system strict "/base" hook_disk
    ["hook"] [("hook", ["all"; "magnesium"])] (fresh_heap hook_metadata).

Definition validate_magnesium (strict : bool) : result bool * Heap :=
  @validate python collaborators Disk file_system strict "/base" magnesium_disk
    ["hook"] [("hook", ["magnesium"])] (fresh_heap magnesium_metadata).

End Fixture.



(** * Reasoning about computations *)

(** ** Invariants of the state

    [preserves I m]: running [m] from a state satisfying [I] ends in a state
    satisfying [I], whether [m] returns or raises. *)
Section Preserves.
Context {S : Type} (I : S -> Prop).

Definition preserves {A} (m : M S A) : Prop :=
  forall s, I s -> I (snd (m s)).

Lemma preserves_ret {A} (a : A) : preserves (ret a).
Proof. intros s Hs. exact Hs. Qed.

Lemma preserves_raise {A} (e : exn) : preserves (@raise S A e).
Proof. intros s Hs. exact Hs. Qed.

Lemma preserves_get : preserves get.
Proof. intros s Hs. exact Hs. Qed.

Lemma preserves_bind {A B} (m : M S A) (k : A -> M S B) :
  preserves m -> (forall a, preserves (k a)) -> preserves (bind m k).
Proof.
  intros Hm Hk s Hs. unfold bind.
  specialize (Hm s Hs). destruct (m s) as [[a|e] s']; simpl in *.
  - apply Hk, Hm.
  - exact Hm.
Qed.

Lemma preserves_dict_item {V} k (d : dict V) : preserves (dict_item k d).
Proof.
  unfold dict_item. destruct (dict_get k d);
    [apply preserves_ret | apply preserves_raise].
Qed.

Lemma preserves_and_then {R} (c1 c2 : M S (flow R)) :
  preserves c1 -> preserves c2 -> preserves (and_then c1 c2).
Proof.
  intros H1 H2. apply preserves_bind; [exact H1|].
  intros [| |r]; [exact H2 | apply preserves_ret | apply preserves_ret].
Qed.

Lemma preserves_fun_body {R} (c : M S (flow R)) (dflt : R) :
  preserves c -> preserves (fun_body c dflt).
Proof.
  intros Hc. apply preserves_bind; [exact Hc|].
  intros [| |r]; apply preserves_ret.
Qed.

Lemma preserves_for_each {A R} (l : list A) (body : A -> M S (flow R)) :
  (forall x, preserves (body x)) -> preserves (for_each l body).
Proof.
  intros Hb. induction l as [|x l IH]; simpl.
  - apply preserves_ret.
  - apply preserves_bind; [apply Hb|].
    intros [| |r]; [exact IH | exact IH | apply preserves_ret].
Qed.

Lemma preserves_for_fold {A B} (l : list A) (b : B) (body : B -> A -> M S B) :
  (forall b x, preserves (body b x)) -> preserves (for_fold l b body).
Proof.
  intros Hb. revert b. induction l as [|x l IH]; intros b; simpl.
  - apply preserves_ret.
  - apply preserves_bind; [apply Hb | intros b'; apply IH].
Qed.

Lemma preserves_for_fold_ret {A B R} (l : list A) (b : B)
    (body : B -> A -> M S (B + R)) :
  (forall b x, preserves (body b x)) -> preserves (for_fold_ret l b body).
Proof.
  intros Hb. revert b. induction l as [|x l IH]; intros b; simpl.
  - apply preserves_ret.
  - apply preserves_bind; [apply Hb|].
    intros [b'|r]; [apply IH | apply preserves_ret].
Qed.

Lemma preserves_for_do {A} (l : list A) (body : A -> M S unit) :
  (forall x, preserves (body x)) -> preserves (for_do l body).
Proof.
  intros Hb. induction l as [|x l IH]; simpl.
  - apply preserves_ret.
  - apply preserves_bind; [apply Hb | intros _; exact IH].
Qed.
End Preserves.

(** One step of a proof that a computation preserves an invariant: the
    structural rules above, and case analysis on what a conditional or a
    [match] looks at. *)
Ltac preserves_step :=
  match goal with
  | |- preserves _ (ret _) => apply preserves_ret
  | |- preserves _ (raise _) => apply preserves_raise
  | |- preserves _ get => apply preserves_get
  | |- preserves _ (dict_item _ _) => apply preserves_dict_item
  | |- preserves _ (bind _ _) => apply preserves_bind; [|intros ?]
  | |- preserves _ (and_then _ _) => apply preserves_and_then
  | |- preserves _ (fun_body _ _) => apply preserves_fun_body
  | |- preserves _ (for_each _ _) => apply preserves_for_each; intros ?
  | |- preserves _ (for_fold _ _ _) => apply preserves_for_fold; intros ? ?
  | |- preserves _ (for_fold_ret _ _ _) => apply preserves_for_fold_ret; intros ? ?
  | |- preserves _ (for_do _ _) => apply preserves_for_do; intros ?
  | |- preserves _ (if ?b then _ else _) => destruct b
  | |- preserves _ (match ?x with _ => _ end) => destruct x
  | |- preserves _ (let _ := _ in _) => cbv zeta
  end.

(** ** Invariants of the validator's heap *)
Section HeapInvariant.
Context `{Python} `{Collaborators} {FS : Type} `{FileSystem FS}.
Variable I : Heap -> Prop.
(** The invariant does not look at the error list, and survives a recorded
    warning. *)
Hypothesis I_errors : forall h msgs,
  I h ->
  I {| errors := errors h ++ msgs; warnings := warnings h;
       seen_warnings := seen_warnings h; data := data h |}.
Hypothesis I_warning : forall h msg key,
  I h -> key ∉ seen_warnings h ->
  I {| errors := errors h; warnings := warnings h ++ [msg];
       seen_warnings := seen_warnings h ∪ {[ key ]}; data := data h |}.

Lemma preserves_add_error msg : preserves I (add_error msg).
Proof. intros h Hh. apply I_errors, Hh. Qed.

Lemma preserves_extend_errors msgs : preserves I (extend_errors msgs).
Proof. intros h Hh. apply I_errors, Hh. Qed.

Lemma preserves_add_warning msg key : preserves I (add_warning msg key).
Proof.
  intros h Hh. unfold add_warning, modify. simpl.
  case_bool_decide as Hseen; [exact Hh|].
  apply I_warning; assumption.
Qed.

Lemma preserves_get_data : preserves I get_data.
Proof. intros h Hh. exact Hh. Qed.

Lemma preserves_reject msg : preserves I (reject msg).
Proof.
  apply preserves_bind; [apply preserves_add_error|].
  intros _. apply preserves_ret.
Qed.

Lemma preserves_check_blob prefix blob : preserves I (check_blob prefix blob).
Proof.
  unfold check_blob. destruct (validate_settings blob) as [ok errs].
  destruct ok; simpl; [apply preserves_ret|].
  apply preserves_bind; [apply preserves_extend_errors|].
  intros _. apply preserves_ret.
Qed.

Ltac heap_step :=
  first
    [ apply preserves_add_error
    | apply preserves_extend_errors
    | apply preserves_add_warning
    | apply preserves_get_data
    | apply preserves_reject
    | apply preserves_check_blob
    | preserves_step ].

Variable strict : bool.
Variable base_path : string.
Variable fs : FS.

Lemma preserves_validate_content_types expected :
  preserves I (_validate_content_types expected).
Proof. unfold _validate_content_types. repeat heap_step. Qed.

Lemma preserves_validate_products expected :
  preserves I (_validate_products strict base_path fs expected).
Proof.
  unfold _validate_products, count_one. repeat heap_step.
Qed.

Lemma preserves_validate_structure :
  preserves I (_validate_structure fs).
Proof. unfold _validate_structure. repeat heap_step. Qed.

Lemma preserves_validate_images :
  preserves I (_validate_images strict fs).
Proof. unfold _validate_images. repeat heap_step. Qed.

Lemma preserves_validate_untagged :
  preserves I (_validate_untagged strict fs).
Proof. unfold _validate_untagged. repeat heap_step. Qed.

Lemma preserves_validate_settings :
  preserves I _validate_settings.
Proof. unfold _validate_settings. repeat heap_step. Qed.
End HeapInvariant.

(** ** The count reconciliation, as a function of the data *)

(** Number of images of content type [ct] whose product is exactly [nm]. *)
Definition count_assigned (imgs : dict Image) (ct nm : string) : Z :=
  Z.of_nat (length (filter (fun img => content_type img = ct ∧ product img = Some nm)
                           (values imgs))).

(** What the reconciliation stores for the product [nm] of [ct]: its own
    images, when [nm] is a non-empty name other than 'all', plus the 'all'
    images of [ct]. *)
Definition reconciled_count (imgs : dict Image) (ct nm : string) : Z :=
  (if str_truthy nm && negb (String.eqb nm "all")
   then count_assigned imgs ct nm else 0)
  + count_assigned imgs ct "all".

Definition reconcile_products (imgs : dict Image) (ps : dict (list Product))
  : dict (list Product) :=
  map (fun '(ct, prods) =>
         (ct, map (fun p => set_current_count (reconciled_count imgs ct (name p)) p)
                  prods))
      ps.

Definition reconcile (d : Metadata) : Metadata :=
  set_products (reconcile_products (md_images d) (md_products d)) d.

(** Invariant 3 of the data model: every stored count is the reconciled
    one. *)
Definition counts_reconciled (d : Metadata) : Prop :=
  forall ct prods p,
    In (ct, prods) (md_products d) -> In p prods ->
    current_count p = Some (reconciled_count (md_images d) ct (name p)).

Lemma sum_ones {A} (l : list A) : sum (map (fun _ => 1) l) = Z.of_nat (length l).
Proof.
  induction l as [|x l IH]; [reflexivity|].
  cbn [map length]. unfold sum in *. cbn [foldr]. rewrite IH. lia.
Qed.

Lemma count_all_images_assigned imgs ct :
  count_all_images imgs ct = count_assigned imgs ct "all".
Proof. unfold count_all_images, count_assigned. apply sum_ones. Qed.

Lemma foldl_insert_lookup {V} (f : string -> V) (ks : list string)
    (m0 : gmap string V) (k : string) :
  foldl (fun m k' => <[k' := f k']> m) m0 ks !! k
  = if bool_decide (k ∈ ks) then Some (f k) else m0 !! k.
Proof.
  revert m0. induction ks as [|k' ks IH]; intros m0; cbn [foldl].
  - reflexivity.
  - rewrite IH. destruct (decide (k = k')) as [->|Hne].
    + rewrite lookup_insert_eq.
      rewrite (bool_decide_eq_true_2 (k' ∈ k' :: ks)) by (left).
      destruct (bool_decide (k' ∈ ks)); reflexivity.
    + rewrite lookup_insert_ne by congruence.
      destruct (decide (k ∈ ks)) as [Hin|Hnin].
      * rewrite !bool_decide_eq_true_2; [reflexivity|right; exact Hin|exact Hin].
      * rewrite !bool_decide_eq_false_2; [reflexivity| |exact Hnin].
        intros Hc. apply elem_of_cons in Hc as [Hc|Hc]; contradiction.
Qed.

Lemma count_assigned_cons k img imgs ct nm :
  count_assigned ((k, img) :: imgs) ct nm
  = (if bool_decide (content_type img = ct ∧ product img = Some nm) then 1 else 0)
    + count_assigned imgs ct nm.
Proof.
  unfold count_assigned, values. cbn [map snd].
  rewrite filter_cons. case_bool_decide as Hd.
  - rewrite decide_True by exact Hd. cbn [length]. lia.
  - rewrite decide_False by exact Hd. lia.
Qed.

Lemma truthy_Some s : truthy (Some s) = str_truthy s.
Proof. reflexivity. Qed.

(** The first pass leaves the heap alone and adds, to each counter it
    started from, the images counted under it. *)
Lemma count_pass_spec (imgs : dict Image) :
  forall (pc : gmap string (gmap string Z)) h r h',
    for_fold imgs pc (fun pc '(_, img_data) => count_image pc img_data) h = (r, h') ->
    h' = h /\
    forall pc', r = Returned pc' ->
      forall ct,
        match pc !! ct with
        | None => pc' !! ct = None
        | Some c =>
            exists c', pc' !! ct = Some c' /\
              forall nm,
                default 0 (c' !! nm)
                = default 0 (c !! nm)
                  + (if str_truthy nm && negb (String.eqb nm "all")
                     then count_assigned imgs ct nm else 0)
        end.
Proof.
  induction imgs as [|[k img] imgs IH]; intros pc h r h' Hrun.
  - cbn in Hrun. inversion Hrun; subst. split; [reflexivity|].
    intros pc' [= <-] ct. destruct (pc !! ct) as [c|] eqn:Hc; [|reflexivity].
    exists c. split; [reflexivity|]. intros nm.
    destruct (str_truthy nm && negb (nm =? "all")%string);
      unfold count_assigned; cbn; lia.
  - cbn [for_fold] in Hrun. unfold bind in Hrun.
    unfold count_image in Hrun at 1.
    destruct (truthy (product img)
              && negb (bool_decide (product img = Some "all"))) eqn:Hcounted.
    + (* the image is counted under its own product *)
      apply andb_true_iff in Hcounted as [Htruthy Hnotall].
      destruct (product img) as [prod|] eqn:Hprod; [|discriminate].
      cbn [default] in Hrun. unfold count_one in Hrun.
      destruct (pc !! content_type img) as [c0|] eqn:Hc0.
      * cbn in Hrun. apply IH in Hrun as [-> Hspec]. split; [reflexivity|].
        intros pc' -> ct. specialize (Hspec pc' eq_refl ct).
        destruct (decide (ct = content_type img)) as [->|Hne].
        -- rewrite lookup_insert_eq in Hspec. rewrite Hc0.
           destruct Hspec as (c' & Hc' & Hcount). exists c'. split; [exact Hc'|].
           intros nm. rewrite Hcount. rewrite count_assigned_cons.
           apply negb_true_iff, bool_decide_eq_false in Hnotall.
           destruct (decide (nm = prod)) as [->|Hnm].
           ++ rewrite lookup_insert_eq. cbn [default].
              rewrite truthy_Some in Htruthy. rewrite Htruthy.
              assert (Hne_all : (prod =? "all")%string = false).
              { apply String.eqb_neq. congruence. }
              rewrite Hne_all. cbn [negb andb].
              rewrite bool_decide_eq_true_2 by (split; [reflexivity|exact Hprod]).
              unfold id. lia.
           ++ rewrite lookup_insert_ne by congruence.
              rewrite (bool_decide_eq_false_2
                         (content_type img = content_type img ∧ product img = Some nm))
                by (rewrite Hprod; intros [_ [= ->]]; congruence).
              destruct (str_truthy nm && negb (nm =? "all")%string); lia.
        -- rewrite lookup_insert_ne in Hspec by congruence.
           destruct (pc !! ct) as [c|]; [|exact Hspec].
           destruct Hspec as (c' & Hc' & Hcount). exists c'. split; [exact Hc'|].
           intros nm. rewrite Hcount. rewrite count_assigned_cons.
           rewrite bool_decide_eq_false_2 by (intros [? _]; congruence).
           destruct (str_truthy nm && negb (nm =? "all")%string); lia.
      * cbn in Hrun. inversion Hrun; subst. split; [reflexivity|].
        intros pc' [=].
    + (* the image is skipped: no product, or 'all' *)
      cbn in Hrun. apply IH in Hrun as [-> Hspec]. split; [reflexivity|].
      intros pc' -> ct. specialize (Hspec pc' eq_refl ct).
      destruct (pc !! ct) as [c|]; [|exact Hspec].
      destruct Hspec as (c' & Hc' & Hcount). exists c'. split; [exact Hc'|].
      intros nm. rewrite Hcount. rewrite count_assigned_cons.
      destruct (str_truthy nm && negb (nm =? "all")%string) eqn:Hnm; [|lia].
      rewrite bool_decide_eq_false_2; [lia|].
      intros [_ Hp]. rewrite Hp in Hcounted. rewrite truthy_Some in Hcounted.
      apply andb_true_iff in Hnm as [Ht Hna]. rewrite Ht in Hcounted.
      cbn in Hcounted. apply negb_false_iff, bool_decide_eq_true in Hcounted.
      injection Hcounted as ->. discriminate.
Qed.

Section CountReconciliation.
Context `{Python} `{Collaborators} {FS : Type} `{FileSystem FS}.

Lemma add_warning_data msg key h :
  data (snd (add_warning msg key h)) = data h
  /\ fst (add_warning msg key h) = Returned tt.
Proof.
  unfold add_warning, modify. cbn. case_bool_decide; split; reflexivity.
Qed.

Lemma write_back_products pc aic ct (G : string -> Z) (prods : list Product) :
  (forall c a, pc !! ct = Some c -> aic !! ct = Some a ->
     forall nm, default 0 (c !! nm) + a = G nm) ->
  forall acc h r h',
    for_fold prods acc (write_back_one pc aic ct) h = (r, h') ->
    data h' = data h /\
    forall x, r = Returned x ->
      x = (acc ++ map (fun p => set_current_count (G (name p)) p) prods)%list.
Proof.
  intros HG. induction prods as [|p prods IH]; intros acc h r h' Hrun.
  - cbn in Hrun. inversion Hrun; subst. split; [reflexivity|].
    intros x [= <-]. rewrite app_nil_r. reflexivity.
  - cbn [for_fold] in Hrun. unfold bind at 1 in Hrun.
    unfold write_back_one at 1 in Hrun.
    destruct (pc !! ct) as [c|] eqn:Hc;
      [|cbn in Hrun; inversion Hrun; subst; split; [reflexivity|intros ? [=]]].
    destruct (aic !! ct) as [a|] eqn:Ha;
      [|cbn in Hrun; inversion Hrun; subst; split; [reflexivity|intros ? [=]]].
    cbn [bind ret] in Hrun. unfold bind at 1 in Hrun.
    rewrite (HG c a eq_refl eq_refl) in Hrun.
    match type of Hrun with
    | context [if ?b then add_warning ?m ?k else ret tt] =>
        destruct b;
        [ pose proof (add_warning_data m k h) as [Hd Hr];
          destruct (add_warning m k h) as [rw hw]; cbn in Hd, Hr; subst rw
        | ]
    end; cbn in Hrun; apply IH in Hrun as [Hdata Hres].
    + split; [congruence|]. intros x Hx. rewrite (Hres x Hx).
      rewrite <- app_assoc. reflexivity.
    + split; [exact Hdata|]. intros x Hx. rewrite (Hres x Hx).
      rewrite <- app_assoc. reflexivity.
Qed.

Lemma write_back_all pc aic (G : string -> string -> Z)
    (products : dict (list Product)) :
  (forall ct c a, pc !! ct = Some c -> aic !! ct = Some a ->
     forall nm, default 0 (c !! nm) + a = G ct nm) ->
  forall acc h r h',
    for_fold products acc (fun acc '(ct, prods) =>
      let* prods' := for_fold prods [] (write_back_one pc aic ct) in
      ret (acc ++ [(ct, prods')])%list) h = (r, h') ->
    data h' = data h /\
    forall x, r = Returned x ->
      x = (acc ++ map (fun '(ct, prods) =>
                         (ct, map (fun p => set_current_count (G ct (name p)) p) prods))
                      products)%list.
Proof.
  intros HG. induction products as [|[ct prods] products IH];
    intros acc h r h' Hrun.
  - cbn in Hrun. inversion Hrun; subst. split; [reflexivity|].
    intros x [= <-]. rewrite app_nil_r. reflexivity.
  - cbn [for_fold] in Hrun. unfold bind at 1 in Hrun. unfold bind at 1 in Hrun.
    destruct (for_fold prods [] (write_back_one pc aic ct) h) as [rp hp] eqn:Hp.
    apply (write_back_products pc aic ct (G ct)) in Hp as [Hdp Hrp];
      [|intros c a Hc Ha nm; exact (HG ct c a Hc Ha nm)].
    destruct rp as [prods'|e].
    + cbn in Hrun. apply IH in Hrun as [Hdata Hres].
      split; [congruence|]. intros x Hx. rewrite (Hres x Hx).
      rewrite (Hrp prods' eq_refl). cbn [app]. rewrite <- app_assoc. reflexivity.
    + cbn in Hrun. inversion Hrun; subst. split; [exact Hdp|]. intros x [=].
Qed.

(** [_validate_product_counts] either returns [True] with the data
    reconciled, or raises with the data as it was. *)
Lemma validate_product_counts_spec h r h' :
  _validate_product_counts h = (r, h') ->
  (r = Returned true /\ data h' = reconcile (data h))
  \/ (exists e, r = Raised e /\ data h' = data h).
Proof.
  unfold _validate_product_counts. unfold bind at 1. cbn [get_data].
  unfold bind at 1.
  destruct (for_fold (md_images (data h)) _ _ h) as [rc hc] eqn:Hpass.
  apply count_pass_spec in Hpass as [-> Hcounts].
  destruct rc as [pc|e]; [|intros [= <- <-]; right; eauto].
  specialize (Hcounts pc eq_refl).
  unfold bind at 1.
  match goal with
  | |- context [for_fold (md_products (data h)) [] ?body h] =>
      destruct (for_fold (md_products (data h)) [] body h) as [rw hw] eqn:Hwb
  end.
  eapply (write_back_all pc _ (reconciled_count (md_images (data h)))) in Hwb.
  - destruct Hwb as [Hdata Hres]. destruct rw as [products'|e].
    + cbn. intros [= <- <-]. left. split; [reflexivity|]. cbn.
      rewrite (Hres products' eq_refl). reflexivity.
    + intros [= <- <-]. right. eauto.
  - intros ct c a Hc Ha nm. specialize (Hcounts ct).
    rewrite (foldl_insert_lookup (fun _ => ∅)) in Hcounts.
    rewrite (foldl_insert_lookup (count_all_images (md_images (data h)))) in Ha.
    destruct (bool_decide (ct ∈ keys (md_products (data h)))).
    + destruct Hcounts as (c' & Hc' & Hcount). rewrite Hc in Hc'.
      injection Hc' as <-. injection Ha as <-. rewrite Hcount.
      rewrite lookup_empty. cbn [default from_option].
      rewrite count_all_images_assigned. unfold reconciled_count. unfold id. lia.
    + rewrite lookup_empty in Ha. discriminate.
Qed.
End CountReconciliation.

(** ** What a call of [validate] does to the data *)
Section ValidateData.
Context `{Python} `{Collaborators} {FS : Type} `{FileSystem FS}.
Variable strict : bool.
Variable base_path : string.
Variable fs : FS.

Definition data_is (d : Metadata) (h : Heap) : Prop := data h = d.

Lemma data_is_errors d h msgs :
  data_is d h ->
  data_is d {| errors := errors h ++ msgs; warnings := warnings h;
               seen_warnings := seen_warnings h; data := data h |}.
Proof. intros Hd. exact Hd. Qed.

Lemma data_is_warning d h msg key :
  data_is d h -> key ∉ seen_warnings h ->
  data_is d {| errors := errors h; warnings := warnings h ++ [msg];
               seen_warnings := seen_warnings h ∪ {[ key ]}; data := data h |}.
Proof. intros Hd _. exact Hd. Qed.

(** The loop over validators all of which, except the last, leave the data
    alone: either the last one was not reached and the data is as before, or
    it ran from a heap with the data as before. *)
Lemma validators_loop_data (d : Metadata) (last : M Heap bool) :
  forall (vs : list (M Heap bool)),
    Forall (preserves (data_is d)) vs ->
    forall valid h r h',
      data h = d ->
      for_fold_ret (vs ++ [last]) valid (validator_step strict) h = (r, h') ->
      (forall b, r = Returned (inr b) -> b = false) /\
      exists h6, data h6 = d /\
        ((h' = h6 /\ r <> Returned (inl true))
         \/ (exists rl, last h6 = (rl, h')
                        /\ (r = Returned (inl true) -> rl = Returned true))).
Proof.
  induction vs as [|v vs IH]; intros Hvs valid h r h' Hd Hrun.
  - cbn [app for_fold_ret] in Hrun. unfold bind at 1, validator_step in Hrun.
    unfold bind at 1 in Hrun.
    destruct (last h) as [[ok|e] h1] eqn:Hlast.
    + destruct ok; cbn in Hrun.
      * inversion Hrun; subst. split; [intros b [=]|].
        exists h. split; [reflexivity|]. right. exists (Returned true).
        split; [exact Hlast|reflexivity].
      * destruct strict; cbn in Hrun; inversion Hrun; subst;
          (split; [intros b [= <-]; reflexivity || intros b [=]|]);
          exists h; (split; [reflexivity|]); right; exists (Returned false);
          (split; [exact Hlast|intros [=]]).
    + cbn in Hrun. inversion Hrun; subst. split; [intros b [=]|].
      exists h. split; [reflexivity|]. right. exists (Raised e).
      split; [exact Hlast|intros [=]].
  - inversion Hvs as [|? ? Hv Hvs']; subst.
    cbn [app for_fold_ret] in Hrun. unfold bind at 1, validator_step in Hrun.
    unfold bind at 1 in Hrun.
    pose proof (Hv h eq_refl) as Hd1. unfold data_is in Hd1.
    destruct (v h) as [[ok|e] h1] eqn:Hvh; cbn [snd] in Hd1.
    + destruct ok; cbn in Hrun.
      * eapply IH; eauto.
      * destruct strict; cbn in Hrun.
        -- inversion Hrun; subst. split; [intros b [= <-]; reflexivity|].
           exists h'. split; [exact Hd1|]. left.
           split; [reflexivity|intros [=]].
        -- eapply IH; eauto.
    + cbn in Hrun. inversion Hrun; subst. split; [intros b [=]|].
      exists h'. split; [exact Hd1|].
      left. split; [reflexivity|intros [=]].
Qed.

(** A call of [validate] changes the data only through the count
    reconciliation, which runs, if at all, on the data it was called with;
    and it answers [True] only when the reconciliation did. *)
Lemma validate_data content_types products h r h' :
  validate strict base_path fs content_types products h = (r, h') ->
  (data h' = data h /\ r <> Returned true)
  \/ (exists h6 rl hl, data h6 = data h
        /\ _validate_product_counts h6 = (rl, hl)
        /\ data h' = data hl
        /\ (r = Returned true -> rl = Returned true /\ h' = hl)).
Proof.
  unfold validate. unfold bind at 1. cbn [modify fst snd].
  unfold bind at 1. cbn [get_data data].
  case_bool_decide as Hkeys; cbn [negb].
  2:{ cbn. intros [= <- <-]. left. split; [reflexivity|intros [=]]. }
  unfold bind at 1. unfold run_validators.
  match goal with
  | |- context [for_fold_ret ?l true _ ?h0] =>
      destruct (for_fold_ret l true (validator_step strict) h0) as [rr hr] eqn:Hloop
  end.
  change [ _validate_content_types content_types;
           _validate_products strict base_path fs products;
           _validate_structure fs;
           _validate_images strict fs;
           _validate_untagged strict fs;
           _validate_settings;
           _validate_product_counts ]
    with ([ _validate_content_types content_types;
            _validate_products strict base_path fs products;
            _validate_structure fs;
            _validate_images strict fs;
            _validate_untagged strict fs;
            _validate_settings ] ++ [ _validate_product_counts ])%list in Hloop.
  apply (validators_loop_data (data h)) in Hloop; [|
    repeat constructor;
    [ apply preserves_validate_content_types
    | apply preserves_validate_products
    | apply preserves_validate_structure
    | apply preserves_validate_images
    | apply preserves_validate_untagged
    | apply preserves_validate_settings ];
    auto using data_is_errors, data_is_warning | reflexivity].
  destruct Hloop as (Hinr & h6 & Hd6 & Hcases).
  intros Hfin.
  assert (Hend : data h' = data hr /\ (r = Returned true -> h' = hr /\ rr = Returned (inl true))).
  { destruct rr as [[valid|b]|e]; cbn in Hfin.
    - unfold bind in Hfin. cbn in Hfin.
      destruct (strict && negb (bool_decide (warnings hr = []))); cbn in Hfin.
      + inversion Hfin; subst. split; [reflexivity|intros [=]].
      + destruct valid; cbn in Hfin; inversion Hfin; subst;
          (split; [reflexivity|]); [intros _; split; reflexivity|intros [=]].
    - inversion Hfin; subst. split; [reflexivity|].
      intros [= ->]. specialize (Hinr true eq_refl). discriminate.
    - inversion Hfin; subst. split; [reflexivity|intros [=]]. }
  destruct Hend as [Hdata Htrue].
  destruct Hcases as [[-> Hr]|(rl & Hlast & Hrl)].
  - left. split; [congruence|]. intros ->. destruct (Htrue eq_refl) as [_ ->].
    apply Hr. reflexivity.
  - right. exists h6, rl, hr. split; [exact Hd6|]. split; [exact Hlast|].
    split; [exact Hdata|]. intros ->. destruct (Htrue eq_refl) as [-> ->].
    split; [apply Hrl; reflexivity|reflexivity].
Qed.

(** [validate] starts by clearing the validator's lists: what it does
    depends on the heap only through the data. *)
Lemma validate_reset content_types products h1 h2 :
  data h1 = data h2 ->
  validate strict base_path fs content_types products h1
  = validate strict base_path fs content_types products h2.
Proof.
  intros Hd. unfold validate. unfold bind at 1. unfold bind at 3.
  cbn [modify fst snd]. rewrite Hd. reflexivity.
Qed.

(** A successful call leaves the data reconciled. *)
Lemma validate_true_reconciles content_types products h h' :
  validate strict base_path fs content_types products h = (Returned true, h') ->
  data h' = reconcile (data h).
Proof.
  intros Hrun. apply validate_data in Hrun as [[_ Hne]|(h6 & rl & hl & Hd6 & Hpc & Hd & Htrue)].
  - exfalso. apply Hne. reflexivity.
  - destruct (Htrue eq_refl) as [-> ->].
    apply validate_product_counts_spec in Hpc as [[_ Hrec]|(e & [=] & _)].
    rewrite Hrec, Hd6. reflexivity.
Qed.
End ValidateData.

(** ** Invariants that do not look at the data either *)

Ltac heap_inv_step :=
  first
    [ apply preserves_add_error; solve [eauto]
    | apply preserves_extend_errors; solve [eauto]
    | apply preserves_add_warning; solve [eauto]
    | apply preserves_get_data
    | apply preserves_reject; solve [eauto]
    | preserves_step ].

Section ValidateInvariant.
Context `{Python} `{Collaborators} {FS : Type} `{FileSystem FS}.
Variable I : Heap -> Prop.
Hypothesis I_errors : forall h msgs,
  I h ->
  I {| errors := errors h ++ msgs; warnings := warnings h;
       seen_warnings := seen_warnings h; data := data h |}.
Hypothesis I_warning : forall h msg key,
  I h -> key ∉ seen_warnings h ->
  I {| errors := errors h; warnings := warnings h ++ [msg];
       seen_warnings := seen_warnings h ∪ {[ key ]}; data := data h |}.
Hypothesis I_data : forall h d,
  I h ->
  I {| errors := errors h; warnings := warnings h;
       seen_warnings := seen_warnings h; data := d |}.

Variable strict : bool.
Variable base_path : string.
Variable fs : FS.

Lemma preserves_put_data d : preserves I (put_data d).
Proof. intros h Hh. apply I_data, Hh. Qed.

Lemma preserves_validate_product_counts :
  preserves I _validate_product_counts.
Proof.
  unfold _validate_product_counts, write_back_one, count_image, count_one.
  repeat first [apply preserves_put_data | heap_inv_step].
Qed.

(** From freshly cleared lists, [validate] ends in a heap satisfying the
    invariant. *)
Lemma validate_invariant content_types products h :
  I {| errors := []; warnings := []; seen_warnings := ∅; data := data h |} ->
  I (snd (validate strict base_path fs content_types products h)).
Proof.
  intros Hreset. unfold validate. unfold bind at 1. cbn [modify fst snd].
  revert Hreset.
  match goal with
  | |- I ?h0 -> I (snd (?m ?h0)) => change (preserves I m h0) ||
      (intros Hreset; assert (Hp : preserves I m); [|exact (Hp h0 Hreset)])
  end.
  unfold run_validators, validator_step.
  repeat first
    [ apply preserves_validate_content_types; solve [eauto]
    | apply preserves_validate_products; solve [eauto]
    | apply preserves_validate_structure; solve [eauto]
    | apply preserves_validate_images; solve [eauto]
    | apply preserves_validate_untagged; solve [eauto]
    | apply preserves_validate_settings; solve [eauto]
    | apply preserves_validate_product_counts
    | progress cbn [for_fold_ret]
    | heap_inv_step ].
Qed.
End ValidateInvariant.

(** * The claims *)

(** ** C4: the key-order check *)

(** The one error a payload with misordered keys is rejected with. *)
Definition key_order_error `{Python} : string :=
  "Metadata keys are not in correct order. Expected: "
  +:+ repr_list REQUIRED_KEYS_ORDER.

(** C4.  A payload whose top-level keys are not exactly
    [content_types, products, structure, images, untagged, settings], in that
    order, is rejected at once, in strict and in non-strict mode alike:
    [validate] returns [False] with the key-order error as its only error, no
    warning, and the data untouched, whatever the files, the expected content
    types and the expected products are (no other check has run); and [load],
    finding such a payload in metadata.json, returns [False], passes that one
    error on and does not install an editor. *)
Theorem C4_key_order_rejected_first
    `{Python} `{Collaborators} {FS : Type} `{FileSystem FS}
    (payload : Metadata) (strict : bool) (base_path : string) :
  md_keys payload <> REQUIRED_KEYS_ORDER ->
  (forall (fs : FS) content_types products h,
      data h = payload ->
      validate strict base_path fs content_types products h
      = (Returned false,
         {| errors := [key_order_error]; warnings := [];
            seen_warnings := ∅; data := payload |}))
  /\ (forall self_strict content_types products (st : Store FS),
        fs_exists (disk st) (path_join base_path "metadata.json") = true ->
        fs_read_json (disk st) (path_join base_path "metadata.json")
        = Returned payload ->
        load self_strict base_path content_types products (Some strict) st
        = (Returned false,
           {| self_data := payload;
              self_warnings := self_warnings st;
              self_errors := self_errors st ++ [key_order_error];
              has_editor := has_editor st;
              disk := disk st |})).
Proof.
  intros Hkeys.
  assert (Hvalidate : forall (fs : FS) content_types products h,
    data h = payload ->
    validate strict base_path fs content_types products h
    = (Returned false,
       {| errors := [key_order_error]; warnings := [];
          seen_warnings := ∅; data := payload |})).
  { intros fs cts prods h Hd. unfold validate.
    unfold bind at 1. cbn [modify fst snd]. unfold bind at 1.
    cbn [get_data data]. rewrite Hd.
    rewrite bool_decide_eq_false_2 by exact Hkeys. reflexivity. }
  split; [exact Hvalidate|].
  intros self_strict cts prods st Hexists Hread.
  unfold load, bind, get, try_except. rewrite Hexists, Hread.
  cbn [default from_option].
  rewrite Hvalidate by reflexivity.
  cbn. rewrite app_nil_r. reflexivity.
Qed.

(** A payload with the first two keys swapped, on the fixture's disk. *)
Definition misordered_payload : Metadata :=
  {| md_keys := ["products"; "content_types"; "structure"; "images";
                 "untagged"; "settings"];
     md_content_types := md_content_types Fixture.hook_metadata;
     md_products := md_products Fixture.hook_metadata;
     md_structure := md_structure Fixture.hook_metadata;
     md_images := md_images Fixture.hook_metadata;
     md_untagged := md_untagged Fixture.hook_metadata;
     md_settings := md_settings Fixture.hook_metadata |}.

Definition misordered_store : Store Fixture.Disk :=
  {| self_data := Fixture.hook_metadata;
     self_warnings := [];
     self_errors := [];
     has_editor := false;
     disk := {| Fixture.present := ["/base/metadata.json"];
                Fixture.sizes := [];
                Fixture.json_files := [("/base/metadata.json", misordered_payload)] |} |}.

Lemma C4_witness :
  @validate Fixture.python Fixture.collaborators _ Fixture.file_system
    true "/base" Fixture.hook_disk ["hook"] [("hook", ["all"; "magnesium"])]
    (Fixture.fresh_heap misordered_payload)
  = (Returned false,
     {| errors := [@key_order_error Fixture.python]; warnings := [];
        seen_warnings := ∅; data := misordered_payload |})
  /\ @load Fixture.python Fixture.collaborators _ Fixture.file_system
       false "/base" ["hook"] [("hook", ["all"; "magnesium"])] (Some true)
       misordered_store
     = (Returned false,
        {| self_data := misordered_payload;
           self_warnings := [];
           self_errors := [@key_order_error Fixture.python];
           has_editor := false;
           disk := disk misordered_store |}).
Proof.
  assert (Hkeys : md_keys misordered_payload <> REQUIRED_KEYS_ORDER)
    by discriminate.
  destruct (@C4_key_order_rejected_first
              Fixture.python Fixture.collaborators _ Fixture.file_system
              misordered_payload true "/base" Hkeys) as [Hv Hl].
  split.
  - apply Hv. reflexivity.
  - apply (Hl false ["hook"] [("hook", ["all"; "magnesium"])] misordered_store);
      reflexivity.
Defined.

(** ** C1: the count reconciliation *)

(** The count the claim states: the images assigned exactly the product plus
    the images assigned 'all'. *)
Definition claimed_count (imgs : dict Image) (ct nm : string) : Z :=
  count_assigned imgs ct nm + count_assigned imgs ct "all".

Lemma reconciled_count_ordinary imgs ct nm :
  nm <> "" -> nm <> "all" ->
  reconciled_count imgs ct nm = claimed_count imgs ct nm.
Proof.
  intros Hne Hna. unfold reconciled_count, claimed_count, str_truthy.
  apply String.eqb_neq in Hne, Hna. rewrite Hne, Hna. reflexivity.
Qed.

Lemma reconciled_count_all imgs ct :
  reconciled_count imgs ct "all" = count_assigned imgs ct "all".
Proof. unfold reconciled_count. cbn. reflexivity. Qed.

Lemma in_reconcile_products imgs ps ct prods p :
  In (ct, prods) (reconcile_products imgs ps) -> In p prods ->
  current_count p = Some (reconciled_count imgs ct (name p)).
Proof.
  unfold reconcile_products. intros Hin Hp.
  apply in_map_iff in Hin as ([ct0 prods0] & [= <- <-] & _).
  apply in_map_iff in Hp as (p0 & <- & _). reflexivity.
Qed.

(** C1 (as the code has it).  When [validate] succeeds, the data it leaves
    is the data it was given with every product's [current_count]
    overwritten, whatever was stored, by the recomputed value: for a product
    whose name is neither empty nor 'all', the number of images of its content
    type assigned exactly that product plus the number of that content type's
    images assigned 'all'; for a product named 'all' (or with an empty name),
    the number of 'all' images alone, each counted once.  Nothing else in the
    data changes. *)
Theorem C1_validate_reconciles_counts
    `{Python} `{Collaborators} {FS : Type} `{FileSystem FS}
    (strict : bool) (base_path : string) (fs : FS)
    (content_types : list string) (products : dict (list string))
    (h h' : Heap) :
  validate strict base_path fs content_types products h = (Returned true, h') ->
  data h' = reconcile (data h)
  /\ (forall ct prods p,
        In (ct, prods) (md_products (data h')) -> In p prods ->
        current_count p
        = Some (reconciled_count (md_images (data h)) ct (name p))
        /\ (name p <> "" -> name p <> "all" ->
            current_count p
            = Some (claimed_count (md_images (data h)) ct (name p)))
        /\ (name p = "all" ->
            current_count p
            = Some (count_assigned (md_images (data h)) ct "all"))).
Proof.
  intros Hrun. apply validate_true_reconciles in Hrun.
  split; [exact Hrun|].
  intros ct prods p Hin Hp. rewrite Hrun in Hin. cbn in Hin.
  pose proof (in_reconcile_products _ _ _ _ _ Hin Hp) as Hc.
  split; [exact Hc|]. split.
  - intros Hne Hna. rewrite Hc. f_equal.
    apply reconciled_count_ordinary; assumption.
  - intros Hall. rewrite Hc, Hall, reconciled_count_all. reflexivity.
Qed.

(** The heap [validate] leaves on the fixture, in non-strict mode. *)
Definition hook_heap_validated : Heap := snd (Fixture.validate_hook false).

Lemma validate_hook_succeeds :
  Fixture.validate_hook false = (Returned true, hook_heap_validated).
Proof. vm_compute. reflexivity. Qed.

Lemma C1_witness :
  Fixture.validate_hook false = (Returned true, hook_heap_validated)
  /\ data hook_heap_validated = reconcile Fixture.hook_metadata
  /\ (forall ct prods p,
        In (ct, prods) (md_products (data hook_heap_validated)) -> In p prods ->
        current_count p
        = Some (reconciled_count (md_images Fixture.hook_metadata) ct (name p))
        /\ (name p <> "" -> name p <> "all" ->
            current_count p
            = Some (claimed_count (md_images Fixture.hook_metadata) ct (name p)))
        /\ (name p = "all" ->
            current_count p
            = Some (count_assigned (md_images Fixture.hook_metadata) ct "all"))).
Proof.
  assert (Hrun : Fixture.validate_hook false = (Returned true, hook_heap_validated))
    by (vm_compute; reflexivity).
  split; [exact Hrun|].
  exact (@C1_validate_reconciles_counts
           Fixture.python Fixture.collaborators _ Fixture.file_system
           false "/base" Fixture.hook_disk ["hook"]
           [("hook", ["all"; "magnesium"])]
           (Fixture.fresh_heap Fixture.hook_metadata) hook_heap_validated
           Hrun).
Defined.

(** On the fixture (one image tagged 'all', one tagged 'magnesium', both
    products declared) [validate] succeeds and stores 1 for the declared
    product 'all', where the claim's sum is 2. *)
Lemma C1_counterexample :
  exists h' p,
    Fixture.validate_hook false = (Returned true, h')
    /\ In ("hook", [Fixture.product_of "all" false 0 1; p])
          (md_products (data h'))
    /\ current_count (Fixture.product_of "all" false 0 1) = Some 1
    /\ claimed_count (md_images Fixture.hook_metadata) "hook" "all" = 2.
Proof.
  exists hook_heap_validated, (Fixture.product_of "magnesium" false 0 2).
  split; [exact validate_hook_succeeds|].
  split; [vm_compute; left; reflexivity|].
  split; reflexivity.
Qed.

(** ** C5: validating twice *)

Lemma set_current_count_stored c p :
  current_count p = Some c -> set_current_count c p = p.
Proof. destruct p as [n pd mo cc]. cbn. intros ->. reflexivity. Qed.

(** Reconciling data whose counts are reconciled changes nothing. *)
Lemma reconcile_reconciled d : counts_reconciled d -> reconcile d = d.
Proof.
  intros Hcounts. destruct d as [ks cts ps st imgs unt sets].
  unfold reconcile, set_products. cbn [md_keys md_content_types md_products
    md_structure md_images md_untagged md_settings] in *.
  f_equal. unfold counts_reconciled in Hcounts. cbn in Hcounts.
  unfold reconcile_products.
  rewrite <- (map_id ps) at 2. apply map_ext_in.
  intros [ct prods] Hin. f_equal.
  rewrite <- (map_id prods) at 2. apply map_ext_in.
  intros p Hp. apply set_current_count_stored. eapply Hcounts; eassumption.
Qed.

(** Every recorded warning has a key of its own in [seen_warnings]. *)
Definition one_key_per_warning (h : Heap) : Prop :=
  size (seen_warnings h) = length (warnings h).

Lemma one_key_per_warning_errors h msgs :
  one_key_per_warning h ->
  one_key_per_warning
    {| errors := errors h ++ msgs; warnings := warnings h;
       seen_warnings := seen_warnings h; data := data h |}.
Proof. intros Hh. exact Hh. Qed.

Lemma one_key_per_warning_warning h msg key :
  one_key_per_warning h -> key ∉ seen_warnings h ->
  one_key_per_warning
    {| errors := errors h; warnings := warnings h ++ [msg];
       seen_warnings := seen_warnings h ∪ {[ key ]}; data := data h |}.
Proof.
  unfold one_key_per_warning. cbn. intros Hh Hkey.
  rewrite length_app. cbn [length].
  rewrite size_union by set_solver. rewrite size_singleton. lia.
Qed.

Lemma one_key_per_warning_data h d :
  one_key_per_warning h ->
  one_key_per_warning
    {| errors := errors h; warnings := warnings h;
       seen_warnings := seen_warnings h; data := d |}.
Proof. intros Hh. exact Hh. Qed.

(** A second warning under a key already seen is dropped. *)
Lemma add_warning_same_key msg msg' key h :
  snd (add_warning msg' (Some key) (snd (add_warning msg (Some key) h)))
  = snd (add_warning msg (Some key) h).
Proof.
  unfold add_warning, modify. cbn [snd].
  destruct (decide (key ∈ seen_warnings h)) as [Hin|Hnin].
  - rewrite (bool_decide_eq_true_2 _ Hin).
    rewrite (bool_decide_eq_true_2 _ Hin). reflexivity.
  - rewrite (bool_decide_eq_false_2 _ Hnin). cbn [seen_warnings].
    rewrite bool_decide_eq_true_2 by set_solver. reflexivity.
Qed.

(** C5.  For valid metadata (validation succeeds, and the stored counts are
    the reconciled ones, invariant 3) the call leaves the data as it was, and
    validating it again, from whatever the validator's lists hold by then,
    ends in the very same heap: the same result, the same warnings and
    errors.  The lists are cleared at the start of a call, so nothing is
    carried over.  Within a call no key is recorded twice: there are as many
    seen keys as warnings, and a warning under a key already seen (as
    "missing_product_<image>" is when the image check repeats what the product
    check reported) is dropped. *)
Theorem C5_revalidation_repeats_warnings
    `{Python} `{Collaborators} {FS : Type} `{FileSystem FS}
    (strict : bool) (base_path : string) (fs : FS)
    (content_types : list string) (products : dict (list string))
    (h1 h1' : Heap) :
  validate strict base_path fs content_types products h1 = (Returned true, h1') ->
  counts_reconciled (data h1) ->
  data h1' = data h1
  /\ (forall h2 r2 h2',
        data h2 = data h1' ->
        validate strict base_path fs content_types products h2 = (r2, h2') ->
        r2 = Returned true /\ warnings h2' = warnings h1'
        /\ errors h2' = errors h1' /\ data h2' = data h1')
  /\ validate strict base_path fs content_types products h1'
     = (Returned true, h1')
  /\ one_key_per_warning h1'
  /\ (forall msg msg' key h,
        snd (add_warning msg' (Some key) (snd (add_warning msg (Some key) h)))
        = snd (add_warning msg (Some key) h)).
Proof.
  intros Hrun Hcounts.
  assert (Hdata : data h1' = data h1).
  { rewrite (validate_true_reconciles _ _ _ _ _ _ _ Hrun).
    apply reconcile_reconciled, Hcounts. }
  assert (Hagain : forall h2, data h2 = data h1' ->
            validate strict base_path fs content_types products h2
            = (Returned true, h1')).
  { intros h2 Hd2. rewrite <- Hrun. apply validate_reset. congruence. }
  split; [exact Hdata|]. split; [|split; [|split]].
  - intros h2 r2 h2' Hd2 Hrun2. rewrite (Hagain h2 Hd2) in Hrun2.
    injection Hrun2 as <- <-. repeat split; reflexivity.
  - apply Hagain. reflexivity.
  - pose proof (validate_invariant one_key_per_warning
                  one_key_per_warning_errors one_key_per_warning_warning
                  one_key_per_warning_data strict base_path fs
                  content_types products h1) as Hinv.
    rewrite Hrun in Hinv. apply Hinv. reflexivity.
  - intros msg msg' key h. apply add_warning_same_key.
Qed.

(** The heap [validate] leaves on the specification's example (two images
    assigned to "magnesium", a third without product), in non-strict mode:
    one warning, reported by the product check and not repeated by the image
    check. *)
Definition magnesium_heap_validated : Heap :=
  snd (Fixture.validate_magnesium false).

Lemma C5_witness :
  (Fixture.validate_magnesium false = (Returned true, magnesium_heap_validated)
   /\ counts_reconciled Fixture.magnesium_metadata)
  /\ warnings magnesium_heap_validated
     = ["Image 3h.png has no product assigned. Valid products: ['magnesium']"]
  /\ data magnesium_heap_validated = Fixture.magnesium_metadata
  /\ @validate Fixture.python Fixture.collaborators _ Fixture.file_system
       false "/base" Fixture.magnesium_disk ["hook"] [("hook", ["magnesium"])]
       magnesium_heap_validated
     = (Returned true, magnesium_heap_validated)
  /\ one_key_per_warning magnesium_heap_validated.
Proof.
  assert (Hrun : Fixture.validate_magnesium false
                 = (Returned true, magnesium_heap_validated))
    by (vm_compute; reflexivity).
  assert (Hcounts : counts_reconciled Fixture.magnesium_metadata).
  { intros ct prods p [[= <- <-]|[]] [<-|[]]; vm_compute; reflexivity. }
  split; [split; [exact Hrun|exact Hcounts]|].
  split; [vm_compute; reflexivity|].
  destruct (@C5_revalidation_repeats_warnings
              Fixture.python Fixture.collaborators _ Fixture.file_system
              false "/base" Fixture.magnesium_disk ["hook"]
              [("hook", ["magnesium"])]
              (Fixture.fresh_heap Fixture.magnesium_metadata)
              magnesium_heap_validated
              Hrun Hcounts) as (Hdata & _ & Hagain & Hkeys & _).
  split; [exact Hdata|]. split; [exact Hagain|exact Hkeys].
Defined.

(** ** C6: moving an untagged image *)

(** The four preconditions of [move_untagged_image]: the image is in the
    untagged list, the target content type is a declared one (with its folder
    recorded in [structure]), the source file exists in the base folder, and
    no file of that name exists in the target folder. *)
Definition move_preconditions `{Python} {FS : Type} `{FileSystem FS}
    (w : World FS) (image_name target_content_type : string) : Prop :=
  image_name ∈ md_untagged (metadata w)
  /\ target_content_type ∈ md_content_types (metadata w)
  /\ exists info,
       dict_get target_content_type (md_structure (metadata w)) = Some info
       /\ fs_exists (files w) (path_join (path_parent (path info)) image_name)
          = true
       /\ fs_exists (files w) (path_join (path info) image_name) = false.

(** C6.  [move_untagged_image] tests its preconditions before it renames the
    file: when one of them fails, it raises a [ValueError] ("Failed to move
    image: ...") and the metadata and the file system are exactly as before;
    and whenever a call changes the metadata or the files, all the
    preconditions held when it started. *)
Theorem C6_move_checks_before_rename
    `{Python} {FS : Type} `{FileSystem FS}
    (w : World FS) (image_name target_content_type : string) :
  (~ move_preconditions w image_name target_content_type ->
   exists reason,
     move_untagged_image image_name target_content_type w
     = (Raised (ValueError ("Failed to move image: " +:+ reason)), w))
  /\ (forall r w',
        move_untagged_image image_name target_content_type w = (r, w') ->
        w' <> w -> move_preconditions w image_name target_content_type).
Proof.
  assert (Hcases :
    move_preconditions w image_name target_content_type
    \/ exists reason,
         move_untagged_image image_name target_content_type w
         = (Raised (ValueError ("Failed to move image: " +:+ reason)), w)).
  { unfold move_preconditions, move_untagged_image, try_except,
      move_untagged_image_body.
    unfold bind at 1. cbn [get].
    destruct (decide (image_name ∈ md_untagged (metadata w))) as [Hin|Hnin].
    2:{ rewrite (bool_decide_eq_false_2 _ Hnin). cbn. right.
        eexists. reflexivity. }
    rewrite (bool_decide_eq_true_2 _ Hin). cbn [negb].
    destruct (decide (target_content_type ∈ md_content_types (metadata w)))
      as [Hct|Hnct].
    2:{ rewrite (bool_decide_eq_false_2 _ Hnct). cbn. right.
        eexists. reflexivity. }
    rewrite (bool_decide_eq_true_2 _ Hct). cbn [negb].
    unfold bind at 1. unfold dict_item.
    destruct (dict_get target_content_type (md_structure (metadata w)))
      as [info|] eqn:Hinfo.
    2:{ cbn. right. eexists. reflexivity. }
    cbn [ret].
    destruct (fs_exists (files w)
                (path_join (path_parent (path info)) image_name))
      eqn:Hsrc; cbn [negb].
    2:{ cbn. right. eexists. reflexivity. }
    destruct (fs_exists (files w) (path_join (path info) image_name)) eqn:Hdest.
    { cbn. right. eexists. reflexivity. }
    left. eauto 10. }
  split.
  - intros Hnot. destruct Hcases as [Hpre|Hraise]; [contradiction|exact Hraise].
  - intros r w' Hrun Hne. destruct Hcases as [Hpre|[reason Hraise]];
      [exact Hpre|].
    rewrite Hraise in Hrun. injection Hrun as _ <-. contradiction.
Qed.

(** A world in which nothing is untagged. *)
Definition hook_world : World Fixture.Disk :=
  {| metadata := Fixture.hook_metadata; files := Fixture.hook_disk |}.

Lemma C6_witness :
  ~ @move_preconditions Fixture.python _ Fixture.file_system
      hook_world "9h.png" "hook"
  /\ exists reason,
       @move_untagged_image Fixture.python _ Fixture.file_system
         "9h.png" "hook" hook_world
       = (Raised (ValueError ("Failed to move image: " +:+ reason)), hook_world).
Proof.
  assert (Hnot : ~ @move_preconditions Fixture.python _ Fixture.file_system
                     hook_world "9h.png" "hook").
  { intros [Hin _]. cbn in Hin. inversion Hin. }
  split; [exact Hnot|].
  exact (proj1 (@C6_move_checks_before_rename
                  Fixture.python _ Fixture.file_system
                  hook_world "9h.png" "hook") Hnot).
Defined.

(** ** C7: [update_image_product] and the passed content type *)

(** Two content types declaring the same two products; the image a.png is a
    "hook" image assigned to p1. *)
Definition two_types_metadata : Metadata :=
  {| md_keys := REQUIRED_KEYS_ORDER;
     md_content_types := ["hook"; "cta"];
     md_products :=
       [("hook", [Fixture.product_of "p1" false 0 1;
                  Fixture.product_of "p2" false 0 0]);
        ("cta", [Fixture.product_of "p1" false 0 0;
                 Fixture.product_of "p2" false 0 0])];
     md_structure :=
       [("hook", {| path := "/base/hook"; images := ["a.png"] |});
        ("cta", {| path := "/base/cta"; images := [] |})];
     md_images := [("a.png", Fixture.image_of "hook" (Some "p1"))];
     md_untagged := [];
     md_settings := [("hook", [("content", JNull)]); ("cta", [("content", JNull)])] |}.

(** C7, at a stale content type.  The image a.png belongs to "hook" and is
    assigned to p1 (hook/p1 counts 1).  Called with the content type "cta"
    and the new product p2, [update_image_product] accepts p2 (it is a product
    of "hook", the image's actual content type) and sets the image's product,
    but moves the counts of "cta", the content type it was passed: cta/p1
    drops to -1 and cta/p2 rises to 1, while hook/p1 stays 1 and hook/p2
    stays 0. *)
Theorem C7_counts_follow_the_passed_content_type :
  exists md',
    @update_image_product Fixture.python "a.png" "cta" (Some "p2")
      two_types_metadata
    = (Returned tt, md')
    /\ md_products md'
       = [("hook", [Fixture.product_of "p1" false 0 1;
                    Fixture.product_of "p2" false 0 0]);
          ("cta", [Fixture.product_of "p1" false 0 (-1);
                   Fixture.product_of "p2" false 0 1])]
    /\ md_images md' = [("a.png", Fixture.image_of "hook" (Some "p2"))].
Proof.
  eexists. split; [vm_compute; reflexivity|]. split; reflexivity.
Qed.

(** With the content type the image really has, the same call moves the
    counts of "hook". *)
Example update_image_product_actual_content_type :
  exists md',
    @update_image_product Fixture.python "a.png" "hook" (Some "p2")
      two_types_metadata
    = (Returned tt, md')
    /\ md_products md'
       = [("hook", [Fixture.product_of "p1" false 0 0;
                    Fixture.product_of "p2" false 0 1]);
          ("cta", [Fixture.product_of "p1" false 0 0;
                   Fixture.product_of "p2" false 0 0])].
Proof.
  eexists. split; [vm_compute; reflexivity|]. reflexivity.
Qed.

(** ** C8: [edit_image] and the order of the untagged list *)

(** [l] is in ascending order and has no duplicates. *)
Definition sorted_nodup (l : list string) : Prop :=
  Sorted String.le l /\ NoDup l.

Definition untagged_z_metadata : Metadata :=
  {| md_keys := REQUIRED_KEYS_ORDER;
     md_content_types := ["hook"];
     md_products := [("hook", [Fixture.product_of "p1" false 0 1])];
     md_structure :=
       [("hook", {| path := "/base/hook"; images := ["a.png"] |})];
     md_images := [("a.png", Fixture.image_of "hook" (Some "p1"))];
     md_untagged := ["z.png"];
     md_settings := [("hook", [("content", JNull); ("[p1]", JNull)])] |}.

(** The update {"product": None}. *)
Definition clear_product : ImageUpdate :=
  {| upd_content_type := None;
     upd_dimensions := None;
     upd_product := Some None;
     upd_settings_source := None;
     upd_settings := None |}.

(** C8, at an image that sorts before an untagged one.  The untagged list is
    ["z.png"], sorted and without duplicates.  Clearing the product of a.png
    appends it: the list becomes ["z.png"; "a.png"], which has no duplicates
    but is no longer in ascending order. *)
Theorem C8_edit_image_appends_to_untagged :
  sorted_nodup (md_untagged untagged_z_metadata)
  /\ exists md',
       @edit_image "a.png" clear_product untagged_z_metadata = (Returned tt, md')
       /\ md_untagged md' = ["z.png"; "a.png"]
       /\ NoDup (md_untagged md')
       /\ ~ sorted_nodup (md_untagged md').
Proof.
  split.
  - split; [repeat constructor|].
    apply NoDup_cons. split; [set_solver|apply NoDup_nil; exact I].
  - eexists. split; [vm_compute; reflexivity|].
    split; [reflexivity|]. split.
    + cbn. apply NoDup_cons. split.
      * intros Hin. apply list_elem_of_singleton in Hin. discriminate.
      * apply NoDup_cons. split; [set_solver|apply NoDup_nil; exact I].
    + cbn. intros [Hsorted _].
      inversion Hsorted as [|? ? _ Hhd]; subst.
      inversion Hhd as [|? ? Hle]; subst.
      vm_compute in Hle. exact Hle.
Qed.

(** ** C9: [edit_settings] at product level *)

(** What the claim promises of a product-level call: it returns, and
    afterwards some group of the content type names the product and holds the
    new settings. *)
Definition product_settings_applied `{Python} (md : Metadata)
    (target : string) (blob : json) (content_type : string) : Prop :=
  exists md' groups key,
    edit_settings "product" target blob (Some content_type) md
    = (Returned tt, md')
    /\ dict_get content_type (md_settings md') = Some groups
    /\ dict_get key groups = Some blob
    /\ target ∈ group_products key.

(** C9 (as the code has it).  At product level [edit_settings] carries out
    no merge, split or creation of groups: given a content type it raises
    [NotImplementedError], given none (or an empty one) it raises
    [ValueError], and in both cases the store, its settings groups included,
    is left exactly as it was. *)
Theorem C9_product_level_not_implemented
    (md : Metadata) (target : string) (blob : json)
    (content_type : option string) :
  edit_settings "product" target blob content_type md
  = (Raised (if truthy content_type
             then NotImplementedError "Product level settings not implemented yet"
             else ValueError "content_type required for product level settings"),
     md).
Proof.
  unfold edit_settings. cbn [String.eqb Ascii.eqb Bool.eqb andb negb].
  destruct (truthy content_type); reflexivity.
Qed.

(** On the fixture, where "magnesium" sits in the group "[all, magnesium]",
    giving it settings of its own neither splits it off nor touches any
    group: the call raises. *)
Lemma C9_counterexample :
  edit_settings "product" "magnesium" Fixture.simple_blob
    (Some "hook") Fixture.hook_metadata
  = (Raised (NotImplementedError "Product level settings not implemented yet"),
     Fixture.hook_metadata)
  /\ ~ @product_settings_applied Fixture.python Fixture.hook_metadata
         "magnesium" Fixture.simple_blob "hook".
Proof.
  split; [reflexivity|].
  intros (md' & groups & key & Hrun & _). discriminate Hrun.
Qed.

(** * Facts about the generator *)
Section GeneratorFacts.
Context `{Python} `{Collaborators}.
Variable base_path : string.
Variable md : Metadata.
Variable rand : nat -> nat.

(** The image [img] has a record, and its product is [prod]. *)
Definition tagged (img prod : string) : Prop :=
  exists d, dict_get img (md_images md) = Some d /\ product d = Some prod.

Lemma tagged_functional img prod prod' :
  tagged img prod -> tagged img prod' -> prod = prod'.
Proof. intros (d & Hd & Hp) (d' & Hd' & Hp'). congruence. Qed.

(** The images of [all_images] tagged [prod], without the state: the list
    comprehension of [_get_available_images]. *)
Fixpoint eligible_images (all_images : list string) (prod : string)
  : result (list string) :=
  match all_images with
  | [] => Returned []
  | img :: rest =>
      match dict_get img (md_images md) with
      | None => Raised (KeyError img)
      | Some image_data =>
          match eligible_images rest prod with
          | Returned more =>
              Returned (if bool_decide (product image_data = Some prod)
                        then img :: more else more)
          | Raised e => Raised e
          end
      end
  end.

Lemma images_with_product_pure all_images prod g :
  images_with_product md all_images prod g
  = (eligible_images all_images prod, g).
Proof.
  induction all_images as [|img rest IH]; [reflexivity|].
  cbn [images_with_product eligible_images]. unfold bind at 1, dict_item.
  destruct (dict_get img (md_images md)) as [d|]; [|reflexivity].
  cbn [ret]. unfold bind. rewrite IH.
  destruct (eligible_images rest prod); reflexivity.
Qed.

Lemma eligible_images_sound all_images prod pool :
  eligible_images all_images prod = Returned pool ->
  forall img, img ∈ pool -> img ∈ all_images /\ tagged img prod.
Proof.
  revert pool. induction all_images as [|x rest IH]; intros pool Hel img Hin.
  - injection Hel as <-. inversion Hin.
  - cbn [eligible_images] in Hel.
    destruct (dict_get x (md_images md)) as [d|] eqn:Hd; [|discriminate].
    destruct (eligible_images rest prod) as [more|e]; [|discriminate].
    injection Hel as <-. case_bool_decide as Hp.
    + apply elem_of_cons in Hin as [->|Hin].
      * split; [left|]. exists d. split; assumption.
      * destruct (IH more eq_refl img Hin) as [Hr Ht]. split; [right; exact Hr|exact Ht].
    + destruct (IH more eq_refl img Hin) as [Hr Ht]. split; [right; exact Hr|exact Ht].
Qed.

(** Where every image carries another tag, nothing is eligible. *)
Lemma eligible_images_other_tag all_images other prod :
  (forall img, img ∈ all_images -> tagged img other) -> other <> prod ->
  eligible_images all_images prod = Returned [].
Proof.
  intros Hall Hne. induction all_images as [|x rest IH]; [reflexivity|].
  cbn [eligible_images].
  destruct (Hall x) as (d & Hd & Hp); [left|]. rewrite Hd.
  rewrite IH by (intros img Hin; apply Hall; right; exact Hin).
  rewrite bool_decide_eq_false_2 by congruence. reflexivity.
Qed.

(** [_should_prevent_duplicates] without the state. *)
Definition prevents (content_type product : string) : result bool :=
  match dict_get content_type (md_products md) with
  | None => Raised (KeyError content_type)
  | Some prods =>
      Returned
        (match List.find (fun prod_info =>
                            String.eqb (name prod_info) (strip_product product))
                         prods with
         | Some prod_info => prevent_duplicates prod_info
         | None => false
         end)
  end.

Lemma should_prevent_duplicates_pure content_type product g :
  _should_prevent_duplicates md content_type product g
  = (prevents content_type product, g).
Proof.
  unfold _should_prevent_duplicates, prevents, bind, dict_item.
  destruct (dict_get content_type (md_products md)); reflexivity.
Qed.

(** [used_images[content_type][product]] without the state. *)
Definition used_lookup (used : gmap string (gmap string (list string)))
    (content_type product : string) : result (list string) :=
  match used !! content_type with
  | None => Raised (KeyError content_type)
  | Some by_product =>
      match by_product !! product with
      | None => Raised (KeyError product)
      | Some l => Returned l
      end
  end.

Lemma used_for_pure content_type product g :
  used_for content_type product g
  = (used_lookup (used_images g) content_type product, g).
Proof.
  unfold used_for, used_lookup, bind, get.
  destruct (used_images g !! content_type) as [m|]; [|reflexivity].
  destruct (m !! product); reflexivity.
Qed.

Lemma strip_product_idempotent product :
  strip_product (strip_product product) = strip_product product.
Proof.
  unfold strip_product. destruct (str_truthy product) eqn:Hp.
  - destruct (str_truthy (strip product)); [apply strip_idempotent|reflexivity].
  - rewrite Hp. reflexivity.
Qed.

(** Building the pool reads the state and leaves it as it is. *)
Lemma get_available_images_state content_type product allow g :
  snd (_get_available_images md content_type product allow g) = g.
Proof.
  assert (Hp : preserves (eq g)
                 (_get_available_images md content_type product allow)).
  { unfold _get_available_images, add_product_images.
    repeat first
      [ match goal with
        | |- preserves _ (images_with_product _ _ _) =>
            intros ? <-; rewrite images_with_product_pure; reflexivity
        | |- preserves _ (_should_prevent_duplicates _ _ _) =>
            intros ? <-; rewrite should_prevent_duplicates_pure; reflexivity
        | |- preserves _ (used_for _ _) =>
            intros ? <-; rewrite used_for_pure; reflexivity
        end
      | preserves_step ]. }
  symmetry. apply Hp. reflexivity.
Qed.
End GeneratorFacts.

(** ** C3: settings resolution and the product of the slot *)

(** The level an image's [settings_source] pins holds no settings, as the
    specification words it: the image's own settings are null (custom), the
    "content" blob of its content type is null (content), or no group naming
    the product the image is assigned to holds non-null settings (product). *)
Definition assigned_level_null `{Python} (md : Metadata)
    (content_type : string) (img : Image) : Prop :=
  (settings_source img = "custom" /\ settings img = JNull)
  \/ (settings_source img = "content"
      /\ forall groups blob,
           dict_get content_type (md_settings md) = Some groups ->
           dict_get "content" groups = Some blob -> blob = JNull)
  \/ (settings_source img = "product"
      /\ forall assigned groups key blob,
           product img = Some assigned ->
           dict_get content_type (md_settings md) = Some groups ->
           In (key, blob) groups -> key <> "content" ->
           assigned ∈ group_products key -> blob = JNull).

Lemma is_None_true blob : is_None blob = true <-> blob = JNull.
Proof. destruct blob; cbn; split; congruence. Qed.

Lemma find_group_with_settings_none `{Python} product groups :
  (forall key blob, In (key, blob) groups -> key <> "content" ->
                    product ∈ group_products key -> blob = JNull) ->
  find_group_with_settings product groups = None.
Proof.
  induction groups as [|[key blob] rest IH]; intros Hnull; [reflexivity|].
  cbn [find_group_with_settings].
  rewrite IH by (intros k b Hin; apply Hnull; right; exact Hin).
  destruct (negb (key =? "content")%string) eqn:Hkey; [|reflexivity].
  case_bool_decide as Hmem; [|reflexivity].
  cbn [andb]. rewrite (Hnull key blob); [reflexivity|left; reflexivity| |exact Hmem].
  apply negb_true_iff, String.eqb_neq in Hkey. exact Hkey.
Qed.

(** Where the resolution is asked about the product the image is assigned
    to, it looks only at the level the image pins: when that level holds no
    settings, the call raises [ValueError] ("Failed to get settings for
    <image>: ...") and returns neither the default template nor the settings
    of any other level. *)
Lemma null_assigned_level_raises `{Python} `{Collaborators}
    (md : Metadata) (content_type slot_product image_path : string)
    (img : Image) (g : GenState) :
  dict_get (path_name image_path) (md_images md) = Some img ->
  assigned_level_null md content_type img ->
  (settings_source img = "product" -> product img = Some slot_product) ->
  exists reason,
    _get_image_settings md content_type slot_product image_path g
    = (Raised (ValueError ("Failed to get settings for "
                           +:+ path_name image_path +:+ ": " +:+ reason)),
       g).
Proof.
  intros Himg Hnull Hslot. unfold _get_image_settings, try_except.
  unfold bind at 1, dict_item. rewrite Himg. cbn [ret].
  destruct Hnull as [[Hsrc Hset]|[[Hsrc Hcontent]|[Hsrc Hgroups]]];
    rewrite Hsrc; cbn [String.eqb Ascii.eqb Bool.eqb].
  - rewrite Hset. cbn. eexists. reflexivity.
  - unfold bind at 1.
    destruct (dict_get content_type (md_settings md)) as [groups|] eqn:Hg;
      [|cbn; eexists; reflexivity].
    cbn [ret]. unfold bind at 1.
    destruct (dict_get "content" groups) as [blob|] eqn:Hb;
      [|cbn; eexists; reflexivity].
    rewrite (Hcontent groups blob eq_refl Hb). cbn. eexists. reflexivity.
  - unfold bind at 1.
    destruct (dict_get content_type (md_settings md)) as [groups|] eqn:Hg;
      [|cbn; eexists; reflexivity].
    cbn [ret].
    rewrite find_group_with_settings_none
      by (intros key blob;
          apply (Hgroups slot_product groups key blob (Hslot Hsrc) eq_refl)).
    cbn. eexists. reflexivity.
Qed.

(** The pool of a slot that names a concrete product, written as [strip]
    leaves it, holds only images assigned to that product: there the product
    the resolution is asked about is the one the selected image is assigned
    to. *)
Lemma concrete_slot_pool_assigned `{Python}
    (md : Metadata) (content_type slot_product : string) (allow : bool)
    (g g' : GenState) (pool : list string) (selected : string) :
  strip_product slot_product = slot_product -> slot_product <> "all" ->
  _get_available_images md content_type slot_product allow g
  = (Returned pool, g') ->
  selected ∈ pool ->
  tagged md selected slot_product.
Proof.
  intros Hstripped Hconcrete Hrun Hin. unfold _get_available_images in Hrun.
  unfold bind at 1, dict_item in Hrun.
  destruct (dict_get content_type (md_structure md)) as [info|];
    [|discriminate].
  cbn [ret] in Hrun. rewrite Hstripped in Hrun.
  rewrite (proj2 (String.eqb_neq slot_product "all") Hconcrete) in Hrun.
  unfold bind at 1 in Hrun. rewrite images_with_product_pure in Hrun.
  destruct (eligible_images md (images info) slot_product)
    as [available|e] eqn:Hel; [|discriminate].
  unfold bind at 1 in Hrun. rewrite should_prevent_duplicates_pure in Hrun.
  destruct (prevents md content_type slot_product) as [[|]|e]; [| |discriminate].
  - unfold bind at 1 in Hrun. rewrite used_for_pure in Hrun.
    destruct (used_lookup (used_images g) content_type slot_product)
      as [used|e]; [|discriminate].
    injection Hrun as <- _. apply list_elem_of_filter in Hin as [_ Hin].
    exact (proj2 (eligible_images_sound md _ _ _ Hel selected Hin)).
  - injection Hrun as <- _.
    exact (proj2 (eligible_images_sound md _ _ _ Hel selected Hin)).
Qed.

(** The one image of "hook" is assigned to "magnesium" and pinned to the
    product level.  The group of "magnesium" holds no settings; a group
    naming "all" does. *)
Definition product_pinned_image : Image :=
  {| content_type := "hook";
     dimensions := {| width := 1080; height := 1920 |};
     product := Some "magnesium";
     settings_source := "product";
     settings := JNull |}.

Definition all_group_metadata : Metadata :=
  {| md_keys := REQUIRED_KEYS_ORDER;
     md_content_types := ["hook"];
     md_products := [("hook", [Fixture.product_of "magnesium" false 0 1])];
     md_structure :=
       [("hook", {| path := "/base/hook"; images := ["1h.png"] |})];
     md_images := [("1h.png", product_pinned_image)];
     md_untagged := [];
     md_settings :=
       [("hook", [("content", JNull);
                  ("[magnesium]", JNull);
                  ("[all]", Fixture.simple_blob)])] |}.

Definition one_picture_disk : Fixture.Disk :=
  {| Fixture.present := ["/base/hook"; "/base/hook/1h.png"];
     Fixture.sizes := [("/base/hook/1h.png", (1080, 1920))];
     Fixture.json_files := [] |}.

(** C3, at a slot that asks for 'all'.  The image 1h.png is assigned to
    "magnesium" and pinned to the product level; the group '[magnesium]' is
    null, so the level the image pins holds no settings for the product it is
    assigned to.  The metadata passes the validator (not strict).  A slot of
    "hook" that asks for 'all' has 1h.png in its pool, and the resolution,
    asked about the product of the slot, returns the settings of the group
    '[all]' instead of raising: the picture is rendered with them. *)
Theorem C3_settings_follow_the_slot_product :
  dict_get "1h.png" (md_images all_group_metadata) = Some product_pinned_image
  /\ @assigned_level_null Fixture.python all_group_metadata "hook"
       product_pinned_image
  /\ fst (@validate Fixture.python Fixture.collaborators _ Fixture.file_system
            false "/base" one_picture_disk ["hook"] [("hook", ["magnesium"])]
            (Fixture.fresh_heap all_group_metadata))
     = Returned true
  /\ fst (@_get_available_images Fixture.python all_group_metadata
            "hook" "all" false initial_gen_state)
     = Returned ["1h.png"]
  /\ @_get_image_settings Fixture.python Fixture.collaborators
       all_group_metadata "hook" "all" "1h.png" initial_gen_state
     = (Returned Fixture.simple_blob, initial_gen_state)
  /\ exists pic g',
       @_generate_single_image Fixture.python Fixture.collaborators "/base"
         all_group_metadata (fun _ => 0%nat) "hook" "all" "text" false
         initial_gen_state
       = (Returned pic, g')
       /\ source_image pic = "1h.png".
Proof.
  split; [reflexivity|]. split.
  { right. right. split; [reflexivity|].
    intros assigned groups key blob [= <-] [= <-] Hin Hkey Hnamed.
    destruct Hin as [[= <- <-]|[[= <- <-]|[[= <- <-]|[]]]];
      [reflexivity|reflexivity|].
    apply list_elem_of_In in Hnamed. vm_compute in Hnamed.
    destruct Hnamed as [Hnamed|[]]. discriminate. }
  split; [vm_compute; reflexivity|].
  split; [vm_compute; reflexivity|].
  split; [vm_compute; reflexivity|].
  eexists. eexists. split; [vm_compute; reflexivity|]. reflexivity.
Qed.

(** A slot that asks for "magnesium", the product the image is assigned to,
    makes the same resolution raise. *)
Example product_slot_resolution_raises :
  exists reason,
    @_get_image_settings Fixture.python Fixture.collaborators
      all_group_metadata "hook" "magnesium" "1h.png" initial_gen_state
    = (Raised (ValueError ("Failed to get settings for 1h.png: " +:+ reason)),
       initial_gen_state).
Proof. eexists. vm_compute. reflexivity. Qed.

(** The other way round: the group of "magnesium" holds settings and no
    group names "all". *)
Definition own_group_metadata : Metadata :=
  set_settings
    [("hook", [("content", JNull); ("[magnesium]", Fixture.simple_blob)])]
    all_group_metadata.

(** That metadata passes the strict validator, whose check of a
    product-level image looks for the group of the product the image is
    assigned to.  A slot that asks for 'all' still has 1h.png in its pool,
    and the resolution raises although that group holds settings. *)
Example all_slot_ignores_assigned_group :
  fst (@validate Fixture.python Fixture.collaborators _ Fixture.file_system
         true "/base" one_picture_disk ["hook"] [("hook", ["magnesium"])]
         (Fixture.fresh_heap own_group_metadata))
  = Returned true
  /\ fst (@_get_available_images Fixture.python own_group_metadata
            "hook" "all" false initial_gen_state)
     = Returned ["1h.png"]
  /\ @_get_image_settings Fixture.python Fixture.collaborators
       own_group_metadata "hook" "all" "1h.png" initial_gen_state
     = (Raised (ValueError
                  "Failed to get settings for 1h.png: No product settings found for all in hook"),
        initial_gen_state)
  /\ @_get_image_settings Fixture.python Fixture.collaborators
       own_group_metadata "hook" "magnesium" "1h.png" initial_gen_state
     = (Returned Fixture.simple_blob, initial_gen_state).
Proof.
  split; [vm_compute; reflexivity|]. split; [vm_compute; reflexivity|].
  split; vm_compute; reflexivity.
Qed.

(** ** C10: images tagged 'all' are never candidates *)
Section AllTagged.
Context `{Python} `{Collaborators}.
Variable md : Metadata.

(** The exclusion dict has a list for every declared product of the content
    type, as the dict a post starts with has. *)
Definition tracks_products (g : GenState) (content_type : string)
    (prods : list Product) : Prop :=
  exists by_product,
    used_images g !! content_type = Some by_product
    /\ forall p, In p prods -> is_Some (by_product !! name p).

(** The pool of the 'all' case holds images of declared products only. *)
Lemma all_pool_sound content_type all_images allow (prods : list Product) :
  forall available g r g',
    for_fold prods available
             (add_product_images md content_type all_images allow) g = (r, g') ->
    forall pool, r = Returned pool ->
      forall img, img ∈ pool ->
        img ∈ available \/ exists p, In p prods /\ tagged md img (name p).
Proof.
  induction prods as [|p prods IH]; intros available g r g' Hrun pool -> img Hin.
  - cbn in Hrun. injection Hrun as <- <-. left. exact Hin.
  - cbn [for_fold] in Hrun. unfold bind at 1 in Hrun.
    unfold add_product_images at 1 in Hrun.
    destruct (prevent_duplicates p && negb allow) eqn:Hskip.
    + cbn [ret] in Hrun.
      destruct (IH _ _ _ _ Hrun pool eq_refl img Hin) as [Ha|(q & Hq & Ht)];
        [left; exact Ha|right; exists q; split; [right; exact Hq|exact Ht]].
    + unfold bind at 1 in Hrun. rewrite images_with_product_pure in Hrun.
      destruct (eligible_images md all_images (name p)) as [matching|e] eqn:Hel;
        [|discriminate].
      assert (Hsub : forall matching',
        (forall x, x ∈ matching' -> x ∈ matching) ->
        forall s,
          for_fold prods (available ++ matching')%list
                   (add_product_images md content_type all_images allow) s
          = (Returned pool, g') ->
          img ∈ available \/ exists q, In q (p :: prods) /\ tagged md img (name q)).
      { intros matching' Hsubset s Hrest.
        destruct (IH _ _ _ _ Hrest pool eq_refl img Hin) as [Ha|(q & Hq & Ht)].
        - apply elem_of_app in Ha as [Ha|Hm]; [left; exact Ha|].
          right. exists p. split; [left; reflexivity|].
          apply (eligible_images_sound md all_images (name p) matching Hel).
          apply Hsubset, Hm.
        - right. exists q. split; [right; exact Hq|exact Ht]. }
      unfold bind at 1 in Hrun.
      destruct (prevent_duplicates p).
      * destruct matching as [|m0 matching].
        -- cbn [ret] in Hrun. eapply (Hsub []); [intros x Hx; exact Hx|exact Hrun].
        -- unfold bind at 1 in Hrun. rewrite used_for_pure in Hrun.
           destruct (used_lookup (used_images g) content_type (name p))
             as [used|e]; [|discriminate].
           cbn [ret] in Hrun.
           eapply (Hsub (filter (fun x => x ∉ used) (m0 :: matching)));
             [|exact Hrun].
           intros x Hx. apply list_elem_of_filter in Hx as [_ Hx]. exact Hx.
      * cbn [ret] in Hrun. eapply (Hsub matching); [intros x Hx; exact Hx|exact Hrun].
Qed.

(** Where every image is tagged 'all' and 'all' is not declared, the pool of
    the 'all' case stays empty, and the used lists are never consulted. *)
Lemma all_pool_empty content_type all_images allow (prods : list Product) g :
  (forall img, img ∈ all_images -> tagged md img "all") ->
  ~ In "all" (map name prods) ->
  for_fold prods [] (add_product_images md content_type all_images allow) g
  = (Returned [], g).
Proof.
  intros Hall. induction prods as [|p prods IH]; intros Hnot; [reflexivity|].
  cbn [for_fold]. unfold bind at 1. unfold add_product_images at 1.
  assert (Hrest : ~ In "all" (map name prods))
    by (intros Hin; apply Hnot; right; exact Hin).
  destruct (prevent_duplicates p && negb allow).
  - cbn [ret]. apply IH, Hrest.
  - unfold bind at 1. rewrite images_with_product_pure.
    rewrite (eligible_images_other_tag md all_images "all" (name p) Hall)
      by (intros Heq; apply Hnot; left; symmetry; exact Heq).
    unfold bind at 1. destruct (prevent_duplicates p); cbn [ret app];
      apply IH, Hrest.
Qed.
(** Where every image of the content type is tagged 'all' and 'all' is not
    declared, a selection finds an empty pool, whatever product it asks for,
    and raises without touching the state. *)
Lemma all_tagged_selection_raises base_path rand content_type prods info
      product text allow g :
  dict_get content_type (md_products md) = Some prods ->
  ~ In "all" (map name prods) ->
  dict_get content_type (md_structure md) = Some info ->
  (forall img, img ∈ images info -> tagged md img "all") ->
  tracks_products g content_type prods ->
  _generate_single_image base_path md rand content_type product text allow g
  = (Raised (ValueError ("No available images for " +:+ content_type
                         +:+ " - " +:+ product)), g).
Proof.
  intros Hprods Hnot Hinfo Htagged Htracks.
  assert (Hpool : _get_available_images md content_type product allow g
                  = (Returned [], g)).
  { unfold _get_available_images. unfold bind at 1, dict_item.
    rewrite Hinfo. cbn [ret].
    destruct (String.eqb (strip_product product) "all") eqn:Hall.
    - unfold bind at 1, dict_item. rewrite Hprods. cbn [ret].
      apply all_pool_empty; assumption.
    - apply String.eqb_neq in Hall.
      unfold bind at 1. rewrite images_with_product_pure.
      rewrite (eligible_images_other_tag md (images info) "all" _ Htagged)
        by congruence.
      unfold bind at 1. rewrite should_prevent_duplicates_pure.
      unfold prevents. rewrite Hprods.
      rewrite strip_product_idempotent.
      destruct (List.find _ prods) as [p|] eqn:Hfind; [|reflexivity].
      destruct (prevent_duplicates p); [|reflexivity].
      apply find_some in Hfind as [Hp Hname].
      apply String.eqb_eq in Hname.
      destruct Htracks as (by_product & Hct & Hall_tracked).
      destruct (Hall_tracked p Hp) as [used Hused].
      unfold bind at 1. rewrite used_for_pure. unfold used_lookup.
      rewrite Hct, <- Hname, Hused. reflexivity. }
  unfold _generate_single_image. unfold bind at 1. rewrite Hpool.
  reflexivity.
Qed.
End AllTagged.

(** ** What a selection does to the state *)
Section SelectionFacts.
Context `{Python} `{Collaborators}.
Variable base_path : string.
Variable md : Metadata.
Variable rand : nat -> nat.

(** Resolution of settings reads the state only. *)
Lemma get_image_settings_state content_type product image_path g :
  snd (_get_image_settings md content_type product image_path g) = g.
Proof.
  unfold _get_image_settings, try_except.
  match goal with
  | |- snd (match ?m g with _ => _ end) = g =>
      assert (Hm : snd (m g) = g);
      [|destruct (m g) as [[a|e] g1]; cbn in Hm |- *; congruence]
  end.
  assert (Hp : forall m : M GenState json, preserves (eq g) m -> snd (m g) = g)
    by (intros m Hm; symmetry; apply Hm; reflexivity).
  apply Hp. repeat preserves_step.
Qed.

(** Rendering draws one random number, leaves the exclusion dict and the
    saved files alone, and renders the image it was given. *)
Lemma render_selected_spec content_type product text selected_image g r g' :
  render_selected base_path md rand content_type product text selected_image g
  = (r, g') ->
  used_images g' = used_images g
  /\ saved g' = saved g
  /\ (forall pic, r = Returned pic ->
        source_image pic = selected_image /\ drawn g' = Datatypes.S (drawn g)).
Proof.
  unfold render_selected. unfold bind at 1.
  pose proof (get_image_settings_state content_type product selected_image g)
    as Hst.
  destruct (_get_image_settings md content_type product selected_image g)
    as [[image_settings|e] g0]; cbn [snd] in Hst; subst g0;
    [|intros [= <- <-]; repeat split; intros; discriminate].
  (* pure lookups in the blob *)
  assert (Hpure : forall (A : Type) (m : M GenState A)
                         (k : A -> M GenState Rendered),
    (forall s, snd (m s) = s) ->
    (forall a, k a g = (r, g') ->
       used_images g' = used_images g /\ saved g' = saved g
       /\ (forall pic, r = Returned pic ->
             source_image pic = selected_image
             /\ drawn g' = Datatypes.S (drawn g))) ->
    bind m k g = (r, g') ->
    used_images g' = used_images g /\ saved g' = saved g
    /\ (forall pic, r = Returned pic ->
          source_image pic = selected_image
          /\ drawn g' = Datatypes.S (drawn g))).
  { intros A m k Hm Hk. unfold bind. specialize (Hm g).
    destruct (m g) as [[a|e] g1]; cbn [snd] in Hm; subst g1.
    - apply Hk.
    - intros [= <- <-]. repeat split; intros; discriminate. }
  assert (Hitem : forall k j s, snd (@json_item GenState k j s) = s).
  { intros k j s. unfold json_item, dict_item.
    destruct j; try reflexivity. destruct (dict_get k d); reflexivity. }
  apply Hpure; [apply Hitem|intros base_settings].
  apply Hpure; [apply Hitem|intros text_type].
  apply Hpure; [apply Hitem|intros text_settings].
  apply Hpure; [|intros type_settings].
  { intros s. destruct text_type as [|b|n0|t|l|d]; try reflexivity;
      try (destruct b; reflexivity). apply Hitem. }
  apply Hpure; [apply Hitem|intros colors].
  apply Hpure; [|intros n].
  { intros s. unfold json_len. destruct colors; reflexivity. }
  unfold bind, random_randint0.
  destruct (n - 1 <? 0).
  - intros [= <- <-]. repeat split; intros; discriminate.
  - unfold bind, next_random. cbn [ret].
    destruct (generate_image _ _ _ _ _) as [u|e]; cbn.
    + intros [= <- <-]. split; [reflexivity|]. split; [reflexivity|].
      intros pic [= <-]. split; reflexivity.
    + intros [= <- <-]. repeat split; intros; discriminate.
Qed.
End SelectionFacts.

Lemma record_used_spec content_type product selected g :
  record_used content_type product selected g
  = match used_images g !! content_type with
    | None => (Raised (KeyError content_type), g)
    | Some by_product =>
        match by_product !! product with
        | None => (Raised (KeyError product), g)
        | Some used =>
            (Returned tt,
             {| used_images :=
                  <[content_type := <[product := (used ++ [selected])%list]>
                                      by_product]> (used_images g);
                drawn := drawn g;
                saved := saved g |})
        end
    end.
Proof.
  unfold record_used, bind, get.
  destruct (used_images g !! content_type) as [by_product|]; [|reflexivity].
  cbn [ret]. destruct (by_product !! product); reflexivity.
Qed.

(** ** Selections of one pairing that prevents duplicates *)
Section PreventedPairing.
Context `{Python} `{Collaborators}.
Variable base_path : string.
Variable md : Metadata.
Variable content_type product : string.
(** The product is a concrete name, given in stripped form, and the lookup
    of the code finds it declared with [prevent_duplicates] true. *)
Hypothesis Hconcrete : product <> "all".
Hypothesis Hstripped : strip_product product = product.
Hypothesis Hprevents : prevents md content_type product = Returned true.

(** The pool of the pairing: its eligible images less the ones used. *)
Lemma pool_of_pairing allow g info available used :
  dict_get content_type (md_structure md) = Some info ->
  eligible_images md (images info) product = Returned available ->
  used_lookup (used_images g) content_type product = Returned used ->
  _get_available_images md content_type product allow g
  = (Returned (filter (fun img => img ∉ used) available), g).
Proof.
  intros Hinfo Hel Hused. unfold _get_available_images.
  unfold bind at 1, dict_item. rewrite Hinfo. cbn [ret].
  rewrite Hstripped.
  rewrite (proj2 (String.eqb_neq product "all") Hconcrete).
  unfold bind at 1. rewrite images_with_product_pure, Hel.
  unfold bind at 1. rewrite should_prevent_duplicates_pure, Hprevents.
  unfold bind at 1. rewrite used_for_pure, Hused. reflexivity.
Qed.

Lemma pool_of_pairing_inv allow g pool g' :
  _get_available_images md content_type product allow g = (Returned pool, g') ->
  g' = g
  /\ exists info available used,
       dict_get content_type (md_structure md) = Some info
       /\ eligible_images md (images info) product = Returned available
       /\ used_lookup (used_images g) content_type product = Returned used
       /\ pool = filter (fun img => img ∉ used) available.
Proof.
  intros Hrun.
  pose proof (get_available_images_state md content_type product allow g) as Hst.
  rewrite Hrun in Hst. cbn [snd] in Hst. split; [exact Hst|].
  unfold _get_available_images in Hrun.
  unfold bind at 1, dict_item in Hrun.
  destruct (dict_get content_type (md_structure md)) as [info|] eqn:Hinfo;
    [|discriminate].
  cbn [ret] in Hrun. rewrite Hstripped in Hrun.
  rewrite (proj2 (String.eqb_neq product "all") Hconcrete) in Hrun.
  unfold bind at 1 in Hrun. rewrite images_with_product_pure in Hrun.
  destruct (eligible_images md (images info) product) as [available|e] eqn:Hel;
    [|discriminate].
  unfold bind at 1 in Hrun.
  rewrite should_prevent_duplicates_pure, Hprevents in Hrun.
  unfold bind at 1 in Hrun. rewrite used_for_pure in Hrun.
  destruct (used_lookup (used_images g) content_type product) as [used|e] eqn:Hu;
    [|discriminate].
  injection Hrun as <- _. exists info, available, used.
  repeat split; reflexivity || assumption.
Qed.

(** A successful selection of the pairing: the image comes from the pool,
    and it is appended to the pairing's used list; nothing is saved yet. *)
Lemma selection_records rand text allow g pic g' :
  _generate_single_image base_path md rand content_type product text allow g
  = (Returned pic, g') ->
  exists info available used by_product,
    dict_get content_type (md_structure md) = Some info
    /\ eligible_images md (images info) product = Returned available
    /\ used_images g !! content_type = Some by_product
    /\ by_product !! product = Some used
    /\ source_image pic ∈ filter (fun img => img ∉ used) available
    /\ used_images g'
       = <[content_type := <[product := (used ++ [source_image pic])%list]>
                             by_product]> (used_images g)
    /\ saved g' = saved g.
Proof.
  unfold _generate_single_image. unfold bind at 1.
  destruct (_get_available_images md content_type product allow g)
    as [[pool|e] g0] eqn:Hpool; [|discriminate].
  apply pool_of_pairing_inv in Hpool
    as (-> & info & available & used & Hinfo & Hel & Hused & ->).
  destruct (filter (fun img => img ∉ used) available) as [|x pool] eqn:Hfilter;
    [discriminate|].
  unfold bind at 1. unfold random_choice at 1. unfold bind at 1.
  cbn [next_random].
  destruct ((x :: pool) !! (rand (drawn g) mod length (x :: pool))%nat)
    as [selected|] eqn:Hsel; [|discriminate].
  cbn [ret]. unfold bind at 1.
  rewrite should_prevent_duplicates_pure, Hprevents.
  unfold bind at 1. rewrite record_used_spec. cbn [used_images].
  unfold used_lookup in Hused.
  destruct (used_images g !! content_type) as [by_product|] eqn:Hct;
    [|discriminate].
  destruct (by_product !! product) as [used'|] eqn:Hp; [|discriminate].
  injection Hused as ->.
  intros Hrender. apply render_selected_spec in Hrender as (Hu & Hs & Hpic).
  destruct (Hpic pic eq_refl) as [Hsrc _]. cbn in Hu, Hs.
  exists info, available, used, by_product.
  rewrite Hsrc, Hu, Hfilter. repeat split; try assumption.
  apply list_elem_of_lookup. eexists. exact Hsel.
Qed.
End PreventedPairing.

(** ** The exclusion dict of a post *)
Section FreshUsedImages.
Variable md : Metadata.

(** The lists a post starts with for one content type: empty, one per
    declared product. *)
Definition empty_lists (prods : list Product) : gmap string (list string) :=
  foldl (fun m product_info => <[name product_info := []]> m) ∅ prods.

Lemma empty_lists_lookup prods nm :
  empty_lists prods !! nm
  = if bool_decide (nm ∈ map name prods) then Some ([] : list string) else None.
Proof.
  unfold empty_lists.
  assert (Hgen : forall m0 : gmap string (list string),
    foldl (fun m product_info => <[name product_info := []]> m) m0 prods !! nm
    = if bool_decide (nm ∈ map name prods) then Some ([] : list string)
      else m0 !! nm).
  { induction prods as [|p ps IH]; intros m0; cbn [foldl map].
    - reflexivity.
    - rewrite IH. destruct (decide (nm = name p)) as [->|Hne].
      + rewrite lookup_insert_eq.
        rewrite (bool_decide_eq_true_2 (name p ∈ name p :: map name ps))
          by (left).
        destruct (bool_decide (name p ∈ map name ps)); reflexivity.
      + rewrite lookup_insert_ne by congruence.
        destruct (decide (nm ∈ map name ps)) as [Hin|Hnin].
        * rewrite !bool_decide_eq_true_2; [reflexivity|right; exact Hin|exact Hin].
        * rewrite !bool_decide_eq_false_2; [reflexivity| |exact Hnin].
          intros Hc. apply elem_of_cons in Hc as [Hc|Hc]; contradiction. }
  rewrite Hgen. rewrite lookup_empty. reflexivity.
Qed.

(** When every content type has its products declared, the fresh dict is
    built without touching the state, and holds the empty lists of each
    content type. *)
Lemma fresh_used_images_spec :
  (forall c, c ∈ md_content_types md -> is_Some (dict_get c (md_products md))) ->
  exists fresh,
    (forall g, fresh_used_images md g = (Returned fresh, g))
    /\ forall c prods,
         c ∈ md_content_types md ->
         dict_get c (md_products md) = Some prods ->
         fresh !! c = Some (empty_lists prods).
Proof.
  unfold fresh_used_images.
  generalize (∅ : gmap string (gmap string (list string))).
  induction (md_content_types md) as [|c cts IH]; intros acc Hdeclared.
  - exists acc. split; [reflexivity|]. intros c prods Hin. inversion Hin.
  - destruct (Hdeclared c) as [prods Hprods]; [left|].
    destruct (IH (<[c := empty_lists prods]> acc)) as (fresh & Hrun & Hlook).
    { intros c' Hc'. apply Hdeclared. right. exact Hc'. }
    exists fresh. split.
    + intros g. cbn [for_fold]. unfold bind at 1. unfold bind at 1, dict_item.
      rewrite Hprods. cbn [ret]. apply Hrun.
    + intros c' prods' Hin Hprods'.
      destruct (decide (c' ∈ cts)) as [Hcts|Hncts]; [apply Hlook; assumption|].
      apply elem_of_cons in Hin as [->|Hin]; [|contradiction].
      assert (Heq : prods' = prods) by congruence. subst prods'.
      (* c was inserted first and is not overwritten by the rest *)
      clear - Hrun Hncts.
      assert (Hkeep : forall (l : list string)
                (a : gmap string (gmap string (list string)))
                (g : GenState) r g',
        c ∉ l ->
        for_fold l a (fun acc content_type =>
          let* prods := dict_item content_type (md_products md) in
          ret (<[content_type := empty_lists prods]> acc)) g = (Returned r, g') ->
        r !! c = a !! c).
      { induction l as [|x l IHl]; intros a g r g' Hnin Hfold.
        - cbn in Hfold. injection Hfold as <- _. reflexivity.
        - cbn [for_fold] in Hfold. unfold bind at 1 in Hfold.
          unfold bind at 1, dict_item in Hfold.
          destruct (dict_get x (md_products md)); [|discriminate].
          cbn [ret] in Hfold. apply IHl in Hfold.
          + rewrite Hfold. apply lookup_insert_ne.
            intros ->. apply Hnin. left.
          + intros Hc. apply Hnin. right. exact Hc. }
      rewrite (Hkeep cts _ initial_gen_state fresh initial_gen_state Hncts
                 (Hrun initial_gen_state)).
      apply lookup_insert_eq.
Qed.
End FreshUsedImages.

(** ** What a selection does to the lists of the other pairings *)
Section SelectionFrame.
Context `{Python} `{Collaborators}.
Variable base_path : string.
Variable md : Metadata.
Variable rand : nat -> nat.

Lemma used_lookup_insert_other used ct' p' by_product l ct p :
  used !! ct' = Some by_product ->
  (ct', p') <> (ct, p) ->
  used_lookup (<[ct' := <[p' := l]> by_product]> used) ct p
  = used_lookup used ct p.
Proof.
  intros Hct' Hne. unfold used_lookup.
  destruct (decide (ct' = ct)) as [->|Hct].
  - rewrite lookup_insert_eq, Hct'.
    rewrite lookup_insert_ne by congruence. reflexivity.
  - rewrite lookup_insert_ne by exact Hct. reflexivity.
Qed.

(** A selection for one pairing, whatever its outcome, leaves the used list
    of every other pairing as it was, and saves nothing. *)
Lemma generate_single_image_frame ct' p' text allow g r g' ct p :
  _generate_single_image base_path md rand ct' p' text allow g = (r, g') ->
  (ct', p') <> (ct, p) ->
  used_lookup (used_images g') ct p = used_lookup (used_images g) ct p
  /\ saved g' = saved g.
Proof.
  intros Hrun Hne. unfold _generate_single_image in Hrun.
  unfold bind at 1 in Hrun.
  pose proof (get_available_images_state md ct' p' allow g) as Hst.
  destruct (_get_available_images md ct' p' allow g) as [[pool|e] g0];
    cbn [snd] in Hst; subst g0;
    [|injection Hrun as _ <-; split; reflexivity].
  destruct pool as [|x pool];
    [injection Hrun as _ <-; split; reflexivity|].
  unfold bind at 1 in Hrun. unfold random_choice at 1 in Hrun.
  unfold bind at 1 in Hrun. cbn [next_random] in Hrun.
  destruct ((x :: pool) !! (rand (drawn g) mod length (x :: pool))%nat)
    as [selected|]; [|injection Hrun as _ <-; split; reflexivity].
  cbn [ret] in Hrun. unfold bind at 1 in Hrun.
  rewrite should_prevent_duplicates_pure in Hrun.
  destruct (prevents md ct' p') as [prevent|e];
    [|injection Hrun as _ <-; split; reflexivity].
  unfold bind at 1 in Hrun.
  destruct prevent.
  - rewrite record_used_spec in Hrun. cbn [used_images] in Hrun.
    destruct (used_images g !! ct') as [by_product|] eqn:Hct';
      [|injection Hrun as _ <-; split; reflexivity].
    destruct (by_product !! p') as [used|];
      [|injection Hrun as _ <-; split; reflexivity].
    apply render_selected_spec in Hrun as (Hu & Hs & _).
    cbn in Hu, Hs. rewrite Hu, Hs. split; [|reflexivity].
    apply used_lookup_insert_other; assumption.
  - cbn [ret] in Hrun.
    apply render_selected_spec in Hrun as (Hu & Hs & _).
    cbn in Hu, Hs. rewrite Hu, Hs. split; reflexivity.
Qed.
(** A selection saves nothing, however it ends. *)
Lemma generate_single_image_saved ct' p' text allow g r g' :
  _generate_single_image base_path md rand ct' p' text allow g = (r, g') ->
  saved g' = saved g.
Proof.
  intros Hrun. unfold _generate_single_image in Hrun.
  unfold bind at 1 in Hrun.
  pose proof (get_available_images_state md ct' p' allow g) as Hst.
  destruct (_get_available_images md ct' p' allow g) as [[pool|e] g0];
    cbn [snd] in Hst; subst g0; [|injection Hrun as _ <-; reflexivity].
  destruct pool as [|x pool]; [injection Hrun as _ <-; reflexivity|].
  unfold bind at 1 in Hrun. unfold random_choice at 1 in Hrun.
  unfold bind at 1 in Hrun. cbn [next_random] in Hrun.
  destruct ((x :: pool) !! (rand (drawn g) mod length (x :: pool))%nat)
    as [selected|]; [|injection Hrun as _ <-; reflexivity].
  cbn [ret] in Hrun. unfold bind at 1 in Hrun.
  rewrite should_prevent_duplicates_pure in Hrun.
  destruct (prevents md ct' p') as [prevent|e];
    [|injection Hrun as _ <-; reflexivity].
  unfold bind at 1 in Hrun.
  destruct prevent.
  - rewrite record_used_spec in Hrun. cbn [used_images] in Hrun.
    destruct (used_images g !! ct') as [by_product|];
      [|injection Hrun as _ <-; reflexivity].
    destruct (by_product !! p') as [used|];
      [|injection Hrun as _ <-; reflexivity].
    apply render_selected_spec in Hrun as (_ & Hs & _). exact Hs.
  - cbn [ret] in Hrun.
    apply render_selected_spec in Hrun as (_ & Hs & _). exact Hs.
Qed.
End SelectionFrame.

(** ** One post *)

(** The pairing slot [idx] of a row asks for. *)
Definition slot_pairing (hmap row : list string) (idx : nat)
  : option (string * string) :=
  match hmap !! (idx - 1)%nat, pair_up row !! (idx - 1)%nat with
  | Some content_type, Some (product, _) => Some (content_type, product)
  | _, _ => None
  end.

(** The source images of the saved pictures whose slot asked for the
    pairing [(content_type, product)]. *)
Definition pairing_sources (hmap row : list string)
    (content_type product : string) (entries : list Saved) : list string :=
  map (fun s => source_image (picture s))
      (filter (fun s => slot_pairing hmap row (slot_num s)
                        = Some (content_type, product)) entries).

Lemma enumerate1_lookup {A} (l : list A) idx x :
  (idx, x) ∈ enumerate1 l -> l !! (idx - 1)%nat = Some x.
Proof.
  unfold enumerate1.
  assert (Hgen : forall k, (idx, x) ∈ zip (seq k (length l)) l ->
                           (k <= idx)%nat /\ l !! (idx - k)%nat = Some x).
  { induction l as [|y l IH]; intros k Hin; cbn in Hin.
    - inversion Hin.
    - apply elem_of_cons in Hin as [Heq|Hin].
      + injection Heq as -> ->. split; [lia|].
        replace (k - k)%nat with 0%nat by lia. reflexivity.
      + apply IH in Hin as [Hle Hl]. split; [lia|].
        replace (idx - k)%nat with (Datatypes.S (idx - Datatypes.S k)) by lia.
        exact Hl. }
  intros Hin. apply (Hgen 1%nat) in Hin as [_ Hl]. exact Hl.
Qed.

Lemma fresh_used_images_state md g :
  snd (fresh_used_images md g) = g.
Proof.
  unfold fresh_used_images.
  generalize (∅ : gmap string (gmap string (list string))).
  induction (md_content_types md) as [|c cts IH]; intros acc; [reflexivity|].
  cbn [for_fold]. unfold bind at 1. unfold bind at 1, dict_item.
  destruct (dict_get c (md_products md)); [|reflexivity].
  cbn [ret]. apply IH.
Qed.

Section SelectionGrows.
Context `{Python} `{Collaborators}.
Variable base_path : string.
Variable md : Metadata.
Variable rand : nat -> nat.

(** Whatever a selection does, whichever pairing it is for and however it
    ends: nothing is saved, and every used list only grows at its end. *)
Lemma generate_single_image_grows ct' p' text allow g r g' ct p used' :
  _generate_single_image base_path md rand ct' p' text allow g = (r, g') ->
  used_lookup (used_images g') ct p = Returned used' ->
  saved g' = saved g
  /\ exists used extra,
       used_lookup (used_images g) ct p = Returned used
       /\ used' = (used ++ extra)%list.
Proof.
  intros Hrun Hused'.
  destruct (decide ((ct', p') = (ct, p))) as [Heq|Hne].
  2:{ destruct (generate_single_image_frame _ _ _ _ _ _ _ _ _ _ ct p Hrun Hne)
        as [Hl Hs].
      split; [exact Hs|]. exists used', []. rewrite <- Hl, app_nil_r.
      split; [exact Hused'|reflexivity]. }
  injection Heq as -> ->.
  assert (Hsame : used_images g' = used_images g -> saved g' = saved g ->
            saved g' = saved g
            /\ exists used extra,
                 used_lookup (used_images g) ct p = Returned used
                 /\ used' = (used ++ extra)%list).
  { intros Hu Hs. split; [exact Hs|]. exists used', [].
    rewrite <- Hu, app_nil_r. split; [exact Hused'|reflexivity]. }
  unfold _generate_single_image in Hrun. unfold bind at 1 in Hrun.
  pose proof (get_available_images_state md ct p allow g) as Hst.
  destruct (_get_available_images md ct p allow g) as [[pool|e] g0];
    cbn [snd] in Hst; subst g0;
    [|injection Hrun as _ <-; apply Hsame; reflexivity].
  destruct pool as [|x pool];
    [injection Hrun as _ <-; apply Hsame; reflexivity|].
  unfold bind at 1 in Hrun. unfold random_choice at 1 in Hrun.
  unfold bind at 1 in Hrun. cbn [next_random] in Hrun.
  destruct ((x :: pool) !! (rand (drawn g) mod length (x :: pool))%nat)
    as [selected|];
    [|injection Hrun as _ <-; apply Hsame; reflexivity].
  cbn [ret] in Hrun. unfold bind at 1 in Hrun.
  rewrite should_prevent_duplicates_pure in Hrun.
  destruct (prevents md ct p) as [prevent|e];
    [|injection Hrun as _ <-; apply Hsame; reflexivity].
  unfold bind at 1 in Hrun.
  destruct prevent.
  - rewrite record_used_spec in Hrun. cbn [used_images] in Hrun.
    destruct (used_images g !! ct) as [by_product|] eqn:Hct;
      [|injection Hrun as _ <-; apply Hsame; reflexivity].
    destruct (by_product !! p) as [used|] eqn:Hp;
      [|injection Hrun as _ <-; apply Hsame; reflexivity].
    apply render_selected_spec in Hrun as (Hu & Hs & _).
    cbn in Hu, Hs. split; [exact Hs|].
    exists used, [selected]. unfold used_lookup. rewrite Hct, Hp.
    split; [reflexivity|].
    unfold used_lookup in Hused'. rewrite Hu in Hused'.
    rewrite !lookup_insert_eq in Hused'. congruence.
  - cbn [ret] in Hrun.
    apply render_selected_spec in Hrun as (Hu & Hs & _).
    cbn in Hu, Hs. apply Hsame; assumption.
Qed.
End SelectionGrows.

(** ** No repeat within a post *)
Section PostNoRepeat.
Context `{Python} `{Collaborators}.
Variable base_path : string.
Variable md : Metadata.
Variable content_type product : string.
Hypothesis Hconcrete : product <> "all".
Hypothesis Hstripped : strip_product product = product.
Hypothesis Hprevents : prevents md content_type product = Returned true.
Variable rand : nat -> nat.
Variable hmap : list string.
Variable allow : bool.
Variable variation post : nat.
Variable row : list string.
Variable base : list Saved.

(** The loop invariant of a post: of the pictures saved since it started,
    those of the pairing have pairwise different sources, all of them in the
    pairing's used list. *)
Definition post_inv (new : list Saved) (g : GenState) : Prop :=
  saved g = (base ++ new)%list
  /\ NoDup (pairing_sources hmap row content_type product new)
  /\ forall used,
       used_lookup (used_images g) content_type product = Returned used ->
       forall s, s ∈ pairing_sources hmap row content_type product new ->
                 s ∈ used.

Lemma post_inv_grows new g g' :
  post_inv new g ->
  saved g' = saved g ->
  (forall used',
     used_lookup (used_images g') content_type product = Returned used' ->
     exists used extra,
       used_lookup (used_images g) content_type product = Returned used
       /\ used' = (used ++ extra)%list) ->
  post_inv new g'.
Proof.
  intros (Hs & Hnd & Hsub) Hsaved Hgrow. repeat split.
  - rewrite Hsaved. exact Hs.
  - exact Hnd.
  - intros used' Hused' s Hin.
    destruct (Hgrow used' Hused') as (used & extra & Hused & ->).
    apply elem_of_app. left. exact (Hsub used Hused s Hin).
Qed.

Lemma pairing_sources_snoc new entry :
  pairing_sources hmap row content_type product (new ++ [entry])
  = (pairing_sources hmap row content_type product new
     ++ if bool_decide (slot_pairing hmap row (slot_num entry)
                        = Some (content_type, product))
        then [source_image (picture entry)] else [])%list.
Proof.
  unfold pairing_sources. rewrite filter_app, map_app. f_equal.
  rewrite filter_cons, filter_nil.
  destruct (decide (slot_pairing hmap row (slot_num entry)
                    = Some (content_type, product))) as [Heq|Hne].
  - rewrite bool_decide_eq_true_2 by exact Heq. reflexivity.
  - rewrite bool_decide_eq_false_2 by exact Hne. reflexivity.
Qed.

Lemma slot_step idx prod content g r g' new :
  pair_up row !! (idx - 1)%nat = Some (prod, content) ->
  generate_slot base_path md rand hmap allow variation post
                (idx, (prod, content)) g = (r, g') ->
  post_inv new g ->
  exists new', post_inv new' g'.
Proof.
  intros Hrow Hrun Hinv. unfold generate_slot in Hrun.
  unfold bind at 1 in Hrun.
  destruct (hmap !! (idx - 1)%nat) as [ct|] eqn:Hmap;
    [|injection Hrun as _ <-; exists new; exact Hinv].
  cbn [ret] in Hrun.
  destruct (negb (str_truthy content));
    [injection Hrun as _ <-; exists new; exact Hinv|].
  unfold bind at 1 in Hrun.
  destruct (_generate_single_image base_path md rand ct prod content allow g)
    as [[pic|e] g1] eqn:Hsel.
  2:{ injection Hrun as _ <-. exists new.
      apply (post_inv_grows new g g1 Hinv).
      - exact (generate_single_image_saved _ _ _ _ _ _ _ _ _ _ Hsel).
      - intros used' Hused'.
        exact (proj2 (generate_single_image_grows _ _ _ _ _ _ _ _ _ _ _ _ _
                        Hsel Hused')). }
  (* the picture is saved *)
  unfold save, modify in Hrun. injection Hrun as _ <-.
  destruct Hinv as (Hs & Hnd & Hsub).
  exists (new ++ [{| variation_num := variation; post_num := post;
                     slot_num := idx; picture := pic |}])%list.
  unfold post_inv. cbn [saved used_images].
  assert (Hpair : slot_pairing hmap row idx = Some (ct, prod))
    by (unfold slot_pairing; rewrite Hmap, Hrow; reflexivity).
  rewrite pairing_sources_snoc. cbn [slot_num picture]. rewrite Hpair.
  destruct (decide ((ct, prod) = (content_type, product))) as [Heq|Hne].
  - injection Heq as -> ->.
    rewrite bool_decide_eq_true_2 by reflexivity.
    destruct (selection_records base_path md content_type product
                Hconcrete Hstripped Hprevents rand content allow g pic g1 Hsel)
      as (info & available & used & by_product & _ & _ & Hct & Hp & Hin & Hu & Hsv).
    assert (Hlook : used_lookup (used_images g) content_type product
                    = Returned used)
      by (unfold used_lookup; rewrite Hct, Hp; reflexivity).
    apply list_elem_of_filter in Hin as [Hfresh _].
    repeat split.
    + rewrite Hsv, Hs, app_assoc. reflexivity.
    + apply NoDup_app. repeat split.
      * exact Hnd.
      * intros s Hs1 Hs2. apply list_elem_of_singleton in Hs2 as ->.
        apply Hfresh. exact (Hsub used Hlook _ Hs1).
      * apply NoDup_singleton.
    + intros used' Hused' s Hin'.
      unfold used_lookup in Hused'. rewrite Hu in Hused'.
      rewrite !lookup_insert_eq in Hused'. injection Hused' as <-.
      apply elem_of_app in Hin' as [Hin'|Hin'].
      * apply elem_of_app. left. exact (Hsub used Hlook _ Hin').
      * apply elem_of_app. right. exact Hin'.
  - rewrite bool_decide_eq_false_2 by congruence. rewrite app_nil_r.
    destruct (generate_single_image_frame _ _ _ _ _ _ _ _ _ _
                content_type product Hsel Hne) as [Hl Hsv].
    repeat split.
    + rewrite Hsv, Hs, app_assoc. reflexivity.
    + exact Hnd.
    + intros used' Hused'. rewrite Hl in Hused'. exact (Hsub used' Hused').
Qed.
Lemma slots_loop slots :
  forall g r g' new,
    (forall idx x, (idx, x) ∈ slots -> pair_up row !! (idx - 1)%nat = Some x) ->
    for_do slots (generate_slot base_path md rand hmap allow variation post) g
    = (r, g') ->
    post_inv new g ->
    exists new', post_inv new' g'.
Proof.
  induction slots as [|[idx [prod content]] slots IH];
    intros g r g' new Hrow Hrun Hinv.
  - injection Hrun as _ <-. exists new. exact Hinv.
  - cbn [for_do] in Hrun. unfold bind at 1 in Hrun.
    destruct (generate_slot base_path md rand hmap allow variation post
                (idx, (prod, content)) g) as [[[]|e] g1] eqn:Hslot.
    + destruct (slot_step idx prod content g (Returned tt) g1 new)
        as [new1 Hinv1]; [apply Hrow; left|exact Hslot|exact Hinv|].
      apply (IH g1 r g' new1); [|exact Hrun|exact Hinv1].
      intros idx' x Hin. apply Hrow. right. exact Hin.
    + injection Hrun as _ <-.
      apply (slot_step idx prod content g (Raised e) g1 new);
        [apply Hrow; left|exact Hslot|exact Hinv].
Qed.

(** Within one post, the pictures saved for the pairing come from pairwise
    different images, however the post ends. *)
Lemma post_never_repeats g r g' :
  saved g = base ->
  generate_post base_path md rand hmap allow variation post row g = (r, g') ->
  exists new,
    saved g' = (base ++ new)%list
    /\ NoDup (pairing_sources hmap row content_type product new).
Proof.
  intros Hbase Hrun. unfold generate_post in Hrun. unfold bind at 1 in Hrun.
  pose proof (fresh_used_images_state md g) as Hst.
  destruct (fresh_used_images md g) as [[fresh|e] g0]; cbn [snd] in Hst;
    subst g0.
  2:{ injection Hrun as _ <-. exists []. rewrite app_nil_r.
      split; [exact Hbase|apply NoDup_nil_2]. }
  unfold bind at 1 in Hrun. unfold put_used at 1, modify in Hrun.
  destruct (slots_loop (enumerate1 (pair_up row)) _ r g' []
              (fun idx x Hin => enumerate1_lookup _ idx x Hin) Hrun)
    as (new & Hs & Hnd & _).
  - repeat split.
    + cbn [saved]. rewrite app_nil_r. exact Hbase.
    + apply NoDup_nil_2.
    + intros used _ s Hin. inversion Hin.
  - exists new. split; assumption.
Qed.
End PostNoRepeat.

(** ** Running out of images *)
Section PairingExhaustion.
Context `{Python} `{Collaborators}.
Variable base_path : string.
Variable md : Metadata.
Variable content_type product : string.
Hypothesis Hconcrete : product <> "all".
Hypothesis Hstripped : strip_product product = product.
Hypothesis Hprevents : prevents md content_type product = Returned true.
Variable rand : nat -> nat.

(** Once every eligible image is in the used list, the selection raises and
    leaves the state alone. *)
Lemma exhausted_pairing_raises text allow g info available used :
  dict_get content_type (md_structure md) = Some info ->
  eligible_images md (images info) product = Returned available ->
  used_lookup (used_images g) content_type product = Returned used ->
  (forall img, img ∈ available -> img ∈ used) ->
  _generate_single_image base_path md rand content_type product text allow g
  = (Raised (ValueError ("No available images for " +:+ content_type
                         +:+ " - " +:+ product)), g).
Proof.
  intros Hinfo Hel Hused Hall. unfold _generate_single_image.
  unfold bind at 1.
  rewrite (pool_of_pairing md content_type product Hconcrete Hstripped
             Hprevents allow g info available used Hinfo Hel Hused).
  replace (filter (fun img => img ∉ used) available) with (@nil string);
    [reflexivity|].
  symmetry. clear Hel. induction available as [|img rest IH]; [reflexivity|].
  rewrite filter_cons. destruct (decide (img ∉ used)) as [Hnot|_].
  - exfalso. apply Hnot, Hall. left.
  - apply IH. intros img' Hin. apply Hall. right. exact Hin.
Qed.

(** Two successful selections in a row take two different images, and with
    two eligible images the next selection finds none. *)
Lemma two_selections_exhaust t1 t2 t3 allow1 allow2 allow3
      g0 pic1 g1 pic2 g2 info a b :
  dict_get content_type (md_structure md) = Some info ->
  eligible_images md (images info) product = Returned [a; b] ->
  _generate_single_image base_path md rand content_type product t1 allow1 g0
  = (Returned pic1, g1) ->
  _generate_single_image base_path md rand content_type product t2 allow2 g1
  = (Returned pic2, g2) ->
  source_image pic1 <> source_image pic2
  /\ _generate_single_image base_path md rand content_type product t3 allow3 g2
     = (Raised (ValueError ("No available images for " +:+ content_type
                            +:+ " - " +:+ product)), g2).
Proof.
  intros Hinfo Hel Hsel1 Hsel2.
  destruct (selection_records base_path md content_type product
              Hconcrete Hstripped Hprevents rand t1 allow1 g0 pic1 g1 Hsel1)
    as (info1 & av1 & used & bp & Hinfo1 & Hel1 & Hct1 & Hp1 & Hin1 & Hu1 & _).
  destruct (selection_records base_path md content_type product
              Hconcrete Hstripped Hprevents rand t2 allow2 g1 pic2 g2 Hsel2)
    as (info2 & av2 & used2 & bp2 & Hinfo2 & Hel2 & Hct2 & Hp2 & Hin2 & Hu2 & _).
  assert (info1 = info) by congruence. subst info1.
  assert (info2 = info) by congruence. subst info2.
  assert (av1 = [a; b]) by congruence. subst av1.
  assert (av2 = [a; b]) by congruence. subst av2.
  rewrite Hu1, lookup_insert_eq in Hct2. injection Hct2 as <-.
  rewrite lookup_insert_eq in Hp2. injection Hp2 as <-.
  apply list_elem_of_filter in Hin1 as [_ Hx].
  apply list_elem_of_filter in Hin2 as [Hfresh Hy].
  assert (Hne : source_image pic1 <> source_image pic2).
  { intros Heq. apply Hfresh. apply elem_of_app. right. rewrite Heq. left. }
  split; [exact Hne|].
  apply (exhausted_pairing_raises t3 allow3 g2 info [a; b]
           ((used ++ [source_image pic1]) ++ [source_image pic2])%list
           Hinfo Hel).
  - unfold used_lookup. rewrite Hu2, !lookup_insert_eq. reflexivity.
  - intros img Himg.
    assert (Hcases : img = source_image pic1 \/ img = source_image pic2).
    { apply elem_of_cons in Hx as [Hx|Hx];
        [|apply list_elem_of_singleton in Hx];
      (apply elem_of_cons in Hy as [Hy|Hy];
        [|apply list_elem_of_singleton in Hy]);
      (apply elem_of_cons in Himg as [Himg|Himg];
        [|apply list_elem_of_singleton in Himg]);
      try (left; congruence); try (right; congruence);
      exfalso; apply Hne; congruence. }
    destruct Hcases as [->| ->].
    + apply elem_of_app. left. apply elem_of_app. right. left.
    + apply elem_of_app. right. left.
Qed.
End PairingExhaustion.

(** ** Every post starts afresh *)
Section PostReset.
Context `{Python} `{Collaborators}.
Variable base_path : string.
Variable md : Metadata.

(** Every content type has its list of products: the validator's result. *)
Definition products_declared : Prop :=
  forall c, c ∈ md_content_types md -> is_Some (dict_get c (md_products md)).

(** A post does not look at the lists the posts before it left. *)
Lemma generate_post_forgets rand hmap allow variation post row g u :
  products_declared ->
  generate_post base_path md rand hmap allow variation post row g
  = generate_post base_path md rand hmap allow variation post row
      {| used_images := u; drawn := drawn g; saved := saved g |}.
Proof.
  intros Hdecl. destruct (fresh_used_images_spec md Hdecl) as (fresh & Hrun & _).
  unfold generate_post. unfold bind at 1 3. rewrite !Hrun. reflexivity.
Qed.

Variable content_type product : string.
Hypothesis Hconcrete : product <> "all".
Hypothesis Hstripped : strip_product product = product.
Hypothesis Hprevents : prevents md content_type product = Returned true.

(** Drawing the picture of [img] for the pairing succeeds, whatever the
    text and the random numbers. *)
Definition renders (img : string) : Prop :=
  forall rand text g, exists pic g',
    render_selected base_path md rand content_type product text img g
    = (Returned pic, g').

Lemma prevented_product_declared :
  exists prods, dict_get content_type (md_products md) = Some prods
                /\ product ∈ map name prods.
Proof.
  unfold prevents in Hprevents.
  destruct (dict_get content_type (md_products md)) as [prods|]; [|discriminate].
  exists prods. split; [reflexivity|].
  destruct (List.find _ prods) as [pi|] eqn:Hfind; [|discriminate].
  apply List.find_some in Hfind as [Hin Hname].
  apply String.eqb_eq in Hname. rewrite Hstripped in Hname. rewrite <- Hname.
  apply list_elem_of_In, List.in_map, Hin.
Qed.

Lemma filter_not_in_nil (l : list string) :
  filter (fun img => img ∉ @nil string) l = l.
Proof.
  induction l as [|x l IH]; [reflexivity|].
  rewrite filter_cons_True by (intros Hin; inversion Hin). f_equal. exact IH.
Qed.

(** A post of one slot for the pairing, with two eligible images: the
    picture is the one the first random number points at, of both. *)
Lemma post_selects rand allow variation post text g info a b :
  str_truthy text = true ->
  products_declared ->
  content_type ∈ md_content_types md ->
  dict_get content_type (md_structure md) = Some info ->
  eligible_images md (images info) product = Returned [a; b] ->
  renders a -> renders b ->
  exists pic g',
    generate_post base_path md rand [content_type] allow variation post
                  [product; text] g = (Returned tt, g')
    /\ [a; b] !! (rand (drawn g) mod 2)%nat = Some (source_image pic)
    /\ drawn g' = Datatypes.S (Datatypes.S (drawn g))
    /\ saved g' = (saved g ++ [{| variation_num := variation;
                                  post_num := post;
                                  slot_num := 1;
                                  picture := pic |}])%list.
Proof.
  intros Htext Hdecl Hct Hinfo Hel Ha Hb.
  destruct (fresh_used_images_spec md Hdecl) as (fresh & Hfresh & Hlook).
  destruct prevented_product_declared as (prods & Hprods & Hin).
  specialize (Hlook content_type prods Hct Hprods).
  assert (Hp : empty_lists prods !! product = Some []).
  { rewrite empty_lists_lookup, bool_decide_eq_true_2 by exact Hin.
    reflexivity. }
  unfold generate_post. unfold bind at 1. rewrite Hfresh.
  unfold bind at 1. unfold put_used at 1, modify.
  cbn [pair_up enumerate1 length seq zip zip_with for_do].
  unfold bind at 1. unfold generate_slot.
  unfold bind at 1. cbn [lookup list_lookup Nat.sub ret]. rewrite Htext.
  cbn [negb]. unfold bind at 1.
  unfold _generate_single_image. unfold bind at 1.
  rewrite (pool_of_pairing md content_type product Hconcrete Hstripped
             Hprevents allow _ info [a; b] [] Hinfo Hel)
    by (unfold used_lookup; cbn [used_images]; rewrite Hlook, Hp; reflexivity).
  rewrite filter_not_in_nil.
  unfold bind at 1. unfold random_choice at 1. unfold bind at 1.
  cbn [next_random drawn length].
  assert (Hlt : (rand (drawn g) mod 2 < 2)%nat)
    by (apply Nat.mod_upper_bound; discriminate).
  destruct ([a; b] !! (rand (drawn g) mod 2)%nat) as [selected|] eqn:Hsel.
  2:{ apply lookup_ge_None in Hsel. cbn in Hsel. lia. }
  cbn [ret]. unfold bind at 1.
  rewrite should_prevent_duplicates_pure, Hprevents.
  unfold bind at 1. rewrite record_used_spec. cbn [used_images].
  rewrite Hlook, Hp. cbn [drawn saved].
  assert (Hrenders : renders selected).
  { apply list_elem_of_lookup_2 in Hsel.
    apply elem_of_cons in Hsel as [->|Hsel]; [exact Ha|].
    apply list_elem_of_singleton in Hsel as ->. exact Hb. }
  match goal with
  | |- context [render_selected _ _ _ _ _ _ _ ?g1] =>
      destruct (Hrenders rand text g1) as (pic & g2 & Hrender)
  end.
  rewrite Hrender.
  apply render_selected_spec in Hrender as (_ & Hsaved & Hpic).
  destruct (Hpic pic eq_refl) as [Hsrc Hdrawn]. cbn in Hsaved, Hdrawn.
  exists pic. eexists. split; [reflexivity|].
  cbn [drawn saved]. rewrite Hsrc, Hdrawn, Hsaved. repeat split; reflexivity.
Qed.
(** Three posts of one slot each for the pairing, with two eligible images:
    whichever image is wanted for each post, some run of the random source
    takes exactly those. *)
Lemma three_posts_choose_freely caps allow t1 t2 t3 info a b c1 c2 c3 :
  captions caps = [[product; t1]; [product; t2]; [product; t3]] ->
  (forall g, headers_map caps g = (Returned [content_type], g)) ->
  str_truthy t1 = true -> str_truthy t2 = true -> str_truthy t3 = true ->
  products_declared ->
  content_type ∈ md_content_types md ->
  dict_get content_type (md_structure md) = Some info ->
  eligible_images md (images info) product = Returned [a; b] ->
  renders a -> renders b ->
  c1 ∈ [a; b] -> c2 ∈ [a; b] -> c3 ∈ [a; b] ->
  exists rand g',
    generate base_path md caps rand 1 allow initial_gen_state
    = (Returned tt, g')
    /\ map (fun s => (post_num s, source_image (picture s))) (saved g')
       = [(1%nat, c1); (2%nat, c2); (3%nat, c3)].
Proof.
  intros Hcaps Hheaders Ht1 Ht2 Ht3 Hdecl Hct Hinfo Hel Ha Hb Hc1 Hc2 Hc3.
  apply list_elem_of_lookup in Hc1 as [i1 Hi1].
  apply list_elem_of_lookup in Hc2 as [i2 Hi2].
  apply list_elem_of_lookup in Hc3 as [i3 Hi3].
  pose proof (lookup_lt_Some _ _ _ Hi1) as Hlt1.
  pose proof (lookup_lt_Some _ _ _ Hi2) as Hlt2.
  pose proof (lookup_lt_Some _ _ _ Hi3) as Hlt3.
  cbn [length] in Hlt1, Hlt2, Hlt3.
  set (rand := fun k : nat =>
                 match k with
                 | 0 => i1 | 2 => i2 | 4 => i3 | _ => 0
                 end%nat).
  exists rand.
  unfold generate. unfold bind at 1. rewrite Hheaders.
  cbn [seq for_do]. unfold bind at 1. rewrite Hcaps.
  cbn [enumerate1 length seq zip_with for_do].
  destruct (post_selects rand allow 1 1 t1 initial_gen_state info a b
              Ht1 Hdecl Hct Hinfo Hel Ha Hb)
    as (pic1 & g1 & Hrun1 & Hsel1 & Hd1 & Hs1).
  destruct (post_selects rand allow 1 2 t2 g1 info a b
              Ht2 Hdecl Hct Hinfo Hel Ha Hb)
    as (pic2 & g2 & Hrun2 & Hsel2 & Hd2 & Hs2).
  destruct (post_selects rand allow 1 3 t3 g2 info a b
              Ht3 Hdecl Hct Hinfo Hel Ha Hb)
    as (pic3 & g3 & Hrun3 & Hsel3 & Hd3 & Hs3).
  unfold bind at 1. rewrite Hrun1.
  unfold bind at 1. rewrite Hrun2.
  unfold bind at 1. rewrite Hrun3.
  exists g3. split; [reflexivity|].
  rewrite Hd2, Hd1 in Hsel3. rewrite Hd1 in Hsel2.
  cbn [initial_gen_state drawn] in Hsel1, Hsel2, Hsel3.
  unfold rand in Hsel1, Hsel2, Hsel3.
  rewrite Nat.mod_small in Hsel1 by exact Hlt1.
  rewrite Nat.mod_small in Hsel2 by exact Hlt2.
  rewrite Nat.mod_small in Hsel3 by exact Hlt3.
  rewrite Hs3, Hs2, Hs1. cbn [initial_gen_state saved app map post_num picture].
  repeat f_equal; congruence.
Qed.
End PostReset.

(** ** Recorded, then excluded *)
Section PairingExclusion.
Context `{Python} `{Collaborators}.
Variable base_path : string.
Variable md : Metadata.
Variable content_type product : string.
Hypothesis Hconcrete : product <> "all".
Hypothesis Hstripped : strip_product product = product.
Hypothesis Hprevents : prevents md content_type product = Returned true.

(** The image of a successful selection was not in the pairing's used list
    and is appended to it. *)
Lemma selection_recorded rand text allow g pic g' :
  _generate_single_image base_path md rand content_type product text allow g
  = (Returned pic, g') ->
  exists used,
    used_lookup (used_images g) content_type product = Returned used
    /\ (source_image pic ∉ used)
    /\ used_lookup (used_images g') content_type product
       = Returned (used ++ [source_image pic])%list.
Proof.
  intros Hsel.
  destruct (selection_records base_path md content_type product
              Hconcrete Hstripped Hprevents rand text allow g pic g' Hsel)
    as (info & available & used & bp & _ & _ & Hct & Hp & Hin & Hu & _).
  exists used. unfold used_lookup. rewrite Hct, Hp, Hu, !lookup_insert_eq.
  apply list_elem_of_filter in Hin as [Hfresh _].
  repeat split. exact Hfresh.
Qed.

(** An image of the pairing's used list is in no pool of the pairing. *)
Lemma used_image_excluded allow g used pool g' img :
  used_lookup (used_images g) content_type product = Returned used ->
  img ∈ used ->
  _get_available_images md content_type product allow g = (Returned pool, g') ->
  img ∉ pool.
Proof.
  intros Hused Hin Hpool.
  apply (pool_of_pairing_inv md content_type product Hconcrete Hstripped
           Hprevents) in Hpool
    as (_ & info & available & used' & _ & _ & Hused' & ->).
  assert (used' = used) by congruence. subst used'.
  intros Hc. apply list_elem_of_filter in Hc as [Hfresh _].
  exact (Hfresh Hin).
Qed.
End PairingExclusion.

(** C2.  For a pairing whose product is a concrete name (not 'all', written
    as [strip] leaves it) that the code's lookup finds declared with
    [prevent_duplicates] true:
    - a successful selection takes an image that was not in the pairing's
      used list and appends it there;
    - an image in the pairing's used list is in no pool of the pairing;
    - so, within one post, the pictures saved for the pairing come from
      pairwise different images, however the post ends;
    - two successful selections in a row take different images, and with
      exactly two eligible images the selection after them raises
      "No available images for ...", leaving the state alone;
    - a post builds its used lists itself: what the posts before it left
      there does not change its outcome, and with three posts of one slot
      each for the pairing and two eligible images that can be drawn, every
      assignment of the two images to the three posts is the result of some
      run of the random source. *)
Theorem C2_prevented_pairing_never_repeats_in_a_post
    `{Python} `{Collaborators}
    (base_path : string) (md : Metadata) (content_type product : string) :
  product <> "all" ->
  strip_product product = product ->
  prevents md content_type product = Returned true ->
  (forall rand text allow g pic g',
      _generate_single_image base_path md rand content_type product text
                             allow g = (Returned pic, g') ->
      exists used,
        used_lookup (used_images g) content_type product = Returned used
        /\ (source_image pic ∉ used)
        /\ used_lookup (used_images g') content_type product
           = Returned (used ++ [source_image pic])%list)
  /\ (forall allow g used pool g' img,
        used_lookup (used_images g) content_type product = Returned used ->
        img ∈ used ->
        _get_available_images md content_type product allow g
        = (Returned pool, g') ->
        img ∉ pool)
  /\ (forall rand hmap allow variation post row g r g',
        generate_post base_path md rand hmap allow variation post row g
        = (r, g') ->
        exists new,
          saved g' = (saved g ++ new)%list
          /\ NoDup (pairing_sources hmap row content_type product new))
  /\ (forall rand t1 t2 t3 allow1 allow2 allow3 g0 pic1 g1 pic2 g2 info a b,
        dict_get content_type (md_structure md) = Some info ->
        eligible_images md (images info) product = Returned [a; b] ->
        _generate_single_image base_path md rand content_type product t1
                               allow1 g0 = (Returned pic1, g1) ->
        _generate_single_image base_path md rand content_type product t2
                               allow2 g1 = (Returned pic2, g2) ->
        source_image pic1 <> source_image pic2
        /\ _generate_single_image base_path md rand content_type product t3
                                  allow3 g2
           = (Raised (ValueError ("No available images for " +:+ content_type
                                  +:+ " - " +:+ product)), g2))
  /\ (products_declared md ->
      (forall rand hmap allow variation post row g u,
          generate_post base_path md rand hmap allow variation post row g
          = generate_post base_path md rand hmap allow variation post row
              {| used_images := u; drawn := drawn g; saved := saved g |})
      /\ forall caps allow t1 t2 t3 info a b c1 c2 c3,
           captions caps = [[product; t1]; [product; t2]; [product; t3]] ->
           (forall g, headers_map caps g = (Returned [content_type], g)) ->
           str_truthy t1 = true -> str_truthy t2 = true ->
           str_truthy t3 = true ->
           content_type ∈ md_content_types md ->
           dict_get content_type (md_structure md) = Some info ->
           eligible_images md (images info) product = Returned [a; b] ->
           renders base_path md content_type product a ->
           renders base_path md content_type product b ->
           c1 ∈ [a; b] -> c2 ∈ [a; b] -> c3 ∈ [a; b] ->
           exists rand g',
             generate base_path md caps rand 1 allow initial_gen_state
             = (Returned tt, g')
             /\ map (fun s => (post_num s, source_image (picture s)))
                    (saved g')
                = [(1%nat, c1); (2%nat, c2); (3%nat, c3)]).
Proof.
  intros Hconcrete Hstripped Hprevents. repeat apply conj.
  - intros rand text allow g pic g'.
    apply (selection_recorded base_path md content_type product
             Hconcrete Hstripped Hprevents).
  - intros allow g used pool g' img.
    apply (used_image_excluded md content_type product
             Hconcrete Hstripped Hprevents).
  - intros rand hmap allow variation post row g r g' Hrun.
    exact (post_never_repeats base_path md content_type product
             Hconcrete Hstripped Hprevents rand hmap allow variation post row
             (saved g) g r g' eq_refl Hrun).
  - intros rand t1 t2 t3 allow1 allow2 allow3 g0 pic1 g1 pic2 g2 info a b.
    apply (two_selections_exhaust base_path md content_type product
             Hconcrete Hstripped Hprevents).
  - intros Hdecl. split.
    + intros rand hmap allow variation post row g u.
      apply generate_post_forgets. exact Hdecl.
    + intros caps allow t1 t2 t3 info a b c1 c2 c3 Hcaps Hheaders Ht1 Ht2 Ht3
             Hct Hinfo Hel Ha Hb Hc1 Hc2 Hc3.
      eapply (three_posts_choose_freely base_path md content_type product
                Hconcrete Hstripped Hprevents); eassumption.
Qed.

(** Three posts, each with one "hook" slot for "magnesium". *)
Definition three_post_captions : Captions :=
  {| headers := ["product_hook"; "text_hook"];
     captions := [["magnesium"; "first"]; ["magnesium"; "second"];
                  ["magnesium"; "third"]] |}.

(** The state a post of the example starts its slots in. *)
Definition magnesium_post_start : GenState :=
  {| used_images := {[ "hook" := {[ "magnesium" := [] ]} ]};
     drawn := 0%nat;
     saved := [] |}.

Lemma C2_witness :
  ("magnesium" <> "all"
   /\ @strip_product Fixture.python "magnesium" = "magnesium"
   /\ @prevents Fixture.python Fixture.magnesium_metadata "hook" "magnesium"
      = Returned true
   /\ eligible_images Fixture.magnesium_metadata
        ["1h.png"; "2h.png"; "3h.png"] "magnesium"
      = Returned ["1h.png"; "2h.png"])
  /\ (exists pic1 g1 pic2 g2,
        @_generate_single_image Fixture.python Fixture.collaborators "/base"
          Fixture.magnesium_metadata (fun _ => 0%nat) "hook" "magnesium"
          "first" false magnesium_post_start = (Returned pic1, g1)
        /\ @_generate_single_image Fixture.python Fixture.collaborators "/base"
             Fixture.magnesium_metadata (fun _ => 0%nat) "hook" "magnesium"
             "second" false g1 = (Returned pic2, g2)
        /\ source_image pic1 <> source_image pic2
        /\ @_generate_single_image Fixture.python Fixture.collaborators "/base"
             Fixture.magnesium_metadata (fun _ => 0%nat) "hook" "magnesium"
             "third" false g2
           = (Raised (ValueError "No available images for hook - magnesium"),
              g2))
  /\ (exists rand g',
        @generate Fixture.python Fixture.collaborators "/base"
          Fixture.magnesium_metadata three_post_captions rand 1 false
          initial_gen_state = (Returned tt, g')
        /\ map (fun s => (post_num s, source_image (picture s))) (saved g')
           = [(1%nat, "2h.png"); (2%nat, "1h.png"); (3%nat, "2h.png")]).
Proof.
  assert (Hconcrete : "magnesium" <> "all") by discriminate.
  assert (Hstripped : @strip_product Fixture.python "magnesium" = "magnesium")
    by reflexivity.
  assert (Hprevents : @prevents Fixture.python Fixture.magnesium_metadata
                        "hook" "magnesium" = Returned true) by reflexivity.
  assert (Hel : eligible_images Fixture.magnesium_metadata
                  ["1h.png"; "2h.png"; "3h.png"] "magnesium"
                = Returned ["1h.png"; "2h.png"]) by (vm_compute; reflexivity).
  destruct (@C2_prevented_pairing_never_repeats_in_a_post
              Fixture.python Fixture.collaborators "/base"
              Fixture.magnesium_metadata "hook" "magnesium"
              Hconcrete Hstripped Hprevents)
    as (_ & _ & _ & Hthird & Hposts).
  split; [repeat split; assumption|]. split.
  - destruct (@_generate_single_image Fixture.python Fixture.collaborators
                "/base" Fixture.magnesium_metadata (fun _ => 0%nat) "hook"
                "magnesium" "first" false magnesium_post_start)
      as [[pic1|e1] g1] eqn:Hsel1; [|vm_compute in Hsel1; discriminate].
    pose proof Hsel1 as Hval1. vm_compute in Hval1.
    injection Hval1 as Hpic1 Hg1. subst pic1 g1.
    match type of Hsel1 with
    | _ = (Returned ?pic1, ?g1) =>
        destruct (@_generate_single_image Fixture.python Fixture.collaborators
                    "/base" Fixture.magnesium_metadata (fun _ => 0%nat) "hook"
                    "magnesium" "second" false g1)
          as [[pic2|e2] g2] eqn:Hsel2; [|vm_compute in Hsel2; discriminate];
        exists pic1, g1, pic2, g2
    end.
    split; [exact Hsel1|]. split; [exact Hsel2|].
    exact (Hthird (fun _ => 0%nat) "first" "second" "third" false false false
             magnesium_post_start _ _ pic2 g2
             {| path := "/base/hook";
                images := ["1h.png"; "2h.png"; "3h.png"] |}
             "1h.png" "2h.png" eq_refl Hel Hsel1 Hsel2).
  - destruct Hposts as [_ Hthree].
    + intros c Hc. apply list_elem_of_singleton in Hc as ->.
      eexists. reflexivity.
    + apply (Hthree three_post_captions false "first" "second" "third"
               {| path := "/base/hook";
                  images := ["1h.png"; "2h.png"; "3h.png"] |}
               "1h.png" "2h.png" "2h.png" "1h.png" "2h.png").
      * reflexivity.
      * intros g. reflexivity.
      * reflexivity.
      * reflexivity.
      * reflexivity.
      * left.
      * reflexivity.
      * exact Hel.
      * intros rand text g. eexists. eexists. vm_compute. reflexivity.
      * intros rand text g. eexists. eexists. vm_compute. reflexivity.
      * right. left.
      * left.
      * right. left.
Defined.

(** A content type that declares the product "all" with duplicate
    prevention next to the product "plain" without it; both images are tagged
    "plain". *)
Definition all_prevented_metadata : Metadata :=
  {| md_keys := REQUIRED_KEYS_ORDER;
     md_content_types := ["hook"];
     md_products :=
       [("hook", [Fixture.product_of "all" true 0 0;
                  Fixture.product_of "plain" false 0 2])];
     md_structure :=
       [("hook", {| path := "/base/hook"; images := ["1h.png"; "2h.png"] |})];
     md_images :=
       [("1h.png", Fixture.image_of "hook" (Some "plain"));
        ("2h.png", Fixture.image_of "hook" (Some "plain"))];
     md_untagged := [];
     md_settings := [("hook", [("content", JNull)])] |}.

(** A content type that declares "magnesium" and, with a leading blank,
    " magnesium", both with duplicate prevention; the one image is tagged
    "magnesium". *)
Definition padded_metadata : Metadata :=
  {| md_keys := REQUIRED_KEYS_ORDER;
     md_content_types := ["hook"];
     md_products :=
       [("hook", [Fixture.product_of "magnesium" true 0 1;
                  Fixture.product_of " magnesium" true 0 0])];
     md_structure :=
       [("hook", {| path := "/base/hook"; images := ["1h.png"] |})];
     md_images := [("1h.png", Fixture.image_of "hook" (Some "magnesium"))];
     md_untagged := [];
     md_settings := [("hook", [("content", JNull)])] |}.

(** C2, as stated, fails for two kinds of pairing.  With the product 'all'
    declared with [prevent_duplicates] true, three slots of one post that ask
    for 'all' all get the same image although only two are eligible: the
    selections are recorded under 'all', and the pool of 'all' never looks
    there.  With a product name that [strip] changes, the selection is
    recorded under the name as written and the pool looks under the stripped
    name, so two slots of one post get the same image. *)
Lemma C2_counterexample :
  (@prevents Fixture.python all_prevented_metadata "hook" "all" = Returned true
   /\ exists g',
        @generate_post Fixture.python Fixture.collaborators "/base"
          all_prevented_metadata (fun _ => 0%nat) ["hook"; "hook"; "hook"]
          false 1 1 ["all"; "a"; "all"; "b"; "all"; "c"] initial_gen_state
        = (Returned tt, g')
        /\ pairing_sources ["hook"; "hook"; "hook"]
             ["all"; "a"; "all"; "b"; "all"; "c"] "hook" "all" (saved g')
           = ["1h.png"; "1h.png"; "1h.png"])
  /\ (@prevents Fixture.python padded_metadata "hook" " magnesium"
      = Returned true
      /\ In (Fixture.product_of " magnesium" true 0 0)
            (default [] (dict_get "hook" (md_products padded_metadata)))
      /\ exists g',
           @generate_post Fixture.python Fixture.collaborators "/base"
             padded_metadata (fun _ => 0%nat) ["hook"; "hook"]
             false 1 1 [" magnesium"; "a"; " magnesium"; "b"]
             initial_gen_state
           = (Returned tt, g')
           /\ pairing_sources ["hook"; "hook"]
                [" magnesium"; "a"; " magnesium"; "b"] "hook" " magnesium"
                (saved g')
              = ["1h.png"; "1h.png"]).
Proof.
  split.
  - split; [reflexivity|]. eexists. split.
    + vm_compute. reflexivity.
    + vm_compute. reflexivity.
  - split; [reflexivity|]. split; [right; left; reflexivity|].
    eexists. split.
    + vm_compute. reflexivity.
    + vm_compute. reflexivity.
Qed.

(** ** C10, in a post: the used lists stay in place *)
Section TrackedProducts.
Context `{Python} `{Collaborators}.
Variable base_path : string.
Variable md : Metadata.
Variable rand : nat -> nat.

(** A selection leaves [used_images] alone or appends one image to the list
    of its own pairing, which was there before. *)
Lemma generate_single_image_used ct' p' text allow g r g' :
  _generate_single_image base_path md rand ct' p' text allow g = (r, g') ->
  used_images g' = used_images g
  \/ exists by_product used selected,
       used_images g !! ct' = Some by_product
       /\ by_product !! p' = Some used
       /\ used_images g'
          = <[ct' := <[p' := (used ++ [selected])%list]> by_product]>
              (used_images g).
Proof.
  intros Hrun. unfold _generate_single_image in Hrun.
  unfold bind at 1 in Hrun.
  pose proof (get_available_images_state md ct' p' allow g) as Hst.
  destruct (_get_available_images md ct' p' allow g) as [[pool|e] g0];
    cbn [snd] in Hst; subst g0; [|injection Hrun as _ <-; left; reflexivity].
  destruct pool as [|x pool]; [injection Hrun as _ <-; left; reflexivity|].
  unfold bind at 1 in Hrun. unfold random_choice at 1 in Hrun.
  unfold bind at 1 in Hrun. cbn [next_random] in Hrun.
  destruct ((x :: pool) !! (rand (drawn g) mod length (x :: pool))%nat)
    as [selected|]; [|injection Hrun as _ <-; left; reflexivity].
  cbn [ret] in Hrun. unfold bind at 1 in Hrun.
  rewrite should_prevent_duplicates_pure in Hrun.
  destruct (prevents md ct' p') as [prevent|e];
    [|injection Hrun as _ <-; left; reflexivity].
  unfold bind at 1 in Hrun.
  destruct prevent.
  - rewrite record_used_spec in Hrun. cbn [used_images] in Hrun.
    destruct (used_images g !! ct') as [by_product|] eqn:Hct';
      [|injection Hrun as _ <-; left; reflexivity].
    destruct (by_product !! p') as [used|] eqn:Hp';
      [|injection Hrun as _ <-; left; reflexivity].
    apply render_selected_spec in Hrun as (Hu & _ & _). cbn in Hu.
    right. exists by_product, used, selected. repeat split; assumption.
  - cbn [ret] in Hrun.
    apply render_selected_spec in Hrun as (Hu & _ & _). cbn in Hu.
    left. exact Hu.
Qed.

(** So the lists of the declared products, once there, stay there. *)
Lemma tracks_products_kept ct' p' text allow g r g' content_type prods :
  _generate_single_image base_path md rand ct' p' text allow g = (r, g') ->
  tracks_products g content_type prods ->
  tracks_products g' content_type prods.
Proof.
  intros Hrun (by_product & Hct & Hall).
  destruct (generate_single_image_used _ _ _ _ _ _ _ Hrun)
    as [Hsame|(bp & used & selected & Hbp & Hused & Hnew)].
  - exists by_product. rewrite Hsame. split; assumption.
  - unfold tracks_products. rewrite Hnew.
    destruct (decide (ct' = content_type)) as [->|Hne].
    + assert (bp = by_product) by congruence. subst bp.
      exists (<[p' := (used ++ [selected])%list]> by_product).
      split; [apply lookup_insert_eq|].
      intros p Hp. destruct (decide (p' = name p)) as [->|Hp'].
      * rewrite lookup_insert_eq. eexists. reflexivity.
      * rewrite lookup_insert_ne by exact Hp'. apply Hall, Hp.
    + exists by_product. rewrite lookup_insert_ne by exact Hne.
      split; assumption.
Qed.

(** The dict a post starts with has the lists of every declared product. *)
Lemma fresh_tracks_products fresh content_type prods g :
  (forall c ps, c ∈ md_content_types md ->
                dict_get c (md_products md) = Some ps ->
                fresh !! c = Some (empty_lists ps)) ->
  content_type ∈ md_content_types md ->
  dict_get content_type (md_products md) = Some prods ->
  tracks_products
    {| used_images := fresh; drawn := drawn g; saved := saved g |}
    content_type prods.
Proof.
  intros Hfresh Hct Hprods. exists (empty_lists prods).
  split; [exact (Hfresh content_type prods Hct Hprods)|].
  intros p Hp. rewrite empty_lists_lookup.
  rewrite bool_decide_eq_true_2; [eexists; reflexivity|].
  apply list_elem_of_In, List.in_map, Hp.
Qed.
End TrackedProducts.

Section AllTaggedPost.
Context `{Python} `{Collaborators}.
Variable base_path : string.
Variable md : Metadata.
Variable content_type : string.
Variable prods : list Product.
Variable info : Structure.
Hypothesis Hprods : dict_get content_type (md_products md) = Some prods.
Hypothesis Hnot : ~ In "all" (map name prods).
Hypothesis Hinfo : dict_get content_type (md_structure md) = Some info.
Hypothesis Htagged : forall img, img ∈ images info -> tagged md img "all".
Variable rand : nat -> nat.
Variable hmap : list string.
Variable allow : bool.
Variable variation post : nat.
Variable base : list Saved.

(** The loop invariant: the lists of the declared products are in place,
    and no picture saved since the post started is for a slot of the content
    type. *)
Definition none_saved_inv (new : list Saved) (g : GenState) : Prop :=
  tracks_products g content_type prods
  /\ saved g = (base ++ new)%list
  /\ forall s, s ∈ new -> hmap !! (slot_num s - 1)%nat <> Some content_type.

(** A slot of the content type that has a text ends the post with the
    pool-exhaustion error; any other slot keeps the invariant. *)
Lemma all_tagged_slot_step idx product text g r g' new :
  generate_slot base_path md rand hmap allow variation post
                (idx, (product, text)) g = (r, g') ->
  none_saved_inv new g ->
  (exists new', none_saved_inv new' g')
  /\ (hmap !! (idx - 1)%nat = Some content_type -> str_truthy text = true ->
      r = Raised (ValueError ("No available images for " +:+ content_type
                              +:+ " - " +:+ product))
      /\ g' = g).
Proof.
  intros Hrun Hinv. unfold generate_slot in Hrun. unfold bind at 1 in Hrun.
  destruct (hmap !! (idx - 1)%nat) as [ct|] eqn:Hmap.
  2:{ injection Hrun as _ <-. split; [exists new; exact Hinv|discriminate]. }
  cbn [ret] in Hrun.
  destruct (str_truthy text) eqn:Htext; cbn [negb] in Hrun.
  2:{ injection Hrun as _ <-. split; [exists new; exact Hinv|discriminate]. }
  unfold bind at 1 in Hrun.
  destruct Hinv as (Htracks & Hsaved & Hnone).
  destruct (decide (ct = content_type)) as [->|Hne].
  - rewrite (all_tagged_selection_raises md base_path rand content_type prods
               info product text allow g Hprods Hnot Hinfo Htagged Htracks)
      in Hrun.
    injection Hrun as <- <-.
    split; [exists new; repeat split; assumption|].
    intros _ _. split; reflexivity.
  - destruct (_generate_single_image base_path md rand ct product text allow g)
      as [[pic|e] g1] eqn:Hsel.
    + unfold save, modify in Hrun. injection Hrun as _ <-.
      split; [|intros [= Heq]; contradiction].
      exists (new ++ [{| variation_num := variation; post_num := post;
                         slot_num := idx; picture := pic |}])%list.
      repeat split.
      * destruct (tracks_products_kept _ _ _ _ _ _ _ _ _ _ content_type prods
                    Hsel Htracks) as (bp & Hbp & Hall).
        exists bp. split; assumption.
      * cbn [saved].
        rewrite (generate_single_image_saved _ _ _ _ _ _ _ _ _ _ Hsel).
        rewrite Hsaved, app_assoc. reflexivity.
      * intros s Hs. apply elem_of_app in Hs as [Hs|Hs]; [exact (Hnone s Hs)|].
        apply list_elem_of_singleton in Hs as ->. cbn [slot_num].
        rewrite Hmap. congruence.
    + injection Hrun as _ <-.
      split; [|intros [= Heq]; contradiction].
      exists new. repeat split.
      * exact (tracks_products_kept _ _ _ _ _ _ _ _ _ _ content_type prods
                 Hsel Htracks).
      * rewrite (generate_single_image_saved _ _ _ _ _ _ _ _ _ _ Hsel).
        exact Hsaved.
      * exact Hnone.
Qed.

Lemma all_tagged_slots_loop slots :
  forall g r g' new,
    for_do slots (generate_slot base_path md rand hmap allow variation post) g
    = (r, g') ->
    none_saved_inv new g ->
    (exists new', none_saved_inv new' g')
    /\ ((exists idx product text,
           (idx, (product, text)) ∈ slots
           /\ hmap !! (idx - 1)%nat = Some content_type
           /\ str_truthy text = true) ->
        exists e, r = Raised e).
Proof.
  induction slots as [|[idx [product text]] slots IH];
    intros g r g' new Hrun Hinv.
  - injection Hrun as _ <-. split; [exists new; exact Hinv|].
    intros (idx & product & text & Hin & _). inversion Hin.
  - cbn [for_do] in Hrun. unfold bind at 1 in Hrun.
    destruct (generate_slot base_path md rand hmap allow variation post
                (idx, (product, text)) g) as [[[]|e] g1] eqn:Hslot.
    + destruct (all_tagged_slot_step idx product text g (Returned tt) g1 new
                  Hslot Hinv) as [[new1 Hinv1] Hhere].
      destruct (IH g1 r g' new1 Hrun Hinv1) as [Hend Hlater].
      split; [exact Hend|].
      intros (idx' & product' & text' & Hin & Hmap & Htext).
      apply elem_of_cons in Hin as [Heq|Hin].
      * injection Heq as -> -> ->.
        destruct (Hhere Hmap Htext) as [Hr _]. discriminate Hr.
      * apply Hlater. exists idx', product', text'. repeat split; assumption.
    + injection Hrun as <- <-.
      destruct (all_tagged_slot_step idx product text g (Raised e) g1 new
                  Hslot Hinv) as [Hend _].
      split; [exact Hend|]. intros _. exists e. reflexivity.
Qed.

(** In a post, no picture is saved for a slot of the content type, and a
    row with such a slot that has a text makes the post raise. *)
Lemma all_tagged_post g r g' row :
  products_declared md ->
  content_type ∈ md_content_types md ->
  saved g = base ->
  generate_post base_path md rand hmap allow variation post row g = (r, g') ->
  (exists new,
     saved g' = (base ++ new)%list
     /\ forall s, s ∈ new -> hmap !! (slot_num s - 1)%nat <> Some content_type)
  /\ ((exists idx product text,
         (idx, (product, text)) ∈ enumerate1 (pair_up row)
         /\ hmap !! (idx - 1)%nat = Some content_type
         /\ str_truthy text = true) ->
      exists e, r = Raised e).
Proof.
  intros Hdecl Hct Hbase Hrun.
  destruct (fresh_used_images_spec md Hdecl) as (fresh & Hfresh & Hlook).
  unfold generate_post in Hrun. unfold bind at 1 in Hrun.
  rewrite Hfresh in Hrun. unfold bind at 1 in Hrun.
  unfold put_used at 1, modify in Hrun.
  destruct (all_tagged_slots_loop _ _ _ _ [] Hrun) as [(new & _ & Hs & Hn) Hr].
  - repeat split.
    + exact (fresh_tracks_products md fresh content_type prods g Hlook Hct
               Hprods).
    + cbn [saved]. rewrite app_nil_r. exact Hbase.
    + intros s Hs. inversion Hs.
  - split; [exists new; split; assumption|exact Hr].
Qed.
End AllTaggedPost.

(** ** C10: the theorem *)

(** C10.  In a content type that does not declare a product named 'all', an
    image tagged 'all' is in no candidate pool: every image of a pool has a
    record whose product is not 'all'; for a concrete product it is the
    requested (stripped) name, for the wildcard it is the name of a declared
    product.  Hence, when all images of the content type are tagged 'all', a
    slot of that content type finds an empty pool whatever product it asks
    for, and selection raises "No available images for ..." without recording
    or saving anything (the exclusion dict holding the lists of the declared
    products, as it does throughout a post).  So a post never saves a picture
    for such a slot, and a row with such a slot that has a text makes the
    post raise. *)
Theorem C10_all_tagged_images_never_selected `{Python} `{Collaborators}
    (md : Metadata) (content_type : string) (prods : list Product) :
  dict_get content_type (md_products md) = Some prods ->
  ~ In "all" (map name prods) ->
  (forall product allow g pool g',
      _get_available_images md content_type product allow g
      = (Returned pool, g') ->
      forall img, img ∈ pool ->
        ~ tagged md img "all"
        /\ (if String.eqb (strip_product product) "all"
            then exists p, In p prods /\ tagged md img (name p)
            else tagged md img (strip_product product)))
  /\ (forall info,
        dict_get content_type (md_structure md) = Some info ->
        (forall img, img ∈ images info -> tagged md img "all") ->
        (forall base_path rand product text allow g,
            tracks_products g content_type prods ->
            _generate_single_image base_path md rand content_type product text
                                   allow g
            = (Raised (ValueError ("No available images for " +:+ content_type
                                   +:+ " - " +:+ product)),
               g))
        /\ (products_declared md ->
            content_type ∈ md_content_types md ->
            forall base_path rand hmap allow variation post row g r g',
              generate_post base_path md rand hmap allow variation post row g
              = (r, g') ->
              (exists new,
                 saved g' = (saved g ++ new)%list
                 /\ forall s, s ∈ new ->
                      hmap !! (slot_num s - 1)%nat <> Some content_type)
              /\ ((exists idx product text,
                     (idx, (product, text)) ∈ enumerate1 (pair_up row)
                     /\ hmap !! (idx - 1)%nat = Some content_type
                     /\ str_truthy text = true) ->
                  exists e, r = Raised e))).
Proof.
  intros Hprods Hnot. split.
  - intros product allow g pool g' Hrun img Hin.
    unfold _get_available_images in Hrun. unfold bind at 1, dict_item in Hrun.
    destruct (dict_get content_type (md_structure md)) as [info|];
      [|discriminate].
    cbn [ret] in Hrun.
    destruct (String.eqb (strip_product product) "all") eqn:Hall.
    + unfold bind at 1, dict_item in Hrun. rewrite Hprods in Hrun.
      cbn [ret] in Hrun.
      destruct (all_pool_sound md _ _ _ _ _ _ _ _ Hrun pool eq_refl img Hin)
        as [Hnil|(p & Hp & Ht)]; [inversion Hnil|].
      split; [|exists p; split; assumption].
      intros Hta. apply Hnot. apply in_map_iff. exists p.
      split; [|exact Hp]. apply (tagged_functional md img); assumption.
    + apply String.eqb_neq in Hall.
      unfold bind at 1 in Hrun. rewrite images_with_product_pure in Hrun.
      destruct (eligible_images md (images info) (strip_product product))
        as [available|e] eqn:Hel; [|discriminate].
      unfold bind at 1 in Hrun. rewrite should_prevent_duplicates_pure in Hrun.
      assert (Hav : img ∈ available).
      { destruct (prevents md content_type (strip_product product)) as [[|]|e];
          [| |discriminate].
        - unfold bind at 1 in Hrun. rewrite used_for_pure in Hrun.
          destruct (used_lookup _ _ _) as [used|e]; [|discriminate].
          injection Hrun as <- _.
          apply list_elem_of_filter in Hin as [_ Hin]. exact Hin.
        - injection Hrun as <- _. exact Hin. }
      destruct (eligible_images_sound md _ _ _ Hel img Hav) as [_ Ht].
      split; [|exact Ht].
      intros Hta. apply Hall. apply (tagged_functional md img); assumption.
  - intros info Hinfo Htagged. split.
    + intros base_path rand product text allow g Htracks.
      apply (all_tagged_selection_raises md base_path rand content_type prods
               info); assumption.
    + intros Hdecl Hct base_path rand hmap allow variation post row g r g' Hrun.
      exact (all_tagged_post base_path md content_type prods info
               Hprods Hnot Hinfo Htagged rand hmap allow variation post
               (saved g) g r g' row Hdecl Hct eq_refl Hrun).
Qed.

(** A content type that declares "magnesium" only, while both its images
    are tagged "all". *)
Definition all_tagged_metadata : Metadata :=
  {| md_keys := REQUIRED_KEYS_ORDER;
     md_content_types := ["hook"];
     md_products := [("hook", [Fixture.product_of "magnesium" true 0 2])];
     md_structure :=
       [("hook", {| path := "/base/hook"; images := ["1h.png"; "2h.png"] |})];
     md_images :=
       [("1h.png", Fixture.image_of "hook" (Some "all"));
        ("2h.png", Fixture.image_of "hook" (Some "all"))];
     md_untagged := [];
     md_settings := [("hook", [("content", JNull)])] |}.

(** The exclusion dict a post of that metadata starts with. *)
Definition all_tagged_post_start : GenState :=
  {| used_images := {[ "hook" := {[ "magnesium" := [] ]} ]};
     drawn := 0%nat;
     saved := [] |}.

Lemma C10_witness :
  (dict_get "hook" (md_products all_tagged_metadata)
   = Some [Fixture.product_of "magnesium" true 0 2]
   /\ ~ In "all" (map name [Fixture.product_of "magnesium" true 0 2]))
  /\ @_generate_single_image Fixture.python Fixture.collaborators "/base"
       all_tagged_metadata (fun n => n) "hook" "magnesium" "text" false
       all_tagged_post_start
     = (Raised (ValueError "No available images for hook - magnesium"),
        all_tagged_post_start)
  /\ @_generate_single_image Fixture.python Fixture.collaborators "/base"
       all_tagged_metadata (fun n => n) "hook" "all" "text" true
       all_tagged_post_start
     = (Raised (ValueError "No available images for hook - all"),
        all_tagged_post_start)
  /\ exists e,
       fst (@generate_post Fixture.python Fixture.collaborators "/base"
              all_tagged_metadata (fun n => n) ["hook"] false 1 1
              ["magnesium"; "text"] initial_gen_state)
       = Raised e.
Proof.
  assert (Hprods : dict_get "hook" (md_products all_tagged_metadata)
                   = Some [Fixture.product_of "magnesium" true 0 2])
    by reflexivity.
  assert (Hnot : ~ In "all" (map name [Fixture.product_of "magnesium" true 0 2])).
  { cbn. intros [Heq|[]]. discriminate. }
  destruct (@C10_all_tagged_images_never_selected
              Fixture.python Fixture.collaborators all_tagged_metadata "hook"
              [Fixture.product_of "magnesium" true 0 2] Hprods Hnot)
    as [_ Hall].
  assert (Htagged : forall img,
            img ∈ ["1h.png"; "2h.png"] ->
            tagged all_tagged_metadata img "all").
  { intros img Hin. exists (Fixture.image_of "hook" (Some "all")).
    apply elem_of_cons in Hin as [->|Hin]; [split; reflexivity|].
    apply list_elem_of_singleton in Hin as ->. split; reflexivity. }
  assert (Htracks : tracks_products all_tagged_post_start "hook"
                      [Fixture.product_of "magnesium" true 0 2]).
  { exists {[ "magnesium" := [] ]}. split; [vm_compute; reflexivity|].
    intros p [<-|[]]. exists []. vm_compute. reflexivity. }
  destruct (Hall {| path := "/base/hook"; images := ["1h.png"; "2h.png"] |}
              eq_refl Htagged) as [Hraises Hpost].
  split; [split; assumption|]. split; [|split].
  - exact (Hraises "/base" (fun n => n) "magnesium" "text" false
             all_tagged_post_start Htracks).
  - exact (Hraises "/base" (fun n => n) "all" "text" true
             all_tagged_post_start Htracks).
  - destruct (@generate_post Fixture.python Fixture.collaborators "/base"
                all_tagged_metadata (fun n => n) ["hook"] false 1 1
                ["magnesium"; "text"] initial_gen_state) as [r g'] eqn:Hrun.
    refine (proj2 (Hpost _ _ "/base" (fun n => n) ["hook"] false 1%nat 1%nat
                     ["magnesium"; "text"] initial_gen_state r g' Hrun) _).
    + intros c Hc. apply list_elem_of_singleton in Hc as ->.
      eexists. reflexivity.
    + left.
    + exists 1%nat, "magnesium", "text". repeat split. left.
Defined.


(** * Further properties of the validator *)

(** ** When the list of errors stays as it is

    [errs_kept ok m]: whenever [m] returns a value that [ok] accepts, it has
    not touched [self.errors]. *)
Section ErrorsKept.

Definition errs_kept {A} (ok : A -> Prop) (m : M Heap A) : Prop :=
  forall h a h', m h = (Returned a, h') -> ok a -> errors h' = errors h.

Definition flow_accepts (f : flow bool) : Prop := f <> Return_ false.

Lemma errs_kept_ret {A} (ok : A -> Prop) (a : A) : errs_kept ok (ret a).
Proof. intros h a' h' [= <- <-] _. reflexivity. Qed.

Lemma errs_kept_raise {A} (ok : A -> Prop) e : errs_kept ok (@raise Heap A e).
Proof. intros h a h' [=]. Qed.

Lemma errs_kept_weaken {A} (ok ok' : A -> Prop) (m : M Heap A) :
  (forall a, ok a -> ok' a) -> errs_kept ok' m -> errs_kept ok m.
Proof. intros Hw Hm h a h' Hrun Hok. exact (Hm h a h' Hrun (Hw a Hok)). Qed.

Lemma errs_kept_bind {A B} (ok : B -> Prop) (m : M Heap A) (k : A -> M Heap B) :
  errs_kept (fun _ => True) m -> (forall a, errs_kept ok (k a)) ->
  errs_kept ok (bind m k).
Proof.
  intros Hm Hk h b h' Hrun Hok. unfold bind in Hrun.
  destruct (m h) as [[a|e] h1] eqn:Hmh; [|discriminate].
  rewrite (Hk a h1 b h' Hrun Hok). exact (Hm h a h1 Hmh I).
Qed.

(** A computation that ends by returning a value [ok] refuses. *)
Lemma errs_kept_refused {A} (ok : A -> Prop) (m : M Heap unit) (a : A) :
  ~ ok a -> errs_kept ok (m ;; ret a).
Proof.
  intros Hno h a' h' Hrun Hok. unfold bind in Hrun.
  destruct (m h) as [[[]|e] h1]; [|discriminate].
  injection Hrun as <- _. contradiction.
Qed.

Lemma errs_kept_reject msg : errs_kept flow_accepts (reject msg).
Proof. apply errs_kept_refused. intros Hno. apply Hno. reflexivity. Qed.

Lemma errs_kept_add_warning (ok : unit -> Prop) msg key :
  errs_kept ok (add_warning msg key).
Proof.
  intros h a h' Hrun _. unfold add_warning, modify in Hrun.
  injection Hrun as _ <-. case_bool_decide; reflexivity.
Qed.

Lemma errs_kept_get_data (ok : Metadata -> Prop) : errs_kept ok get_data.
Proof. intros h a h' [= _ <-] _. reflexivity. Qed.

Lemma errs_kept_get (ok : Heap -> Prop) : errs_kept ok get.
Proof. intros h a h' [= _ <-] _. reflexivity. Qed.

Lemma errs_kept_put_data (ok : unit -> Prop) d : errs_kept ok (put_data d).
Proof. intros h a h' [= _ <-] _. reflexivity. Qed.

Lemma errs_kept_dict_item {V} (ok : V -> Prop) k (d : dict V) :
  errs_kept ok (dict_item k d).
Proof.
  unfold dict_item. destruct (dict_get k d);
    [apply errs_kept_ret|apply errs_kept_raise].
Qed.

Lemma errs_kept_check_blob `{Collaborators} prefix blob :
  errs_kept flow_accepts (check_blob prefix blob).
Proof.
  unfold check_blob. destruct (validate_settings blob) as [[|] errs]; cbn [negb].
  - apply errs_kept_ret.
  - apply errs_kept_refused. intros Hno. apply Hno. reflexivity.
Qed.

Lemma errs_kept_and_then (c1 c2 : M Heap (flow bool)) :
  errs_kept flow_accepts c1 -> errs_kept flow_accepts c2 ->
  errs_kept flow_accepts (and_then c1 c2).
Proof.
  intros H1 H2 h f h' Hrun Hok. unfold and_then, bind in Hrun.
  destruct (c1 h) as [[f1|e] h1] eqn:Hc1; [|discriminate].
  destruct f1 as [| |r].
  - rewrite (H2 h1 f h' Hrun Hok). apply (H1 h Proceed h1 Hc1). discriminate.
  - injection Hrun as <- <-. exact (H1 h NextIter h1 Hc1 Hok).
  - injection Hrun as <- <-. exact (H1 h (Return_ r) h1 Hc1 Hok).
Qed.

Lemma errs_kept_for_each {A} (l : list A) (body : A -> M Heap (flow bool)) :
  (forall x, errs_kept flow_accepts (body x)) ->
  errs_kept flow_accepts (for_each l body).
Proof.
  intros Hb. induction l as [|x l IH]; cbn [for_each].
  - apply errs_kept_ret.
  - intros h f h' Hrun Hok. unfold bind in Hrun.
    destruct (body x h) as [[f1|e] h1] eqn:Hbx; [|discriminate].
    destruct f1 as [| |r].
    + rewrite (IH h1 f h' Hrun Hok). apply (Hb x h Proceed h1 Hbx). discriminate.
    + rewrite (IH h1 f h' Hrun Hok). apply (Hb x h NextIter h1 Hbx). discriminate.
    + injection Hrun as <- <-. exact (Hb x h (Return_ r) h1 Hbx Hok).
Qed.

Lemma errs_kept_fun_body (c : M Heap (flow bool)) :
  errs_kept flow_accepts c -> errs_kept (fun b => b = true) (fun_body c true).
Proof.
  intros Hc h b h' Hrun ->. unfold fun_body, bind in Hrun.
  destruct (c h) as [[f|e] h1] eqn:Hch; [|discriminate].
  destruct f as [| |r]; cbn in Hrun; inversion Hrun; subst;
    apply (Hc h _ h' Hch); discriminate.
Qed.

Lemma errs_kept_for_fold {A B} (ok : B -> Prop) (l : list A) (b : B)
    (body : B -> A -> M Heap B) :
  (forall b x, errs_kept (fun _ => True) (body b x)) ->
  errs_kept ok (for_fold l b body).
Proof.
  intros Hb. revert b. induction l as [|x l IH]; intros b; cbn [for_fold].
  - apply errs_kept_ret.
  - apply errs_kept_bind; [apply Hb|intros b'; apply IH].
Qed.

Definition sum_accepts {B} (r : B + bool) : Prop := r <> inr false.

Lemma errs_kept_for_fold_ret {A B} (l : list A) (b : B)
    (body : B -> A -> M Heap (B + bool)) :
  (forall b x, errs_kept sum_accepts (body b x)) ->
  errs_kept sum_accepts (for_fold_ret l b body).
Proof.
  intros Hb. revert b. induction l as [|x l IH]; intros b; cbn [for_fold_ret].
  - apply errs_kept_ret.
  - intros h r h' Hrun Hok. unfold bind in Hrun.
    destruct (body b x h) as [[r1|e] h1] eqn:Hbx; [|discriminate].
    destruct r1 as [b'|v].
    + rewrite (IH b' h1 r h' Hrun Hok). apply (Hb b x h _ h1 Hbx). discriminate.
    + injection Hrun as <- <-. exact (Hb b x h _ h1 Hbx Hok).
Qed.
End ErrorsKept.


Ltac refused :=
  unfold flow_accepts, sum_accepts;
  first [discriminate | intros Hno; apply Hno; reflexivity].

Ltac kept_step :=
  match goal with
  | |- errs_kept _ (ret _) => apply errs_kept_ret
  | |- errs_kept _ (raise _) => apply errs_kept_raise
  | |- errs_kept _ (reject _) => apply errs_kept_reject
  | |- errs_kept _ (add_warning _ _) => apply errs_kept_add_warning
  | |- errs_kept _ get_data => apply errs_kept_get_data
  | |- errs_kept _ (put_data _) => apply errs_kept_put_data
  | |- errs_kept _ (dict_item _ _) => apply errs_kept_dict_item
  | |- errs_kept _ (check_blob _ _) => apply errs_kept_check_blob
  | |- errs_kept _ (bind (add_error _) (fun _ => ret _)) =>
      apply errs_kept_refused; refused
  | |- errs_kept _ (bind (extend_errors _) (fun _ => ret _)) =>
      apply errs_kept_refused; refused
  | |- errs_kept _ (and_then _ _) => apply errs_kept_and_then
  | |- errs_kept _ (for_each _ _) => apply errs_kept_for_each; intros ?
  | |- errs_kept _ (fun_body _ true) => apply errs_kept_fun_body
  | |- errs_kept _ (for_fold _ _ _) => apply errs_kept_for_fold; intros ? ?
  | |- errs_kept _ (for_fold_ret _ _ _) =>
      apply errs_kept_for_fold_ret; intros ? ?
  | |- errs_kept _ (bind _ _) => apply errs_kept_bind; [|intros ?]
  | |- errs_kept ?ok (if false then _ else ?m) => change (errs_kept ok m)
  | |- errs_kept _ (if ?b then _ else _) => destruct b
  | |- errs_kept _ (match ?x with _ => _ end) => destruct x
  | |- errs_kept _ (let _ := _ in _) => cbv zeta
  end.

(** In non-strict mode a validator that answers [True] has recorded no
    error. *)
Section QuietValidators.
Context `{Python} `{Collaborators} {FS : Type} `{FileSystem FS}.
Variable base_path : string.
Variable fs : FS.

Lemma errs_kept_validate_content_types expected :
  errs_kept (fun b => b = true) (_validate_content_types expected).
Proof. unfold _validate_content_types. repeat kept_step. Qed.

Lemma errs_kept_validate_products expected :
  errs_kept (fun b => b = true) (_validate_products false base_path fs expected).
Proof. unfold _validate_products, count_one. repeat kept_step. Qed.

Lemma errs_kept_validate_structure :
  errs_kept (fun b => b = true) (_validate_structure fs).
Proof. unfold _validate_structure. repeat kept_step. Qed.

Lemma errs_kept_validate_images :
  errs_kept (fun b => b = true) (_validate_images false fs).
Proof. unfold _validate_images. repeat kept_step. Qed.

Lemma errs_kept_validate_untagged :
  errs_kept (fun b => b = true) (_validate_untagged false fs).
Proof. unfold _validate_untagged. repeat kept_step. Qed.
End QuietValidators.


Section QuietValidate.
Context `{Python} `{Collaborators} {FS : Type} `{FileSystem FS}.
Variable base_path : string.
Variable fs : FS.

(** The loop over the groups hands its verdict on: [Return_ False] exactly
    when it left with [False]. *)
Lemma errs_kept_groups_verdict {B} (m : M Heap (B + bool)) :
  errs_kept sum_accepts m ->
  errs_kept flow_accepts
    (let* r := m in
     match r with
     | inr b => ret (Return_ b)
     | inl _ => ret Proceed
     end).
Proof.
  intros Hm h f h' Hrun Hok. unfold bind in Hrun.
  destruct (m h) as [[r|e] h1] eqn:Hmh; [|discriminate].
  destruct r as [b|[|]]; injection Hrun as <- <-.
  - apply (Hm h _ h1 Hmh). discriminate.
  - apply (Hm h _ h1 Hmh). discriminate.
  - exfalso. apply Hok. reflexivity.
Qed.

Lemma errs_kept_validate_settings :
  errs_kept (fun b => b = true) _validate_settings.
Proof.
  unfold _validate_settings.
  repeat first [apply errs_kept_groups_verdict | kept_step].
Qed.

Lemma errs_kept_validate_product_counts :
  errs_kept (fun b => b = true) _validate_product_counts.
Proof.
  unfold _validate_product_counts, write_back_one, count_image, count_one.
  repeat kept_step.
Qed.

(** Once a validator has failed, the loop of [validate] no longer answers
    [inl true]. *)
Lemma validators_loop_failed (vs : list (M Heap bool)) strict :
  forall h r h',
    for_fold_ret vs false (validator_step strict) h = (Returned r, h') ->
    r <> inl true.
Proof.
  induction vs as [|v vs IH]; intros h r h' Hrun.
  - injection Hrun as <- _. discriminate.
  - cbn [for_fold_ret] in Hrun. unfold bind at 1, validator_step in Hrun.
    unfold bind at 1 in Hrun.
    destruct (v h) as [[[|]|e] h1]; cbn in Hrun; [| |discriminate].
    + exact (IH _ _ _ Hrun).
    + destruct strict; cbn in Hrun.
      * injection Hrun as <- _. discriminate.
      * exact (IH _ _ _ Hrun).
Qed.

(** The loop leaves early only with [False]. *)
Lemma validators_loop_early (vs : list (M Heap bool)) strict :
  forall valid h b h',
    for_fold_ret vs valid (validator_step strict) h = (Returned (inr b), h') ->
    b <> true.
Proof.
  induction vs as [|v vs IH]; intros valid h b h' Hrun.
  - discriminate.
  - cbn [for_fold_ret] in Hrun. unfold bind at 1, validator_step in Hrun.
    unfold bind at 1 in Hrun.
    destruct (v h) as [[[|]|e] h1]; cbn in Hrun; [| |discriminate].
    + exact (IH _ _ _ _ Hrun).
    + destruct strict; cbn in Hrun.
      * injection Hrun as <- _. discriminate.
      * exact (IH _ _ _ _ Hrun).
Qed.

(** When the loop answers [inl true], every validator answered [True], one
    after the other. *)
Inductive all_accepted : Heap -> list (M Heap bool) -> Heap -> Prop :=
  | accepted_nil h : all_accepted h [] h
  | accepted_cons h v h1 vs h' :
      v h = (Returned true, h1) ->
      all_accepted h1 vs h' ->
      all_accepted h (v :: vs) h'.

Lemma validators_loop_accepted (vs : list (M Heap bool)) strict :
  forall valid h h',
    for_fold_ret vs valid (validator_step strict) h = (Returned (inl true), h') ->
    valid = true /\ all_accepted h vs h'.
Proof.
  induction vs as [|v vs IH]; intros valid h h' Hrun.
  - injection Hrun as -> <-. split; [reflexivity|constructor].
  - cbn [for_fold_ret] in Hrun. unfold bind at 1, validator_step in Hrun.
    unfold bind at 1 in Hrun.
    destruct (v h) as [[[|]|e] h1] eqn:Hv; cbn in Hrun; [| |discriminate].
    + destruct (IH _ _ _ Hrun) as [-> Hrest]. split; [reflexivity|].
      econstructor; eassumption.
    + destruct strict; cbn in Hrun; [discriminate|].
      exfalso. exact (validators_loop_failed vs false _ _ _ Hrun eq_refl).
Qed.

(** What [validate] says when it answers [True]: the keys are in order, all
    seven validators accepted in turn, starting from cleared lists, and the
    heap is the one the last of them left. *)
Lemma validate_accepted strict content_types products h h' :
  validate strict base_path fs content_types products h = (Returned true, h') ->
  md_keys (data h) = REQUIRED_KEYS_ORDER
  /\ all_accepted
       {| errors := []; warnings := []; seen_warnings := ∅; data := data h |}
       [ _validate_content_types content_types;
         _validate_products strict base_path fs products;
         _validate_structure fs;
         _validate_images strict fs;
         _validate_untagged strict fs;
         _validate_settings;
         _validate_product_counts ]
       h'
  /\ (strict = true -> warnings h' = []).
Proof.
  unfold validate. unfold bind at 1. cbn [modify fst snd].
  unfold bind at 1. cbn [get_data data].
  case_bool_decide as Hkeys; cbn [negb]; [|intros [=]].
  unfold bind at 1. unfold run_validators.
  match goal with
  | |- context [for_fold_ret ?l true _ ?h0] =>
      destruct (for_fold_ret l true (validator_step strict) h0)
        as [[[valid|b]|e] hr] eqn:Hloop
  end; [| |intros [=]].
  - unfold bind at 1. cbn [get].
    destruct (strict && negb (bool_decide (warnings hr = []))) eqn:Hpromote.
    + unfold bind. cbn. intros [=].
    + destruct valid; cbn; [|intros [=]].
      intros [= <-]. split; [exact Hkeys|].
      split; [exact (proj2 (validators_loop_accepted _ _ _ _ _ Hloop))|].
      intros ->. cbn in Hpromote.
      apply negb_false_iff, bool_decide_eq_true in Hpromote. exact Hpromote.
  - cbn. intros [= -> <-]. exfalso.
    exact (validators_loop_early _ _ _ _ _ _ Hloop eq_refl).
Qed.
End QuietValidate.


(** ** What a returned value tells

    [wp m Q]: every value [m] returns satisfies [Q], from whatever heap it
    runs.  The rules read a computation front to back, so that the facts
    tested on the way are at hand where it returns. *)
Section ReturnedValues.

Definition wp {A} (m : M Heap A) (Q : A -> Prop) : Prop :=
  forall h a h', m h = (Returned a, h') -> Q a.

Lemma wp_ret {A} (a : A) (Q : A -> Prop) : Q a -> wp (ret a) Q.
Proof. intros Hq h a' h' [= <- _]. exact Hq. Qed.

Lemma wp_raise {A} e (Q : A -> Prop) : wp (@raise Heap A e) Q.
Proof. intros h a h' [=]. Qed.

Lemma wp_bind {A B} (m : M Heap A) (k : A -> M Heap B) (Q : B -> Prop) :
  wp m (fun a => wp (k a) Q) -> wp (bind m k) Q.
Proof.
  intros Hm h b h' Hrun. unfold bind in Hrun.
  destruct (m h) as [[a|e] h1] eqn:Hmh; [|discriminate].
  exact (Hm h a h1 Hmh h1 b h' Hrun).
Qed.

Lemma wp_modify (f : Heap -> Heap) (Q : unit -> Prop) :
  Q tt -> wp (modify f) Q.
Proof. intros Hq h [] h' _. exact Hq. Qed.

Lemma wp_add_error msg (Q : unit -> Prop) : Q tt -> wp (add_error msg) Q.
Proof. intros Hq h [] h' _. exact Hq. Qed.

Lemma wp_extend_errors msgs (Q : unit -> Prop) :
  Q tt -> wp (extend_errors msgs) Q.
Proof. intros Hq h [] h' _. exact Hq. Qed.

Lemma wp_add_warning msg key (Q : unit -> Prop) :
  Q tt -> wp (add_warning msg key) Q.
Proof. intros Hq h [] h' _. exact Hq. Qed.

Lemma wp_reject msg (Q : flow bool -> Prop) :
  Q (Return_ false) -> wp (reject msg) Q.
Proof.
  intros Hq. unfold reject. apply wp_bind, wp_add_error, wp_ret, Hq.
Qed.

Lemma wp_dict_item {V} k (d : dict V) (Q : V -> Prop) :
  (forall v, dict_get k d = Some v -> Q v) -> wp (dict_item k d) Q.
Proof.
  intros Hq. unfold dict_item. destruct (dict_get k d) as [v|];
    [apply wp_ret, Hq; reflexivity|apply wp_raise].
Qed.

Lemma wp_and_then (c1 c2 : M Heap (flow bool)) (Q : flow bool -> Prop) :
  wp c1 (fun f => match f with Proceed => wp c2 Q | _ => Q f end) ->
  wp (and_then c1 c2) Q.
Proof.
  intros H1. unfold and_then. apply wp_bind.
  intros h f h' Hrun. specialize (H1 h f h' Hrun).
  destruct f; [exact H1|apply wp_ret, H1|apply wp_ret, H1].
Qed.

Lemma wp_fun_body {R} (c : M Heap (flow R)) (dflt : R) (Q : R -> Prop) :
  wp c (fun f => match f with Return_ r => Q r | _ => Q dflt end) ->
  wp (fun_body c dflt) Q.
Proof.
  intros Hc. unfold fun_body. apply wp_bind.
  intros h f h' Hrun. specialize (Hc h f h' Hrun).
  destruct f; apply wp_ret, Hc.
Qed.

(** A loop whose body checks [P x]: when the loop falls through, [P] holds
    of every element. *)
Lemma wp_for_each {A} (P : A -> Prop) (l : list A)
    (body : A -> M Heap (flow bool)) (Q : flow bool -> Prop) :
  (forall x, x ∈ l ->
     wp (body x) (fun f => match f with
                           | Return_ b => Q (Return_ b)
                           | _ => P x
                           end)) ->
  ((forall x, x ∈ l -> P x) -> Q Proceed) ->
  wp (for_each l body) Q.
Proof.
  induction l as [|x l IH]; intros Hbody Hq; cbn [for_each].
  - apply wp_ret, Hq. intros x Hx. inversion Hx.
  - apply wp_bind. intros h f h' Hrun.
    pose proof (Hbody x ltac:(left) h f h' Hrun) as Hx.
    assert (Hrest : P x -> wp (for_each l body) Q).
    { intros Hpx. apply IH.
      - intros y Hy. apply Hbody. right. exact Hy.
      - intros Hall. apply Hq. intros y Hy.
        apply elem_of_cons in Hy as [->|Hy]; [exact Hpx|exact (Hall y Hy)]. }
    destruct f; [exact (Hrest Hx)|exact (Hrest Hx)|apply wp_ret, Hx].
Qed.

(** A loop over local variables that keeps [I]. *)
Lemma wp_for_fold {A B} (I : B -> Prop) (l : list A) (b : B)
    (body : B -> A -> M Heap B) (Q : B -> Prop) :
  I b ->
  (forall b x, x ∈ l -> I b -> wp (body b x) I) ->
  (forall b, I b -> Q b) ->
  wp (for_fold l b body) Q.
Proof.
  revert b. induction l as [|x l IH]; intros b Hb Hbody Hq; cbn [for_fold].
  - apply wp_ret, Hq, Hb.
  - apply wp_bind. intros h b' h' Hrun.
    apply IH; [exact (Hbody b x ltac:(left) Hb h b' h' Hrun)| |exact Hq].
    intros b0 y Hy. apply Hbody. right. exact Hy.
Qed.
Lemma wp_check_blob `{Collaborators} prefix blob (Q : flow bool -> Prop) :
  Q (Return_ false) ->
  (fst (validate_settings blob) = true -> Q Proceed) ->
  wp (check_blob prefix blob) Q.
Proof.
  intros Hf Hp. unfold check_blob.
  destruct (validate_settings blob) as [[|] errs]; cbn [negb].
  - apply wp_ret, Hp. reflexivity.
  - apply wp_bind, wp_extend_errors, wp_ret, Hf.
Qed.

Lemma wp_conseq {A} (m : M Heap A) (Q Q' : A -> Prop) :
  wp m Q -> (forall a, Q a -> Q' a) -> wp m Q'.
Proof. intros Hm Hq h a h' Hrun. exact (Hq a (Hm h a h' Hrun)). Qed.

(** A loop with local variables that leaves only with [False]: when it runs
    to its end, [G] holds of the initial locals and the whole list, given
    that each round extends [G] from the rest of the list by one element. *)
Lemma wp_for_fold_ret {A B} (G : B -> list A -> Prop) (l : list A)
    (body : B -> A -> M Heap (B + bool)) :
  (forall b, G b []) ->
  (forall b x rest,
     wp (body b x) (fun r => match r with
                             | inl b' => G b' rest -> G b (x :: rest)
                             | inr v => v = false
                             end)) ->
  forall b,
    wp (for_fold_ret l b body)
       (fun r => match r with inl _ => G b l | inr v => v = false end).
Proof.
  intros Hnil Hbody. induction l as [|x l IH]; intros b; cbn [for_fold_ret].
  - apply wp_ret, Hnil.
  - apply wp_bind. intros h r h' Hrun.
    pose proof (Hbody b x l h r h' Hrun) as Hx.
    destruct r as [b'|v].
    + eapply wp_conseq; [apply (IH b')|].
      intros [bf|v]; [exact Hx|exact (fun Hv => Hv)].
    + apply wp_ret, Hx.
Qed.

(** What holds of every value holds of the returned one. *)
Lemma wp_any {A} (m : M Heap A) (Q : A -> Prop) : (forall a, Q a) -> wp m Q.
Proof. intros Hq h a h' _. apply Hq. Qed.
End ReturnedValues.

Ltac wp_step :=
  match goal with
  | |- wp (ret _) _ => apply wp_ret
  | |- wp (raise _) _ => apply wp_raise
  | |- wp (reject _) _ => apply wp_reject
  | |- wp (add_error _) _ => apply wp_add_error
  | |- wp (extend_errors _) _ => apply wp_extend_errors
  | |- wp (add_warning _ _) _ => apply wp_add_warning
  | |- wp (check_blob _ _) _ => apply wp_check_blob; [|intros ?]
  | |- wp (dict_item _ _) _ => apply wp_dict_item; intros ? ?
  | |- wp (and_then _ _) _ => apply wp_and_then
  | |- wp (fun_body _ _) _ => apply wp_fun_body
  | |- wp (bind _ _) _ => apply wp_bind
  | |- wp (if ?b then _ else _) _ => destruct b eqn:?
  | |- wp (match ?x with _ => _ end) _ => destruct x eqn:?
  | |- wp (let _ := _ in _) _ => cbv zeta
  end.


(** ** What each validator has checked when it answers [True] *)
Section Accepted.
Context `{Python} `{Collaborators} {FS : Type} `{FileSystem FS}.
Variable strict : bool.
Variable base_path : string.
Variable fs : FS.

(** Every folder of [structure] and every image listed in it is on disk. *)
Definition structure_on_disk (d : Metadata) : Prop :=
  forall ct info, (ct, info) ∈ md_structure d ->
    fs_exists fs (path info) = true
    /\ forall img, img ∈ images info ->
         fs_exists fs (path_join (path info) img) = true.

Lemma validate_structure_accepted h h' :
  _validate_structure fs h = (Returned true, h') ->
  structure_on_disk (data h).
Proof.
  intros Hrun. unfold _validate_structure in Hrun.
  unfold bind at 1 in Hrun. cbn [get_data] in Hrun.
  refine ((_ : wp _ (fun b => b = true -> structure_on_disk (data h)))
            h true h' Hrun eq_refl).
  wp_step. wp_step.
  apply (wp_for_each (fun '(ct, info) =>
           fs_exists fs (path info) = true
           /\ forall img, img ∈ images info ->
                fs_exists fs (path_join (path info) img) = true)).
  - intros [ct info] Hin. wp_step. wp_step.
    + wp_step. discriminate.
    + wp_step.
      apply (wp_for_each (fun img =>
               fs_exists fs (path_join (path info) img) = true)).
      * intros img Himg. wp_step; wp_step;
          [discriminate|apply negb_false_iff; assumption].
      * intros Hall. split; [apply negb_false_iff; assumption|exact Hall].
  - intros Hall. wp_step. intros _ ct info Hin. exact (Hall (ct, info) Hin).
Qed.

Lemma size_list_to_set_le (l : list string) :
  (size (to_set l) <= length l)%nat.
Proof.
  unfold to_set. induction l as [|x l IH]; cbn [list_to_set length].
  - rewrite size_empty. lia.
  - pose proof (size_union_alt {[x]} (list_to_set l : gset string)) as Hu.
    pose proof (subseteq_size (list_to_set l ∖ {[x]}) (list_to_set l : gset string)
                  ltac:(set_solver)) as Hs.
    rewrite size_singleton in Hu. lia.
Qed.

Lemma length_size_NoDup (l : list string) :
  length l = size (to_set l) -> NoDup l.
Proof.
  unfold to_set. induction l as [|x l IH]; intros Hlen; [constructor|].
  cbn [list_to_set length] in Hlen.
  pose proof (size_list_to_set_le l) as Hle. unfold to_set in Hle.
  destruct (decide (x ∈ l)) as [Hin|Hnin].
  - exfalso.
    assert (Heq : ({[x]} ∪ list_to_set l : gset string) = list_to_set l)
      by set_solver.
    rewrite Heq in Hlen. lia.
  - constructor; [exact Hnin|]. apply IH.
    rewrite size_union in Hlen by set_solver.
    rewrite size_singleton in Hlen. lia.
Qed.

(** The untagged list has no duplicates, its files are in the base folder
    (the parent of the first content type's folder), and in strict mode it is
    empty. *)
Definition untagged_checked (d : Metadata) : Prop :=
  NoDup (md_untagged d)
  /\ (exists first_ct rest info,
        md_content_types d = first_ct :: rest
        /\ dict_get first_ct (md_structure d) = Some info
        /\ forall img, img ∈ md_untagged d ->
             fs_exists fs (path_join (path_parent (path info)) img) = true)
  /\ (strict = true -> md_untagged d = []).

Lemma validate_untagged_accepted h h' :
  _validate_untagged strict fs h = (Returned true, h') ->
  untagged_checked (data h).
Proof.
  intros Hrun. unfold _validate_untagged in Hrun.
  unfold bind at 1 in Hrun. cbn [get_data] in Hrun. cbv zeta in Hrun.
  refine ((_ : wp _ (fun b => b = true -> untagged_checked (data h)))
            h true h' Hrun eq_refl).
  clear Hrun. unfold untagged_checked.
  repeat wp_step; try discriminate.
  match goal with
  | Hlen : negb (_ =? _)%nat = false |- _ =>
      apply negb_false_iff, Nat.eqb_eq, length_size_NoDup in Hlen
  end.
  match goal with
  | Hinfo : dict_get _ (md_structure (data h)) = Some ?info |- _ =>
      apply (wp_for_each (fun img =>
               fs_exists fs (path_join (path_parent (path info)) img) = true))
  end.
  - intros img Himg. repeat wp_step; try discriminate.
    apply negb_false_iff. assumption.
  - intros Hall.
    remember (md_untagged (data h)) as untagged eqn:Hu in *.
    assert (Hfiles : exists first_ct rest info,
              md_content_types (data h) = first_ct :: rest
              /\ dict_get first_ct (md_structure (data h)) = Some info
              /\ forall img, img ∈ untagged ->
                   fs_exists fs (path_join (path_parent (path info)) img) = true)
      by (do 3 eexists; repeat split; eassumption).
    match goal with
    | Hct : md_content_types (data h) = _ |- _ => rewrite <- Hct
    end.
    destruct untagged as [|u us].
    + repeat wp_step. intros _. repeat split; try assumption.
    + repeat wp_step; try discriminate. intros _.
      repeat split; try assumption. discriminate.
Qed.

Lemma validate_content_types_accepted expected h h' :
  _validate_content_types expected h = (Returned true, h') ->
  to_set (md_content_types (data h)) = to_set expected.
Proof.
  intros Hrun. unfold _validate_content_types in Hrun.
  unfold bind at 1 in Hrun. cbn [get_data] in Hrun. cbv zeta in Hrun.
  refine ((_ : wp _ (fun b => b = true -> _)) h true h' Hrun eq_refl).
  repeat wp_step; try discriminate. intros _.
  match goal with
  | Hx : negb (bool_decide _) = false |- _ =>
      apply negb_false_iff, bool_decide_eq_true in Hx; exact Hx
  end.
Qed.

(** The declared products are the expected ones: the same content types, and
    for each of them the same set of names. *)
Definition products_as_expected (expected_products : dict (list string))
    (d : Metadata) : Prop :=
  to_set (keys (md_products d)) = to_set (keys expected_products)
  /\ forall ct prods, (ct, prods) ∈ md_products d ->
       exists expected,
         dict_get ct expected_products = Some expected
         /\ to_set (map name prods) = to_set expected.

Lemma validate_products_accepted expected_products h h' :
  _validate_products strict base_path fs expected_products h
  = (Returned true, h') ->
  products_as_expected expected_products (data h).
Proof.
  intros Hrun. unfold _validate_products in Hrun.
  unfold bind at 1 in Hrun. cbn [get_data] in Hrun.
  refine ((_ : wp _ (fun b => b = true -> _)) h true h' Hrun eq_refl).
  clear Hrun. unfold products_as_expected.
  repeat wp_step; try discriminate.
  match goal with
  | Hx : negb (bool_decide (to_set (keys _) = _)) = false |- _ =>
      apply negb_false_iff, bool_decide_eq_true in Hx; rename Hx into Hkeys
  end.
  apply (wp_for_each (fun '(ct, prods) =>
           exists expected,
             dict_get ct expected_products = Some expected
             /\ to_set (map name prods) = to_set expected)).
  - intros [ct prods] Hin. repeat wp_step.
    match goal with
    | Hx : dict_get ct expected_products = Some ?e |- _ =>
        rename Hx into Hexp; set (expected := e) in *
    end.
    apply (wp_for_each (fun prod => name prod ∈ to_set expected)).
    + intros prod Hprod. repeat wp_step; try discriminate.
      match goal with
      | Hx : negb (bool_decide _) = false |- _ =>
          apply negb_false_iff, bool_decide_eq_true in Hx; exact Hx
      end.
    + intros Hnames. repeat wp_step; try discriminate.
      exists expected. split; [exact Hexp|].
      repeat match goal with
      | Hx : negb (bool_decide _) = false |- _ =>
          apply negb_false_iff, bool_decide_eq_true in Hx
      end.
      unfold to_set in *. apply set_eq. intros nm. split.
      * intros Hnm. apply elem_of_list_to_set, list_elem_of_fmap in Hnm
          as (prod & -> & Hprod).
        exact (Hnames prod Hprod).
      * intros Hnm.
        destruct (decide (nm ∈ (list_to_set (map name prods) : gset string)))
          as [Hyes|Hno]; [exact Hyes|].
        exfalso.
        match goal with
        | Hmissing : _ ∖ _ = ∅ |- _ =>
            assert (Hm : nm ∈ (∅ : gset string));
              [rewrite <- Hmissing; apply elem_of_difference;
                 split; assumption|]
        end.
        apply not_elem_of_empty in Hm. exact Hm.
  - intros Hall. apply wp_bind, wp_any. intros product_counts.
    apply wp_and_then, wp_any. intros f.
    assert (Hgoal : to_set (keys (md_products (data h)))
                    = to_set (keys expected_products)
                    /\ forall ct prods, (ct, prods) ∈ md_products (data h) ->
                         exists expected,
                           dict_get ct expected_products = Some expected
                           /\ to_set (map name prods) = to_set expected).
    { split; [exact Hkeys|].
      intros ct prods Hin. exact (Hall (ct, prods) Hin). }
    destruct f as [| |[|]]; try (intros _; exact Hgoal); try discriminate.
    apply wp_ret. intros _. exact Hgoal.
Qed.

(** What the image check has seen of one image record. *)
Definition image_checked (d : Metadata) (img_name : string) (img : Image)
  : Prop :=
  exists st,
    dict_get (content_type img) (md_structure d) = Some st
    /\ img_name ∈ images st
    /\ (fs_exists fs (path_join (path st) img_name) = true ->
        fs_image_size fs (path_join (path st) img_name)
        = Returned (width (dimensions img), height (dimensions img)))
    /\ (strict = true ->
        settings_source img ∈ ["default"; "custom"; "product"; "content"])
    /\ (settings_source img = "default" -> settings img = JNull)
    /\ (strict = true -> settings_source img = "custom" ->
        settings img <> JNull)
    /\ (settings_source img <> "custom" ->
        match product img with
        | None => strict = false
        | Some p =>
            forall prods,
              dict_get (content_type img) (md_products d) = Some prods ->
              p = "all" \/ p ∈ map name prods
        end).

Ltac tidy_tests :=
  repeat match goal with
  | Hx : negb _ = false |- _ => apply negb_false_iff in Hx
  | Hx : negb _ = true |- _ => apply negb_true_iff in Hx
  | Hx : bool_decide _ = true |- _ => apply bool_decide_eq_true in Hx
  | Hx : bool_decide _ = false |- _ => apply bool_decide_eq_false in Hx
  | Hx : (_ || _)%bool = false |- _ => apply orb_false_iff in Hx as [? ?]
  | Hx : (_ =? _)%string = true |- _ => apply String.eqb_eq in Hx
  | Hx : (_ =? _)%string = false |- _ => apply String.eqb_neq in Hx
  | Hx : (_ =? _)%Z = true |- _ => apply Z.eqb_eq in Hx
  | Hx : is_None _ = true |- _ => apply is_None_true in Hx
  end.

Lemma validate_images_accepted h h' :
  _validate_images strict fs h = (Returned true, h') ->
  keys (md_images (data h)) = sorted (keys (md_images (data h)))
  /\ forall img_name img, (img_name, img) ∈ md_images (data h) ->
       image_checked (data h) img_name img.
Proof.
  intros Hrun. unfold _validate_images in Hrun.
  unfold bind at 1 in Hrun. cbn [get_data] in Hrun. cbv zeta in Hrun.
  refine ((_ : wp _ (fun b => b = true -> _)) h true h' Hrun eq_refl).
  clear Hrun.
  wp_step; [repeat wp_step; discriminate|].
  wp_step. wp_step.
  apply (wp_for_each (fun '(img_name, img) =>
           image_checked (data h) img_name img)).
  - intros [img_name img] Hin. unfold image_checked.
    repeat wp_step; try discriminate.
    all: tidy_tests.
    all: eexists; (split; [reflexivity|]).
    all: repeat split; intros; tidy_tests.
    all: try solve [ assumption | reflexivity | discriminate | congruence
                   | contradiction
                   | left; assumption | right; assumption
                   | match goal with
                     | Hn : is_None ?x = false, Hs : ?x = JNull |- _ =>
                         rewrite Hs in Hn; discriminate
                     end
                   | match goal with
                     | Hs : Some _ = Some _ |- _ =>
                         injection Hs as <-;
                         first [left; assumption | right; assumption]
                     end ].
    all: intros Hnull;
      match goal with
      | Hn : is_None ?x = false |- _ => rewrite Hnull in Hn; discriminate
      end.
  - intros Hall. wp_step. intros _. tidy_tests. split; [assumption|].
    intros img_name img Hin. exact (Hall (img_name, img) Hin).
Qed.

(** What the loop over the groups of one content type has seen: every key
    other than "content" is bracketed, names no product an earlier group
    named and only declared products or 'all', and its settings, when there
    are some, pass the settings validator. *)
Fixpoint groups_checked (declared : option (list Product))
    (seen : gset string) (groups : dict json) : Prop :=
  match groups with
  | [] => True
  | (key, value) :: rest =>
      if String.eqb key "content" then groups_checked declared seen rest
      else
        startswith_bracket key && endswith_bracket key = true
        /\ seen ∩ to_set (group_products key) = ∅
        /\ (forall prods, declared = Some prods ->
              to_set (group_products key) ∖ to_set (map name prods)
                ∖ {[ "all" ]} = (∅ : gset string))
        /\ (value <> JNull -> fst (validate_settings value) = true)
        /\ groups_checked declared (seen ∪ to_set (group_products key)) rest
  end.

Definition settings_checked (d : Metadata) : Prop :=
  forall ct groups, (ct, groups) ∈ md_settings d ->
    ct ∈ md_content_types d
    /\ (exists content_settings,
          dict_get "content" groups = Some content_settings
          /\ (content_settings <> JNull ->
              fst (validate_settings content_settings) = true))
    /\ groups_checked (dict_get ct (md_products d)) ∅ groups.

Lemma validate_settings_accepted h h' :
  _validate_settings h = (Returned true, h') ->
  settings_checked (data h).
Proof.
  intros Hrun. unfold _validate_settings in Hrun.
  unfold bind at 1 in Hrun. cbn [get_data] in Hrun. cbv zeta in Hrun.
  refine ((_ : wp _ (fun b => b = true -> _)) h true h' Hrun eq_refl).
  clear Hrun. unfold settings_checked.
  wp_step. wp_step.
  apply (wp_for_each (fun '(ct, groups) =>
           ct ∈ md_content_types (data h)
           /\ (exists content_settings,
                 dict_get "content" groups = Some content_settings
                 /\ (content_settings <> JNull ->
                     fst (validate_settings content_settings) = true))
           /\ groups_checked (dict_get ct (md_products (data h))) ∅ groups)).
  - intros [ct groups] Hin.
    wp_step. wp_step; [wp_step; discriminate|]. wp_step.
    wp_step; [|wp_step; discriminate].
    tidy_tests.
    assert (Hloop :
      forall content_ok : Prop,
        content_ok ->
        wp (let* r :=
              for_fold_ret groups ∅
                (fun (seen_products : gset string) '(key, value) =>
                   if String.eqb key "content" then ret (inl seen_products)
                   else if negb (startswith_bracket key && endswith_bracket key)
                   then
                     add_error ("Invalid product group format in " +:+ ct
                                +:+ ": " +:+ key) ;;
                     ret (inr false)
                   else
                     let products := to_set (group_products key) in
                     if negb (bool_decide (seen_products ∩ products = ∅)) then
                       add_error ("Duplicate products in " +:+ ct
                                  +:+ " settings: "
                                  +:+ repr_set (seen_products ∩ products)) ;;
                       ret (inr false)
                     else
                       let seen_products' := seen_products ∪ products in
                       let invalid_products :=
                         match dict_get ct (md_products (data h)) with
                         | Some prods =>
                             products ∖ to_set (map name prods) ∖ {[ "all" ]}
                         | None => ∅
                         end in
                       if negb (bool_decide (invalid_products = ∅)) then
                         add_error ("Invalid products in " +:+ ct
                                    +:+ " settings: "
                                    +:+ repr_set invalid_products
                                    +:+ ". Valid products: "
                                    +:+ repr_list (sorted (elements (to_set
                                          (map name (default []
                                             (dict_get ct (md_products (data h))))))))) ;;
                         ret (inr false)
                       else
                         let '(ok, errs) :=
                           if is_None value then (true, [])
                           else validate_settings value in
                         if negb ok then
                           extend_errors
                             (map (fun e => ct +:+ " " +:+ key
                                            +:+ " settings: " +:+ e) errs) ;;
                           ret (inr false)
                         else ret (inl seen_products')) in
            match r with
            | inr b => ret (Return_ b)
            | inl _ => ret Proceed
            end)
           (fun f => match f with
                     | Return_ b => b = false
                     | _ => content_ok
                            /\ groups_checked
                                 (dict_get ct (md_products (data h))) ∅ groups
                     end)).
    { intros content_ok Hcontent. apply wp_bind.
      eapply wp_conseq;
        [apply (wp_for_fold_ret
                  (groups_checked (dict_get ct (md_products (data h)))))|].
      - intros b. exact I.
      - intros seen [key value] rest. cbn [groups_checked].
        repeat wp_step; try reflexivity; try (intros Hsame; exact Hsame).
        tidy_tests. intros Hrest.
        repeat split; try assumption.
        + intros prods Hprods.
          match goal with
          | Hx : match dict_get ct _ with _ => _ end = ∅ |- _ =>
              rewrite Hprods in Hx; exact Hx
          end.
        + intros Hvalue.
          match goal with
          | Hx : (if is_None value then _ else _) = (_, _) |- _ =>
              destruct (is_None value) eqn:Hnone;
              [apply is_None_true in Hnone; contradiction|rewrite Hx]
          end.
          cbn [fst]. assumption.
      - intros [seen'|v] Hr; apply wp_ret; [split; assumption|exact Hr]. }
    match goal with
    | |- wp (and_then ?c1 _) _ => destruct (is_None j) eqn:Hnone; cbn [negb]
    end.
    + apply wp_and_then, wp_ret.
      eapply wp_conseq; [apply (Hloop True I)|].
      intros [| |b]; [| |intros ->; discriminate];
        intros [_ Hgroups];
        (split; [apply (proj1 (elem_of_list_to_set (C:=gset string) _ _)); assumption|]);
        (split; [|exact Hgroups]); eexists; (split; [reflexivity|]);
        apply is_None_true in Hnone; intros Hne; contradiction.
    + apply wp_and_then. wp_step; [discriminate|].
      eapply wp_conseq;
        [apply (Hloop (fst (validate_settings j) = true)); assumption|].
      intros [| |b]; [| |intros ->; discriminate];
        intros [Hok Hgroups];
        (split; [apply (proj1 (elem_of_list_to_set (C:=gset string) _ _)); assumption|]);
        (split; [|exact Hgroups]); eexists; (split; [reflexivity|]);
        intros _; exact Hok.
  - intros Hall. wp_step. intros _ ct groups Hin. exact (Hall (ct, groups) Hin).
Qed.
End Accepted.

(** ** What a successful [validate] guarantees *)
Section Checked.
Context `{Python} `{Collaborators} {FS : Type} `{FileSystem FS}.
Variable strict : bool.
Variable base_path : string.
Variable fs : FS.

(** The groups of one content type, as a user of the settings sees them:
    every key other than 'content' is bracketed, names only declared products
    or 'all', holds null or valid settings, and no two keys share a
    product. *)
Definition groups_ok (declared : option (list Product)) (groups : dict json)
  : Prop :=
  (forall key value, (key, value) ∈ groups -> key <> "content" ->
     startswith_bracket key && endswith_bracket key = true
     /\ (forall prods p, declared = Some prods -> p ∈ group_products key ->
           p = "all" \/ p ∈ map name prods)
     /\ (value <> JNull -> fst (validate_settings value) = true))
  /\ (forall i j k1 v1 k2 v2,
        (i < j)%nat ->
        groups !! i = Some (k1, v1) -> groups !! j = Some (k2, v2) ->
        k1 <> "content" -> k2 <> "content" ->
        forall p, p ∈ group_products k1 -> p ∉ group_products k2).

Lemma groups_checked_ok declared groups :
  forall seen,
    groups_checked declared seen groups ->
    groups_ok declared groups
    /\ forall key value p, (key, value) ∈ groups -> key <> "content" ->
         p ∈ group_products key -> p ∉ seen.
Proof.
  induction groups as [|[key value] rest IH]; intros seen Hchecked.
  - split; [split|].
    + intros key value Hin. apply elem_of_nil in Hin. contradiction.
    + intros i j k1 v1 k2 v2 _ Hi. destruct i; discriminate.
    + intros key value p Hin. apply elem_of_nil in Hin. contradiction.
  - cbn [groups_checked] in Hchecked.
    destruct (String.eqb key "content") eqn:Hkey.
    + apply String.eqb_eq in Hkey. subst key.
      destruct (IH seen Hchecked) as [[Heach Hpair] Hseen].
      split; [split|].
      * intros key' value' Hin Hne. apply elem_of_cons in Hin as [[= -> ->]|Hin];
          [contradiction|exact (Heach _ _ Hin Hne)].
      * intros [|i] [|j] k1 v1 k2 v2 Hlt Hi Hj Hk1 Hk2; try lia.
        -- injection Hi as <- _. contradiction.
        -- cbn in Hi, Hj. apply (Hpair i j k1 v1 k2 v2); [lia|assumption..].
      * intros key' value' p Hin Hne. apply elem_of_cons in Hin as [[= -> ->]|Hin];
          [contradiction|exact (Hseen _ _ p Hin Hne)].
    + apply String.eqb_neq in Hkey.
      destruct Hchecked as (Hbr & Hdisj & Hdecl & Hvalid & Hrest).
      destruct (IH _ Hrest) as [[Heach Hpair] Hseen].
      split; [split|].
      * intros key' value' Hin Hne. apply elem_of_cons in Hin as [[= -> ->]|Hin];
          [|exact (Heach _ _ Hin Hne)].
        split; [exact Hbr|]. split; [|exact Hvalid].
        intros prods p Hprods Hp. specialize (Hdecl prods Hprods).
        unfold to_set in Hdecl.
        destruct (decide (p = "all")) as [->|Hall]; [left; reflexivity|right].
        destruct (decide (p ∈ map name prods)) as [Hd|Hd]; [exact Hd|].
        exfalso. set_solver.
      * intros [|i] [|j] k1 v1 k2 v2 Hlt Hi Hj Hk1 Hk2 p Hp; try lia.
        -- injection Hi as <- <-. cbn in Hj.
           apply list_elem_of_lookup_2 in Hj.
           pose proof (Hseen _ _ p Hj Hk2) as Hnot.
           intros Hp2. apply Hnot; [exact Hp2|]. unfold to_set. set_solver.
        -- cbn in Hi, Hj.
           apply (Hpair i j k1 v1 k2 v2); [lia|assumption..].
      * intros key' value' p Hin Hne Hp Hs.
        apply elem_of_cons in Hin as [[= -> ->]|Hin].
        -- unfold to_set in Hdisj. set_solver.
        -- apply (Hseen _ _ p Hin Hne Hp). unfold to_set. set_solver.
Qed.

(** The settings section, as a successful check leaves it known: every
    entry belongs to a declared content type, has a 'content' blob that is
    null or valid, and has well-formed groups. *)
Definition settings_ok (d : Metadata) : Prop :=
  forall ct groups, (ct, groups) ∈ md_settings d ->
    ct ∈ md_content_types d
    /\ (exists content_settings,
          dict_get "content" groups = Some content_settings
          /\ (content_settings <> JNull ->
              fst (validate_settings content_settings) = true))
    /\ groups_ok (dict_get ct (md_products d)) groups.

Lemma settings_checked_ok d : settings_checked d -> settings_ok d.
Proof.
  intros Hchecked ct groups Hin.
  destruct (Hchecked ct groups Hin) as (Hct & Hcontent & Hgroups).
  split; [exact Hct|]. split; [exact Hcontent|].
  exact (proj1 (groups_checked_ok _ _ _ Hgroups)).
Qed.

(** What is left of a product when its count is put aside. *)
Definition declaration (p : Product) : string * bool * Z :=
  (name p, prevent_duplicates p, min_occurrences p).

Definition declarations (ps : dict (list Product))
  : dict (list (string * bool * Z)) :=
  map (fun '(ct, prods) => (ct, map declaration prods)) ps.

Lemma declarations_reconcile imgs ps :
  declarations (reconcile_products imgs ps) = declarations ps.
Proof.
  unfold declarations, reconcile_products. rewrite map_map.
  apply map_ext. intros [ct prods]. f_equal. rewrite map_map.
  apply map_ext. intros [n pd mo cc]. reflexivity.
Qed.

(** Whatever [validate] answers, the data it leaves is the data it was
    given or its reconciliation. *)
Lemma validate_data_cases content_types products h r h' :
  validate strict base_path fs content_types products h = (r, h') ->
  data h' = data h \/ data h' = reconcile (data h).
Proof.
  intros Hrun.
  apply validate_data in Hrun
    as [[Hd _]|(h6 & rl & hl & Hd6 & Hpc & Hd & _)]; [left; exact Hd|].
  apply validate_product_counts_spec in Hpc as [[_ Hrec]|(e & _ & Hsame)].
  - right. rewrite Hd, Hrec, Hd6. reflexivity.
  - left. rewrite Hd, Hsame, Hd6. reflexivity.
Qed.

(** A validator that leaves the data alone hands it on. *)
Lemma accepted_data (v : M Heap bool) d h h1 :
  preserves (data_is d) v -> data h = d -> v h = (Returned true, h1) ->
  data h1 = d.
Proof.
  intros Hv Hd Hrun. pose proof (Hv h Hd) as Hd1. rewrite Hrun in Hd1.
  exact Hd1.
Qed.

(** The six checks of the data, each on the data [validate] was called
    with. *)
Lemma validate_checked content_types products h h' :
  validate strict base_path fs content_types products h = (Returned true, h') ->
  to_set (md_content_types (data h)) = to_set content_types
  /\ products_as_expected products (data h)
  /\ structure_on_disk fs (data h)
  /\ (keys (md_images (data h)) = sorted (keys (md_images (data h)))
      /\ forall img_name img, (img_name, img) ∈ md_images (data h) ->
           image_checked strict fs (data h) img_name img)
  /\ untagged_checked strict fs (data h)
  /\ settings_checked (data h).
Proof.
  intros Hrun. apply validate_accepted in Hrun as (_ & Hall & _).
  inversion Hall as [|h0 v1 h1 vs1 hx Hv1 Hall1]; subst; clear Hall.
  inversion Hall1 as [|? v2 h2 vs2 ? Hv2 Hall2]; subst; clear Hall1.
  inversion Hall2 as [|? v3 h3 vs3 ? Hv3 Hall3]; subst; clear Hall2.
  inversion Hall3 as [|? v4 h4 vs4 ? Hv4 Hall4]; subst; clear Hall3.
  inversion Hall4 as [|? v5 h5 vs5 ? Hv5 Hall5]; subst; clear Hall4.
  inversion Hall5 as [|? v6 h6 vs6 ? Hv6 Hall6]; subst; clear Hall5.
  clear Hall6.
  assert (Hd1 : data h1 = data h).
  { apply (accepted_data (_validate_content_types content_types) (data h)
             {| errors := []; warnings := []; seen_warnings := ∅;
                data := data h |} h1);
      [|reflexivity|exact Hv1].
    apply preserves_validate_content_types;
      auto using data_is_errors, data_is_warning. }
  assert (Hd2 : data h2 = data h).
  { apply (accepted_data (_validate_products strict base_path fs products)
             (data h) h1 h2); [|exact Hd1|exact Hv2].
    apply preserves_validate_products;
      auto using data_is_errors, data_is_warning. }
  assert (Hd3 : data h3 = data h).
  { apply (accepted_data (_validate_structure fs) (data h) h2 h3);
      [|exact Hd2|exact Hv3].
    apply preserves_validate_structure;
      auto using data_is_errors, data_is_warning. }
  assert (Hd4 : data h4 = data h).
  { apply (accepted_data (_validate_images strict fs) (data h) h3 h4);
      [|exact Hd3|exact Hv4].
    apply preserves_validate_images;
      auto using data_is_errors, data_is_warning. }
  assert (Hd5 : data h5 = data h).
  { apply (accepted_data (_validate_untagged strict fs) (data h) h4 h5);
      [|exact Hd4|exact Hv5].
    apply preserves_validate_untagged;
      auto using data_is_errors, data_is_warning. }
  apply validate_content_types_accepted in Hv1. cbn [data] in Hv1.
  apply validate_products_accepted in Hv2. rewrite Hd1 in Hv2.
  apply validate_structure_accepted in Hv3. rewrite Hd2 in Hv3.
  apply validate_images_accepted in Hv4. rewrite Hd3 in Hv4.
  apply validate_untagged_accepted in Hv5. rewrite Hd4 in Hv5.
  apply validate_settings_accepted in Hv6. rewrite Hd5 in Hv6.
  exact (conj Hv1 (conj Hv2 (conj Hv3 (conj Hv4 (conj Hv5 Hv6))))).
Qed.

(** In non-strict mode a successful [validate] has recorded no error. *)
Lemma validate_quiet content_types products h h' :
  validate false base_path fs content_types products h = (Returned true, h') ->
  errors h' = [].
Proof.
  intros Hrun. apply validate_accepted in Hrun as (_ & Hall & _).
  inversion Hall as [|h0 v1 h1 vs1 hx Hv1 Hall1]; subst; clear Hall.
  inversion Hall1 as [|? v2 h2 vs2 ? Hv2 Hall2]; subst; clear Hall1.
  inversion Hall2 as [|? v3 h3 vs3 ? Hv3 Hall3]; subst; clear Hall2.
  inversion Hall3 as [|? v4 h4 vs4 ? Hv4 Hall4]; subst; clear Hall3.
  inversion Hall4 as [|? v5 h5 vs5 ? Hv5 Hall5]; subst; clear Hall4.
  inversion Hall5 as [|? v6 h6 vs6 ? Hv6 Hall6]; subst; clear Hall5.
  inversion Hall6 as [|? v7 h7 vs7 ? Hv7 Hall7]; subst; clear Hall6.
  inversion Hall7; subst; clear Hall7.
  apply errs_kept_validate_content_types in Hv1; try reflexivity.
  apply errs_kept_validate_products in Hv2; try reflexivity.
  apply errs_kept_validate_structure in Hv3; try reflexivity.
  apply errs_kept_validate_images in Hv4; try reflexivity.
  apply errs_kept_validate_untagged in Hv5; try reflexivity.
  apply errs_kept_validate_settings in Hv6; try reflexivity.
  apply errs_kept_validate_product_counts in Hv7; try reflexivity.
  cbn [errors] in Hv1.
  rewrite (Hv7 eq_refl), (Hv6 eq_refl), (Hv5 eq_refl), (Hv4 eq_refl),
    (Hv3 eq_refl), (Hv2 eq_refl). exact (Hv1 eq_refl).
Qed.
End Checked.

(** ** The guarantees of a successful validation *)

(** X1.  When [validate] answers [True], nothing is pending: in non-strict
    mode the error list it leaves is empty, and in strict mode the warning
    list is. *)
Theorem validate_success_is_clean
    `{Python} `{Collaborators} {FS : Type} `{FileSystem FS}
    (strict : bool) (base_path : string) (fs : FS)
    (content_types : list string) (products : dict (list string))
    (h h' : Heap) :
  validate strict base_path fs content_types products h = (Returned true, h') ->
  (strict = false -> errors h' = [])
  /\ (strict = true -> warnings h' = []).
Proof.
  intros Hrun. split.
  - intros ->. exact (validate_quiet _ _ _ _ _ _ Hrun).
  - exact (proj2 (proj2 (validate_accepted _ _ _ _ _ _ _ Hrun))).
Qed.

Lemma validate_success_is_clean_witness :
  Fixture.validate_hook false = (Returned true, hook_heap_validated)
  /\ (false = false -> errors hook_heap_validated = [])
  /\ (false = true -> warnings hook_heap_validated = []).
Proof.
  split; [exact validate_hook_succeeds|].
  exact (@validate_success_is_clean
           Fixture.python Fixture.collaborators _ Fixture.file_system
           false "/base" Fixture.hook_disk ["hook"]
           [("hook", ["all"; "magnesium"])]
           (Fixture.fresh_heap Fixture.hook_metadata) hook_heap_validated
           validate_hook_succeeds).
Defined.

(** X2.  When [validate] answers [True], the data declares what the captions
    expect: the same set of content types, products for the same content
    types, and for each content type the same set of product names. *)
Theorem validate_success_matches_expected
    `{Python} `{Collaborators} {FS : Type} `{FileSystem FS}
    (strict : bool) (base_path : string) (fs : FS)
    (content_types : list string) (products : dict (list string))
    (h h' : Heap) :
  validate strict base_path fs content_types products h = (Returned true, h') ->
  to_set (md_content_types (data h)) = to_set content_types
  /\ to_set (keys (md_products (data h))) = to_set (keys products)
  /\ forall ct prods, (ct, prods) ∈ md_products (data h) ->
       exists expected,
         dict_get ct products = Some expected
         /\ to_set (map name prods) = to_set expected.
Proof.
  intros Hrun. apply validate_checked in Hrun as (Hcts & Hprods & _).
  split; [exact Hcts|exact Hprods].
Qed.

Lemma validate_success_matches_expected_witness :
  Fixture.validate_hook false = (Returned true, hook_heap_validated)
  /\ to_set (md_content_types Fixture.hook_metadata) = to_set ["hook"]
  /\ to_set (keys (md_products Fixture.hook_metadata))
     = to_set (keys [("hook", ["all"; "magnesium"])])
  /\ forall ct prods, (ct, prods) ∈ md_products Fixture.hook_metadata ->
       exists expected,
         dict_get ct [("hook", ["all"; "magnesium"])] = Some expected
         /\ to_set (map name prods) = to_set expected.
Proof.
  split; [exact validate_hook_succeeds|].
  exact (@validate_success_matches_expected
           Fixture.python Fixture.collaborators _ Fixture.file_system
           false "/base" Fixture.hook_disk ["hook"]
           [("hook", ["all"; "magnesium"])]
           (Fixture.fresh_heap Fixture.hook_metadata) hook_heap_validated
           validate_hook_succeeds).
Defined.

(** X3.  When [validate] answers [True], every folder named in [structure]
    exists on disk, and so does every image file listed under it. *)
Theorem validate_success_structure_on_disk
    `{Python} `{Collaborators} {FS : Type} `{FileSystem FS}
    (strict : bool) (base_path : string) (fs : FS)
    (content_types : list string) (products : dict (list string))
    (h h' : Heap) :
  validate strict base_path fs content_types products h = (Returned true, h') ->
  forall ct info, (ct, info) ∈ md_structure (data h) ->
    fs_exists fs (path info) = true
    /\ forall img, img ∈ images info ->
         fs_exists fs (path_join (path info) img) = true.
Proof.
  intros Hrun. apply validate_checked in Hrun as (_ & _ & Hst & _).
  exact Hst.
Qed.

Lemma validate_success_structure_on_disk_witness :
  Fixture.validate_hook false = (Returned true, hook_heap_validated)
  /\ forall ct info, (ct, info) ∈ md_structure Fixture.hook_metadata ->
       @fs_exists _ Fixture.file_system Fixture.hook_disk (path info) = true
       /\ forall img, img ∈ images info ->
            @fs_exists _ Fixture.file_system Fixture.hook_disk
              (@path_join Fixture.python (path info) img) = true.
Proof.
  split; [exact validate_hook_succeeds|].
  exact (@validate_success_structure_on_disk
           Fixture.python Fixture.collaborators _ Fixture.file_system
           false "/base" Fixture.hook_disk ["hook"]
           [("hook", ["all"; "magnesium"])]
           (Fixture.fresh_heap Fixture.hook_metadata) hook_heap_validated
           validate_hook_succeeds).
Defined.

(** X4.  When [validate] answers [True], the image names are in sorted
    order, and every image record has passed the image check: its content
    type has a folder in [structure] that lists the image; if the file is on
    disk its size is the recorded one; a 'default' source has null settings;
    unless the source is 'custom', an assigned product is 'all' or declared
    for the content type; and in strict mode the source is one of the four
    known ones, a 'custom' source has settings, and only a 'custom' image
    may be without product. *)
Theorem validate_success_images_checked
    `{Python} `{Collaborators} {FS : Type} `{FileSystem FS}
    (strict : bool) (base_path : string) (fs : FS)
    (content_types : list string) (products : dict (list string))
    (h h' : Heap) :
  validate strict base_path fs content_types products h = (Returned true, h') ->
  keys (md_images (data h)) = sorted (keys (md_images (data h)))
  /\ forall img_name img, (img_name, img) ∈ md_images (data h) ->
       image_checked strict fs (data h) img_name img.
Proof.
  intros Hrun. apply validate_checked in Hrun as (_ & _ & _ & Himgs & _).
  exact Himgs.
Qed.

Lemma validate_success_images_checked_witness :
  Fixture.validate_hook false = (Returned true, hook_heap_validated)
  /\ keys (md_images Fixture.hook_metadata)
     = sorted (keys (md_images Fixture.hook_metadata))
  /\ forall img_name img, (img_name, img) ∈ md_images Fixture.hook_metadata ->
       @image_checked Fixture.python _ Fixture.file_system false
         Fixture.hook_disk Fixture.hook_metadata img_name img.
Proof.
  split; [exact validate_hook_succeeds|].
  exact (@validate_success_images_checked
           Fixture.python Fixture.collaborators _ Fixture.file_system
           false "/base" Fixture.hook_disk ["hook"]
           [("hook", ["all"; "magnesium"])]
           (Fixture.fresh_heap Fixture.hook_metadata) hook_heap_validated
           validate_hook_succeeds).
Defined.

(** X5.  When [validate] answers [True], the untagged list has no
    duplicates, each of its files exists in the base folder (the parent of
    the first content type's folder), and in strict mode the list is
    empty. *)
Theorem validate_success_untagged_checked
    `{Python} `{Collaborators} {FS : Type} `{FileSystem FS}
    (strict : bool) (base_path : string) (fs : FS)
    (content_types : list string) (products : dict (list string))
    (h h' : Heap) :
  validate strict base_path fs content_types products h = (Returned true, h') ->
  NoDup (md_untagged (data h))
  /\ (exists first_ct rest info,
        md_content_types (data h) = first_ct :: rest
        /\ dict_get first_ct (md_structure (data h)) = Some info
        /\ forall img, img ∈ md_untagged (data h) ->
             fs_exists fs (path_join (path_parent (path info)) img) = true)
  /\ (strict = true -> md_untagged (data h) = []).
Proof.
  intros Hrun. apply validate_checked in Hrun as (_ & _ & _ & _ & Hunt & _).
  exact Hunt.
Qed.

Lemma validate_success_untagged_checked_witness :
  Fixture.validate_hook false = (Returned true, hook_heap_validated)
  /\ NoDup (md_untagged Fixture.hook_metadata)
  /\ (exists first_ct rest info,
        md_content_types Fixture.hook_metadata = first_ct :: rest
        /\ dict_get first_ct (md_structure Fixture.hook_metadata) = Some info
        /\ forall img, img ∈ md_untagged Fixture.hook_metadata ->
             @fs_exists _ Fixture.file_system Fixture.hook_disk
               (@path_join Fixture.python
                  (@path_parent Fixture.python (path info)) img) = true)
  /\ (false = true -> md_untagged Fixture.hook_metadata = []).
Proof.
  split; [exact validate_hook_succeeds|].
  exact (@validate_success_untagged_checked
           Fixture.python Fixture.collaborators _ Fixture.file_system
           false "/base" Fixture.hook_disk ["hook"]
           [("hook", ["all"; "magnesium"])]
           (Fixture.fresh_heap Fixture.hook_metadata) hook_heap_validated
           validate_hook_succeeds).
Defined.

(** X6.  When [validate] answers [True], every entry of [settings] belongs
    to a declared content type and has a 'content' blob that is null or
    valid; every other key of it is a bracketed group that names only
    declared products or 'all' and holds null or valid settings; and no
    product is named by two groups of the same content type. *)
Theorem validate_success_settings_checked
    `{Python} `{Collaborators} {FS : Type} `{FileSystem FS}
    (strict : bool) (base_path : string) (fs : FS)
    (content_types : list string) (products : dict (list string))
    (h h' : Heap) :
  validate strict base_path fs content_types products h = (Returned true, h') ->
  forall ct groups, (ct, groups) ∈ md_settings (data h) ->
    ct ∈ md_content_types (data h)
    /\ (exists content_settings,
          dict_get "content" groups = Some content_settings
          /\ (content_settings <> JNull ->
              fst (validate_settings content_settings) = true))
    /\ (forall key value, (key, value) ∈ groups -> key <> "content" ->
          startswith_bracket key && endswith_bracket key = true
          /\ (forall prods p,
                dict_get ct (md_products (data h)) = Some prods ->
                p ∈ group_products key ->
                p = "all" \/ p ∈ map name prods)
          /\ (value <> JNull -> fst (validate_settings value) = true))
    /\ (forall i j k1 v1 k2 v2,
          (i < j)%nat ->
          groups !! i = Some (k1, v1) -> groups !! j = Some (k2, v2) ->
          k1 <> "content" -> k2 <> "content" ->
          forall p, p ∈ group_products k1 -> p ∉ group_products k2).
Proof.
  intros Hrun ct groups Hin.
  apply validate_checked in Hrun as (_ & _ & _ & _ & _ & Hset).
  destruct (settings_checked_ok _ Hset ct groups Hin)
    as (Hct & Hcontent & Heach & Hpair).
  exact (conj Hct (conj Hcontent (conj Heach Hpair))).
Qed.

Lemma validate_success_settings_checked_witness :
  Fixture.validate_hook false = (Returned true, hook_heap_validated)
  /\ forall ct groups, (ct, groups) ∈ md_settings Fixture.hook_metadata ->
       ct ∈ md_content_types Fixture.hook_metadata
       /\ (exists content_settings,
             dict_get "content" groups = Some content_settings
             /\ (content_settings <> JNull ->
                 fst (@validate_settings Fixture.collaborators
                        content_settings) = true))
       /\ (forall key value, (key, value) ∈ groups -> key <> "content" ->
             startswith_bracket key && endswith_bracket key = true
             /\ (forall prods p,
                   dict_get ct (md_products Fixture.hook_metadata) = Some prods ->
                   p ∈ @group_products Fixture.python key ->
                   p = "all" \/ p ∈ map name prods)
             /\ (value <> JNull ->
                 fst (@validate_settings Fixture.collaborators value) = true))
       /\ (forall i j k1 v1 k2 v2,
             (i < j)%nat ->
             groups !! i = Some (k1, v1) -> groups !! j = Some (k2, v2) ->
             k1 <> "content" -> k2 <> "content" ->
             forall p, p ∈ @group_products Fixture.python k1 ->
                       p ∉ @group_products Fixture.python k2).
Proof.
  split; [exact validate_hook_succeeds|].
  exact (@validate_success_settings_checked
           Fixture.python Fixture.collaborators _ Fixture.file_system
           false "/base" Fixture.hook_disk ["hook"]
           [("hook", ["all"; "magnesium"])]
           (Fixture.fresh_heap Fixture.hook_metadata) hook_heap_validated
           validate_hook_succeeds).
Defined.

(** X7.  Whatever [validate] answers, and also when it raises, the only
    thing it may have changed in the data is the stored [current_count] of
    the products: the key order, content types, structure, images, untagged
    list and settings are as before, and so are the name, duplicate
    prevention and minimum of every product. *)
Theorem validate_changes_only_counts
    `{Python} `{Collaborators} {FS : Type} `{FileSystem FS}
    (strict : bool) (base_path : string) (fs : FS)
    (content_types : list string) (products : dict (list string))
    (h h' : Heap) (r : result bool) :
  validate strict base_path fs content_types products h = (r, h') ->
  md_keys (data h') = md_keys (data h)
  /\ md_content_types (data h') = md_content_types (data h)
  /\ md_structure (data h') = md_structure (data h)
  /\ md_images (data h') = md_images (data h)
  /\ md_untagged (data h') = md_untagged (data h)
  /\ md_settings (data h') = md_settings (data h)
  /\ declarations (md_products (data h')) = declarations (md_products (data h)).
Proof.
  intros Hrun. apply validate_data_cases in Hrun as [-> | ->].
  - repeat split; reflexivity.
  - unfold reconcile, set_products. cbn.
    repeat split; try reflexivity. apply declarations_reconcile.
Qed.

Lemma validate_changes_only_counts_witness :
  Fixture.validate_hook false = (Returned true, hook_heap_validated)
  /\ md_keys (data hook_heap_validated) = md_keys Fixture.hook_metadata
  /\ md_content_types (data hook_heap_validated)
     = md_content_types Fixture.hook_metadata
  /\ md_structure (data hook_heap_validated) = md_structure Fixture.hook_metadata
  /\ md_images (data hook_heap_validated) = md_images Fixture.hook_metadata
  /\ md_untagged (data hook_heap_validated) = md_untagged Fixture.hook_metadata
  /\ md_settings (data hook_heap_validated) = md_settings Fixture.hook_metadata
  /\ declarations (md_products (data hook_heap_validated))
     = declarations (md_products Fixture.hook_metadata).
Proof.
  split; [exact validate_hook_succeeds|].
  exact (@validate_changes_only_counts
           Fixture.python Fixture.collaborators _ Fixture.file_system
           false "/base" Fixture.hook_disk ["hook"]
           [("hook", ["all"; "magnesium"])]
           (Fixture.fresh_heap Fixture.hook_metadata) hook_heap_validated
           (Returned true) validate_hook_succeeds).
Defined.

(** * Further properties of the editor *)

(** ** Dicts *)

Lemma dict_get_set_eq {V} (k : string) (v : V) (d : dict V) :
  dict_get k (dict_set k v d) = Some v.
Proof.
  induction d as [|[k' v'] d IH]; cbn.
  - rewrite String.eqb_refl. reflexivity.
  - destruct (String.eqb k k') eqn:Hk; cbn; rewrite Hk; [reflexivity|exact IH].
Qed.

Lemma dict_get_set_ne {V} (k k' : string) (v : V) (d : dict V) :
  k <> k' -> dict_get k' (dict_set k v d) = dict_get k' d.
Proof.
  intros Hne. induction d as [|[k0 v0] d IH]; cbn.
  - apply String.eqb_neq in Hne. rewrite String.eqb_sym, Hne. reflexivity.
  - destruct (String.eqb k k0) eqn:Hk; cbn.
    + apply String.eqb_eq in Hk. subst k0.
      assert (Hk' : String.eqb k' k = false)
        by (apply String.eqb_neq; congruence).
      rewrite Hk'. reflexivity.
    + destruct (String.eqb k' k0); [reflexivity|exact IH].
Qed.

(** ** [_update_product_count] *)

(** The count stored for [product]: that of the first product of that name,
    0 when it has none or is not declared. *)
Definition stored_count (product : string) (prods : list Product) : Z :=
  match List.find (fun p => String.eqb (name p) product) prods with
  | Some p => default 0 (current_count p)
  | None => 0
  end.

Lemma name_set_current_count c p : name (set_current_count c p) = name p.
Proof. destruct p. reflexivity. Qed.

Lemma current_count_set_current_count c p :
  current_count (set_current_count c p) = Some c.
Proof. destruct p. reflexivity. Qed.

Lemma map_name_bump_first product increment prods :
  map name (bump_first product increment prods) = map name prods.
Proof.
  induction prods as [|p prods IH]; cbn; [reflexivity|].
  destruct (String.eqb (name p) product); cbn [map].
  - rewrite name_set_current_count. reflexivity.
  - rewrite IH. reflexivity.
Qed.

(** Moving the count of [product] changes the stored count of a declared
    name by one when it is that product, and not at all otherwise. *)
Lemma stored_count_bump_first product increment prods n :
  n ∈ map name prods ->
  stored_count n (bump_first product increment prods)
  = stored_count n prods
    + (if String.eqb n product then (if increment then 1 else -1) else 0).
Proof.
  unfold stored_count.
  induction prods as [|p prods IH]; intros Hin.
  - apply elem_of_nil in Hin. contradiction.
  - cbn [bump_first]. destruct (String.eqb (name p) product) eqn:Hp.
    + apply String.eqb_eq in Hp. cbn [List.find].
      rewrite name_set_current_count.
      destruct (String.eqb (name p) n) eqn:Hn.
      * apply String.eqb_eq in Hn.
        rewrite current_count_set_current_count. cbn [default from_option].
        assert (Hnp : String.eqb n product = true)
          by (apply String.eqb_eq; congruence).
        rewrite Hnp. unfold id. reflexivity.
      * assert (Hnp : String.eqb n product = false).
        { apply String.eqb_neq. apply String.eqb_neq in Hn. congruence. }
        rewrite Hnp. lia.
    + cbn [List.find]. destruct (String.eqb (name p) n) eqn:Hn.
      * apply String.eqb_eq in Hn.
        assert (Hnp : String.eqb n product = false).
        { apply String.eqb_neq. apply String.eqb_neq in Hp. congruence. }
        rewrite Hnp. lia.
      * apply IH. cbn [map] in Hin. apply elem_of_cons in Hin as [->|Hin];
          [|exact Hin].
        apply String.eqb_neq in Hn. contradiction.
Qed.

Section EditorFacts.
Context `{Python}.

(** [_update_product_count] either raises [KeyError] and leaves the store
    alone, or replaces the products of the content type by the bumped
    list. *)
Lemma update_product_count_spec ct product increment md r md' :
  _update_product_count ct product increment md = (r, md') ->
  match dict_get ct (md_products md) with
  | None => r = Raised (KeyError ct) /\ md' = md
  | Some prods =>
      r = Returned tt
      /\ md' = set_products
                 (dict_set ct (bump_first product increment prods)
                           (md_products md)) md
  end.
Proof.
  unfold _update_product_count. unfold bind at 1. cbn [get].
  unfold bind at 1, dict_item.
  destruct (dict_get ct (md_products md)) as [prods|]; cbn.
  - intros [= <- <-]. split; reflexivity.
  - intros [= <- <-]. split; reflexivity.
Qed.
End EditorFacts.

Section EditImage.
Context `{Python}.

(** The products of the image's content type after the count moves of
    [edit_image]: the old product, when there is one, gives one up, and the
    new one, when there is one, gains one. *)
Definition moved_counts (old_product new_product : option string)
    (prods : list Product) : list Product :=
  let prods :=
    if truthy old_product
    then bump_first (default "" old_product) false prods else prods in
  if truthy new_product
  then bump_first (default "" new_product) true prods else prods.

(** The untagged list after [edit_image] has handled the new product. *)
Definition untagged_after (image_name : string) (new_product : option string)
    (untagged : list string) : list string :=
  match new_product with
  | None =>
      if bool_decide (image_name ∈ untagged) then untagged
      else untagged ++ [image_name]
  | Some _ => filter (fun img => img ≠ image_name) untagged
  end.

Lemma dict_set_set {V} (k : string) (v1 v2 : V) (d : dict V) :
  dict_set k v2 (dict_set k v1 d) = dict_set k v2 d.
Proof.
  induction d as [|[k' v'] d IH]; cbn.
  - rewrite String.eqb_refl. reflexivity.
  - destruct (String.eqb k k') eqn:Hk; cbn; rewrite Hk; [reflexivity|].
    rewrite IH. reflexivity.
Qed.

Lemma dict_set_same {V} (k : string) (v : V) (d : dict V) :
  dict_get k d = Some v -> dict_set k v d = d.
Proof.
  induction d as [|[k' v'] d IH]; cbn; [discriminate|].
  destruct (String.eqb k k') eqn:Hk.
  - intros [= ->]. reflexivity.
  - intros Hget. rewrite (IH Hget). reflexivity.
Qed.

(** What a call of [edit_image] with the key "product" does, when the
    content type of the image has products. *)
Lemma edit_image_product_spec image_name upd md image new_product prods :
  dict_get image_name (md_images md) = Some image ->
  upd_product upd = Some new_product ->
  dict_get (content_type image) (md_products md) = Some prods ->
  edit_image image_name upd md
  = (Returned tt,
     {| md_keys := md_keys md;
        md_content_types := md_content_types md;
        md_products :=
          dict_set (content_type image)
                   (moved_counts (product image) new_product prods)
                   (md_products md);
        md_structure := md_structure md;
        md_images :=
          dict_set image_name (image_update upd image) (md_images md);
        md_untagged := untagged_after image_name new_product (md_untagged md);
        md_settings := md_settings md |}).
Proof.
  intros Himg Hupd Hprods. unfold edit_image. unfold bind at 1. cbn [get].
  rewrite Himg, Hupd. unfold moved_counts.
  assert (Hcount : forall product increment md0 ps,
            dict_get (content_type image) (md_products md0) = Some ps ->
            _update_product_count (content_type image) product increment md0
            = (Returned tt,
               set_products
                 (dict_set (content_type image)
                           (bump_first product increment ps)
                           (md_products md0)) md0)).
  { intros product increment md0 ps Hps.
    destruct (_update_product_count (content_type image) product increment md0)
      as [r0 m0] eqn:Hrun.
    apply update_product_count_spec in Hrun. rewrite Hps in Hrun.
    destruct Hrun as [-> ->]. reflexivity. }
  destruct (truthy (product image)) eqn:Hold;
    destruct (truthy new_product) eqn:Hnew.
  - unfold bind at 1. unfold bind at 1. unfold bind at 1.
    rewrite (Hcount _ _ _ _ Hprods).
    unfold bind at 1.
    rewrite (Hcount _ _
               (set_products
                  (dict_set (content_type image)
                     (bump_first (default "" (product image)) false prods)
                     (md_products md)) md)
               _ (dict_get_set_eq _ _ _)).
    cbn [set_products md_products]. rewrite dict_set_set.
    destruct new_product as [np|]; [|discriminate].
    unfold bind. cbn. reflexivity.
  - unfold bind at 1. unfold bind at 1. unfold bind at 1.
    rewrite (Hcount _ _ _ _ Hprods).
    destruct new_product as [np|]; unfold bind; cbn.
    + reflexivity.
    + case_bool_decide; cbn; reflexivity.
  - unfold bind at 1. unfold bind at 1. unfold bind at 1. cbn [ret].
    unfold bind at 1.
    rewrite (Hcount _ _ _ _ Hprods).
    destruct new_product as [np|]; [|discriminate].
    unfold bind. cbn. reflexivity.
  - rewrite (dict_set_same _ _ _ Hprods).
    destruct new_product as [np|]; unfold bind; cbn.
    + destruct md; reflexivity.
    + case_bool_decide; cbn; destruct md; reflexivity.
Qed.
End EditImage.

Section EditImageCases.
Context `{Python}.

(** Every outcome of [edit_image]: it raises and leaves the store as it
    was, or it returns with the record updated, the untagged list adjusted
    and, where a product changes hands, the counts moved. *)
Lemma edit_image_cases image_name upd md r md' :
  edit_image image_name upd md = (r, md') ->
  ((exists e, r = Raised e) /\ md' = md)
  \/ exists image,
       dict_get image_name (md_images md) = Some image
       /\ r = Returned tt
       /\ md_images md'
          = dict_set image_name (image_update upd image) (md_images md)
       /\ md_untagged md'
          = match upd_product upd with
            | Some new_product =>
                untagged_after image_name new_product (md_untagged md)
            | None => md_untagged md
            end
       /\ (md_products md' = md_products md
           \/ exists new_product prods,
                upd_product upd = Some new_product
                /\ dict_get (content_type image) (md_products md) = Some prods
                /\ md_products md'
                   = dict_set (content_type image)
                       (moved_counts (product image) new_product prods)
                       (md_products md))
       /\ md_keys md' = md_keys md
       /\ md_content_types md' = md_content_types md
       /\ md_structure md' = md_structure md
       /\ md_settings md' = md_settings md.
Proof.
  intros Hrun.
  destruct (dict_get image_name (md_images md)) as [image|] eqn:Himg.
  2:{ unfold edit_image in Hrun. unfold bind at 1 in Hrun. cbn [get] in Hrun.
      rewrite Himg in Hrun. injection Hrun as <- <-.
      left. split; [eexists; reflexivity|reflexivity]. }
  destruct (upd_product upd) as [new_product|] eqn:Hupd.
  - destruct (dict_get (content_type image) (md_products md)) as [prods|]
      eqn:Hprods.
    + rewrite (edit_image_product_spec _ _ _ _ _ _ Himg Hupd Hprods) in Hrun.
      injection Hrun as <- <-. right. exists image. cbn.
      repeat split; try reflexivity.
      right. exists new_product, prods.
      split; [reflexivity|]. split; [exact Hprods|reflexivity].
    + unfold edit_image in Hrun. unfold bind at 1 in Hrun. cbn [get] in Hrun.
      rewrite Himg, Hupd in Hrun.
      assert (Hcount : forall product increment,
                _update_product_count (content_type image) product increment md
                = (Raised (KeyError (content_type image)), md)).
      { intros product increment.
        destruct (_update_product_count (content_type image) product increment md)
          as [r0 m0] eqn:Hc.
        apply update_product_count_spec in Hc. rewrite Hprods in Hc.
        destruct Hc as [-> ->]. reflexivity. }
      destruct (truthy (product image)) eqn:Hold.
      * unfold bind at 1 in Hrun. unfold bind at 1 in Hrun.
        unfold bind at 1 in Hrun. rewrite Hcount in Hrun.
        injection Hrun as <- <-.
        left. split; [eexists; reflexivity|reflexivity].
      * destruct (truthy new_product) eqn:Hnew.
        -- unfold bind at 1 in Hrun. unfold bind at 1 in Hrun.
           unfold bind at 1 in Hrun. cbn [ret] in Hrun.
           unfold bind at 1 in Hrun. rewrite Hcount in Hrun.
           injection Hrun as <- <-.
           left. split; [eexists; reflexivity|reflexivity].
        -- right. exists image. split; [reflexivity|].
           destruct new_product as [np|]; unfold bind in Hrun; cbn in Hrun.
           ++ injection Hrun as <- <-. cbn.
              repeat split; try reflexivity. left. reflexivity.
           ++ case_bool_decide; cbn in Hrun; injection Hrun as <- <-; cbn;
                (repeat split; try reflexivity);
                try (left; reflexivity);
                unfold untagged_after; case_bool_decide;
                  reflexivity || contradiction.
  - unfold edit_image in Hrun. unfold bind at 1 in Hrun. cbn [get] in Hrun.
    rewrite Himg, Hupd in Hrun. unfold bind in Hrun. cbn in Hrun.
    injection Hrun as <- <-. right. exists image. cbn.
    repeat split; try reflexivity. left. reflexivity.
Qed.

Lemma elem_of_untagged_after image_name new_product untagged other :
  other ∈ untagged_after image_name new_product untagged
  <-> (other = image_name /\ new_product = None)
      \/ (other <> image_name /\ other ∈ untagged)
      \/ (other ∈ untagged /\ new_product = None).
Proof.
  unfold untagged_after. destruct new_product as [np|].
  - rewrite list_elem_of_filter. split.
    + intros [Hne Hin]. right. left. split; assumption.
    + intros [[_ Hd]|[[Hne Hin]|[_ Hd]]]; try discriminate. split; assumption.
  - case_bool_decide as Hmem.
    + split.
      * intros Hin. right. right. split; [exact Hin|reflexivity].
      * intros [[-> _]|[[_ Hin]|[Hin _]]]; assumption.
    + rewrite elem_of_app, list_elem_of_singleton. split.
      * intros [Hin | ->]; [right; right; split; [exact Hin|reflexivity]|].
        left. split; reflexivity.
      * intros [[-> _]|[[_ Hin]|[Hin _]]]; [right; reflexivity|left..];
          assumption.
Qed.

Lemma NoDup_untagged_after image_name new_product untagged :
  NoDup untagged -> NoDup (untagged_after image_name new_product untagged).
Proof.
  intros Hnd. unfold untagged_after. destruct new_product as [np|].
  - apply NoDup_filter. exact Hnd.
  - case_bool_decide as Hmem; [exact Hnd|].
    apply NoDup_app. split; [exact Hnd|]. split.
    + intros x Hx Hx'. apply list_elem_of_singleton in Hx'. subst x.
      contradiction.
    + apply NoDup_singleton.
Qed.
End EditImageCases.

Lemma keys_dict_set {V} (k : string) (v v0 : V) (d : dict V) :
  dict_get k d = Some v0 -> keys (dict_set k v d) = keys d.
Proof.
  unfold keys. induction d as [|[k' v'] d IH]; cbn; [discriminate|].
  destruct (String.eqb k k') eqn:Hk; cbn; [reflexivity|].
  intros Hget. rewrite (IH Hget). reflexivity.
Qed.

(** The store [edit_image] leaves when a.png loses its product. *)
Definition untagged_z_cleared : Metadata :=
  snd (edit_image "a.png" clear_product untagged_z_metadata).

Lemma edit_image_clears_product :
  edit_image "a.png" clear_product untagged_z_metadata
  = (Returned tt, untagged_z_cleared).
Proof. vm_compute. reflexivity. Qed.

(** X8.  When [edit_image] returns from a call whose update has the key
    "product", the image is in the untagged list exactly when the new product
    is None; the membership of every other name is as before, and a list
    without duplicates stays without duplicates. *)
Theorem edit_image_untagged_follows_product
    (image_name : string) (upd : ImageUpdate) (new_product : option string)
    (md md' : Metadata) :
  edit_image image_name upd md = (Returned tt, md') ->
  upd_product upd = Some new_product ->
  (image_name ∈ md_untagged md' <-> new_product = None)
  /\ (forall other, other <> image_name ->
        other ∈ md_untagged md' <-> other ∈ md_untagged md)
  /\ (NoDup (md_untagged md) -> NoDup (md_untagged md')).
Proof.
  intros Hrun Hupd.
  apply edit_image_cases in Hrun as [[[e [=]] _]|(image & _ & _ & _ & Hunt & _)].
  rewrite Hupd in Hunt. rewrite Hunt. split; [|split].
  - rewrite elem_of_untagged_after. split.
    + intros [[_ Hn]|[[Hne _]|[_ Hn]]]; [exact Hn|contradiction|exact Hn].
    + intros ->. left. split; reflexivity.
  - intros other Hne. rewrite elem_of_untagged_after. split.
    + intros [[Heq _]|[[_ Hin]|[Hin _]]]; [contradiction|exact Hin..].
    + intros Hin. right. left. split; assumption.
  - apply NoDup_untagged_after.
Qed.

Lemma edit_image_untagged_follows_product_witness :
  edit_image "a.png" clear_product untagged_z_metadata
  = (Returned tt, untagged_z_cleared)
  /\ upd_product clear_product = Some None
  /\ ("a.png" ∈ md_untagged untagged_z_cleared <-> (None : option string) = None)
  /\ (forall other, other <> "a.png" ->
        other ∈ md_untagged untagged_z_cleared
        <-> other ∈ md_untagged untagged_z_metadata)
  /\ (NoDup (md_untagged untagged_z_metadata)
      -> NoDup (md_untagged untagged_z_cleared)).
Proof.
  split; [exact edit_image_clears_product|]. split; [reflexivity|].
  exact (edit_image_untagged_follows_product "a.png" clear_product None
           untagged_z_metadata untagged_z_cleared
           edit_image_clears_product eq_refl).
Defined.

(** X9.  When [edit_image] returns, exactly one image record has changed:
    the named image now holds its old record overwritten by the fields of the
    update, every other record and the order of the records are as before,
    and so are the key order, the content types, the structure and the
    settings. *)
Theorem edit_image_updates_one_record
    (image_name : string) (upd : ImageUpdate) (md md' : Metadata) :
  edit_image image_name upd md = (Returned tt, md') ->
  exists image,
    dict_get image_name (md_images md) = Some image
    /\ dict_get image_name (md_images md') = Some (image_update upd image)
    /\ keys (md_images md') = keys (md_images md)
    /\ (forall other, other <> image_name ->
          dict_get other (md_images md') = dict_get other (md_images md))
    /\ md_keys md' = md_keys md
    /\ md_content_types md' = md_content_types md
    /\ md_structure md' = md_structure md
    /\ md_settings md' = md_settings md.
Proof.
  intros Hrun.
  apply edit_image_cases in Hrun
    as [[[e [=]] _]
       |(image & Himg & _ & Himgs & _ & _ & Hk & Hc & Hs & Hset)].
  exists image. split; [exact Himg|]. rewrite Himgs.
  split; [apply dict_get_set_eq|].
  split; [exact (keys_dict_set _ _ _ _ Himg)|].
  split; [intros other Hne; apply dict_get_set_ne; congruence|].
  repeat split; assumption.
Qed.

Lemma edit_image_updates_one_record_witness :
  edit_image "a.png" clear_product untagged_z_metadata
  = (Returned tt, untagged_z_cleared)
  /\ exists image,
       dict_get "a.png" (md_images untagged_z_metadata) = Some image
       /\ dict_get "a.png" (md_images untagged_z_cleared)
          = Some (image_update clear_product image)
       /\ keys (md_images untagged_z_cleared)
          = keys (md_images untagged_z_metadata)
       /\ (forall other, other <> "a.png" ->
             dict_get other (md_images untagged_z_cleared)
             = dict_get other (md_images untagged_z_metadata))
       /\ md_keys untagged_z_cleared = md_keys untagged_z_metadata
       /\ md_content_types untagged_z_cleared
          = md_content_types untagged_z_metadata
       /\ md_structure untagged_z_cleared = md_structure untagged_z_metadata
       /\ md_settings untagged_z_cleared = md_settings untagged_z_metadata.
Proof.
  split; [exact edit_image_clears_product|].
  exact (edit_image_updates_one_record "a.png" clear_product
           untagged_z_metadata untagged_z_cleared edit_image_clears_product).
Defined.

(** X10.  [edit_image] fails as a whole: when it raises (the image is
    unknown, or a count has to move and the content type of the image has no
    products), the store is exactly as it was. *)
Theorem edit_image_failure_leaves_store
    (image_name : string) (upd : ImageUpdate) (md md' : Metadata) (e : exn) :
  edit_image image_name upd md = (Raised e, md') ->
  md' = md.
Proof.
  intros Hrun.
  apply edit_image_cases in Hrun as [[_ Hsame]|(image & _ & [=] & _)].
  exact Hsame.
Qed.

Lemma edit_image_failure_leaves_store_witness :
  edit_image "missing.png" clear_product untagged_z_metadata
  = (Raised (ValueError "Image missing.png not found"), untagged_z_metadata)
  /\ untagged_z_metadata = untagged_z_metadata.
Proof.
  split; [reflexivity|].
  exact (edit_image_failure_leaves_store "missing.png" clear_product
           untagged_z_metadata untagged_z_metadata
           (ValueError "Image missing.png not found") eq_refl).
Defined.

(** X11.  When [edit_image] returns from a call that sets the product, the
    counts of the image's own content type have moved by one unit: for every
    declared, non-empty product name the stored count went down by one if it
    was the image's old product and up by one if it is the new one (so it is
    unchanged when both or neither); the products keep their names, and the
    products of every other content type are untouched. *)
Theorem edit_image_moves_one_count
    (image_name : string) (upd : ImageUpdate) (new_product : option string)
    (image : Image) (prods : list Product) (md md' : Metadata) :
  edit_image image_name upd md = (Returned tt, md') ->
  dict_get image_name (md_images md) = Some image ->
  upd_product upd = Some new_product ->
  dict_get (content_type image) (md_products md) = Some prods ->
  exists prods',
    dict_get (content_type image) (md_products md') = Some prods'
    /\ map name prods' = map name prods
    /\ (forall n, n ∈ map name prods -> n <> "" ->
          stored_count n prods'
          = stored_count n prods
            - (if bool_decide (product image = Some n) then 1 else 0)
            + (if bool_decide (new_product = Some n) then 1 else 0))
    /\ (forall ct, ct <> content_type image ->
          dict_get ct (md_products md') = dict_get ct (md_products md)).
Proof.
  intros Hrun Himg Hupd Hprods.
  rewrite (edit_image_product_spec _ _ _ _ _ _ Himg Hupd Hprods) in Hrun.
  injection Hrun as <-. cbn [md_products].
  exists (moved_counts (product image) new_product prods).
  split; [apply dict_get_set_eq|].
  assert (Hnames : forall o inc ps,
            map name (if truthy o then bump_first (default "" o) inc ps else ps)
            = map name ps).
  { intros o inc ps. destruct (truthy o); [apply map_name_bump_first|reflexivity]. }
  assert (Hstep : forall o inc ps n,
            n ∈ map name ps -> n <> "" ->
            stored_count n
              (if truthy o then bump_first (default "" o) inc ps else ps)
            = stored_count n ps
              + (if bool_decide (o = Some n)
                 then (if inc then 1 else -1) else 0)).
  { intros o inc ps n Hin Hne. destruct o as [s|]; cbn [truthy].
    - destruct (String.eqb s "") eqn:Hs; cbn [negb default from_option].
      + apply String.eqb_eq in Hs. subst s.
        case_bool_decide as Heq; [injection Heq as <-; contradiction|lia].
      + rewrite (stored_count_bump_first _ _ _ _ Hin). unfold id.
        destruct (String.eqb n s) eqn:Hns.
        * apply String.eqb_eq in Hns. subst s.
          rewrite bool_decide_eq_true_2 by reflexivity. reflexivity.
        * apply String.eqb_neq in Hns.
          rewrite bool_decide_eq_false_2 by congruence. reflexivity.
    - rewrite bool_decide_eq_false_2 by discriminate. lia. }
  split; [|split].
  - unfold moved_counts. rewrite Hnames, Hnames. reflexivity.
  - intros n Hin Hne. unfold moved_counts.
    rewrite Hstep by (rewrite ?Hnames; assumption).
    rewrite Hstep by assumption.
    repeat case_bool_decide; lia.
  - intros ct Hne. apply dict_get_set_ne. congruence.
Qed.

Lemma edit_image_moves_one_count_witness :
  edit_image "a.png" clear_product untagged_z_metadata
  = (Returned tt, untagged_z_cleared)
  /\ exists prods',
       dict_get "hook" (md_products untagged_z_cleared) = Some prods'
       /\ map name prods' = map name [Fixture.product_of "p1" false 0 1]
       /\ (forall n, n ∈ map name [Fixture.product_of "p1" false 0 1] ->
             n <> "" ->
             stored_count n prods'
             = stored_count n [Fixture.product_of "p1" false 0 1]
               - (if bool_decide (Some "p1" = Some n) then 1 else 0)
               + (if bool_decide ((None : option string) = Some n)
                  then 1 else 0))
       /\ (forall ct, ct <> "hook" ->
             dict_get ct (md_products untagged_z_cleared)
             = dict_get ct (md_products untagged_z_metadata)).
Proof.
  split; [exact edit_image_clears_product|].
  exact (edit_image_moves_one_count "a.png" clear_product None
           (Fixture.image_of "hook" (Some "p1"))
           [Fixture.product_of "p1" false 0 1]
           untagged_z_metadata untagged_z_cleared
           edit_image_clears_product eq_refl eq_refl eq_refl).
Defined.

(** ** Settings: writing and reading back *)
Section SettingsRoundTrip.
Context `{Collaborators}.

(** What [edit_settings] does at the level "content_type". *)
Lemma edit_settings_content_type_spec target blob md :
  edit_settings "content_type" target blob None md
  = (Returned tt,
     set_settings
       (dict_set target
          (dict_set "content" blob (default [] (dict_get target (md_settings md))))
          (md_settings md)) md).
Proof. reflexivity. Qed.

(** What [edit_settings] does at the level "custom". *)
Lemma edit_settings_custom_spec target blob md :
  edit_settings "custom" target blob None md
  = match dict_get target (md_images md) with
    | None => (Raised (ValueError ("Image " +:+ target +:+ " not found")), md)
    | Some image =>
        (Returned tt,
         set_images
           (dict_set target
              {| content_type := content_type image;
                 dimensions := dimensions image;
                 product := product image;
                 settings_source := "custom";
                 settings := blob |}
              (md_images md)) md)
    end.
Proof.
  unfold edit_settings. cbn. unfold bind. cbn.
  destruct (dict_get target (md_images md)); reflexivity.
Qed.
End SettingsRoundTrip.

(** X12.  Content-level settings written with [edit_settings] are read back
    by [get_settings]: for a declared content type, after
    [edit_settings("content_type", target, data)] the call
    [get_settings("content_type", target)] returns exactly [data] with source
    "content_type", and reads without changing the store; the groups of the
    content type other than 'content', and the settings of every other
    content type, are as before. *)
Theorem content_settings_round_trip `{Collaborators}
    (target : string) (blob : json) (md md' : Metadata) :
  edit_settings "content_type" target blob None md = (Returned tt, md') ->
  target <> "" ->
  target ∈ md_content_types md ->
  get_settings "content_type" (Some target) None md'
  = (Returned (Some {| view_source := "content_type"; view_settings := blob |}),
     md')
  /\ (forall key, key <> "content" ->
        dict_get key (default [] (dict_get target (md_settings md')))
        = dict_get key (default [] (dict_get target (md_settings md))))
  /\ (forall ct, ct <> target ->
        dict_get ct (md_settings md') = dict_get ct (md_settings md)).
Proof.
  intros Hrun Hne Hin. rewrite edit_settings_content_type_spec in Hrun.
  injection Hrun as <-. split; [|split].
  - unfold get_settings. unfold bind. cbn [get].
    cbn [String.eqb Ascii.eqb Bool.eqb].
    assert (Htruthy : str_truthy target = true).
    { unfold str_truthy. apply negb_true_iff, String.eqb_neq. exact Hne. }
    rewrite Htruthy. cbn [negb set_settings md_content_types md_settings].
    rewrite bool_decide_eq_true_2 by exact Hin. cbn [negb].
    pose proof (dict_get_set_eq target
                  (dict_set "content" blob
                     (default [] (dict_get target (md_settings md))))
                  (md_settings md)) as Hgroups.
    unfold ret. f_equal. f_equal. f_equal.
    unfold dict in *. rewrite Hgroups. cbn [default from_option]. unfold id.
    rewrite dict_get_set_eq. reflexivity.
  - intros key Hkey. cbn [set_settings md_settings].
    pose proof (dict_get_set_eq target
                  (dict_set "content" blob
                     (default [] (dict_get target (md_settings md))))
                  (md_settings md)) as Hgroups.
    unfold dict in *. rewrite Hgroups. cbn [default from_option]. unfold id.
    apply dict_get_set_ne. congruence.
  - intros ct Hct. cbn [set_settings md_settings].
    apply dict_get_set_ne. congruence.
Qed.

(** The store after the content settings of "hook" are set. *)
Definition untagged_z_with_content : Metadata :=
  snd (edit_settings "content_type" "hook" Fixture.simple_blob None
         untagged_z_metadata).

Lemma content_settings_round_trip_witness :
  edit_settings "content_type" "hook" Fixture.simple_blob None
    untagged_z_metadata
  = (Returned tt, untagged_z_with_content)
  /\ @get_settings Fixture.collaborators "content_type" (Some "hook") None
       untagged_z_with_content
     = (Returned (Some {| view_source := "content_type";
                          view_settings := Fixture.simple_blob |}),
        untagged_z_with_content)
  /\ (forall key, key <> "content" ->
        dict_get key
          (default [] (dict_get "hook" (md_settings untagged_z_with_content)))
        = dict_get key
            (default [] (dict_get "hook" (md_settings untagged_z_metadata))))
  /\ (forall ct, ct <> "hook" ->
        dict_get ct (md_settings untagged_z_with_content)
        = dict_get ct (md_settings untagged_z_metadata)).
Proof.
  split; [reflexivity|].
  apply (@content_settings_round_trip Fixture.collaborators
           "hook" Fixture.simple_blob untagged_z_metadata
           untagged_z_with_content eq_refl).
  - discriminate.
  - apply list_elem_of_singleton. reflexivity.
Defined.

(** X13.  Custom settings written with [edit_settings] are read back by
    [get_settings]: after [edit_settings("custom", image, data)] has
    returned, [get_settings("custom", image)] returns exactly [data] with
    source "custom"; the image keeps its content type, dimensions and
    product, and every other image record is as before. *)
Theorem custom_settings_round_trip `{Collaborators}
    (target : string) (blob : json) (md md' : Metadata) :
  edit_settings "custom" target blob None md = (Returned tt, md') ->
  target <> "" ->
  get_settings "custom" (Some target) None md'
  = (Returned (Some {| view_source := "custom"; view_settings := blob |}), md')
  /\ (exists image,
        dict_get target (md_images md) = Some image
        /\ dict_get target (md_images md')
           = Some {| content_type := content_type image;
                     dimensions := dimensions image;
                     product := product image;
                     settings_source := "custom";
                     settings := blob |})
  /\ (forall other, other <> target ->
        dict_get other (md_images md') = dict_get other (md_images md)).
Proof.
  intros Hrun Hne. rewrite edit_settings_custom_spec in Hrun.
  destruct (dict_get target (md_images md)) as [image|] eqn:Himg;
    [|discriminate].
  injection Hrun as <-. split; [|split].
  - unfold get_settings. unfold bind. cbn [get].
    cbn [String.eqb Ascii.eqb Bool.eqb truthy].
    assert (Htruthy : String.eqb target "" = false)
      by (apply String.eqb_neq; exact Hne).
    rewrite Htruthy. cbn [negb default from_option set_images md_images].
    unfold id. rewrite dict_get_set_eq. reflexivity.
  - exists image. split; [reflexivity|]. cbn [set_images md_images].
    apply dict_get_set_eq.
  - intros other Hother. cbn [set_images md_images].
    apply dict_get_set_ne. congruence.
Qed.

(** The store after a.png is given settings of its own. *)
Definition untagged_z_with_custom : Metadata :=
  snd (edit_settings "custom" "a.png" Fixture.simple_blob None
         untagged_z_metadata).

Lemma custom_settings_round_trip_witness :
  edit_settings "custom" "a.png" Fixture.simple_blob None untagged_z_metadata
  = (Returned tt, untagged_z_with_custom)
  /\ @get_settings Fixture.collaborators "custom" (Some "a.png") None
       untagged_z_with_custom
     = (Returned (Some {| view_source := "custom";
                          view_settings := Fixture.simple_blob |}),
        untagged_z_with_custom)
  /\ (exists image,
        dict_get "a.png" (md_images untagged_z_metadata) = Some image
        /\ dict_get "a.png" (md_images untagged_z_with_custom)
           = Some {| content_type := content_type image;
                     dimensions := dimensions image;
                     product := product image;
                     settings_source := "custom";
                     settings := Fixture.simple_blob |})
  /\ (forall other, other <> "a.png" ->
        dict_get other (md_images untagged_z_with_custom)
        = dict_get other (md_images untagged_z_metadata)).
Proof.
  split; [reflexivity|].
  apply (@custom_settings_round_trip Fixture.collaborators
           "a.png" Fixture.simple_blob untagged_z_metadata
           untagged_z_with_custom eq_refl).
  discriminate.
Defined.

Lemma dict_get_elem_of {V} (k : string) (v : V) (d : dict V) :
  dict_get k d = Some v -> (k, v) ∈ d.
Proof.
  induction d as [|[k' v'] d IH]; cbn; [discriminate|].
  destruct (String.eqb k k') eqn:Hk.
  - apply String.eqb_eq in Hk. subst k'. intros [= ->]. apply elem_of_cons.
    left. reflexivity.
  - intros Hget. apply elem_of_cons. right. exact (IH Hget).
Qed.

(** X14.  [edit_settings] does not check the target of a content-level
    write: for a name that is not a declared content type it still adds a
    settings entry, and on the store it leaves [validate] can no longer
    answer [True], in either mode. *)
Theorem undeclared_content_settings_fail_validation
    `{Python} `{Collaborators} {FS : Type} `{FileSystem FS}
    (strict : bool) (base_path : string) (fs : FS)
    (content_types : list string) (products : dict (list string))
    (target : string) (blob : json) (md md' : Metadata)
    (h h' : Heap) (r : result bool) :
  edit_settings "content_type" target blob None md = (Returned tt, md') ->
  target ∉ md_content_types md ->
  data h = md' ->
  validate strict base_path fs content_types products h = (r, h') ->
  (exists groups, dict_get target (md_settings md') = Some groups)
  /\ r <> Returned true.
Proof.
  intros Hedit Hnot Hdata Hrun. rewrite edit_settings_content_type_spec in Hedit.
  injection Hedit as <-.
  pose proof (dict_get_set_eq target
                (dict_set "content" blob
                   (default [] (dict_get target (md_settings md))))
                (md_settings md)) as Hentry.
  split; [eexists; exact Hentry|].
  intros ->. apply validate_checked in Hrun as (_ & _ & _ & _ & _ & Hset).
  rewrite Hdata in Hset.
  apply dict_get_elem_of in Hentry.
  destruct (Hset _ _ Hentry) as (Hct & _). exact (Hnot Hct).
Qed.

(** The fixture after content settings are written for "cta", which is not
    one of its content types. *)
Definition hook_with_cta_settings : Metadata :=
  snd (edit_settings "content_type" "cta" JNull None Fixture.hook_metadata).

Definition validate_hook_with_cta : result bool * Heap :=
  @validate Fixture.python Fixture.collaborators _ Fixture.file_system
    false "/base" Fixture.hook_disk ["hook"] [("hook", ["all"; "magnesium"])]
    (Fixture.fresh_heap hook_with_cta_settings).

Lemma undeclared_content_settings_fail_validation_witness :
  edit_settings "content_type" "cta" JNull None Fixture.hook_metadata
  = (Returned tt, hook_with_cta_settings)
  /\ ("cta" ∉ md_content_types Fixture.hook_metadata)
  /\ (exists groups,
        dict_get "cta" (md_settings hook_with_cta_settings) = Some groups)
  /\ fst validate_hook_with_cta <> Returned true.
Proof.
  split; [reflexivity|].
  assert (Hnot : "cta" ∉ md_content_types Fixture.hook_metadata).
  { intros Hin. apply list_elem_of_singleton in Hin. discriminate. }
  split; [exact Hnot|].
  exact (@undeclared_content_settings_fail_validation
           Fixture.python Fixture.collaborators _ Fixture.file_system
           false "/base" Fixture.hook_disk ["hook"]
           [("hook", ["all"; "magnesium"])]
           "cta" JNull Fixture.hook_metadata hook_with_cta_settings
           (Fixture.fresh_heap hook_with_cta_settings)
           (snd validate_hook_with_cta) (fst validate_hook_with_cta)
           eq_refl Hnot eq_refl (surjective_pairing validate_hook_with_cta)).
Defined.

(** ** Moving an untagged image *)
Section MoveFacts.
Context `{Python} {FS : Type} `{FileSystem FS}.

(** The record a moved image gets. *)
Definition moved_image_record (target_content_type : string)
    (width height : Z) : Image :=
  {| content_type := target_content_type;
     dimensions := {| width := width; height := height |};
     product := None;
     settings_source := "default";
     settings := JNull |}.

(** The metadata once the file is renamed: the image is listed, in order,
    under its new content type. *)
Definition structure_after_move (image_name target_content_type : string)
    (info : Structure) (md : Metadata) : Metadata :=
  set_structure
    (dict_set target_content_type
       {| path := path info; images := sorted (images info ++ [image_name]) |}
       (md_structure md))
    md.

(** The metadata at the end of a move. *)
Definition metadata_after_move (image_name target_content_type : string)
    (info : Structure) (width height : Z) (md : Metadata) : Metadata :=
  let md1 := structure_after_move image_name target_content_type info md in
  let md2 :=
    set_images
      (sort_items
         (dict_set image_name
            (moved_image_record target_content_type width height)
            (md_images md1)))
      md1 in
  set_untagged (sorted (remove_first image_name (md_untagged md2))) md2.

(** Once the preconditions hold, a move is decided by the three accesses to
    the disk: the rename, the reading of the picture's size and the writing
    of metadata.json.  Each failure leaves what was done before it. *)
Lemma move_untagged_image_steps image_name target_content_type w info :
  image_name ∈ md_untagged (metadata w) ->
  target_content_type ∈ md_content_types (metadata w) ->
  dict_get target_content_type (md_structure (metadata w)) = Some info ->
  fs_exists (files w) (path_join (path_parent (path info)) image_name) = true ->
  fs_exists (files w) (path_join (path info) image_name) = false ->
  move_untagged_image image_name target_content_type w
  = match fs_rename (files w)
            (path_join (path_parent (path info)) image_name)
            (path_join (path info) image_name) with
    | Raised e =>
        (Raised (ValueError ("Failed to move image: " +:+ exn_str e)), w)
    | Returned fs1 =>
        match fs_image_size fs1 (path_join (path info) image_name) with
        | Raised e =>
            (Raised (ValueError ("Failed to move image: " +:+ exn_str e)),
             {| metadata :=
                  structure_after_move image_name target_content_type info
                    (metadata w);
                files := fs1 |})
        | Returned (width, height) =>
            let md3 :=
              metadata_after_move image_name target_content_type info
                width height (metadata w) in
            match fs_write_json fs1
                    (path_join (path_parent (path info)) "metadata.json")
                    md3 with
            | Raised e =>
                (Raised (ValueError ("Failed to move image: " +:+ exn_str e)),
                 {| metadata := md3; files := fs1 |})
            | Returned fs2 =>
                (Returned tt, {| metadata := md3; files := fs2 |})
            end
        end
    end.
Proof.
  intros Hin Hct Hinfo Hsrc Hdest.
  unfold move_untagged_image, try_except, move_untagged_image_body.
  unfold bind at 1. cbn [get].
  rewrite (bool_decide_eq_true_2 _ Hin). cbn [negb].
  rewrite (bool_decide_eq_true_2 _ Hct). cbn [negb].
  unfold bind at 1. unfold dict_item. rewrite Hinfo. cbn [ret].
  rewrite Hsrc, Hdest. cbn [negb].
  destruct (fs_rename (files w) _ _) as [fs1|e]; [|reflexivity].
  unfold bind at 1. cbn [put_files modify].
  unfold bind at 1. cbn [put_metadata modify metadata files].
  destruct (fs_image_size fs1 _) as [[width height]|e]; [|reflexivity].
  unfold bind at 1. cbn [put_metadata modify metadata files].
  unfold bind at 1. cbn [put_metadata modify metadata files].
  unfold metadata_after_move, structure_after_move, moved_image_record.
  cbv zeta. cbn [set_structure md_structure md_images md_untagged set_images].
  destruct (fs_write_json fs1 _ _) as [fs2|e]; reflexivity.
Qed.
End MoveFacts.

Section MoveOutcome.
Context `{Python} {FS : Type} `{FileSystem FS}.

(** A move that changes anything, or returns, started with its
    preconditions met. *)
Lemma move_untagged_image_started image_name target_content_type w r w' :
  move_untagged_image image_name target_content_type w = (r, w') ->
  r = Returned tt \/ w' <> w ->
  image_name ∈ md_untagged (metadata w)
  /\ target_content_type ∈ md_content_types (metadata w)
  /\ exists info,
       dict_get target_content_type (md_structure (metadata w)) = Some info
       /\ fs_exists (files w) (path_join (path_parent (path info)) image_name)
          = true
       /\ fs_exists (files w) (path_join (path info) image_name) = false.
Proof.
  intros Hrun Hdone.
  assert (Hstop : forall e, (r, w') = (Raised e, w) -> False).
  { intros e [= -> ->]. destruct Hdone as [Hr|Hw]; [discriminate|].
    apply Hw. reflexivity. }
  unfold move_untagged_image, try_except, move_untagged_image_body in Hrun.
  unfold bind at 1 in Hrun. cbn [get] in Hrun.
  destruct (decide (image_name ∈ md_untagged (metadata w))) as [Hin|Hnin].
  2:{ rewrite (bool_decide_eq_false_2 _ Hnin) in Hrun. cbn in Hrun.
      exfalso. symmetry in Hrun. exact (Hstop _ Hrun). }
  rewrite (bool_decide_eq_true_2 _ Hin) in Hrun. cbn [negb] in Hrun.
  destruct (decide (target_content_type ∈ md_content_types (metadata w)))
    as [Hct|Hnct].
  2:{ rewrite (bool_decide_eq_false_2 _ Hnct) in Hrun. cbn in Hrun.
      exfalso. symmetry in Hrun. exact (Hstop _ Hrun). }
  rewrite (bool_decide_eq_true_2 _ Hct) in Hrun. cbn [negb] in Hrun.
  unfold bind at 1 in Hrun. unfold dict_item in Hrun.
  destruct (dict_get target_content_type (md_structure (metadata w)))
    as [info|] eqn:Hinfo.
  2:{ cbn in Hrun. exfalso. symmetry in Hrun. exact (Hstop _ Hrun). }
  cbn [ret] in Hrun.
  destruct (fs_exists (files w)
              (path_join (path_parent (path info)) image_name))
    eqn:Hsrc; cbn [negb] in Hrun.
  2:{ cbn in Hrun. exfalso. symmetry in Hrun. exact (Hstop _ Hrun). }
  destruct (fs_exists (files w) (path_join (path info) image_name)) eqn:Hdest.
  { cbn in Hrun. exfalso. symmetry in Hrun. exact (Hstop _ Hrun). }
  split; [exact Hin|]. split; [exact Hct|]. exists info.
  split; [reflexivity|]. split; [exact Hsrc|exact Hdest].
Qed.

Lemma sort_items_Permutation {V} (d : dict V) : sort_items d ≡ₚ d.
Proof. unfold sort_items. apply merge_sort_Permutation. Qed.

Lemma sort_items_Sorted {V} (d : dict V) :
  Sorted (fun a b : string * V => String.le (fst a) (fst b)) (sort_items d).
Proof.
  unfold sort_items. apply Sorted_merge_sort.
  intros a b. apply String.le_total.
Qed.
End MoveOutcome.

(** X15.  When [move_untagged_image] returns, the move is complete and
    saved: the file was renamed from the base folder into the folder of the
    target content type; the structure of that content type lists the image,
    in sorted order; the images hold a fresh record for it (the target
    content type, the size read from the moved file, no product, default
    settings), are otherwise as before and are in key order; the untagged list
    is the old one without one occurrence of the image, sorted; the products,
    settings and content types are untouched; and metadata.json was written
    with exactly the metadata now in memory. *)
Theorem move_untagged_image_success
    `{Python} {FS : Type} `{FileSystem FS}
    (image_name target_content_type : string) (w w' : World FS) :
  move_untagged_image image_name target_content_type w = (Returned tt, w') ->
  exists info fs1 width height,
    dict_get target_content_type (md_structure (metadata w)) = Some info
    /\ fs_rename (files w)
         (path_join (path_parent (path info)) image_name)
         (path_join (path info) image_name) = Returned fs1
    /\ fs_image_size fs1 (path_join (path info) image_name)
       = Returned (width, height)
    /\ fs_write_json fs1 (path_join (path_parent (path info)) "metadata.json")
         (metadata w') = Returned (files w')
    /\ dict_get target_content_type (md_structure (metadata w'))
       = Some {| path := path info;
                 images := sorted (images info ++ [image_name]) |}
    /\ (image_name, moved_image_record target_content_type width height)
       ∈ md_images (metadata w')
    /\ md_images (metadata w')
       ≡ₚ dict_set image_name
            (moved_image_record target_content_type width height)
            (md_images (metadata w))
    /\ Sorted (fun a b : string * Image => String.le (fst a) (fst b))
         (md_images (metadata w'))
    /\ md_untagged (metadata w')
       = sorted (remove_first image_name (md_untagged (metadata w)))
    /\ md_products (metadata w') = md_products (metadata w)
    /\ md_settings (metadata w') = md_settings (metadata w)
    /\ md_content_types (metadata w') = md_content_types (metadata w).
Proof.
  intros Hrun.
  destruct (move_untagged_image_started _ _ _ _ _ Hrun (or_introl eq_refl))
    as (Hin & Hct & info & Hinfo & Hsrc & Hdest).
  rewrite (move_untagged_image_steps _ _ _ _ Hin Hct Hinfo Hsrc Hdest) in Hrun.
  destruct (fs_rename (files w) _ _) as [fs1|e] eqn:Hrename; [|discriminate].
  destruct (fs_image_size fs1 _) as [[width height]|e] eqn:Hsize;
    [|discriminate].
  cbv zeta in Hrun.
  destruct (fs_write_json fs1 _ _) as [fs2|e] eqn:Hwrite; [|discriminate].
  injection Hrun as <-. cbn [metadata files].
  exists info, fs1, width, height.
  split; [exact Hinfo|]. split; [exact Hrename|]. split; [exact Hsize|].
  split; [exact Hwrite|].
  unfold metadata_after_move, structure_after_move.
  cbn [set_untagged set_images set_structure md_structure md_images
       md_untagged md_products md_settings md_content_types].
  split; [apply dict_get_set_eq|].
  split.
  { rewrite sort_items_Permutation. apply dict_get_elem_of, dict_get_set_eq. }
  split; [apply sort_items_Permutation|].
  split; [apply sort_items_Sorted|].
  repeat split; reflexivity.
Qed.

(** A world with one untagged picture, 9h.png, in the base folder. *)
Definition untagged_world : World Fixture.Disk :=
  {| metadata := set_untagged ["9h.png"] Fixture.hook_metadata;
     files :=
       {| Fixture.present := "/base/9h.png" :: Fixture.present Fixture.hook_disk;
          Fixture.sizes :=
            ("/base/9h.png", (1080, 1920)) :: Fixture.sizes Fixture.hook_disk;
          Fixture.json_files := Fixture.json_files Fixture.hook_disk |} |}.

Definition untagged_world_moved : World Fixture.Disk :=
  snd (@move_untagged_image Fixture.python _ Fixture.file_system
         "9h.png" "hook" untagged_world).

Lemma move_untagged_image_returns :
  @move_untagged_image Fixture.python _ Fixture.file_system
    "9h.png" "hook" untagged_world
  = (Returned tt, untagged_world_moved).
Proof. vm_compute. reflexivity. Qed.

Lemma move_untagged_image_success_witness :
  @move_untagged_image Fixture.python _ Fixture.file_system
    "9h.png" "hook" untagged_world
  = (Returned tt, untagged_world_moved)
  /\ exists info fs1 width height,
       dict_get "hook" (md_structure (metadata untagged_world)) = Some info
       /\ @fs_rename _ Fixture.file_system (files untagged_world)
            (@path_join Fixture.python
               (@path_parent Fixture.python (path info)) "9h.png")
            (@path_join Fixture.python (path info) "9h.png") = Returned fs1
       /\ @fs_image_size _ Fixture.file_system fs1
            (@path_join Fixture.python (path info) "9h.png")
          = Returned (width, height)
       /\ @fs_write_json _ Fixture.file_system fs1
            (@path_join Fixture.python
               (@path_parent Fixture.python (path info)) "metadata.json")
            (metadata untagged_world_moved)
          = Returned (files untagged_world_moved)
       /\ dict_get "hook" (md_structure (metadata untagged_world_moved))
          = Some {| path := path info;
                    images := sorted (images info ++ ["9h.png"]) |}
       /\ ("9h.png", moved_image_record "hook" width height)
          ∈ md_images (metadata untagged_world_moved)
       /\ md_images (metadata untagged_world_moved)
          ≡ₚ dict_set "9h.png" (moved_image_record "hook" width height)
               (md_images (metadata untagged_world))
       /\ Sorted (fun a b : string * Image => String.le (fst a) (fst b))
            (md_images (metadata untagged_world_moved))
       /\ md_untagged (metadata untagged_world_moved)
          = sorted (remove_first "9h.png"
                      (md_untagged (metadata untagged_world)))
       /\ md_products (metadata untagged_world_moved)
          = md_products (metadata untagged_world)
       /\ md_settings (metadata untagged_world_moved)
          = md_settings (metadata untagged_world)
       /\ md_content_types (metadata untagged_world_moved)
          = md_content_types (metadata untagged_world).
Proof.
  split; [exact move_untagged_image_returns|].
  exact (@move_untagged_image_success Fixture.python _ Fixture.file_system
           "9h.png" "hook" untagged_world untagged_world_moved
           move_untagged_image_returns).
Defined.

(** X16.  [move_untagged_image] is not undone when it fails after the
    rename: if the preconditions hold and the rename succeeds but the size of
    the moved file cannot be read, the call raises [ValueError] and leaves the
    file renamed and the image listed in the structure of the target content
    type, while the untagged list still names it, the images hold no record
    for it that was not there before, and nothing is written to disk. *)
Theorem move_untagged_image_unreadable_picture
    `{Python} {FS : Type} `{FileSystem FS}
    (image_name target_content_type : string) (w : World FS)
    (info : Structure) (fs1 : FS) (e : exn) :
  image_name ∈ md_untagged (metadata w) ->
  target_content_type ∈ md_content_types (metadata w) ->
  dict_get target_content_type (md_structure (metadata w)) = Some info ->
  fs_exists (files w) (path_join (path_parent (path info)) image_name) = true ->
  fs_exists (files w) (path_join (path info) image_name) = false ->
  fs_rename (files w)
    (path_join (path_parent (path info)) image_name)
    (path_join (path info) image_name) = Returned fs1 ->
  fs_image_size fs1 (path_join (path info) image_name) = Raised e ->
  exists w',
    move_untagged_image image_name target_content_type w
    = (Raised (ValueError ("Failed to move image: " +:+ exn_str e)), w')
    /\ files w' = fs1
    /\ dict_get target_content_type (md_structure (metadata w'))
       = Some {| path := path info;
                 images := sorted (images info ++ [image_name]) |}
    /\ md_untagged (metadata w') = md_untagged (metadata w)
    /\ md_images (metadata w') = md_images (metadata w).
Proof.
  intros Hin Hct Hinfo Hsrc Hdest Hrename Hsize.
  rewrite (move_untagged_image_steps _ _ _ _ Hin Hct Hinfo Hsrc Hdest).
  rewrite Hrename, Hsize. eexists. split; [reflexivity|].
  cbn [files metadata]. unfold structure_after_move.
  cbn [set_structure md_structure md_untagged md_images].
  split; [reflexivity|]. split; [apply dict_get_set_eq|].
  split; reflexivity.
Qed.

(** The same world, except that 9h.png is not a readable picture. *)
Definition unreadable_world : World Fixture.Disk :=
  {| metadata := set_untagged ["9h.png"] Fixture.hook_metadata;
     files :=
       {| Fixture.present := "/base/9h.png" :: Fixture.present Fixture.hook_disk;
          Fixture.sizes := Fixture.sizes Fixture.hook_disk;
          Fixture.json_files := Fixture.json_files Fixture.hook_disk |} |}.

Definition unreadable_renamed : Fixture.Disk :=
  {| Fixture.present :=
       "/base/hook/9h.png" :: Fixture.present Fixture.hook_disk;
     Fixture.sizes := Fixture.sizes Fixture.hook_disk;
     Fixture.json_files := Fixture.json_files Fixture.hook_disk |}.

Lemma move_untagged_image_unreadable_picture_witness :
  exists w',
    @move_untagged_image Fixture.python _ Fixture.file_system
      "9h.png" "hook" unreadable_world
    = (Raised (ValueError
                 ("Failed to move image: "
                  +:+ @exn_str Fixture.python
                        (OSError "cannot identify image file"))), w')
    /\ files w' = unreadable_renamed
    /\ dict_get "hook" (md_structure (metadata w'))
       = Some {| path := "/base/hook";
                 images := sorted (["1h.png"; "2h.png"] ++ ["9h.png"]) |}
    /\ md_untagged (metadata w') = md_untagged (metadata unreadable_world)
    /\ md_images (metadata w') = md_images (metadata unreadable_world).
Proof.
  apply (@move_untagged_image_unreadable_picture
           Fixture.python _ Fixture.file_system
           "9h.png" "hook" unreadable_world
           {| path := "/base/hook"; images := ["1h.png"; "2h.png"] |}
           unreadable_renamed (OSError "cannot identify image file")).
  - apply list_elem_of_singleton. reflexivity.
  - apply list_elem_of_singleton. reflexivity.
  - reflexivity.
  - vm_compute. reflexivity.
  - vm_compute. reflexivity.
  - vm_compute. reflexivity.
  - vm_compute. reflexivity.
Defined.

(** * Further properties of [Metadata.load] *)
Section LoadFacts.
Context `{Python} `{Collaborators} {FS : Type} `{FileSystem FS}.
Variable self_strict : bool.
Variable base_path : string.

(** What [load] does when metadata.json exists. *)
Lemma load_existing_spec content_types products strict (st : Store FS) :
  fs_exists (disk st) (path_join base_path "metadata.json") = true ->
  load self_strict base_path content_types products strict st
  = match fs_read_json (disk st) (path_join base_path "metadata.json") with
    | Raised _ => (Returned false, st)
    | Returned d =>
        let '(r, h) :=
          validate (default self_strict strict) base_path (disk st)
                   content_types products
                   {| errors := []; warnings := []; seen_warnings := ∅;
                      data := d |} in
        match r with
        | Raised _ =>
            (Returned false,
             {| self_data := data h;
                self_warnings := self_warnings st;
                self_errors := self_errors st;
                has_editor := has_editor st;
                disk := disk st |})
        | Returned validation_result =>
            (Returned validation_result,
             {| self_data := data h;
                self_warnings := self_warnings st ++ warnings h;
                self_errors := self_errors st ++ errors h;
                has_editor := validation_result || has_editor st;
                disk := disk st |})
        end
    end.
Proof.
  intros Hexists. unfold load. unfold bind at 1. cbn [get].
  rewrite Hexists. unfold try_except.
  destruct (fs_read_json (disk st) _) as [d|e]; [|reflexivity].
  destruct (validate _ _ _ _ _ _) as [[[|]|e] h]; reflexivity.
Qed.

(** [load] does not raise. *)
Lemma load_returns content_types products strict (st : Store FS) :
  exists b st',
    load self_strict base_path content_types products strict st
    = (Returned b, st').
Proof.
  unfold load. unfold bind at 1. cbn [get].
  destruct (fs_exists (disk st) _); unfold try_except.
  - destruct (fs_read_json (disk st) _) as [d|e]; [|eauto].
    destruct (validate _ _ _ _ _ _) as [[[|]|e] h]; cbn; eauto.
  - destruct (fs_generate (disk st) _ _ _) as [[d|e] disk']; cbn; eauto.
Qed.
End LoadFacts.

(** X17.  [load] never raises, and with metadata.json on disk its answer is
    the validator's: it returns [True] exactly when the file could be read
    and [validate] answered [True] on its content; it then holds the
    validated data, with the counts reconciled, and has an editor.  When it
    returns [False] the editor is as before.  The disk is not written. *)
Theorem load_answer_is_validation
    `{Python} `{Collaborators} {FS : Type} `{FileSystem FS}
    (self_strict : bool) (base_path : string)
    (content_types : list string) (products : dict (list string))
    (strict : option bool) (st st' : Store FS) (r : result bool) :
  fs_exists (disk st) (path_join base_path "metadata.json") = true ->
  load self_strict base_path content_types products strict st = (r, st') ->
  exists b,
    r = Returned b
    /\ disk st' = disk st
    /\ (b = true <->
        exists d h',
          fs_read_json (disk st) (path_join base_path "metadata.json")
          = Returned d
          /\ validate (default self_strict strict) base_path (disk st)
               content_types products
               {| errors := []; warnings := []; seen_warnings := ∅; data := d |}
             = (Returned true, h'))
    /\ (b = true ->
        has_editor st' = true
        /\ exists d,
             fs_read_json (disk st) (path_join base_path "metadata.json")
             = Returned d
             /\ self_data st' = reconcile d)
    /\ (b = false -> has_editor st' = has_editor st).
Proof.
  intros Hexists Hrun.
  rewrite (load_existing_spec _ _ _ _ _ _ Hexists) in Hrun.
  destruct (fs_read_json (disk st) _) as [d|e] eqn:Hread.
  2:{ injection Hrun as <- <-. exists false. split; [reflexivity|].
      split; [reflexivity|]. split; [|split].
      - split; [discriminate|]. intros (d & h' & [=] & _).
      - discriminate.
      - reflexivity. }
  destruct (validate _ _ _ _ _ _) as [[v|e] h] eqn:Hval.
  - injection Hrun as <- <-. exists v. split; [reflexivity|].
    split; [reflexivity|]. cbn [has_editor self_data]. split; [|split].
    + split.
      * intros ->. exists d, h. split; [reflexivity|exact Hval].
      * intros (d' & h' & [= <-] & Hval'). rewrite Hval in Hval'.
        injection Hval' as -> _. reflexivity.
    + intros ->. split; [reflexivity|]. exists d. split; [reflexivity|].
      apply validate_true_reconciles in Hval. exact Hval.
    + intros ->. reflexivity.
  - injection Hrun as <- <-. exists false. split; [reflexivity|].
    split; [reflexivity|]. split; [|split].
    + split; [discriminate|]. intros (d' & h' & [= <-] & Hval').
      rewrite Hval in Hval'. discriminate.
    + discriminate.
    + reflexivity.
Qed.

(** A fresh [Metadata] object over the magnesium example, saved on disk. *)
Definition magnesium_store : Store Fixture.Disk :=
  {| self_data := Fixture.magnesium_metadata;
     self_warnings := [];
     self_errors := [];
     has_editor := false;
     disk :=
       {| Fixture.present :=
            "/base/metadata.json" :: Fixture.present Fixture.magnesium_disk;
          Fixture.sizes := Fixture.sizes Fixture.magnesium_disk;
          Fixture.json_files := Fixture.json_files Fixture.magnesium_disk |} |}.

Definition load_magnesium (st : Store Fixture.Disk)
  : result bool * Store Fixture.Disk :=
  @load Fixture.python Fixture.collaborators _ Fixture.file_system
    false "/base" ["hook"] [("hook", ["magnesium"])] None st.

Definition magnesium_store_loaded : Store Fixture.Disk :=
  snd (load_magnesium magnesium_store).

Lemma load_magnesium_succeeds :
  load_magnesium magnesium_store = (Returned true, magnesium_store_loaded).
Proof. vm_compute. reflexivity. Qed.

Lemma load_answer_is_validation_witness :
  exists b,
    Returned true = Returned b
    /\ disk magnesium_store_loaded = disk magnesium_store
    /\ (b = true <->
        exists d h',
          @fs_read_json _ Fixture.file_system (disk magnesium_store)
            (@path_join Fixture.python "/base" "metadata.json")
          = Returned d
          /\ @validate Fixture.python Fixture.collaborators _
               Fixture.file_system (default false None) "/base"
               (disk magnesium_store) ["hook"] [("hook", ["magnesium"])]
               {| errors := []; warnings := []; seen_warnings := ∅; data := d |}
             = (Returned true, h'))
    /\ (b = true ->
        has_editor magnesium_store_loaded = true
        /\ exists d,
             @fs_read_json _ Fixture.file_system (disk magnesium_store)
               (@path_join Fixture.python "/base" "metadata.json")
             = Returned d
             /\ self_data magnesium_store_loaded = reconcile d)
    /\ (b = false ->
        has_editor magnesium_store_loaded = has_editor magnesium_store).
Proof.
  exact (@load_answer_is_validation
           Fixture.python Fixture.collaborators _ Fixture.file_system
           false "/base" ["hook"] [("hook", ["magnesium"])] None
           magnesium_store magnesium_store_loaded (Returned true)
           eq_refl load_magnesium_succeeds).
Defined.

(** X18.  [load] appends to the object's warnings and errors and never
    clears them: loading the same valid file a second time returns [True]
    again with the same data, and leaves every warning and error of the first
    load in the lists twice. *)
Theorem load_twice_repeats_warnings
    `{Python} `{Collaborators} {FS : Type} `{FileSystem FS}
    (self_strict : bool) (base_path : string)
    (content_types : list string) (products : dict (list string))
    (strict : option bool) (st st1 : Store FS) :
  fs_exists (disk st) (path_join base_path "metadata.json") = true ->
  load self_strict base_path content_types products strict st
  = (Returned true, st1) ->
  exists new_warnings new_errors st2,
    self_warnings st1 = (self_warnings st ++ new_warnings)%list
    /\ self_errors st1 = (self_errors st ++ new_errors)%list
    /\ load self_strict base_path content_types products strict st1
       = (Returned true, st2)
    /\ self_warnings st2
       = (self_warnings st ++ new_warnings ++ new_warnings)%list
    /\ self_errors st2 = (self_errors st ++ new_errors ++ new_errors)%list
    /\ self_data st2 = self_data st1.
Proof.
  intros Hexists Hrun.
  rewrite (load_existing_spec _ _ _ _ _ _ Hexists) in Hrun.
  destruct (fs_read_json (disk st) _) as [d|e] eqn:Hread; [|discriminate].
  destruct (validate _ _ _ _ _ _) as [[v|e] h] eqn:Hval; [|discriminate].
  injection Hrun as -> <-.
  exists (warnings h), (errors h). eexists.
  split; [reflexivity|]. split; [reflexivity|].
  rewrite load_existing_spec by exact Hexists.
  cbn [disk self_warnings self_errors has_editor self_data].
  rewrite Hread, Hval. split; [reflexivity|].
  cbn [self_warnings self_errors self_data].
  rewrite <- !app_assoc. repeat split; reflexivity.
Qed.

Lemma load_twice_repeats_warnings_witness :
  load_magnesium magnesium_store = (Returned true, magnesium_store_loaded)
  /\ exists new_warnings new_errors st2,
       self_warnings magnesium_store_loaded
       = (self_warnings magnesium_store ++ new_warnings)%list
       /\ self_errors magnesium_store_loaded
          = (self_errors magnesium_store ++ new_errors)%list
       /\ load_magnesium magnesium_store_loaded = (Returned true, st2)
       /\ self_warnings st2
          = (self_warnings magnesium_store ++ new_warnings
             ++ new_warnings)%list
       /\ self_errors st2
          = (self_errors magnesium_store ++ new_errors ++ new_errors)%list
       /\ self_data st2 = self_data magnesium_store_loaded.
Proof.
  split; [exact load_magnesium_succeeds|].
  exact (@load_twice_repeats_warnings
           Fixture.python Fixture.collaborators _ Fixture.file_system
           false "/base" ["hook"] [("hook", ["magnesium"])] None
           magnesium_store magnesium_store_loaded
           eq_refl load_magnesium_succeeds).
Defined.

(** * Further properties of the generator *)
Section WildcardPool.
Context `{Python} `{Collaborators}.
Variable base_path : string.
Variable md : Metadata.
Variable rand : nat -> nat.

(** What the loop of the 'all' case lets into the pool: images of the
    content type tagged with a declared product which either does not prevent
    duplicates or, the override being on, has not yet used the image in this
    post. *)
Definition wildcard_candidate (content_type : string) (all_images : list string)
    (allow : bool) (used : gmap string (gmap string (list string)))
    (prods : list Product) (img : string) : Prop :=
  img ∈ all_images
  /\ exists p,
       In p prods
       /\ tagged md img (name p)
       /\ (prevent_duplicates p = true ->
           allow = true
           /\ exists used_list,
                used_lookup used content_type (name p) = Returned used_list
                /\ img ∉ used_list).

Lemma wildcard_candidate_cons content_type all_images allow used p prods img :
  wildcard_candidate content_type all_images allow used prods img ->
  wildcard_candidate content_type all_images allow used (p :: prods) img.
Proof.
  intros (Hin & q & Hq & Ht & Hprev). split; [exact Hin|].
  exists q. split; [right; exact Hq|]. split; assumption.
Qed.

Lemma all_pool_guarded content_type all_images allow (prods : list Product) :
  forall available g r g',
    for_fold prods available
             (add_product_images md content_type all_images allow) g = (r, g') ->
    forall pool, r = Returned pool ->
      forall img, img ∈ pool ->
        img ∈ available
        \/ wildcard_candidate content_type all_images allow (used_images g)
             prods img.
Proof.
  induction prods as [|p prods IH]; intros available g r g' Hrun pool -> img Hin.
  - cbn in Hrun. injection Hrun as <- <-. left. exact Hin.
  - cbn [for_fold] in Hrun. unfold bind at 1 in Hrun.
    unfold add_product_images at 1 in Hrun.
    destruct (prevent_duplicates p && negb allow) eqn:Hskip.
    + cbn [ret] in Hrun.
      destruct (IH _ _ _ _ Hrun pool eq_refl img Hin) as [Ha|Hc];
        [left; exact Ha|right; apply wildcard_candidate_cons; exact Hc].
    + unfold bind at 1 in Hrun. rewrite images_with_product_pure in Hrun.
      destruct (eligible_images md all_images (name p)) as [matching|e] eqn:Hel;
        [|discriminate].
      assert (Hsub : forall matching',
        (forall x, x ∈ matching' ->
           x ∈ matching
           /\ (prevent_duplicates p = true ->
               allow = true
               /\ exists used_list,
                    used_lookup (used_images g) content_type (name p)
                    = Returned used_list
                    /\ x ∉ used_list)) ->
        for_fold prods (available ++ matching')%list
                 (add_product_images md content_type all_images allow) g
        = (Returned pool, g') ->
        img ∈ available
        \/ wildcard_candidate content_type all_images allow (used_images g)
             (p :: prods) img).
      { intros matching' Hsubset Hrest.
        destruct (IH _ _ _ _ Hrest pool eq_refl img Hin) as [Ha|Hc].
        - apply elem_of_app in Ha as [Ha|Hm]; [left; exact Ha|].
          right. destruct (Hsubset _ Hm) as [Hmatch Hprev].
          destruct (eligible_images_sound md all_images (name p) matching Hel
                      img Hmatch) as [Hall Htag].
          split; [exact Hall|]. exists p. split; [left; reflexivity|].
          split; assumption.
        - right. apply wildcard_candidate_cons. exact Hc. }
      unfold bind at 1 in Hrun.
      destruct (prevent_duplicates p) eqn:Hprev.
      * assert (Hallow : allow = true).
        { destruct allow; [reflexivity|discriminate]. }
        destruct matching as [|m0 matching].
        -- cbn [ret] in Hrun. apply (Hsub []); [|exact Hrun].
           intros x Hx. inversion Hx.
        -- unfold bind at 1 in Hrun. rewrite used_for_pure in Hrun.
           destruct (used_lookup (used_images g) content_type (name p))
             as [used_list|e] eqn:Hused; [|discriminate].
           cbn [ret] in Hrun.
           apply (Hsub (filter (fun x => x ∉ used_list) (m0 :: matching)));
             [|exact Hrun].
           intros x Hx. apply list_elem_of_filter in Hx as [Hnot Hx].
           split; [exact Hx|]. intros _. split; [exact Hallow|].
           exists used_list. split; [reflexivity|exact Hnot].
      * cbn [ret] in Hrun. apply (Hsub matching); [|exact Hrun].
        intros x Hx. split; [exact Hx|discriminate].
Qed.

(** A selection is recorded only for a product that prevents duplicates. *)
Lemma unrecorded_selection content_type product text allow g r g' :
  _generate_single_image base_path md rand content_type product text allow g
  = (r, g') ->
  prevents md content_type product <> Returned true ->
  used_images g' = used_images g.
Proof.
  intros Hrun Hprev. unfold _generate_single_image in Hrun.
  unfold bind at 1 in Hrun.
  pose proof (get_available_images_state md content_type product allow g) as Hst.
  destruct (_get_available_images md content_type product allow g)
    as [[pool|e] g0];
    cbn [snd] in Hst; subst g0; [|injection Hrun as _ <-; reflexivity].
  destruct pool as [|x pool]; [injection Hrun as _ <-; reflexivity|].
  unfold bind at 1 in Hrun. unfold random_choice at 1 in Hrun.
  unfold bind at 1 in Hrun. cbn [next_random] in Hrun.
  destruct ((x :: pool) !! (rand (drawn g) mod length (x :: pool))%nat)
    as [selected|]; [|injection Hrun as _ <-; reflexivity].
  cbn [ret] in Hrun. unfold bind at 1 in Hrun.
  rewrite should_prevent_duplicates_pure in Hrun.
  destruct (prevents md content_type product) as [prevent|e];
    [|injection Hrun as _ <-; reflexivity].
  destruct prevent; [contradiction Hprev; reflexivity|].
  unfold bind at 1 in Hrun. cbn [ret] in Hrun.
  apply render_selected_spec in Hrun as (Hu & _ & _). exact Hu.
Qed.
End WildcardPool.

(** X19.  The pool of a wildcard slot (a product that strips to 'all')
    respects duplicate prevention: when [_get_available_images] returns, it
    has changed nothing, and every image of the pool is listed under the
    content type and tagged with a declared product of it; if that product
    prevents duplicates, the override [allow_all_duplicates] is on and the
    image has not yet been used for that product in this post. *)
Theorem wildcard_pool_respects_prevention `{Python} `{Collaborators}
    (md : Metadata) (content_type product : string) (allow : bool)
    (g g' : GenState) (pool : list string) :
  strip_product product = "all" ->
  _get_available_images md content_type product allow g = (Returned pool, g') ->
  g' = g
  /\ exists info prods,
       dict_get content_type (md_structure md) = Some info
       /\ dict_get content_type (md_products md) = Some prods
       /\ forall img, img ∈ pool ->
            img ∈ images info
            /\ exists p,
                 In p prods
                 /\ tagged md img (name p)
                 /\ (prevent_duplicates p = true ->
                     allow = true
                     /\ exists used_list,
                          used_lookup (used_images g) content_type (name p)
                          = Returned used_list
                          /\ img ∉ used_list).
Proof.
  intros Hall Hrun.
  pose proof (get_available_images_state md content_type product allow g) as Hst.
  rewrite Hrun in Hst. cbn [snd] in Hst. subst g'. split; [reflexivity|].
  unfold _get_available_images in Hrun. unfold bind at 1, dict_item in Hrun.
  destruct (dict_get content_type (md_structure md)) as [info|] eqn:Hinfo;
    [|discriminate].
  cbn [ret] in Hrun. rewrite Hall in Hrun. cbn [String.eqb Ascii.eqb Bool.eqb] in Hrun.
  unfold bind at 1, dict_item in Hrun.
  destruct (dict_get content_type (md_products md)) as [prods|] eqn:Hprods;
    [|discriminate].
  cbn [ret] in Hrun. exists info, prods.
  split; [reflexivity|]. split; [reflexivity|].
  intros img Hin.
  destruct (all_pool_guarded md _ _ _ _ _ _ _ _ Hrun pool eq_refl img Hin)
    as [Hnil|Hc]; [inversion Hnil|exact Hc].
Qed.

Lemma wildcard_pool_respects_prevention_witness :
  @strip_product Fixture.python "all" = "all"
  /\ exists pool,
       @_get_available_images Fixture.python Fixture.magnesium_metadata
         "hook" "all" true magnesium_post_start
       = (Returned pool, magnesium_post_start)
       /\ exists info prods,
            dict_get "hook" (md_structure Fixture.magnesium_metadata) = Some info
            /\ dict_get "hook" (md_products Fixture.magnesium_metadata)
               = Some prods
            /\ forall img, img ∈ pool ->
                 img ∈ images info
                 /\ exists p,
                      In p prods
                      /\ tagged Fixture.magnesium_metadata img (name p)
                      /\ (prevent_duplicates p = true ->
                          true = true
                          /\ exists used_list,
                               used_lookup (used_images magnesium_post_start)
                                 "hook" (name p)
                               = Returned used_list
                               /\ img ∉ used_list).
Proof.
  split; [reflexivity|]. exists ["1h.png"; "2h.png"].
  assert (Hrun : @_get_available_images Fixture.python
                   Fixture.magnesium_metadata "hook" "all" true
                   magnesium_post_start
                 = (Returned ["1h.png"; "2h.png"], magnesium_post_start))
    by (vm_compute; reflexivity).
  split; [exact Hrun|].
  exact (proj2 (@wildcard_pool_respects_prevention
                  Fixture.python Fixture.collaborators
                  Fixture.magnesium_metadata "hook" "all" true
                  magnesium_post_start magnesium_post_start
                  ["1h.png"; "2h.png"] eq_refl Hrun)).
Defined.

(** X20.  A selection is recorded only for a product declared with
    duplicate prevention.  When no product of the content type with the
    (stripped) name of the slot's product prevents duplicates -- as for the
    wildcard 'all', unless 'all' itself is declared so -- a call of
    [_generate_single_image] leaves the exclusion dict exactly as it was,
    whether it returns or raises: the image it chose stays available to every
    later slot of the post. *)
Theorem selection_recorded_only_when_preventing `{Python} `{Collaborators}
    (base_path : string) (md : Metadata) (rand : nat -> nat)
    (content_type product text : string) (allow : bool)
    (prods : list Product) (g g' : GenState) (r : result Rendered) :
  dict_get content_type (md_products md) = Some prods ->
  (forall p, In p prods -> name p = strip_product product ->
             prevent_duplicates p = false) ->
  _generate_single_image base_path md rand content_type product text allow g
  = (r, g') ->
  used_images g' = used_images g.
Proof.
  intros Hprods Hfree Hrun.
  apply (unrecorded_selection base_path md rand _ _ _ _ _ _ _ Hrun).
  unfold prevents. rewrite Hprods.
  destruct (List.find _ prods) as [p|] eqn:Hfind; [|discriminate].
  apply find_some in Hfind as [Hp Hname]. apply String.eqb_eq in Hname.
  rewrite (Hfree p Hp Hname). discriminate.
Qed.

(** The wildcard slot of the example, with the override on. *)
Definition wildcard_selection : result Rendered * GenState :=
  @_generate_single_image Fixture.python Fixture.collaborators "/base"
    Fixture.magnesium_metadata (fun _ => 0%nat) "hook" "all" "text" true
    magnesium_post_start.

Lemma selection_recorded_only_when_preventing_witness :
  dict_get "hook" (md_products Fixture.magnesium_metadata)
  = Some [Fixture.product_of "magnesium" true 2 2]
  /\ (exists pic, fst wildcard_selection = Returned pic
                  /\ source_image pic = "1h.png")
  /\ used_images (snd wildcard_selection) = used_images magnesium_post_start.
Proof.
  split; [reflexivity|]. split.
  - eexists. split; [vm_compute; reflexivity|reflexivity].
  - apply (@selection_recorded_only_when_preventing
             Fixture.python Fixture.collaborators "/base"
             Fixture.magnesium_metadata (fun _ => 0%nat) "hook" "all" "text"
             true [Fixture.product_of "magnesium" true 2 2]
             magnesium_post_start (snd wildcard_selection)
             (fst wildcard_selection) eq_refl).
    + intros p [<-|[]] Hname. vm_compute in Hname. discriminate.
    + apply surjective_pairing.
Defined.

Section Resolution.
Context `{Python} `{Collaborators}.
Variable md : Metadata.

Lemma find_group_with_settings_some product groups j :
  find_group_with_settings product groups = Some j ->
  j <> JNull
  /\ exists key,
       (key, j) ∈ groups /\ key <> "content" /\ product ∈ group_products key.
Proof.
  induction groups as [|[group group_settings] rest IH];
    cbn [find_group_with_settings]; [discriminate|].
  destruct (negb (String.eqb group "content")
            && bool_decide (product ∈ group_products group)
            && negb (is_None group_settings)) eqn:Hhit.
  - intros [= ->].
    apply andb_true_iff in Hhit as [Hhit Hnull].
    apply andb_true_iff in Hhit as [Hkey Hmem].
    apply negb_true_iff, String.eqb_neq in Hkey.
    apply bool_decide_eq_true in Hmem.
    split.
    + intros ->. discriminate.
    + exists group. split; [left|split; assumption].
  - intros Hrest. destruct (IH Hrest) as (Hnull & key & Hin & Hkey & Hmem).
    split; [exact Hnull|]. exists key. split; [right; exact Hin|].
    split; assumption.
Qed.

(** What [_get_image_settings] returns, by the source the image is pinned
    to. *)
Lemma get_image_settings_returned content_type product image_path g j g' :
  _get_image_settings md content_type product image_path g = (Returned j, g') ->
  exists image_data,
    dict_get (path_name image_path) (md_images md) = Some image_data
    /\ ((settings_source image_data = "default"
         /\ load_default_template = Returned j)
        \/ (settings_source image_data = "custom"
            /\ settings image_data = j /\ j <> JNull)
        \/ (settings_source image_data = "content"
            /\ j <> JNull
            /\ exists groups,
                 dict_get content_type (md_settings md) = Some groups
                 /\ dict_get "content" groups = Some j)
        \/ (settings_source image_data = "product"
            /\ exists groups,
                 dict_get content_type (md_settings md) = Some groups
                 /\ find_group_with_settings product groups = Some j)).
Proof.
  unfold _get_image_settings, try_except. unfold bind at 1, dict_item.
  destruct (dict_get (path_name image_path) (md_images md)) as [image_data|];
    [|discriminate].
  cbn [ret]. intros Hrun. exists image_data. split; [reflexivity|].
  destruct (String.eqb (settings_source image_data) "default") eqn:Hdefault.
  { apply String.eqb_eq in Hdefault. left. split; [exact Hdefault|].
    destruct load_default_template as [t|e]; [|discriminate].
    injection Hrun as -> _. reflexivity. }
  destruct (String.eqb (settings_source image_data) "custom") eqn:Hcustom.
  { apply String.eqb_eq in Hcustom. right. left. split; [exact Hcustom|].
    destruct (is_None (settings image_data)) eqn:Hnull; [discriminate|].
    injection Hrun as <- _. split; [reflexivity|].
    intros Hj. rewrite Hj in Hnull. discriminate. }
  destruct (String.eqb (settings_source image_data) "content") eqn:Hcontent.
  { apply String.eqb_eq in Hcontent. right. right. left.
    split; [exact Hcontent|].
    unfold bind at 1 in Hrun.
    destruct (dict_get content_type (md_settings md)) as [groups|];
      [|discriminate].
    cbn [ret] in Hrun. unfold bind at 1 in Hrun.
    destruct (dict_get "content" groups) as [blob|] eqn:Hblob; [|discriminate].
    cbn [ret] in Hrun.
    destruct (is_None blob) eqn:Hnull; [discriminate|].
    injection Hrun as <- _. split.
    - intros Hj. rewrite Hj in Hnull. discriminate.
    - exists groups. split; [reflexivity|exact Hblob]. }
  destruct (String.eqb (settings_source image_data) "product") eqn:Hproduct;
    [|discriminate].
  apply String.eqb_eq in Hproduct. right. right. right.
  split; [exact Hproduct|].
  unfold bind at 1 in Hrun.
  destruct (dict_get content_type (md_settings md)) as [groups|];
    [|discriminate].
  cbn [ret] in Hrun.
  destruct (find_group_with_settings product groups) as [blob|] eqn:Hfind;
    [|discriminate].
  injection Hrun as <- _. exists groups. split; [reflexivity|exact Hfind].
Qed.
End Resolution.

(** X21.  When [_get_image_settings] returns a blob, it is the blob of the
    level the image is pinned to and of no other: the default template for
    the source 'default'; the image's own settings for 'custom'; the 'content'
    blob of the content type for 'content'; and for 'product' the settings of
    a group of the content type, other than 'content', that names the
    product.  For the last three the blob is never null, and the call reads
    the state without changing it. *)
Theorem resolved_settings_are_of_the_pinned_level `{Python} `{Collaborators}
    (md : Metadata) (content_type product image_path : string)
    (g g' : GenState) (j : json) :
  _get_image_settings md content_type product image_path g = (Returned j, g') ->
  g' = g
  /\ exists image_data,
       dict_get (path_name image_path) (md_images md) = Some image_data
       /\ ((settings_source image_data = "default"
            /\ load_default_template = Returned j)
           \/ (settings_source image_data = "custom"
               /\ settings image_data = j /\ j <> JNull)
           \/ (settings_source image_data = "content"
               /\ j <> JNull
               /\ exists groups,
                    dict_get content_type (md_settings md) = Some groups
                    /\ dict_get "content" groups = Some j)
           \/ (settings_source image_data = "product"
               /\ j <> JNull
               /\ exists groups key,
                    dict_get content_type (md_settings md) = Some groups
                    /\ (key, j) ∈ groups
                    /\ key <> "content"
                    /\ product ∈ group_products key)).
Proof.
  intros Hrun.
  pose proof (get_image_settings_state md content_type product image_path g)
    as Hst.
  rewrite Hrun in Hst. cbn [snd] in Hst. split; [exact Hst|].
  apply get_image_settings_returned in Hrun
    as (image_data & Himg & [Hd|[Hc|[Hct|(Hp & groups & Hgroups & Hfind)]]]).
  - exists image_data. split; [exact Himg|]. left. exact Hd.
  - exists image_data. split; [exact Himg|]. right. left. exact Hc.
  - exists image_data. split; [exact Himg|]. right. right. left. exact Hct.
  - exists image_data. split; [exact Himg|]. right. right. right.
    apply find_group_with_settings_some in Hfind
      as (Hnull & key & Hin & Hkey & Hmem).
    split; [exact Hp|]. split; [exact Hnull|].
    exists groups, key. repeat split; assumption.
Qed.

Lemma resolved_settings_are_of_the_pinned_level_witness :
  @_get_image_settings Fixture.python Fixture.collaborators
    Fixture.hook_metadata "hook" "magnesium" "/base/hook/2h.png"
    initial_gen_state
  = (Returned Fixture.simple_blob, initial_gen_state)
  /\ initial_gen_state = initial_gen_state
  /\ exists image_data,
       dict_get (@path_name Fixture.python "/base/hook/2h.png")
                (md_images Fixture.hook_metadata) = Some image_data
       /\ ((settings_source image_data = "default"
            /\ @load_default_template Fixture.collaborators
               = Returned Fixture.simple_blob)
           \/ (settings_source image_data = "custom"
               /\ settings image_data = Fixture.simple_blob
               /\ Fixture.simple_blob <> JNull)
           \/ (settings_source image_data = "content"
               /\ Fixture.simple_blob <> JNull
               /\ exists groups,
                    dict_get "hook" (md_settings Fixture.hook_metadata)
                    = Some groups
                    /\ dict_get "content" groups = Some Fixture.simple_blob)
           \/ (settings_source image_data = "product"
               /\ Fixture.simple_blob <> JNull
               /\ exists groups key,
                    dict_get "hook" (md_settings Fixture.hook_metadata)
                    = Some groups
                    /\ (key, Fixture.simple_blob) ∈ groups
                    /\ key <> "content"
                    /\ "magnesium" ∈ @group_products Fixture.python key)).
Proof.
  assert (Hrun : @_get_image_settings Fixture.python Fixture.collaborators
                   Fixture.hook_metadata "hook" "magnesium" "/base/hook/2h.png"
                   initial_gen_state
                 = (Returned Fixture.simple_blob, initial_gen_state))
    by (vm_compute; reflexivity).
  split; [exact Hrun|].
  exact (@resolved_settings_are_of_the_pinned_level
           Fixture.python Fixture.collaborators
           Fixture.hook_metadata "hook" "magnesium" "/base/hook/2h.png"
           initial_gen_state initial_gen_state Fixture.simple_blob Hrun).
Defined.

(** ** The pictures a run saves *)

(** Where a picture is saved: variation, post and slot. *)
Definition label (s : Saved) : nat * nat * nat :=
  (variation_num s, post_num s, slot_num s).

(** The pictures a slot asks for: one, unless its text is empty. *)
Definition slot_labels (variation post : nat) (slot : nat * (string * string))
  : list (nat * nat * nat) :=
  if str_truthy (snd (snd slot)) then [(variation, post, fst slot)] else [].

Definition post_labels (variation : nat) (numbered_row : nat * list string)
  : list (nat * nat * nat) :=
  flat_map (slot_labels variation (fst numbered_row))
           (enumerate1 (pair_up (snd numbered_row))).

Definition variation_labels (caps : Captions) (variation : nat)
  : list (nat * nat * nat) :=
  flat_map (post_labels variation) (enumerate1 (captions caps)).

(** The pictures of a whole run, in the order they are saved. *)
Definition expected_labels (caps : Captions) (variations : nat)
  : list (nat * nat * nat) :=
  flat_map (variation_labels caps) (seq 1 variations).

(** [m] saves pictures with the labels [labels], in order: all of them when
    it returns, the first few when it raises. *)
Definition saves_in_order (labels : list (nat * nat * nat))
    (m : M GenState unit) : Prop :=
  forall g r g',
    m g = (r, g') ->
    exists new,
      saved g' = (saved g ++ new)%list
      /\ map label new `prefix_of` labels
      /\ (r = Returned tt -> map label new = labels).

Lemma saves_in_order_for_do {A} (labels : A -> list (nat * nat * nat))
    (body : A -> M GenState unit) (l : list A) :
  (forall x, saves_in_order (labels x) (body x)) ->
  saves_in_order (flat_map labels l) (for_do l body).
Proof.
  intros Hbody. induction l as [|x l IH]; intros g r g' Hrun.
  - cbn in Hrun. injection Hrun as <- <-. exists [].
    rewrite app_nil_r. cbn. split; [reflexivity|]. split; reflexivity.
  - cbn [for_do] in Hrun. unfold bind in Hrun.
    destruct (body x g) as [[[]|e] g1] eqn:Hx.
    + destruct (Hbody x _ _ _ Hx) as (new1 & Hs1 & _ & Hall1).
      destruct (IH _ _ _ Hrun) as (new2 & Hs2 & Hp2 & Hall2).
      exists (new1 ++ new2)%list. rewrite Hs2, Hs1, <- app_assoc.
      split; [reflexivity|]. rewrite map_app, (Hall1 eq_refl).
      cbn [flat_map]. split.
      * apply prefix_app. exact Hp2.
      * intros Hr. rewrite (Hall2 Hr). reflexivity.
    + injection Hrun as <- <-.
      destruct (Hbody x _ _ _ Hx) as (new1 & Hs1 & Hp1 & _).
      exists new1. split; [exact Hs1|]. cbn [flat_map]. split.
      * apply prefix_app_r. exact Hp1.
      * discriminate.
Qed.

Section SavedPictures.
Context `{Python} `{Collaborators}.
Variable base_path : string.
Variable md : Metadata.
Variable caps : Captions.
Variable rand : nat -> nat.

Lemma saves_nothing_raised (g : GenState) (e : exn) labels :
  exists new : list Saved,
    saved g = (saved g ++ new)%list
    /\ map label new `prefix_of` labels
    /\ (@Raised unit e = Returned tt -> map label new = labels).
Proof.
  exists []. rewrite app_nil_r. split; [reflexivity|].
  split; [apply prefix_nil|discriminate].
Qed.

Lemma generate_slot_saves hmap allow variation post slot :
  saves_in_order (slot_labels variation post slot)
    (generate_slot base_path md rand hmap allow variation post slot).
Proof.
  intros g r g' Hrun. destruct slot as [idx [product content]].
  unfold generate_slot in Hrun. unfold bind at 1 in Hrun.
  unfold slot_labels. cbn [fst snd].
  destruct (hmap !! (idx - 1)%nat) as [content_type|].
  2:{ injection Hrun as <- <-. apply saves_nothing_raised. }
  cbn [ret] in Hrun. destruct (str_truthy content); cbn [negb] in Hrun.
  - unfold bind at 1 in Hrun.
    destruct (_generate_single_image base_path md rand content_type product
                content allow g) as [[pic|e] g1] eqn:Hsel.
    + apply generate_single_image_saved in Hsel.
      injection Hrun as <- <-. cbn [saved]. rewrite Hsel.
      eexists [_]. split; [reflexivity|]. cbn.
      split; [reflexivity|]. intros _. reflexivity.
    + apply generate_single_image_saved in Hsel.
      injection Hrun as <- <-. rewrite Hsel. apply saves_nothing_raised.
  - injection Hrun as <- <-. exists []. rewrite app_nil_r.
    split; [reflexivity|]. split; reflexivity.
Qed.

Lemma generate_post_saves hmap allow variation numbered_row :
  saves_in_order (post_labels variation numbered_row)
    (generate_post base_path md rand hmap allow variation
       (fst numbered_row) (snd numbered_row)).
Proof.
  intros g r g' Hrun. unfold generate_post in Hrun.
  unfold bind at 1 in Hrun.
  pose proof (fresh_used_images_state md g) as Hst.
  destruct (fresh_used_images md g) as [[fresh|e] g0]; cbn [snd] in Hst;
    subst g0.
  2:{ injection Hrun as <- <-. apply saves_nothing_raised. }
  unfold bind at 1 in Hrun. cbn [put_used modify] in Hrun.
  unfold post_labels.
  apply (saves_in_order_for_do _ _ _
           (generate_slot_saves hmap allow variation (fst numbered_row))) in Hrun.
  exact Hrun.
Qed.

Lemma headers_map_state g : snd (headers_map caps g) = g.
Proof.
  unfold headers_map.
  match goal with
  | |- snd (for_fold ?l ?acc ?body g) = g =>
      assert (Hgen : forall l0 acc0, snd (for_fold l0 acc0 body g) = g);
      [|apply Hgen]
  end.
  induction l0 as [|i l0 IH]; intros acc0; [reflexivity|].
  cbn [for_fold]. unfold bind at 1.
  destruct (headers caps !! ((i - 1) * 2)%nat) as [header|]; [|reflexivity].
  destruct (split_underscore header !! 1%nat) as [content_type|];
    [|reflexivity].
  cbn [ret]. apply IH.
Qed.

Lemma generate_saves variations allow :
  saves_in_order (expected_labels caps variations)
    (generate base_path md caps rand variations allow).
Proof.
  intros g r g' Hrun. unfold generate in Hrun. unfold bind at 1 in Hrun.
  pose proof (headers_map_state g) as Hst.
  destruct (headers_map caps g) as [[hmap|e] g0]; cbn [snd] in Hst; subst g0.
  2:{ injection Hrun as <- <-. apply saves_nothing_raised. }
  unfold expected_labels.
  refine (saves_in_order_for_do (variation_labels caps) _ _ _ _ _ _ Hrun).
  intros variation. unfold variation_labels.
  apply saves_in_order_for_do. intros [post row].
  apply (generate_post_saves hmap allow variation (post, row)).
Qed.
End SavedPictures.

(** X22.  [generate] saves one picture for every caption slot with a
    non-empty text, in the order variation, post, slot, and nothing else:
    when it returns, the pictures added to those saved before are exactly the
    expected ones; when it raises, the pictures saved up to then stay saved
    and are an initial segment of the expected ones. *)
Theorem generate_saves_one_picture_per_slot `{Python} `{Collaborators}
    (base_path : string) (md : Metadata) (caps : Captions) (rand : nat -> nat)
    (variations : nat) (allow : bool) (g g' : GenState) (r : result unit) :
  generate base_path md caps rand variations allow g = (r, g') ->
  exists new,
    saved g' = (saved g ++ new)%list
    /\ map label new `prefix_of` expected_labels caps variations
    /\ (r = Returned tt ->
        map label new = expected_labels caps variations
        /\ length (saved g')
           = (length (saved g) + length (expected_labels caps variations))%nat).
Proof.
  intros Hrun. apply generate_saves in Hrun as (new & Hsaved & Hprefix & Hall).
  exists new. split; [exact Hsaved|]. split; [exact Hprefix|].
  intros Hr. split; [exact (Hall Hr)|].
  rewrite Hsaved, length_app, <- (Hall Hr), length_map. reflexivity.
Qed.

(** One variation of the three posts of the example. *)
Definition three_posts_run : result unit * GenState :=
  @generate Fixture.python Fixture.collaborators "/base"
    Fixture.magnesium_metadata three_post_captions (fun _ => 0%nat) 1 false
    initial_gen_state.

Lemma generate_saves_one_picture_per_slot_witness :
  fst three_posts_run = Returned tt
  /\ exists new,
       saved (snd three_posts_run) = (saved initial_gen_state ++ new)%list
       /\ map label new `prefix_of` expected_labels three_post_captions 1
       /\ (fst three_posts_run = Returned tt ->
           map label new = expected_labels three_post_captions 1
           /\ length (saved (snd three_posts_run))
              = (length (saved initial_gen_state)
                 + length (expected_labels three_post_captions 1))%nat).
Proof.
  split; [vm_compute; reflexivity|].
  exact (@generate_saves_one_picture_per_slot
           Fixture.python Fixture.collaborators "/base"
           Fixture.magnesium_metadata three_post_captions (fun _ => 0%nat)
           1 false initial_gen_state (snd three_posts_run)
           (fst three_posts_run) (surjective_pairing three_posts_run)).
Defined.

(** ** [update_image_product] *)
Section UpdateImageProduct.
Context `{Python}.

(** Every outcome of [update_image_product]: it raises and leaves the store
    as it was, or it returns with the product of the image set and the counts
    of the content type it was passed moved. *)
Lemma update_image_product_cases image_name passed new_product md r md' :
  update_image_product image_name passed new_product md = (r, md') ->
  ((exists e, r = Raised e) /\ md' = md)
  \/ exists image new_name prods passed_prods,
       dict_get image_name (md_images md) = Some image
       /\ new_product = Some new_name
       /\ dict_get (content_type image) (md_products md) = Some prods
       /\ new_name ∈ map name prods
       /\ dict_get passed (md_products md) = Some passed_prods
       /\ r = Returned tt
       /\ md'
          = set_images
              (dict_set image_name
                 {| content_type := content_type image;
                    dimensions := dimensions image;
                    product := Some new_name;
                    settings_source := settings_source image;
                    settings := settings image |}
                 (md_images md))
              (set_products
                 (dict_set passed
                    (bump_first new_name true
                       (if truthy (product image)
                        then bump_first (default "" (product image)) false
                                        passed_prods
                        else passed_prods))
                    (md_products md))
                 md).
Proof.
  intros Hrun. unfold update_image_product in Hrun.
  unfold bind at 1 in Hrun. cbn [get] in Hrun.
  destruct (dict_get image_name (md_images md)) as [image|] eqn:Himg.
  2:{ injection Hrun as <- <-. left. split; [eexists; reflexivity|reflexivity]. }
  unfold bind at 1 in Hrun. unfold dict_item at 1 in Hrun.
  destruct (dict_get (content_type image) (md_products md)) as [prods|]
    eqn:Hprods.
  2:{ injection Hrun as <- <-. left. split; [eexists; reflexivity|reflexivity]. }
  cbn [ret] in Hrun.
  destruct new_product as [new_name|].
  2:{ cbn [negb] in Hrun. injection Hrun as <- <-.
      left. split; [eexists; reflexivity|reflexivity]. }
  unfold to_set in Hrun.
  destruct (decide (new_name ∈ map name prods)) as [Hvalid|Hinvalid].
  2:{ rewrite bool_decide_eq_false_2 in Hrun
        by (rewrite elem_of_list_to_set; exact Hinvalid).
      cbn [negb] in Hrun. injection Hrun as <- <-.
      left. split; [eexists; reflexivity|reflexivity]. }
  rewrite bool_decide_eq_true_2 in Hrun
    by (rewrite elem_of_list_to_set; exact Hvalid).
  cbn [negb] in Hrun.
  assert (Hcount : forall product increment md0,
            _update_product_count passed product increment md0
            = match dict_get passed (md_products md0) with
              | None => (Raised (KeyError passed), md0)
              | Some ps =>
                  (Returned tt,
                   set_products
                     (dict_set passed (bump_first product increment ps)
                               (md_products md0)) md0)
              end).
  { intros product increment md0.
    destruct (_update_product_count passed product increment md0)
      as [r0 m0] eqn:Hc.
    apply update_product_count_spec in Hc.
    destruct (dict_get passed (md_products md0)); destruct Hc as [-> ->];
      reflexivity. }
  destruct (dict_get passed (md_products md)) as [passed_prods|] eqn:Hpassed.
  - right. exists image, new_name, prods, passed_prods.
    split; [first [reflexivity|assumption]|]. split; [reflexivity|].
    split; [first [reflexivity|assumption]|].
    split; [exact Hvalid|]. split; [first [reflexivity|assumption]|].
    destruct (truthy (product image)) eqn:Hold.
    + unfold bind at 1 in Hrun. unfold bind at 1 in Hrun.
      rewrite Hcount, Hpassed in Hrun.
      unfold bind at 1 in Hrun. rewrite Hcount in Hrun.
      cbn [set_products md_products] in Hrun.
      rewrite dict_get_set_eq, dict_set_set in Hrun.
      unfold bind in Hrun. cbn in Hrun. injection Hrun as <- <-.
      split; reflexivity.
    + unfold bind at 1 in Hrun. unfold bind at 1 in Hrun. cbn [ret] in Hrun.
      unfold bind at 1 in Hrun. rewrite Hcount, Hpassed in Hrun.
      unfold bind in Hrun. cbn in Hrun. injection Hrun as <- <-.
      split; reflexivity.
  - left.
    destruct (truthy (product image)) eqn:Hold.
    + unfold bind at 1 in Hrun. unfold bind at 1 in Hrun.
      rewrite Hcount, Hpassed in Hrun. injection Hrun as <- <-.
      split; [eexists; reflexivity|reflexivity].
    + unfold bind at 1 in Hrun. unfold bind at 1 in Hrun. cbn [ret] in Hrun.
      unfold bind at 1 in Hrun. rewrite Hcount, Hpassed in Hrun.
      injection Hrun as <- <-.
      split; [eexists; reflexivity|reflexivity].
Qed.
End UpdateImageProduct.

(** X23.  [update_image_product] sets the product and nothing else of the
    image, and never touches the untagged list.  When it returns, the new
    product is a declared product of the image's own content type (so never
    None), the record of the image differs from the old one in the product
    only, every other record, the untagged list, the structure, the settings
    and the content types are as before -- an image that was listed as
    untagged is still listed, now with a product.  When it raises, the store
    is exactly as it was. *)
Theorem update_image_product_keeps_untagged `{Python}
    (image_name passed_content_type : string) (new_product : option string)
    (md md' : Metadata) (r : result unit) :
  update_image_product image_name passed_content_type new_product md = (r, md') ->
  match r with
  | Raised _ => md' = md
  | Returned _ =>
      exists image new_name prods,
        dict_get image_name (md_images md) = Some image
        /\ new_product = Some new_name
        /\ dict_get (content_type image) (md_products md) = Some prods
        /\ new_name ∈ map name prods
        /\ dict_get image_name (md_images md')
           = Some {| content_type := content_type image;
                     dimensions := dimensions image;
                     product := Some new_name;
                     settings_source := settings_source image;
                     settings := settings image |}
        /\ (forall other, other <> image_name ->
              dict_get other (md_images md') = dict_get other (md_images md))
        /\ md_untagged md' = md_untagged md
        /\ md_structure md' = md_structure md
        /\ md_settings md' = md_settings md
        /\ md_content_types md' = md_content_types md
  end.
Proof.
  intros Hrun.
  apply update_image_product_cases in Hrun
    as [[[e ->] ->]
       |(image & new_name & prods & passed_prods & Himg & -> & Hprods & Hvalid
         & _ & -> & ->)]; [reflexivity|].
  exists image, new_name, prods.
  split; [exact Himg|]. split; [reflexivity|]. split; [exact Hprods|].
  split; [exact Hvalid|].
  cbn [set_images set_products md_images md_untagged md_structure md_settings
       md_content_types].
  split; [apply dict_get_set_eq|].
  split; [intros other Hne; apply dict_get_set_ne; congruence|].
  repeat split; reflexivity.
Qed.

(** An image without product, listed as untagged. *)
Definition listed_untagged_metadata : Metadata :=
  {| md_keys := REQUIRED_KEYS_ORDER;
     md_content_types := ["hook"];
     md_products := [("hook", [Fixture.product_of "p1" false 0 0])];
     md_structure :=
       [("hook", {| path := "/base/hook"; images := ["a.png"] |})];
     md_images := [("a.png", Fixture.image_of "hook" None)];
     md_untagged := ["a.png"];
     md_settings := [("hook", [("content", JNull); ("[p1]", JNull)])] |}.

Definition listed_untagged_updated : result unit * Metadata :=
  @update_image_product Fixture.python "a.png" "hook" (Some "p1")
    listed_untagged_metadata.

Lemma update_image_product_keeps_untagged_witness :
  fst listed_untagged_updated = Returned tt
  /\ md_untagged (snd listed_untagged_updated) = ["a.png"]
  /\ match fst listed_untagged_updated with
     | Raised _ => snd listed_untagged_updated = listed_untagged_metadata
     | Returned _ =>
         exists image new_name prods,
           dict_get "a.png" (md_images listed_untagged_metadata) = Some image
           /\ Some "p1" = Some new_name
           /\ dict_get (content_type image)
                (md_products listed_untagged_metadata) = Some prods
           /\ new_name ∈ map name prods
           /\ dict_get "a.png" (md_images (snd listed_untagged_updated))
              = Some {| content_type := content_type image;
                        dimensions := dimensions image;
                        product := Some new_name;
                        settings_source := settings_source image;
                        settings := settings image |}
           /\ (forall other, other <> "a.png" ->
                 dict_get other (md_images (snd listed_untagged_updated))
                 = dict_get other (md_images listed_untagged_metadata))
           /\ md_untagged (snd listed_untagged_updated)
              = md_untagged listed_untagged_metadata
           /\ md_structure (snd listed_untagged_updated)
              = md_structure listed_untagged_metadata
           /\ md_settings (snd listed_untagged_updated)
              = md_settings listed_untagged_metadata
           /\ md_content_types (snd listed_untagged_updated)
              = md_content_types listed_untagged_metadata
     end.
Proof.
  split; [vm_compute; reflexivity|]. split; [vm_compute; reflexivity|].
  exact (@update_image_product_keeps_untagged Fixture.python
           "a.png" "hook" (Some "p1") listed_untagged_metadata
           (snd listed_untagged_updated) (fst listed_untagged_updated)
           (surjective_pairing listed_untagged_updated)).
Defined.

(** * Strict mode and the list of errors *)

(** ** Where a computation that returns has ended *)
Section EndsIn.

(** [ends_in ok I m]: whenever [m] returns a value that [ok] accepts, the
    heap it leaves satisfies [I]. *)
Definition ends_in {A} (ok : A -> Prop) (I : Heap -> Prop) (m : M Heap A)
  : Prop :=
  forall h a h', m h = (Returned a, h') -> ok a -> I h'.

Lemma ends_in_raise {A} (ok : A -> Prop) I (e : exn) :
  ends_in ok I (raise e).
Proof. intros h a h' [=]. Qed.

(** The part that establishes [I] comes last. *)
Lemma ends_in_bind_last {A B} (ok : B -> Prop) I (m : M Heap A)
    (k : A -> M Heap B) :
  (forall a, ends_in ok I (k a)) -> ends_in ok I (bind m k).
Proof.
  intros Hk h b h' Hrun Hok. unfold bind in Hrun.
  destruct (m h) as [[a|e] h1]; [|discriminate].
  exact (Hk a h1 b h' Hrun Hok).
Qed.

(** The part that establishes [I] comes first, and what follows keeps it. *)
Lemma ends_in_bind_first {A B} (ok : B -> Prop) I (m : M Heap A)
    (k : A -> M Heap B) :
  ends_in (fun _ => True) I m ->
  (forall a, preserves I (k a)) ->
  ends_in ok I (bind m k).
Proof.
  intros Hm Hk h b h' Hrun _. unfold bind in Hrun.
  destruct (m h) as [[a|e] h1] eqn:Hmh; [|discriminate].
  pose proof (Hk a h1 (Hm h a h1 Hmh Logic.I)) as Hend.
  rewrite Hrun in Hend. exact Hend.
Qed.

(** A statement that leaves early only with a verdict [ok] refuses, followed
    by one that ends in [I]. *)
Lemma ends_in_and_then (ok : flow bool -> Prop) I (c1 c2 : M Heap (flow bool)) :
  wp c1 (fun f => f = Proceed \/ ~ ok f) ->
  ends_in ok I c2 ->
  ends_in ok I (and_then c1 c2).
Proof.
  intros H1 H2 h f h' Hrun Hok. unfold and_then, bind in Hrun.
  destruct (c1 h) as [[f1|e] h1] eqn:Hc1; [|discriminate].
  destruct (H1 h f1 h1 Hc1) as [-> | Hno].
  - exact (H2 h1 f h' Hrun Hok).
  - destruct f1; [exact (H2 h1 f h' Hrun Hok)| |];
      injection Hrun as <- <-; contradiction.
Qed.

Lemma ends_in_fun_body I (c : M Heap (flow bool)) :
  ends_in (fun f => f <> Return_ false) I c ->
  ends_in (fun b => b = true) I (fun_body c true).
Proof.
  intros Hc h b h' Hrun ->. unfold fun_body, bind in Hrun.
  destruct (c h) as [[f|e] h1] eqn:Hch; [|discriminate].
  assert (Hsame : h' = h1 /\ f <> Return_ false).
  { destruct f as [| |[|]]; cbn in Hrun; inversion Hrun; subst;
      (split; [reflexivity|discriminate]). }
  destruct Hsame as [-> Hf]. exact (Hc h f h1 Hch Hf).
Qed.

(** A loop over local variables one round of which establishes [I]. *)
Lemma ends_in_for_fold {A B} I (l : list A) (body : B -> A -> M Heap B) x :
  x ∈ l ->
  (forall b, ends_in (fun _ => True) I (body b x)) ->
  (forall b y, preserves I (body b y)) ->
  forall b, ends_in (fun _ => True) I (for_fold l b body).
Proof.
  intros Hin Hx Hkeep. induction l as [|y l IH]; intros b;
    [inversion Hin|].
  cbn [for_fold].
  apply elem_of_cons in Hin as [<-|Hin].
  - apply ends_in_bind_first; [apply Hx|].
    intros b'. apply preserves_for_fold. exact Hkeep.
  - apply ends_in_bind_last. intros b'. apply IH. exact Hin.
Qed.
End EndsIn.

Section StrictErrors.
Context `{Python} `{Collaborators} {FS : Type} `{FileSystem FS}.
Variable base_path : string.
Variable fs : FS.

(** Some error has been recorded. *)
Definition has_errors (h : Heap) : Prop := errors h <> [].

Lemma has_errors_errors h msgs :
  has_errors h ->
  has_errors {| errors := errors h ++ msgs; warnings := warnings h;
                seen_warnings := seen_warnings h; data := data h |}.
Proof.
  unfold has_errors. cbn. intros Hne Happ.
  apply app_eq_nil in Happ as [Hnil _]. contradiction.
Qed.

Lemma has_errors_warning h msg key :
  has_errors h -> key ∉ seen_warnings h ->
  has_errors {| errors := errors h; warnings := warnings h ++ [msg];
                seen_warnings := seen_warnings h ∪ {[ key ]}; data := data h |}.
Proof. intros Hne _. exact Hne. Qed.

Lemma has_errors_data h d :
  has_errors h ->
  has_errors {| errors := errors h; warnings := warnings h;
                seen_warnings := seen_warnings h; data := d |}.
Proof. intros Hne. exact Hne. Qed.

(** In strict mode the product check records an error for every image
    without product, and goes on. *)
Lemma validate_products_strict_errors expected h h' img_name img :
  _validate_products true base_path fs expected h = (Returned true, h') ->
  (img_name, img) ∈ md_images (data h) ->
  truthy (product img) = false ->
  has_errors h'.
Proof.
  intros Hrun Hin Hnone. unfold _validate_products in Hrun.
  unfold bind at 1 in Hrun. cbn [get_data] in Hrun.
  refine ((_ : ends_in (fun b => b = true) has_errors _) h true h' Hrun eq_refl).
  clear Hrun.
  destruct (fs_min_occurrences fs _) as [occurrences|e0];
    [|apply ends_in_raise].
  cbv zeta.
  destruct (negb (bool_decide _)).
  { intros h0 b h1 Hrun ->. unfold bind in Hrun. cbn in Hrun. discriminate. }
  apply ends_in_fun_body. apply ends_in_and_then.
  - repeat first
      [ wp_step
      | apply (wp_for_each (fun _ => True)); [intros ? ?|intros _] ];
      try (left; reflexivity); try (right; intros Hno; apply Hno; reflexivity);
      try exact Logic.I.
  - apply ends_in_bind_first.
    + apply (ends_in_for_fold has_errors _ _ (img_name, img) Hin).
      * intros pc. cbv zeta. rewrite Hnone.
        apply ends_in_bind_last. intros prods.
        apply ends_in_bind_first; [|intros ?; apply preserves_ret].
        intros h0 u h1 Hrun _. cbn in Hrun. injection Hrun as _ <-.
        unfold has_errors. cbn. intros Happ.
        apply app_eq_nil in Happ as [_ [=]].
      * intros pc [name0 img0]. unfold count_one.
        repeat first
          [ apply preserves_add_error; solve [auto using has_errors_errors]
          | apply preserves_add_warning;
              solve [auto using has_errors_errors, has_errors_warning]
          | preserves_step ].
    + intros pc.
      repeat first
        [ apply preserves_reject; solve [auto using has_errors_errors]
        | apply preserves_add_warning;
            solve [auto using has_errors_errors, has_errors_warning]
        | preserves_step ].
Qed.
End StrictErrors.

Section StrictValidate.
Context `{Python} `{Collaborators} {FS : Type} `{FileSystem FS}.
Variable base_path : string.
Variable fs : FS.

Lemma validate_strict_errors content_types products h h' img_name img :
  validate true base_path fs content_types products h = (Returned true, h') ->
  (img_name, img) ∈ md_images (data h) ->
  truthy (product img) = false ->
  has_errors h'.
Proof.
  intros Hrun Hin Hnone. apply validate_accepted in Hrun as (_ & Hall & _).
  inversion Hall as [|h0 v1 h1 vs1 hx Hv1 Hall1]; subst; clear Hall.
  inversion Hall1 as [|? v2 h2 vs2 ? Hv2 Hall2]; subst; clear Hall1.
  inversion Hall2 as [|? v3 h3 vs3 ? Hv3 Hall3]; subst; clear Hall2.
  inversion Hall3 as [|? v4 h4 vs4 ? Hv4 Hall4]; subst; clear Hall3.
  inversion Hall4 as [|? v5 h5 vs5 ? Hv5 Hall5]; subst; clear Hall4.
  inversion Hall5 as [|? v6 h6 vs6 ? Hv6 Hall6]; subst; clear Hall5.
  inversion Hall6 as [|? v7 h7 vs7 ? Hv7 Hall7]; subst; clear Hall6.
  inversion Hall7; subst; clear Hall7.
  assert (Hd1 : data h1 = data h).
  { apply (accepted_data (_validate_content_types content_types) (data h)
             {| errors := []; warnings := []; seen_warnings := ∅;
                data := data h |} h1);
      [|reflexivity|exact Hv1].
    apply preserves_validate_content_types;
      auto using data_is_errors, data_is_warning. }
  rewrite <- Hd1 in Hin.
  pose proof (validate_products_strict_errors base_path fs _ _ _ _ _
                Hv2 Hin Hnone) as He2.
  assert (Hkeep : forall (v : M Heap bool) ha hb,
            preserves has_errors v -> has_errors ha ->
            v ha = (Returned true, hb) -> has_errors hb).
  { intros v ha hb Hv Ha Hvab. pose proof (Hv ha Ha) as Hb.
    rewrite Hvab in Hb. exact Hb. }
  assert (He3 : has_errors h3).
  { apply (Hkeep (_validate_structure fs) h2 h3); [|exact He2|exact Hv3].
    apply preserves_validate_structure;
      auto using has_errors_errors, has_errors_warning. }
  assert (He4 : has_errors h4).
  { apply (Hkeep (_validate_images true fs) h3 h4); [|exact He3|exact Hv4].
    apply preserves_validate_images;
      auto using has_errors_errors, has_errors_warning. }
  assert (He5 : has_errors h5).
  { apply (Hkeep (_validate_untagged true fs) h4 h5); [|exact He4|exact Hv5].
    apply preserves_validate_untagged;
      auto using has_errors_errors, has_errors_warning. }
  assert (He6 : has_errors h6).
  { apply (Hkeep _validate_settings h5 h6); [|exact He5|exact Hv6].
    apply preserves_validate_settings;
      auto using has_errors_errors, has_errors_warning. }
  apply (Hkeep _validate_product_counts h6 h'); [|exact He6|exact Hv7].
  apply preserves_validate_product_counts;
    auto using has_errors_errors, has_errors_warning, has_errors_data.
Qed.
End StrictValidate.

(** X24.  In strict mode [validate] can answer [True] with errors on
    record: the product check writes "has no product assigned" to the error
    list without failing, so whenever a strict call answers [True] on data
    that holds an image without product, the error list it leaves is not
    empty. *)
Theorem strict_success_with_errors
    `{Python} `{Collaborators} {FS : Type} `{FileSystem FS}
    (base_path : string) (fs : FS)
    (content_types : list string) (products : dict (list string))
    (h h' : Heap) (img_name : string) (img : Image) :
  validate true base_path fs content_types products h = (Returned true, h') ->
  (img_name, img) ∈ md_images (data h) ->
  truthy (product img) = false ->
  errors h' <> [] /\ warnings h' = [].
Proof.
  intros Hrun Hin Hnone. split.
  - exact (validate_strict_errors base_path fs _ _ _ _ _ _ Hrun Hin Hnone).
  - exact (proj2 (proj2 (validate_accepted _ _ _ _ _ _ _ Hrun)) eq_refl).
Qed.

(** One image with settings of its own and no product. *)
Definition custom_untagged_metadata : Metadata :=
  {| md_keys := REQUIRED_KEYS_ORDER;
     md_content_types := ["hook"];
     md_products := [("hook", [Fixture.product_of "magnesium" false 0 0])];
     md_structure :=
       [("hook", {| path := "/base/hook"; images := ["1h.png"] |})];
     md_images :=
       [("1h.png",
         {| content_type := "hook";
            dimensions := {| width := 1080; height := 1920 |};
            product := None;
            settings_source := "custom";
            settings := Fixture.simple_blob |})];
     md_untagged := [];
     md_settings := [("hook", [("content", JNull); ("[magnesium]", JNull)])] |}.

Definition validate_custom_untagged : result bool * Heap :=
  @validate Fixture.python Fixture.collaborators _ Fixture.file_system
    true "/base" Fixture.hook_disk ["hook"] [("hook", ["magnesium"])]
    (Fixture.fresh_heap custom_untagged_metadata).

Lemma strict_success_with_errors_witness :
  validate_custom_untagged = (Returned true, snd validate_custom_untagged)
  /\ errors (snd validate_custom_untagged) <> []
  /\ warnings (snd validate_custom_untagged) = [].
Proof.
  assert (Hrun : validate_custom_untagged
                 = (Returned true, snd validate_custom_untagged))
    by (vm_compute; reflexivity).
  split; [exact Hrun|].
  apply (@strict_success_with_errors
           Fixture.python Fixture.collaborators _ Fixture.file_system
           "/base" Fixture.hook_disk ["hook"] [("hook", ["magnesium"])]
           (Fixture.fresh_heap custom_untagged_metadata)
           (snd validate_custom_untagged) "1h.png"
           {| content_type := "hook";
              dimensions := {| width := 1080; height := 1920 |};
              product := None;
              settings_source := "custom";
              settings := Fixture.simple_blob |} Hrun).
  - apply list_elem_of_singleton. reflexivity.
  - reflexivity.
Defined.

(** * Strict mode and the minimum number of images *)
Section MinOccurrences.
Context `{Python} `{Collaborators} {FS : Type} `{FileSystem FS}.
Variable strict : bool.
Variable base_path : string.
Variable fs : FS.

(** The counting loop of [_validate_products]: to each counter it started
    from it adds the images assigned exactly that product; images without
    product are not counted. *)
Lemma products_count_loop_spec (d : Metadata) (imgs : dict Image) :
  forall (pc : gmap string (gmap string Z)) h pc' h',
    for_fold imgs pc (fun pc '(img_name, img_data) =>
      let ct := content_type img_data in
      if truthy (product img_data) then
        count_one pc ct (default "" (product img_data))
      else
        let* prods := dict_item ct (md_products d) in
        let msg := "Image " +:+ img_name
                   +:+ " has no product assigned. Valid products: "
                   +:+ repr_list (valid_products_listing prods) in
        (if strict then add_error msg
         else add_warning msg (Some ("missing_product_" +:+ img_name))) ;;
        ret pc) h = (Returned pc', h') ->
    forall ct,
      match pc !! ct with
      | None => pc' !! ct = None
      | Some c =>
          exists c', pc' !! ct = Some c' /\
            forall nm,
              default 0 (c' !! nm)
              = default 0 (c !! nm)
                + (if str_truthy nm then count_assigned imgs ct nm else 0)
      end.
Proof.
  induction imgs as [|[k img] imgs IH]; intros pc h pc' h' Hrun ct.
  - cbn in Hrun. injection Hrun as <- <-.
    destruct (pc !! ct) as [c|] eqn:Hc; [|reflexivity].
    exists c. split; [reflexivity|]. intros nm.
    destruct (str_truthy nm); unfold count_assigned; cbn; lia.
  - cbn [for_fold] in Hrun. unfold bind at 1 in Hrun. cbv zeta in Hrun.
    destruct (truthy (product img)) eqn:Htruthy.
    + destruct (product img) as [prod|] eqn:Hprod; [|discriminate].
      cbn [default from_option] in Hrun. unfold id, count_one in Hrun.
      destruct (pc !! content_type img) as [c0|] eqn:Hc0; [|discriminate].
      cbn [ret] in Hrun. specialize (IH _ _ _ _ Hrun ct).
      destruct (decide (ct = content_type img)) as [->|Hne].
      * rewrite lookup_insert_eq in IH. rewrite Hc0.
        destruct IH as (c' & Hc' & Hcount). exists c'. split; [exact Hc'|].
        intros nm. rewrite Hcount, count_assigned_cons.
        destruct (decide (nm = prod)) as [->|Hnm].
        -- rewrite lookup_insert_eq. cbn [default from_option]. unfold id.
           rewrite truthy_Some in Htruthy. rewrite Htruthy.
           rewrite bool_decide_eq_true_2 by (split; [reflexivity|exact Hprod]).
           lia.
        -- rewrite lookup_insert_ne by congruence.
           rewrite bool_decide_eq_false_2 by (intros [_ Hp]; congruence).
           destruct (str_truthy nm); lia.
      * rewrite lookup_insert_ne in IH by congruence.
        destruct (pc !! ct) as [c|]; [|exact IH].
        destruct IH as (c' & Hc' & Hcount). exists c'. split; [exact Hc'|].
        intros nm. rewrite Hcount, count_assigned_cons.
        rewrite bool_decide_eq_false_2 by (intros [Hct _]; congruence).
        destruct (str_truthy nm); lia.
    + unfold bind at 1 in Hrun. unfold dict_item in Hrun.
      destruct (dict_get (content_type img) (md_products d)) as [prods|];
        [|discriminate].
      cbn [ret] in Hrun. unfold bind at 1 in Hrun.
      match type of Hrun with
      | context [(if strict then ?a else ?b) h] =>
          destruct ((if strict then a else b) h) as [[[]|e] h1]
      end; [|discriminate].
      cbn [ret] in Hrun. specialize (IH _ _ _ _ Hrun ct).
      destruct (pc !! ct) as [c|]; [|exact IH].
      destruct IH as (c' & Hc' & Hcount). exists c'. split; [exact Hc'|].
      intros nm. rewrite Hcount, count_assigned_cons.
      destruct (str_truthy nm) eqn:Hnm; [|lia].
      rewrite bool_decide_eq_false_2; [lia|].
      intros [_ Hp]. rewrite Hp, truthy_Some, Hnm in Htruthy. discriminate.
Qed.
End MinOccurrences.

Section StrictMinimum.
Context `{Python} `{Collaborators} {FS : Type} `{FileSystem FS}.
Variable base_path : string.
Variable fs : FS.

(** The minimum of a product that prevents duplicates is met by the images
    assigned exactly that product. *)
Definition minimum_met (d : Metadata) (ct : string) (prod : Product) : Prop :=
  prevent_duplicates prod = true -> 0 < min_occurrences prod ->
  min_occurrences prod <= count_assigned (md_images d) ct (name prod).

Lemma validate_products_strict_minimum expected h h' :
  _validate_products true base_path fs expected h = (Returned true, h') ->
  forall ct prods prod,
    (ct, prods) ∈ md_products (data h) -> prod ∈ prods ->
    minimum_met (data h) ct prod.
Proof.
  intros Hrun. unfold _validate_products in Hrun.
  unfold bind at 1 in Hrun. cbn [get_data] in Hrun.
  refine ((_ : wp _ (fun b => b = true -> _)) h true h' Hrun eq_refl).
  clear Hrun.
  destruct (fs_min_occurrences fs _) as [occurrences|e0]; [|apply wp_raise].
  cbv zeta.
  destruct (negb (bool_decide _)); [repeat wp_step; discriminate|].
  apply wp_fun_body. apply wp_and_then.
  apply (wp_for_each (fun _ => True)).
  { intros [ct prods] Hin.
    repeat first
      [ wp_step
      | apply (wp_for_each (fun _ => True)); [intros ? ?|intros _] ];
      try discriminate; exact Logic.I. }
  intros _. apply wp_bind. intros h0 pc h1 Hcount.
  pose proof (products_count_loop_spec true (data h) _ _ _ _ _ Hcount)
    as Hspec.
  apply wp_and_then.
  apply (wp_for_each (fun '(ct, prods) =>
           forall prod, prod ∈ prods -> minimum_met (data h) ct prod)).
  - intros [ct prods] Hin.
    apply (wp_for_each (minimum_met (data h) ct)).
    + intros prod Hprod.
      destruct (prevent_duplicates prod && (0 <? min_occurrences prod))
        eqn:Hguard.
      2:{ wp_step. intros Hprevent Hmin. rewrite Hprevent in Hguard.
          apply Z.ltb_lt in Hmin. rewrite Hmin in Hguard. discriminate. }
      apply wp_bind.
      destruct (pc !! ct) as [counts|] eqn:Hcounts; [|apply wp_raise].
      apply wp_ret. cbv zeta.
      destruct (default 0 (counts !! name prod) <? min_occurrences prod)
        eqn:Hshort; [repeat wp_step; discriminate|].
      wp_step. intros _ Hmin.
      apply Z.ltb_ge in Hshort.
      specialize (Hspec ct). rewrite foldl_insert_lookup in Hspec.
      destruct (bool_decide (ct ∈ keys (md_products (data h)))).
      * destruct Hspec as (c' & Hc' & Hsum). rewrite Hcounts in Hc'.
        injection Hc' as <-. rewrite Hsum in Hshort.
        rewrite lookup_empty in Hshort. cbn [default from_option] in Hshort.
        destruct (str_truthy (name prod)); lia.
      * rewrite lookup_empty in Hspec. congruence.
    + intros Hall. exact Hall.
  - intros Hall. wp_step. intros _ ct prods prod Hin Hprod.
    exact (Hall (ct, prods) Hin prod Hprod).
Qed.
End StrictMinimum.

Section StrictMinimumValidate.
Context `{Python} `{Collaborators} {FS : Type} `{FileSystem FS}.
Variable base_path : string.
Variable fs : FS.

Lemma validate_strict_minimum content_types products h h' :
  validate true base_path fs content_types products h = (Returned true, h') ->
  forall ct prods prod,
    (ct, prods) ∈ md_products (data h) -> prod ∈ prods ->
    minimum_met (data h) ct prod.
Proof.
  intros Hrun. apply validate_accepted in Hrun as (_ & Hall & _).
  inversion Hall as [|h0 v1 h1 vs1 hx Hv1 Hall1]; subst; clear Hall.
  inversion Hall1 as [|? v2 h2 vs2 ? Hv2 Hall2]; subst; clear Hall1.
  clear Hall2.
  assert (Hd1 : data h1 = data h).
  { apply (accepted_data (_validate_content_types content_types) (data h)
             {| errors := []; warnings := []; seen_warnings := ∅;
                data := data h |} h1);
      [|reflexivity|exact Hv1].
    apply preserves_validate_content_types;
      auto using data_is_errors, data_is_warning. }
  rewrite <- Hd1.
  exact (validate_products_strict_minimum base_path fs _ _ _ Hv2).
Qed.
End StrictMinimumValidate.

(** X25.  In strict mode a successful [validate] guarantees the minimum of
    every product that prevents duplicates: such a product with a positive
    [min_occurrences] has at least that many images of its content type
    assigned exactly to it.  Images assigned to 'all' do not count towards
    the minimum, although they count towards [current_count]. *)
Theorem strict_success_meets_minimum
    `{Python} `{Collaborators} {FS : Type} `{FileSystem FS}
    (base_path : string) (fs : FS)
    (content_types : list string) (products : dict (list string))
    (h h' : Heap) (ct : string) (prods : list Product) (prod : Product) :
  validate true base_path fs content_types products h = (Returned true, h') ->
  (ct, prods) ∈ md_products (data h) ->
  prod ∈ prods ->
  prevent_duplicates prod = true ->
  0 < min_occurrences prod ->
  min_occurrences prod
  <= Z.of_nat (length (filter (fun img => content_type img = ct
                                          ∧ product img = Some (name prod))
                              (values (md_images (data h))))).
Proof.
  intros Hrun Hin Hprod Hprevent Hmin.
  exact (validate_strict_minimum base_path fs _ _ _ _ Hrun _ _ _ Hin Hprod
           Hprevent Hmin).
Qed.

(** The magnesium example without its third, unassigned image. *)
Definition magnesium_pair_metadata : Metadata :=
  {| md_keys := REQUIRED_KEYS_ORDER;
     md_content_types := ["hook"];
     md_products := [("hook", [Fixture.product_of "magnesium" true 2 2])];
     md_structure :=
       [("hook", {| path := "/base/hook"; images := ["1h.png"; "2h.png"] |})];
     md_images :=
       [("1h.png", Fixture.image_of "hook" (Some "magnesium"));
        ("2h.png", Fixture.image_of "hook" (Some "magnesium"))];
     md_untagged := [];
     md_settings := [("hook", [("content", JNull); ("[magnesium]", JNull)])] |}.

Definition validate_magnesium_pair : result bool * Heap :=
  @validate Fixture.python Fixture.collaborators _ Fixture.file_system
    true "/base" Fixture.magnesium_disk ["hook"] [("hook", ["magnesium"])]
    (Fixture.fresh_heap magnesium_pair_metadata).

Lemma strict_success_meets_minimum_witness :
  validate_magnesium_pair = (Returned true, snd validate_magnesium_pair)
  /\ 2 <= Z.of_nat
            (length (filter (fun img => content_type img = "hook"
                                        ∧ product img = Some "magnesium")
                            (values (md_images magnesium_pair_metadata)))).
Proof.
  assert (Hrun : validate_magnesium_pair
                 = (Returned true, snd validate_magnesium_pair))
    by (vm_compute; reflexivity).
  split; [exact Hrun|].
  apply (@strict_success_meets_minimum
           Fixture.python Fixture.collaborators _ Fixture.file_system
           "/base" Fixture.magnesium_disk ["hook"] [("hook", ["magnesium"])]
           (Fixture.fresh_heap magnesium_pair_metadata)
           (snd validate_magnesium_pair) "hook"
           [Fixture.product_of "magnesium" true 2 2]
           (Fixture.product_of "magnesium" true 2 2) Hrun).
  - apply list_elem_of_singleton. reflexivity.
  - apply list_elem_of_singleton. reflexivity.
  - reflexivity.
  - reflexivity.
Defined.

(** * Properties of the metadata generator *)

Lemma foldl_dict_set_get {A V} (key : A -> string) (value : A -> V)
    (l : list A) :
  forall (acc : dict V) k v,
    dict_get k (foldl (fun acc x => dict_set (key x) (value x) acc) acc l)
    = Some v ->
    dict_get k acc = Some v \/ exists x, x ∈ l /\ key x = k /\ value x = v.
Proof.
  induction l as [|x l IH]; intros acc k v Hget; cbn [foldl] in Hget.
  - left. exact Hget.
  - apply IH in Hget as [Hacc|(y & Hy & Hk & Hv)].
    + destruct (decide (key x = k)) as [Hk|Hk].
      * subst k. rewrite dict_get_set_eq in Hacc. injection Hacc as <-.
        right. exists x. split; [left|split; reflexivity].
      * rewrite dict_get_set_ne in Hacc by exact Hk. left. exact Hacc.
    + right. exists y. split; [right; exact Hy|split; assumption].
Qed.

Lemma dict_set_elem_of {V} (k k' : string) (v v' : V) (d : dict V) :
  (k', v') ∈ dict_set k v d -> (k', v') ∈ d \/ (k' = k /\ v' = v).
Proof.
  induction d as [|[k0 v0] d IH]; cbn [dict_set].
  - intros Hin. apply list_elem_of_singleton in Hin. injection Hin as -> ->.
    right. split; reflexivity.
  - destruct (String.eqb k k0) eqn:Hk.
    + apply String.eqb_eq in Hk. subst k0. intros Hin.
      apply elem_of_cons in Hin as [[= -> ->]|Hin].
      * right. split; reflexivity.
      * left. right. exact Hin.
    + intros Hin. apply elem_of_cons in Hin as [->|Hin].
      * left. left.
      * destruct (IH Hin) as [Hd|Hnew]; [left; right; exact Hd|right; exact Hnew].
Qed.

Lemma foldl_dict_set_elem_of {A V} (key : A -> string) (value : A -> V)
    (l : list A) :
  forall (acc : dict V) k v,
    (k, v) ∈ foldl (fun acc x => dict_set (key x) (value x) acc) acc l ->
    (k, v) ∈ acc \/ exists x, x ∈ l /\ key x = k /\ value x = v.
Proof.
  induction l as [|x l IH]; intros acc k v Hin; cbn [foldl] in Hin.
  - left. exact Hin.
  - apply IH in Hin as [Hacc|(y & Hy & Hk & Hv)].
    + apply dict_set_elem_of in Hacc as [Hacc|[-> ->]].
      * left. exact Hacc.
      * right. exists x. split; [left|split; reflexivity].
    + right. exists y. split; [right; exact Hy|split; assumption].
Qed.

Lemma same_record_refl a : same_record a a = true.
Proof.
  unfold same_record. rewrite String.eqb_refl, !Z.eqb_refl. reflexivity.
Qed.

Lemma same_record_sym a b : same_record a b = same_record b a.
Proof.
  unfold same_record.
  rewrite (String.eqb_sym (content_type a)), (Z.eqb_sym (width (dimensions a))),
    (Z.eqb_sym (height (dimensions a))). reflexivity.
Qed.

(** Two pairs with one name and different dicts make a conflict. *)
Lemma has_conflict_complete (l : list (string * Image)) n a b :
  (n, a) ∈ l -> (n, b) ∈ l -> same_record a b = false ->
  has_conflict l = true.
Proof.
  induction l as [|[m c] l IH]; intros Ha Hb Hdiff; [inversion Ha|].
  cbn [has_conflict]. apply orb_true_iff.
  apply elem_of_cons in Ha as [Ha|Ha]; apply elem_of_cons in Hb as [Hb|Hb].
  - assert (a = b) by congruence. subst b.
    rewrite same_record_refl in Hdiff. discriminate.
  - injection Ha as <- <-. left. apply existsb_exists. exists (n, b).
    split; [apply list_elem_of_In; exact Hb|]. cbn [fst snd].
    rewrite String.eqb_refl, Hdiff. reflexivity.
  - injection Hb as <- <-. left. apply existsb_exists. exists (n, a).
    split; [apply list_elem_of_In; exact Ha|]. cbn [fst snd].
    rewrite String.eqb_refl, same_record_sym, Hdiff. reflexivity.
  - right. exact (IH Ha Hb Hdiff).
Qed.

Section Generated.
Context `{Python} {FS : Type} `{FileSystem FS} `{Folders FS}.
Variable base_path : string.
Variable fs : FS.
Variable content_types : list string.
Variable products : dict (list string).

(** The sections of the generated metadata, as functions of what the disk
    answered. *)
Definition generated_products (occurrences : dict (list (string * Z)))
  : dict (list Product) :=
  foldl (fun acc '(ct, prods) =>
           dict_set ct
             (map (fun prod =>
                     {| name := prod;
                        prevent_duplicates := false;
                        min_occurrences :=
                          MetadataGenerator.min_occurrences_of
                            (default [] (dict_get ct occurrences)) prod;
                        current_count := Some 0 |})
                  (sorted (elements (to_set prods))))
             acc)
        [] products.

Definition generated_structure : dict Structure :=
  foldl (fun acc content_type =>
           dict_set content_type
             {| path := path_join base_path content_type;
                images :=
                  sorted (concat (map (fs_glob fs (path_join base_path
                                                     content_type))
                                      glob_extensions)) |}
             acc)
        [] content_types.

Definition generated_images (all_images : list (string * Image)) : dict Image :=
  foldl (fun acc '(image_name, image_data) =>
           dict_set image_name image_data acc)
        [] (sort_items all_images).

Definition generated_untagged (files : list string) : list string :=
  sorted
    (filter (fun img =>
               img ∉ foldl (fun (acc : gset string) struct =>
                              acc ∪ to_set (images struct)) ∅
                           (values generated_structure))
            (filter (fun f =>
                       negb (startswith_dot f)
                       && bool_decide (lower (path_suffix f) ∈ valid_extensions)
                       = true)
                    files)).

(** The key of the one product group a content type is given. *)
Definition group_key (prods : list Product) : string :=
  "[" +:+ join ", " (sorted (map name prods)) +:+ "]".

Definition generated_settings (ps : dict (list Product)) (cts : list string)
    (acc : dict (dict json)) : dict (dict json) :=
  foldl (fun acc ct =>
           dict_set ct
             [("content", JNull);
              (group_key (default [] (dict_get ct ps)), JNull)]
             acc)
        acc cts.

(** The loop of [_generate_settings] needs the products of every content
    type, and writes one entry for each. *)
Lemma generate_settings_loop (cts : list string) :
  forall md md',
    for_do cts (fun content_type =>
      let* md := get in
      let* prods := dict_item content_type (md_products md) in
      let products := map name prods in
      put (set_settings
             (dict_set content_type
                [("content", JNull);
                 ("[" +:+ join ", " (sorted products) +:+ "]", JNull)]
                (md_settings md))
             md)) md = (Returned tt, md') ->
    (forall ct, ct ∈ cts -> is_Some (dict_get ct (md_products md)))
    /\ md' = set_settings
               (generated_settings (md_products md) cts (md_settings md)) md.
Proof.
  induction cts as [|ct cts IH]; intros md md' Hrun.
  - cbn in Hrun. injection Hrun as <-. split.
    + intros ct Hin. inversion Hin.
    + destruct md; reflexivity.
  - cbn [for_do] in Hrun. unfold bind at 1 in Hrun.
    unfold bind at 1 in Hrun. cbn [get] in Hrun.
    unfold bind at 1 in Hrun. unfold dict_item in Hrun.
    destruct (dict_get ct (md_products md)) as [prods|] eqn:Hprods;
      [|discriminate].
    cbn [ret put] in Hrun. apply IH in Hrun as [Hall ->].
    cbn [set_settings md_products md_settings] in *. split.
    + intros ct' Hin. apply elem_of_cons in Hin as [->|Hin].
      * rewrite Hprods. eexists. reflexivity.
      * exact (Hall ct' Hin).
    + unfold generated_settings. cbn [foldl]. rewrite Hprods.
      reflexivity.
Qed.

(** What [generate] returns, when it returns. *)
Lemma generate_spec md st' :
  MetadataGenerator.generate base_path fs content_types products
    MetadataGenerator.empty_metadata = (Returned md, st') ->
  exists occurrences all_images files,
    fs_min_occurrences fs (path_join base_path "captions.csv")
    = Returned occurrences
    /\ MetadataGenerator.collect_images fs generated_structure
       = Returned all_images
    /\ has_conflict all_images = false
    /\ fs_iterdir_files fs base_path = Returned files
    /\ (forall ct, ct ∈ content_types ->
          is_Some (dict_get ct (generated_products occurrences)))
    /\ md = {| md_keys := REQUIRED_KEYS_ORDER;
               md_content_types := content_types;
               md_products := generated_products occurrences;
               md_structure := generated_structure;
               md_images := generated_images all_images;
               md_untagged := generated_untagged files;
               md_settings :=
                 generated_settings (generated_products occurrences)
                   content_types [] |}.
Proof.
  unfold MetadataGenerator.generate. unfold bind at 1.
  cbn [MetadataGenerator._generate_content_types modify].
  unfold bind at 1. unfold MetadataGenerator._generate_products.
  destruct (fs_min_occurrences fs _) as [occurrences|e]; [|discriminate].
  cbn [modify]. unfold bind at 1.
  cbn [MetadataGenerator._generate_structure modify].
  unfold bind at 1. unfold MetadataGenerator._generate_images.
  unfold bind at 1. cbn [get]. unfold bind at 1. cbn [put].
  cbn [md_structure].
  fold generated_structure. fold (generated_products occurrences).
  destruct (MetadataGenerator.collect_images fs generated_structure)
    as [all_images|e]; [|discriminate].
  destruct (has_conflict all_images) eqn:Hconflict; [discriminate|].
  cbn [modify]. unfold bind at 1.
  unfold MetadataGenerator._generate_untagged.
  destruct (fs_iterdir_files fs base_path) as [files|e]; [|discriminate].
  unfold bind at 1. cbn [get]. cbn [put].
  unfold bind at 1. unfold MetadataGenerator._generate_settings.
  unfold bind at 1. cbn [get]. unfold bind at 1. cbn [put].
  match goal with
  | |- context [for_do content_types ?body ?st] =>
      destruct (for_do content_types body st) as [[[]|e] st1] eqn:Hloop;
      [|discriminate]
  end.
  apply generate_settings_loop in Hloop as [Hall ->].
  cbn [get]. intros [= <- _].
  exists occurrences, all_images, files.
  split; [reflexivity|]. split; [reflexivity|]. split; [exact Hconflict|].
  split; [reflexivity|].
  cbn [md_products md_structure md_images md_untagged md_settings
       md_content_types md_keys set_images set_settings
       MetadataGenerator.empty_metadata] in *.
  split; [exact Hall|].
  f_equal.
Qed.
End Generated.

Lemma foldl_ext_all {A B} (f g : B -> A -> B) (l : list A) (b : B) :
  (forall b x, f b x = g b x) -> foldl f b l = foldl g b l.
Proof.
  intros Hfg. revert b. induction l as [|x l IH]; intros b; [reflexivity|].
  cbn [foldl]. rewrite Hfg. apply IH.
Qed.

Lemma sorted_Sorted (l : list string) : Sorted String.le (sorted l).
Proof. unfold sorted. apply Sorted_merge_sort. apply String.le_total. Qed.

Lemma sorted_Permutation (l : list string) : sorted l ≡ₚ l.
Proof. unfold sorted. apply merge_sort_Permutation. Qed.

Lemma elem_of_sorted (l : list string) x : x ∈ sorted l <-> x ∈ l.
Proof. rewrite sorted_Permutation. reflexivity. Qed.

Section GeneratedProducts.
Context `{Python} {FS : Type} `{FileSystem FS} `{Folders FS}.
Variable base_path : string.
Variable fs : FS.
Variable content_types : list string.
Variable products : dict (list string).

(** The generated products of a content type: the given names, sorted and
    without repetition, none preventing duplicates, all counted 0. *)
Lemma generated_products_entry occurrences ct prods :
  dict_get ct (generated_products products occurrences) = Some prods ->
  (exists given,
     (ct, given) ∈ products
     /\ forall n, n ∈ map name prods <-> n ∈ given)
  /\ Sorted String.le (map name prods)
  /\ NoDup (map name prods)
  /\ forall p, p ∈ prods ->
       prevent_duplicates p = false /\ current_count p = Some 0.
Proof.
  unfold generated_products. intros Hget.
  rewrite (foldl_ext_all _
             (fun acc x =>
                dict_set (fst x)
                  (map (fun prod =>
                          {| name := prod;
                             prevent_duplicates := false;
                             min_occurrences :=
                               MetadataGenerator.min_occurrences_of
                                 (default [] (dict_get (fst x) occurrences))
                                 prod;
                             current_count := Some 0 |})
                       (sorted (elements (to_set (snd x)))))
                  acc)) in Hget
    by (intros b [c ps]; reflexivity).
  apply (foldl_dict_set_get fst) in Hget as [[=]|([c given] & Hin & Hk & Hv)].
  cbn [fst snd] in Hk, Hv. subst c. subst prods.
  assert (Hnames : map name
                     (map (fun prod =>
                             {| name := prod;
                                prevent_duplicates := false;
                                min_occurrences :=
                                  MetadataGenerator.min_occurrences_of
                                    (default [] (dict_get ct occurrences)) prod;
                                current_count := Some 0 |})
                          (sorted (elements (to_set given))))
                   = sorted (elements (to_set given))).
  { rewrite map_map. cbn [name]. apply map_id. }
  rewrite Hnames. split; [|split; [|split]].
  - exists given. split; [exact Hin|]. intros n.
    rewrite elem_of_sorted. unfold to_set.
    rewrite elem_of_elements, elem_of_list_to_set. reflexivity.
  - apply sorted_Sorted.
  - rewrite sorted_Permutation. apply NoDup_elements.
  - intros p Hp. apply list_elem_of_fmap in Hp as (prod & -> & _).
    split; reflexivity.
Qed.
End GeneratedProducts.

Section GeneratedImages.
Context `{Python} {FS : Type} `{FileSystem FS} `{Folders FS}.
Variable fs : FS.

(** Where a collected pair comes from: an image listed under a content
    type, whose file exists and has the recorded size. *)
Definition collected_from (structure : dict Structure)
    (pair : string * Image) : Prop :=
  exists content_type struct wh,
    (content_type, struct) ∈ structure
    /\ fst pair ∈ images struct
    /\ fs_exists fs (path_join (path struct) (fst pair)) = true
    /\ fs_image_size fs (path_join (path struct) (fst pair)) = Returned wh
    /\ snd pair = fresh_image content_type wh.

Lemma collect_folder_spec (Q : string * Image -> Prop) content_type struct
    (names : list string) :
  (forall image_name wh,
     image_name ∈ names ->
     fs_exists fs (path_join (path struct) image_name) = true ->
     fs_image_size fs (path_join (path struct) image_name) = Returned wh ->
     Q (image_name, fresh_image content_type wh)) ->
  forall acc all_images,
    (forall l, acc = Returned l -> Forall Q l) ->
    foldl (fun acc image_name =>
             match acc with
             | Raised e => Raised e
             | Returned all_images =>
                 let path := path_join (path struct) image_name in
                 if fs_exists fs path then
                   match fs_image_size fs path with
                   | Raised e => Raised e
                   | Returned wh =>
                       Returned
                         (all_images
                            ++ [(image_name, fresh_image content_type wh)])%list
                   end
                 else Returned all_images
             end)
          acc names = Returned all_images ->
    Forall Q all_images.
Proof.
  induction names as [|image_name names IH]; intros HQ acc all_images Hacc Hrun.
  - cbn in Hrun. exact (Hacc _ Hrun).
  - cbn [foldl] in Hrun. revert Hrun. apply IH.
    + intros n wh Hn. apply HQ. right. exact Hn.
    + intros l Hl. destruct acc as [l0|e]; [|discriminate]. cbv zeta in Hl.
      destruct (fs_exists fs (path_join (path struct) image_name)) eqn:Hex.
      * destruct (fs_image_size fs (path_join (path struct) image_name))
          as [wh|e] eqn:Hsize; [|discriminate].
        injection Hl as <-. apply Forall_app. split; [exact (Hacc _ eq_refl)|].
        apply Forall_singleton. apply (HQ image_name wh); [left|assumption..].
      * injection Hl as <-. exact (Hacc _ eq_refl).
Qed.

Lemma collect_images_spec (structure : dict Structure) all_images :
  MetadataGenerator.collect_images fs structure = Returned all_images ->
  Forall (collected_from structure) all_images.
Proof.
  unfold MetadataGenerator.collect_images.
  assert (Hgen : forall (entries : dict Structure) acc,
            (forall entry, entry ∈ entries -> entry ∈ structure) ->
            (forall l, acc = Returned l -> Forall (collected_from structure) l) ->
            foldl (fun acc '(content_type, struct) =>
                     foldl (fun acc image_name =>
                              match acc with
                              | Raised e => Raised e
                              | Returned all_images =>
                                  let path :=
                                    path_join (path struct) image_name in
                                  if fs_exists fs path then
                                    match fs_image_size fs path with
                                    | Raised e => Raised e
                                    | Returned wh =>
                                        Returned
                                          (all_images
                                             ++ [(image_name,
                                                  fresh_image content_type wh)])%list
                                    end
                                  else Returned all_images
                              end)
                           acc (images struct))
                  acc entries = Returned all_images ->
            Forall (collected_from structure) all_images).
  { induction entries as [|[ct struct] entries IH]; intros acc Hsub Hacc Hrun.
    - cbn in Hrun. exact (Hacc _ Hrun).
    - cbn [foldl] in Hrun. revert Hrun. apply IH.
      + intros entry Hentry. apply Hsub. right. exact Hentry.
      + intros l Hl. revert Hl.
        apply (collect_folder_spec (collected_from structure) ct struct);
          [|exact Hacc].
        intros image_name wh Hn Hex Hsize.
        exists ct, struct, wh. cbn [fst snd].
        split; [apply Hsub; left|]. repeat split; assumption. }
  apply Hgen.
  - intros entry Hentry. exact Hentry.
  - intros l [= <-]. constructor.
Qed.

(** Every generated image record is that of a collected pair. *)
Lemma generated_images_elem_of all_images n img :
  (n, img) ∈ generated_images all_images -> (n, img) ∈ all_images.
Proof.
  unfold generated_images. intros Hin.
  rewrite (foldl_ext_all _
             (fun acc x => dict_set (fst x) (snd x) acc)) in Hin
    by (intros b [k v]; reflexivity).
  apply (foldl_dict_set_elem_of fst snd) in Hin
    as [Hnil|([k v] & Hx & Hk & Hv)]; [inversion Hnil|].
  cbn [fst snd] in Hk, Hv. subst k v.
  rewrite sort_items_Permutation in Hx. exact Hx.
Qed.
End GeneratedImages.

Section GeneratedUntagged.
Context `{Python} {FS : Type} `{FileSystem FS} `{Folders FS}.
Variable base_path : string.
Variable fs : FS.
Variable content_types : list string.

Lemma elem_of_content_images (structs : list Structure) :
  forall (acc : gset string) img,
    img ∈ foldl (fun (acc : gset string) struct =>
                   acc ∪ to_set (images struct)) acc structs
    <-> img ∈ acc \/ exists struct, struct ∈ structs /\ img ∈ images struct.
Proof.
  induction structs as [|s structs IH]; intros acc img; cbn [foldl].
  - split; [intros Hin; left; exact Hin|].
    intros [Hin|(s & Hs & _)]; [exact Hin|inversion Hs].
  - rewrite IH. unfold to_set. rewrite elem_of_union, elem_of_list_to_set.
    split.
    + intros [[Hacc|Hs]|(s' & Hs' & Himg)].
      * left. exact Hacc.
      * right. exists s. split; [left|exact Hs].
      * right. exists s'. split; [right; exact Hs'|exact Himg].
    + intros [Hacc|(s' & Hs' & Himg)]; [left; left; exact Hacc|].
      apply elem_of_cons in Hs' as [->|Hs'].
      * left. right. exact Himg.
      * right. exists s'. split; assumption.
Qed.

(** The generated untagged list: sorted names of image files of the base
    folder that no content type lists. *)
Lemma generated_untagged_spec files :
  Sorted String.le (generated_untagged base_path fs content_types files)
  /\ forall img,
       img ∈ generated_untagged base_path fs content_types files ->
       img ∈ files
       /\ startswith_dot img = false
       /\ lower (path_suffix img) ∈ valid_extensions
       /\ forall ct info,
            (ct, info) ∈ generated_structure base_path fs content_types ->
            img ∉ images info.
Proof.
  unfold generated_untagged. split; [apply sorted_Sorted|].
  intros img Hin. rewrite elem_of_sorted in Hin.
  apply list_elem_of_filter in Hin as [Hfree Hin].
  apply list_elem_of_filter in Hin as [Hname Hin].
  apply andb_true_iff in Hname as [Hdot Hext].
  apply negb_true_iff in Hdot. apply bool_decide_eq_true in Hext.
  repeat split; try assumption.
  intros ct info Hentry Himg. apply Hfree.
  apply elem_of_content_images. right. exists info.
  split; [|exact Himg]. unfold values.
  apply list_elem_of_fmap. exists (ct, info). split; [reflexivity|exact Hentry].
Qed.
End GeneratedUntagged.

(** ** A disk that can be listed *)

(** [name.endswith(ext)] *)
Definition ends_with (ext name : string) : bool :=
  String.prefix (String.rev ext) (String.rev name).

(** The folders of the example disk: an entry of [dir] is a path whose
    parent is [dir]; the files are the entries with a recorded size. *)
Definition disk_folders : Folders Fixture.Disk :=
  {| fs_glob := fun d dir ext =>
       map (@path_name Fixture.python)
           (filter (fun p => @path_parent Fixture.python p = dir
                             /\ ends_with ext p = true)
                   (Fixture.present d));
     fs_iterdir_files := fun d dir =>
       Returned
         (map (@path_name Fixture.python)
              (filter (fun p => @path_parent Fixture.python p = dir
                                /\ is_Some (dict_get p (Fixture.sizes d)))
                      (Fixture.present d))) |}.

(** The example disk with one more picture, 9h.png, in the base folder. *)
Definition scanned_disk : Fixture.Disk :=
  {| Fixture.present := "/base/9h.png" :: Fixture.present Fixture.hook_disk;
     Fixture.sizes :=
       ("/base/9h.png", (1080, 1920)) :: Fixture.sizes Fixture.hook_disk;
     Fixture.json_files := [] |}.

Definition scan_hook : result Metadata * Metadata :=
  @MetadataGenerator.generate Fixture.python _ Fixture.file_system disk_folders
    "/base" scanned_disk ["hook"] [("hook", ["magnesium"; "all"; "magnesium"])]
    MetadataGenerator.empty_metadata.

Definition scanned_metadata : Metadata :=
  {| md_keys := REQUIRED_KEYS_ORDER;
     md_content_types := ["hook"];
     md_products :=
       [("hook", [Fixture.product_of "all" false 0 0;
                  Fixture.product_of "magnesium" false 0 0])];
     md_structure :=
       [("hook", {| path := "/base/hook"; images := ["1h.png"; "2h.png"] |})];
     md_images :=
       [("1h.png", Fixture.image_of "hook" None);
        ("2h.png", Fixture.image_of "hook" None)];
     md_untagged := ["9h.png"];
     md_settings :=
       [("hook", [("content", JNull); ("[all, magnesium]", JNull)])] |}.

Lemma scan_hook_returns : scan_hook = (Returned scanned_metadata, scanned_metadata).
Proof. vm_compute. reflexivity. Qed.

(** X26.  The metadata [MetadataGenerator.generate] returns has its six
    sections in the order the validator requires and the content types it was
    given; the products of a content type are the given names without
    repetition and in sorted order, none of them preventing duplicates, each
    with a count of 0. *)
Theorem generated_metadata_declares_products
    `{Python} {FS : Type} `{FileSystem FS} `{Folders FS}
    (base_path : string) (fs : FS) (content_types : list string)
    (products : dict (list string)) (md st' : Metadata) :
  MetadataGenerator.generate base_path fs content_types products
    MetadataGenerator.empty_metadata = (Returned md, st') ->
  md_keys md = REQUIRED_KEYS_ORDER
  /\ md_content_types md = content_types
  /\ forall ct prods,
       dict_get ct (md_products md) = Some prods ->
       (exists given,
          (ct, given) ∈ products
          /\ forall n, n ∈ map name prods <-> n ∈ given)
       /\ Sorted String.le (map name prods)
       /\ NoDup (map name prods)
       /\ forall p, p ∈ prods ->
            prevent_duplicates p = false /\ current_count p = Some 0.
Proof.
  intros Hrun.
  apply generate_spec in Hrun
    as (occurrences & all_images & files & _ & _ & _ & _ & _ & ->).
  cbn [md_keys md_content_types md_products].
  split; [reflexivity|]. split; [reflexivity|].
  intros ct prods Hget. exact (generated_products_entry _ _ _ _ Hget).
Qed.

Lemma generated_metadata_declares_products_witness :
  scan_hook = (Returned scanned_metadata, scanned_metadata)
  /\ md_keys scanned_metadata = REQUIRED_KEYS_ORDER
  /\ md_content_types scanned_metadata = ["hook"]
  /\ forall ct prods,
       dict_get ct (md_products scanned_metadata) = Some prods ->
       (exists given,
          (ct, given) ∈ [("hook", ["magnesium"; "all"; "magnesium"])]
          /\ forall n, n ∈ map name prods <-> n ∈ given)
       /\ Sorted String.le (map name prods)
       /\ NoDup (map name prods)
       /\ forall p, p ∈ prods ->
            prevent_duplicates p = false /\ current_count p = Some 0.
Proof.
  split; [exact scan_hook_returns|].
  exact (@generated_metadata_declares_products
           Fixture.python _ Fixture.file_system disk_folders
           "/base" scanned_disk ["hook"]
           [("hook", ["magnesium"; "all"; "magnesium"])]
           scanned_metadata scanned_metadata scan_hook_returns).
Defined.

(** X27.  Every image record of the generated metadata is that of an
    untouched picture: no product, the source 'default' and no settings; it
    belongs to a content type whose generated structure lists it, its file
    exists in the folder of that content type, and its dimensions are the
    size read from that file. *)
Theorem generated_images_are_fresh
    `{Python} {FS : Type} `{FileSystem FS} `{Folders FS}
    (base_path : string) (fs : FS) (content_types : list string)
    (products : dict (list string)) (md st' : Metadata)
    (image_name : string) (img : Image) :
  MetadataGenerator.generate base_path fs content_types products
    MetadataGenerator.empty_metadata = (Returned md, st') ->
  (image_name, img) ∈ md_images md ->
  product img = None
  /\ settings_source img = "default"
  /\ settings img = JNull
  /\ exists info,
       (content_type img, info) ∈ md_structure md
       /\ image_name ∈ images info
       /\ fs_exists fs (path_join (path info) image_name) = true
       /\ fs_image_size fs (path_join (path info) image_name)
          = Returned (width (dimensions img), height (dimensions img)).
Proof.
  intros Hrun Hin.
  apply generate_spec in Hrun
    as (occurrences & all_images & files & _ & Hcollect & _ & _ & _ & ->).
  cbn [md_images md_structure] in *.
  apply generated_images_elem_of in Hin.
  apply collect_images_spec in Hcollect.
  rewrite Forall_forall in Hcollect.
  destruct (Hcollect _ Hin)
    as (ct & struct & [w h] & Hentry & Hlisted & Hexists & Hsize & Himg).
  cbn [fst snd] in *. subst img. cbn.
  split; [reflexivity|]. split; [reflexivity|]. split; [reflexivity|].
  exists struct. repeat split; assumption.
Qed.

Lemma generated_images_are_fresh_witness :
  scan_hook = (Returned scanned_metadata, scanned_metadata)
  /\ ("1h.png", Fixture.image_of "hook" None) ∈ md_images scanned_metadata
  /\ product (Fixture.image_of "hook" None) = None
  /\ settings_source (Fixture.image_of "hook" None) = "default"
  /\ settings (Fixture.image_of "hook" None) = JNull
  /\ exists info,
       (content_type (Fixture.image_of "hook" None), info)
       ∈ md_structure scanned_metadata
       /\ "1h.png" ∈ images info
       /\ @fs_exists _ Fixture.file_system scanned_disk
            (@path_join Fixture.python (path info) "1h.png") = true
       /\ @fs_image_size _ Fixture.file_system scanned_disk
            (@path_join Fixture.python (path info) "1h.png")
          = Returned (width (dimensions (Fixture.image_of "hook" None)),
                      height (dimensions (Fixture.image_of "hook" None))).
Proof.
  split; [exact scan_hook_returns|].
  assert (Hin : ("1h.png", Fixture.image_of "hook" None)
                ∈ md_images scanned_metadata) by (left).
  split; [exact Hin|].
  exact (@generated_images_are_fresh
           Fixture.python _ Fixture.file_system disk_folders
           "/base" scanned_disk ["hook"]
           [("hook", ["magnesium"; "all"; "magnesium"])]
           scanned_metadata scanned_metadata "1h.png"
           (Fixture.image_of "hook" None) scan_hook_returns Hin).
Defined.

(** ** A file name shared by two content folders *)

Lemma foldl_dict_set_kept {A V} (key : A -> string) (value : A -> V)
    (l : list A) :
  forall (acc : dict V) k v,
    dict_get k acc = Some v ->
    (forall y, y ∈ l -> key y = k -> value y = v) ->
    dict_get k (foldl (fun acc x => dict_set (key x) (value x) acc) acc l)
    = Some v.
Proof.
  induction l as [|x l IH]; intros acc k v Hget Hsame; [exact Hget|].
  cbn [foldl]. apply IH.
  - destruct (decide (key x = k)) as [Hk|Hk].
    + rewrite <- (Hsame x) by (left || exact Hk). subst k.
      apply dict_get_set_eq.
    + rewrite dict_get_set_ne by exact Hk. exact Hget.
  - intros y Hy. apply Hsame. right. exact Hy.
Qed.

(** A key written with one value only is found with that value. *)
Lemma foldl_dict_set_lookup {A V} (key : A -> string) (value : A -> V)
    (l : list A) x :
  x ∈ l ->
  (forall y, y ∈ l -> key y = key x -> value y = value x) ->
  forall acc : dict V,
    dict_get (key x)
      (foldl (fun acc x => dict_set (key x) (value x) acc) acc l)
    = Some (value x).
Proof.
  induction l as [|y l IH]; intros Hin Hsame acc; [inversion Hin|].
  cbn [foldl]. apply elem_of_cons in Hin as [->|Hl].
  - apply foldl_dict_set_kept; [apply dict_get_set_eq|].
    intros z Hz. apply Hsame. right. exact Hz.
  - apply IH; [exact Hl|]. intros z Hz. apply Hsame. right. exact Hz.
Qed.

Section SharedName.
Context `{Python} {FS : Type} `{FileSystem FS} `{Folders FS}.
Variable base_path : string.
Variable fs : FS.
Variable content_types : list string.

(** Every content type has its folder in the generated structure. *)
Lemma generated_structure_entry ct :
  ct ∈ content_types ->
  (ct, {| path := path_join base_path ct;
          images := sorted (concat (map (fs_glob fs (path_join base_path ct))
                                        glob_extensions)) |})
  ∈ generated_structure base_path fs content_types.
Proof.
  intros Hin. apply dict_get_elem_of. unfold generated_structure.
  apply (foldl_dict_set_lookup id
           (fun content_type =>
              {| path := path_join base_path content_type;
                 images :=
                   sorted (concat (map (fs_glob fs (path_join base_path
                                                      content_type))
                                       glob_extensions)) |})
           content_types ct Hin).
  intros y _ Hy. unfold id in Hy. subst y. reflexivity.
Qed.

(** The images one folder adds: what was collected stays, every listed
    image whose file exists is added, and an exception is one of a read
    size. *)
Lemma collect_folder_complete content_type struct (names : list string) :
  forall acc r,
    foldl (fun acc image_name =>
             match acc with
             | Raised e => Raised e
             | Returned all_images =>
                 let path := path_join (path struct) image_name in
                 if fs_exists fs path then
                   match fs_image_size fs path with
                   | Raised e => Raised e
                   | Returned wh =>
                       Returned
                         (all_images
                            ++ [(image_name, fresh_image content_type wh)])%list
                   end
                 else Returned all_images
             end)
          acc names = r ->
    match r with
    | Returned all_images =>
        exists l0, acc = Returned l0
          /\ (forall pair, pair ∈ l0 -> pair ∈ all_images)
          /\ forall image_name,
               image_name ∈ names ->
               fs_exists fs (path_join (path struct) image_name) = true ->
               exists wh,
                 (image_name, fresh_image content_type wh) ∈ all_images
    | Raised e => acc = Raised e \/ exists p, fs_image_size fs p = Raised e
    end.
Proof.
  induction names as [|image_name names IH]; intros acc r Hrun.
  - cbn in Hrun. subst r. destruct acc as [l0|e]; [|left; reflexivity].
    exists l0. split; [reflexivity|]. split; [intros pair Hp; exact Hp|].
    intros n Hn. inversion Hn.
  - cbn [foldl] in Hrun. apply IH in Hrun. cbv zeta in Hrun.
    destruct r as [all_images|e].
    + destruct Hrun as (l1 & Hstep & Hkept & Hnames).
      destruct acc as [l0|e]; [|discriminate].
      exists l0. split; [reflexivity|].
      destruct (fs_exists fs (path_join (path struct) image_name)) eqn:Hex.
      * destruct (fs_image_size fs (path_join (path struct) image_name))
          as [wh|e]; [|discriminate].
        injection Hstep as <-. split.
        -- intros pair Hp. apply Hkept. apply elem_of_app. left. exact Hp.
        -- intros n Hn Hexists. apply elem_of_cons in Hn as [->|Hn].
           ++ exists wh. apply Hkept. apply elem_of_app. right. left.
           ++ exact (Hnames n Hn Hexists).
      * injection Hstep as <-. split; [exact Hkept|].
        intros n Hn Hexists. apply elem_of_cons in Hn as [->|Hn].
        -- rewrite Hex in Hexists. discriminate.
        -- exact (Hnames n Hn Hexists).
    + destruct Hrun as [Hstep|Hsize]; [|right; exact Hsize].
      destruct acc as [l0|e0]; [|left; exact Hstep].
      destruct (fs_exists fs (path_join (path struct) image_name));
        [|discriminate].
      destruct (fs_image_size fs (path_join (path struct) image_name))
        as [wh|e1] eqn:Hsize; [discriminate|].
      right. exists (path_join (path struct) image_name).
      rewrite Hsize. injection Hstep as ->. reflexivity.
Qed.

(** The same for the whole structure. *)
Lemma collect_images_complete (structure : dict Structure) :
  match MetadataGenerator.collect_images fs structure with
  | Returned all_images =>
      forall content_type struct image_name,
        (content_type, struct) ∈ structure ->
        image_name ∈ images struct ->
        fs_exists fs (path_join (path struct) image_name) = true ->
        exists wh, (image_name, fresh_image content_type wh) ∈ all_images
  | Raised e => exists p, fs_image_size fs p = Raised e
  end.
Proof.
  unfold MetadataGenerator.collect_images.
  assert (Hgen : forall (entries : dict Structure) acc r,
            foldl (fun acc '(content_type, struct) =>
                     foldl (fun acc image_name =>
                              match acc with
                              | Raised e => Raised e
                              | Returned all_images =>
                                  let path :=
                                    path_join (path struct) image_name in
                                  if fs_exists fs path then
                                    match fs_image_size fs path with
                                    | Raised e => Raised e
                                    | Returned wh =>
                                        Returned
                                          (all_images
                                             ++ [(image_name,
                                                  fresh_image content_type wh)])%list
                                    end
                                  else Returned all_images
                              end)
                           acc (images struct))
                  acc entries = r ->
            match r with
            | Returned all_images =>
                exists l0, acc = Returned l0
                  /\ (forall pair, pair ∈ l0 -> pair ∈ all_images)
                  /\ forall content_type struct image_name,
                       (content_type, struct) ∈ entries ->
                       image_name ∈ images struct ->
                       fs_exists fs (path_join (path struct) image_name)
                       = true ->
                       exists wh,
                         (image_name, fresh_image content_type wh)
                         ∈ all_images
            | Raised e =>
                acc = Raised e \/ exists p, fs_image_size fs p = Raised e
            end).
  { induction entries as [|[ct struct] entries IH]; intros acc r Hrun.
    - cbn in Hrun. subst r. destruct acc as [l0|e]; [|left; reflexivity].
      exists l0. split; [reflexivity|]. split; [intros pair Hp; exact Hp|].
      intros c s n Hin. inversion Hin.
    - cbn [foldl] in Hrun. apply IH in Hrun.
      destruct r as [all_images|e].
      + destruct Hrun as (l1 & Hstep & Hkept & Hrest).
        apply collect_folder_complete in Hstep
          as (l0 & -> & Hkept0 & Hnames).
        exists l0. split; [reflexivity|]. split.
        * intros pair Hp. apply Hkept, Hkept0, Hp.
        * intros c s n Hin Hn Hex.
          apply elem_of_cons in Hin as [[= -> ->]|Hin].
          -- destruct (Hnames n Hn Hex) as (wh & Hwh).
             exists wh. apply Hkept, Hwh.
          -- exact (Hrest c s n Hin Hn Hex).
      + destruct Hrun as [Hstep|Hsize]; [|right; exact Hsize].
        apply collect_folder_complete in Hstep. exact Hstep. }
  specialize (Hgen structure (Returned []) _ eq_refl).
  match goal with
  | |- match ?c with _ => _ end => destruct c as [all_images|e]
  end.
  - destruct Hgen as (l0 & _ & _ & Hall). exact Hall.
  - destruct Hgen as [[=]|Hsize]. exact Hsize.
Qed.
End SharedName.

(** X28.  When two content folders hold a picture of the same name,
    [MetadataGenerator.generate] returns no metadata: it raises, and unless
    reading captions.csv or the size of a picture failed, what it raises is
    the TypeError of sorting the collected pairs. *)
Theorem generate_refuses_shared_file_name
    `{Python} {FS : Type} `{FileSystem FS} `{Folders FS}
    (base_path : string) (fs : FS) (content_types : list string)
    (products : dict (list string))
    (ct1 ct2 ext1 ext2 image_name : string)
    (r : result Metadata) (st' : Metadata) :
  MetadataGenerator.generate base_path fs content_types products
    MetadataGenerator.empty_metadata = (r, st') ->
  ct1 ∈ content_types -> ct2 ∈ content_types -> ct1 <> ct2 ->
  ext1 ∈ glob_extensions -> ext2 ∈ glob_extensions ->
  image_name ∈ fs_glob fs (path_join base_path ct1) ext1 ->
  image_name ∈ fs_glob fs (path_join base_path ct2) ext2 ->
  fs_exists fs (path_join (path_join base_path ct1) image_name) = true ->
  fs_exists fs (path_join (path_join base_path ct2) image_name) = true ->
  exists e,
    r = Raised e
    /\ (e = TypeError
        \/ fs_min_occurrences fs (path_join base_path "captions.csv")
           = Raised e
        \/ exists p, fs_image_size fs p = Raised e).
Proof.
  intros Hrun Hct1 Hct2 Hdiff Hext1 Hext2 Hglob1 Hglob2 Hex1 Hex2.
  assert (Hlisted : forall ct ext,
            ext ∈ glob_extensions ->
            image_name ∈ fs_glob fs (path_join base_path ct) ext ->
            image_name
            ∈ sorted (concat (map (fs_glob fs (path_join base_path ct))
                                  glob_extensions))).
  { intros ct ext Hext Hglob. apply elem_of_sorted.
    apply list_elem_of_In, in_concat.
    exists (fs_glob fs (path_join base_path ct) ext). split.
    - apply in_map, list_elem_of_In, Hext.
    - apply list_elem_of_In, Hglob. }
  revert Hrun.
  unfold MetadataGenerator.generate. unfold bind at 1.
  cbn [MetadataGenerator._generate_content_types modify].
  unfold bind at 1. unfold MetadataGenerator._generate_products.
  destruct (fs_min_occurrences fs _) as [occurrences|e] eqn:Hcaptions.
  2:{ intros [= <- _]. exists e. split; [reflexivity|].
      right. left. reflexivity. }
  cbn [modify]. unfold bind at 1.
  cbn [MetadataGenerator._generate_structure modify].
  unfold bind at 1. unfold MetadataGenerator._generate_images.
  unfold bind at 1. cbn [get]. unfold bind at 1. cbn [put].
  cbn [md_structure].
  fold (generated_structure base_path fs content_types).
  pose proof (collect_images_complete fs
                (generated_structure base_path fs content_types)) as Hall.
  destruct (MetadataGenerator.collect_images fs
              (generated_structure base_path fs content_types))
    as [all_images|e].
  2:{ intros [= <- _]. exists e. split; [reflexivity|].
      right. right. exact Hall. }
  destruct (Hall ct1 _ image_name
              (generated_structure_entry base_path fs content_types ct1 Hct1)
              (Hlisted ct1 ext1 Hext1 Hglob1) Hex1) as (wh1 & Hin1).
  destruct (Hall ct2 _ image_name
              (generated_structure_entry base_path fs content_types ct2 Hct2)
              (Hlisted ct2 ext2 Hext2 Hglob2) Hex2) as (wh2 & Hin2).
  rewrite (has_conflict_complete all_images image_name
             (fresh_image ct1 wh1) (fresh_image ct2 wh2) Hin1 Hin2).
  - intros [= <- _]. exists TypeError. split; [reflexivity|].
    left. reflexivity.
  - unfold same_record. cbn [content_type fresh_image].
    apply String.eqb_neq in Hdiff. rewrite Hdiff. reflexivity.
Qed.

(** A disk where the folders of "hook" and "cta" both hold a 1h.png. *)
Definition shared_name_disk : Fixture.Disk :=
  {| Fixture.present := ["/base/hook"; "/base/hook/1h.png";
                         "/base/cta"; "/base/cta/1h.png"];
     Fixture.sizes := [("/base/hook/1h.png", (1080, 1920));
                       ("/base/cta/1h.png", (1080, 1920))];
     Fixture.json_files := [] |}.

Definition scan_shared_name : result Metadata * Metadata :=
  @MetadataGenerator.generate Fixture.python _ Fixture.file_system disk_folders
    "/base" shared_name_disk ["hook"; "cta"]
    [("hook", ["magnesium"]); ("cta", ["magnesium"])]
    MetadataGenerator.empty_metadata.

Lemma generate_refuses_shared_file_name_witness :
  "hook" ∈ ["hook"; "cta"] /\ "cta" ∈ ["hook"; "cta"] /\ "hook" <> "cta"
  /\ ".png" ∈ glob_extensions
  /\ "1h.png" ∈ @fs_glob _ disk_folders shared_name_disk "/base/hook" ".png"
  /\ "1h.png" ∈ @fs_glob _ disk_folders shared_name_disk "/base/cta" ".png"
  /\ exists e,
       fst scan_shared_name = Raised e
       /\ (e = TypeError
           \/ @fs_min_occurrences _ Fixture.file_system shared_name_disk
                "/base/captions.csv" = Raised e
           \/ exists p,
                @fs_image_size _ Fixture.file_system shared_name_disk p
                = Raised e).
Proof.
  assert (Hhook : "hook" ∈ ["hook"; "cta"]) by (left).
  assert (Hcta : "cta" ∈ ["hook"; "cta"]) by (right; left).
  assert (Hdiff : "hook" <> "cta") by discriminate.
  assert (Hext : ".png" ∈ glob_extensions) by (left).
  assert (Hglob1 : "1h.png" ∈ @fs_glob _ disk_folders shared_name_disk
                                "/base/hook" ".png") by (vm_compute; left).
  assert (Hglob2 : "1h.png" ∈ @fs_glob _ disk_folders shared_name_disk
                                "/base/cta" ".png") by (vm_compute; left).
  split; [exact Hhook|]. split; [exact Hcta|]. split; [exact Hdiff|].
  split; [exact Hext|]. split; [exact Hglob1|]. split; [exact Hglob2|].
  exact (@generate_refuses_shared_file_name
           Fixture.python _ Fixture.file_system disk_folders
           "/base" shared_name_disk ["hook"; "cta"]
           [("hook", ["magnesium"]); ("cta", ["magnesium"])]
           "hook" "cta" ".png" ".png" "1h.png"
           (fst scan_shared_name) (snd scan_shared_name)
           (surjective_pairing scan_shared_name)
           Hhook Hcta Hdiff Hext Hext Hglob1 Hglob2 eq_refl eq_refl).
Defined.

(** X29.  The untagged list of the generated metadata is sorted, and holds
    exactly the files of the base folder that do not start with a dot, have
    the suffix of a picture in any case, and are listed by no content type of
    the generated structure. *)
Theorem generated_untagged_are_unlisted_base_pictures
    `{Python} {FS : Type} `{FileSystem FS} `{Folders FS}
    (base_path : string) (fs : FS) (content_types : list string)
    (products : dict (list string)) (md st' : Metadata) :
  MetadataGenerator.generate base_path fs content_types products
    MetadataGenerator.empty_metadata = (Returned md, st') ->
  exists files,
    fs_iterdir_files fs base_path = Returned files
    /\ Sorted String.le (md_untagged md)
    /\ forall img,
         img ∈ md_untagged md
         <-> (img ∈ files
              /\ startswith_dot img = false
              /\ lower (path_suffix img) ∈ valid_extensions
              /\ forall ct info,
                   (ct, info) ∈ md_structure md -> img ∉ images info).
Proof.
  intros Hrun.
  apply generate_spec in Hrun
    as (occurrences & all_images & files & _ & _ & _ & Hfiles & _ & ->).
  cbn [md_untagged md_structure].
  exists files. split; [exact Hfiles|].
  destruct (generated_untagged_spec base_path fs content_types files)
    as [Hsorted Hsound].
  split; [exact Hsorted|].
  intros img. split; [exact (Hsound img)|].
  intros (Hin & Hdot & Hext & Hfree).
  unfold generated_untagged. apply elem_of_sorted.
  apply list_elem_of_filter. split.
  - intros Hlisted. apply elem_of_content_images in Hlisted
      as [Hempty|(info & Hinfo & Himg)]; [set_solver|].
    unfold values in Hinfo.
    apply list_elem_of_fmap in Hinfo as ([ct info'] & -> & Hentry).
    exact (Hfree ct info' Hentry Himg).
  - apply list_elem_of_filter. split; [|exact Hin].
    rewrite Hdot. cbn [negb andb]. apply bool_decide_eq_true. exact Hext.
Qed.

Lemma generated_untagged_are_unlisted_base_pictures_witness :
  scan_hook = (Returned scanned_metadata, scanned_metadata)
  /\ exists files,
       @fs_iterdir_files _ disk_folders scanned_disk "/base" = Returned files
       /\ Sorted String.le (md_untagged scanned_metadata)
       /\ forall img,
            img ∈ md_untagged scanned_metadata
            <-> (img ∈ files
                 /\ startswith_dot img = false
                 /\ lower (path_suffix img) ∈ valid_extensions
                 /\ forall ct info,
                      (ct, info) ∈ md_structure scanned_metadata ->
                      img ∉ images info).
Proof.
  split; [exact scan_hook_returns|].
  exact (@generated_untagged_are_unlisted_base_pictures
           Fixture.python _ Fixture.file_system disk_folders
           "/base" scanned_disk ["hook"]
           [("hook", ["magnesium"; "all"; "magnesium"])]
           scanned_metadata scanned_metadata scan_hook_returns).
Defined.

(** ** Generated metadata and the validator *)

(** The settings entry of every content type the generator went through. *)
Lemma generated_settings_lookup (ps : dict (list Product))
    (cts : list string) (acc : dict (dict json)) ct :
  ct ∈ cts ->
  dict_get ct (generated_settings ps cts acc)
  = Some [("content", JNull);
          (group_key (default [] (dict_get ct ps)), JNull)].
Proof.
  intros Hin. unfold generated_settings.
  apply (foldl_dict_set_lookup id
           (fun ct => [("content", JNull);
                       (group_key (default [] (dict_get ct ps)), JNull)])
           cts ct Hin).
  intros y _ Hy. unfold id in Hy. subst y. reflexivity.
Qed.

(** X30.  For a content type that is given no product the generator writes
    the settings group '[]'.  The validator reads that key as naming the
    product with the empty name, which is not declared: [validate] can never
    answer [True] on such generated metadata, in either mode and whatever is
    expected. *)
Theorem generated_empty_group_fails_validation
    `{Python} `{Collaborators} {FS : Type} `{FileSystem FS} `{Folders FS}
    (base_path : string) (fs : FS) (content_types : list string)
    (products : dict (list string)) (md st' : Metadata) (ct : string)
    (strict : bool) (expected_content_types : list string)
    (expected_products : dict (list string))
    (h h' : Heap) (r : result bool) :
  MetadataGenerator.generate base_path fs content_types products
    MetadataGenerator.empty_metadata = (Returned md, st') ->
  ct ∈ content_types ->
  dict_get ct (md_products md) = Some [] ->
  strip "" = "" ->
  data h = md ->
  validate strict base_path fs expected_content_types expected_products h
  = (r, h') ->
  dict_get ct (md_settings md) = Some [("content", JNull); ("[]", JNull)]
  /\ r <> Returned true.
Proof.
  intros Hgen Hct Hprods Hstrip Hdata Hrun.
  apply generate_spec in Hgen
    as (occurrences & all_images & files & _ & _ & _ & _ & _ & Hmd).
  assert (Hentry : dict_get ct (md_settings md)
                   = Some [("content", JNull); ("[]", JNull)]).
  { rewrite Hmd in Hprods |- *. cbn [md_settings md_products] in *.
    rewrite generated_settings_lookup by exact Hct.
    rewrite Hprods. reflexivity. }
  split; [exact Hentry|].
  intros ->. apply validate_checked in Hrun as (_ & _ & _ & _ & _ & Hset).
  rewrite Hdata in Hset.
  destruct (Hset _ _ (dict_get_elem_of _ _ _ Hentry)) as (_ & _ & Hgroups).
  rewrite Hprods in Hgroups. cbn [groups_checked String.eqb Ascii.eqb] in Hgroups.
  cbn in Hgroups.
  destruct Hgroups as (_ & _ & Hdeclared & _).
  specialize (Hdeclared [] eq_refl).
  assert (Hnamed : "" ∈ (∅ : gset string)); [|set_solver].
  rewrite <- Hdeclared. unfold group_products. cbn. rewrite Hstrip.
  unfold to_set. set_solver.
Qed.

(** A disk with the folder of "hook" and its two pictures, scanned for a
    content type that is given no product. *)
Definition scan_no_product : result Metadata * Metadata :=
  @MetadataGenerator.generate Fixture.python _ Fixture.file_system disk_folders
    "/base" Fixture.hook_disk ["hook"] [("hook", [])]
    MetadataGenerator.empty_metadata.

Definition no_product_metadata : Metadata :=
  {| md_keys := REQUIRED_KEYS_ORDER;
     md_content_types := ["hook"];
     md_products := [("hook", [])];
     md_structure :=
       [("hook", {| path := "/base/hook"; images := ["1h.png"; "2h.png"] |})];
     md_images :=
       [("1h.png", Fixture.image_of "hook" None);
        ("2h.png", Fixture.image_of "hook" None)];
     md_untagged := [];
     md_settings := [("hook", [("content", JNull); ("[]", JNull)])] |}.

Lemma scan_no_product_returns :
  scan_no_product = (Returned no_product_metadata, no_product_metadata).
Proof. vm_compute. reflexivity. Qed.

Definition validate_no_product : result bool * Heap :=
  @validate Fixture.python Fixture.collaborators _ Fixture.file_system
    false "/base" Fixture.hook_disk ["hook"] [("hook", [])]
    (Fixture.fresh_heap no_product_metadata).

Lemma generated_empty_group_fails_validation_witness :
  scan_no_product = (Returned no_product_metadata, no_product_metadata)
  /\ "hook" ∈ ["hook"]
  /\ dict_get "hook" (md_products no_product_metadata) = Some []
  /\ @strip Fixture.python "" = ""
  /\ dict_get "hook" (md_settings no_product_metadata)
     = Some [("content", JNull); ("[]", JNull)]
  /\ fst validate_no_product <> Returned true.
Proof.
  assert (Hin : "hook" ∈ ["hook"]) by (left).
  split; [exact scan_no_product_returns|]. split; [exact Hin|].
  split; [reflexivity|]. split; [reflexivity|].
  exact (@generated_empty_group_fails_validation
           Fixture.python Fixture.collaborators _ Fixture.file_system
           disk_folders "/base" Fixture.hook_disk ["hook"] [("hook", [])]
           no_product_metadata no_product_metadata "hook"
           false ["hook"] [("hook", [])]
           (Fixture.fresh_heap no_product_metadata)
           (snd validate_no_product) (fst validate_no_product)
           scan_no_product_returns Hin eq_refl eq_refl eq_refl
           (surjective_pairing validate_no_product)).
Defined.
